(** * tc_market: market settlement, rewards, model agents and job claims

    A shallow embedding of the Python package [tc_market]
    (storage.py, market.py, model_agents.py, jobs.py, url_utils.py,
    constants.py, models.py) and the properties its specification states.

    Modelling conventions.
    - A SQLite connection is a pair of database values, the last committed
      one and the working one; [with self.conn:] commits the working value
      on normal exit and restores the committed one when the body raises.
    - A table is the list of its rows in insertion order.  [ORDER BY] is a
      stable sort of that list.
    - Every call of [Storage._execute] may fail with a storage error; the
      connection carries the plan of such failures ([fault_plan]), one
      boolean per statement.  The empty plan is a run without failures.
    - Text is [string]: the UTF-8 bytes of the Python [str].  Integers are
      [Z]; Python floats appearing in probabilities are exact rationals [Q].
    - [urllib.parse] and [ipaddress] are those of Python 3.11, the
      interpreter the package is run by.
    - [uuid4] identifiers are drawn from a counter, timestamps from a clock
      held by the connection (microseconds since the epoch, UTC). *)

From Stdlib Require Import ZArith QArith Qround String Ascii Lia Bool Sorted Permutation.
From stdpp Require Import base tactics option list strings pretty sorting.

Local Open Scope string_scope.
Local Open Scope list_scope.
Local Open Scope Z_scope.

(** ** Python built-ins used by the package *)

Module Py.

(** [str.lower] on the letters A to Z.  Python also folds the upper-case
    letters outside ASCII, by the Unicode tables of the interpreter; what
    is proved of text that is folded is stated for ASCII text. *)
Definition lower_ascii (c : ascii) : ascii :=
  let n := nat_of_ascii c in
  if ((65 <=? n) && (n <=? 90))%nat then ascii_of_nat (n + 32) else c.

Fixpoint lower (s : string) : string :=
  match s with
  | EmptyString => EmptyString
  | String c r => String (lower_ascii c) (lower r)
  end.

(** [s.isascii()] *)
Definition isascii (s : string) : bool :=
  forallb (fun c => (nat_of_ascii c <? 128)%nat) (list_ascii_of_string s).

(** The UTF-8 bytes of the code point [n]. *)
Definition utf8 (n : N) : string :=
  let byte (k : N) := ascii_of_N k in
  if (n <? 0x80)%N then String (byte n) EmptyString
  else if (n <? 0x800)%N then
    String (byte (0xC0 + n / 0x40)%N) (String (byte (0x80 + n mod 0x40)%N) EmptyString)
  else if (n <? 0x10000)%N then
    String (byte (0xE0 + n / 0x1000)%N)
      (String (byte (0x80 + (n / 0x40) mod 0x40)%N)
         (String (byte (0x80 + n mod 0x40)%N) EmptyString))
  else
    String (byte (0xF0 + n / 0x40000)%N)
      (String (byte (0x80 + (n / 0x1000) mod 0x40)%N)
         (String (byte (0x80 + (n / 0x40) mod 0x40)%N)
            (String (byte (0x80 + n mod 0x40)%N) EmptyString))).

(** A byte [10xxxxxx], which continues a character. *)
Definition is_continuation (c : ascii) : bool :=
  let n := nat_of_ascii c in ((128 <=? n) && (n <? 192))%nat.

(** The characters of a text: every byte that is not a continuation byte
    starts one, and the continuation bytes after it belong to it. *)
Fixpoint chars (s : string) : list string :=
  match s with
  | EmptyString => []
  | String c r =>
      match chars r with
      | String d ch :: rest =>
          if is_continuation d then String c (String d ch) :: rest
          else String c EmptyString :: String d ch :: rest
      | rest => String c EmptyString :: rest
      end
  end.

(** The code points that [str.isspace] and [str.strip] take for white
    space: the ASCII ones and those of Unicode. *)
Definition whitespace : list N :=
  [0x09; 0x0A; 0x0B; 0x0C; 0x0D; 0x1C; 0x1D; 0x1E; 0x1F; 0x20; 0x85; 0xA0; 0x1680;
   0x2000; 0x2001; 0x2002; 0x2003; 0x2004; 0x2005; 0x2006; 0x2007; 0x2008; 0x2009;
   0x200A; 0x2028; 0x2029; 0x202F; 0x205F; 0x3000]%N.

(** [ch.isspace()] for one character. *)
Definition isspace (ch : string) : bool :=
  existsb (fun n => String.eqb ch (utf8 n)) whitespace.

Fixpoint drop_spaces (l : list string) : list string :=
  match l with
  | [] => []
  | ch :: r => if isspace ch then drop_spaces r else l
  end.

(** [str.strip()] *)
Definition strip (s : string) : string :=
  String.concat "" (rev (drop_spaces (rev (drop_spaces (chars s))))).

Fixpoint rev_string_onto (s acc : string) : string :=
  match s with
  | EmptyString => acc
  | String c r => rev_string_onto r (String c acc)
  end.

Definition rev_string (s : string) : string := rev_string_onto s EmptyString.

(** [s.rstrip(c)] for a one-character argument. *)
Fixpoint lstrip_char (c : ascii) (s : string) : string :=
  match s with
  | EmptyString => EmptyString
  | String d r => if Ascii.eqb c d then lstrip_char c r else s
  end.

Definition rstrip_char (c : ascii) (s : string) : string :=
  rev_string (lstrip_char c (rev_string s)).

(** [s.startswith(p)] *)
Definition startswith (p s : string) : bool := String.prefix p s.

(** [s[n:]] *)
Fixpoint drop_string (n : nat) (s : string) : string :=
  match n, s with
  | O, _ => s
  | S n', EmptyString => EmptyString
  | S n', String _ r => drop_string n' r
  end.

(** [s.split(c, 1)] when [c] occurs: the text before the first [c] and the
    text after it; [None] when [c] does not occur. *)
Fixpoint split_once (c : ascii) (s : string) : option (string * string) :=
  match s with
  | EmptyString => None
  | String d r =>
      if Ascii.eqb c d then Some (EmptyString, r)
      else match split_once c r with
           | Some (a, b) => Some (String d a, b)
           | None => None
           end
  end.

(** [s.split(c)] *)
Fixpoint split_all (c : ascii) (s : string) : list string :=
  match s with
  | EmptyString => [EmptyString]
  | String d r =>
      if Ascii.eqb c d then EmptyString :: split_all c r
      else match split_all c r with
           | [] => [String d EmptyString]
           | a :: rest => String d a :: rest
           end
  end.

(** [sep.join(parts)] *)
Fixpoint join (sep : string) (parts : list string) : string :=
  match parts with
  | [] => EmptyString
  | [a] => a
  | a :: rest => a +:+ sep +:+ join sep rest
  end.

(** Truth value of a string: empty is false. *)
Definition truthy (s : string) : bool :=
  match s with EmptyString => false | _ => true end.

(** Truth value of an [Optional[str]]: [None] and the empty string are false. *)
Definition truthy_opt (o : option string) : bool :=
  match o with Some s => truthy s | None => false end.

(** A stable sort, as [list.sort] and [sorted] are: [le x y] says that [x]
    may stay before [y].  With [reverse=True] Python keeps the order of
    equal keys, so a descending sort passes [le x y := key y <= key x]. *)
Section Sort.
Context {A : Type} (le : A -> A -> bool).

Fixpoint insert_sorted (x : A) (l : list A) : list A :=
  match l with
  | [] => [x]
  | y :: r => if le x y then x :: y :: r else y :: insert_sorted x r
  end.

Fixpoint sort (l : list A) : list A :=
  match l with
  | [] => []
  | x :: r => insert_sorted x (sort r)
  end.

End Sort.

(** An insertion-ordered [dict] with string keys. *)
Definition dict (V : Type) : Type := list (string * V).

Fixpoint dict_get {V} (d : dict V) (k : string) : option V :=
  match d with
  | [] => None
  | (k', v) :: r => if String.eqb k' k then Some v else dict_get r k
  end.

(** [d.get(k, default)] *)
Definition dict_get_default {V} (d : dict V) (k : string) (default : V) : V :=
  match dict_get d k with Some v => v | None => default end.

(** [d[k] = v]: an existing key keeps its position, a new key goes last. *)
Fixpoint dict_set {V} (d : dict V) (k : string) (v : V) : dict V :=
  match d with
  | [] => [(k, v)]
  | (k', v') :: r =>
      if String.eqb k' k then (k', v) :: r else (k', v') :: dict_set r k v
  end.

(** [d.setdefault(k, v)] *)
Definition dict_setdefault {V} (d : dict V) (k : string) (v : V) : dict V :=
  match dict_get d k with Some _ => d | None => dict_set d k v end.

(** [d[k] += n] on a [defaultdict(int)]. *)
Definition dict_add (d : dict Z) (k : string) (n : Z) : dict Z :=
  dict_set d k (dict_get_default d k 0 + n).

Definition dict_values {V} (d : dict V) : list V := map snd d.
Definition dict_keys {V} (d : dict V) : list string := map fst d.

(** [sum] of integers. *)
Definition sum (l : list Z) : Z := fold_right Z.add 0 l.

(** [sum] of floats, read as rationals. *)
Definition qsum (l : list Q) : Q := fold_right Qplus (0 # 1) l.

(** [x in xs] for strings. *)
Definition mem (x : string) (xs : list string) : bool :=
  existsb (String.eqb x) xs.

(** [set(xs)] / [{.. for ..}]: the distinct elements.  Python iterates a
    set in the order of the hashes of its elements, which changes from one
    run of the interpreter to the next; the elements are listed here in
    the order of their first occurrence, and what is proved of a list
    that the code builds by iterating a set is stated up to its order. *)
Fixpoint set_of (xs : list string) : list string :=
  match xs with
  | [] => []
  | x :: r => x :: List.filter (fun y => negb (String.eqb x y)) (set_of r)
  end.

(** [round(a / b)] for integers [a] and [b > 0]: the quotient rounded to
    the nearest integer, halves to the even neighbour. *)
Definition round_div (a b : Z) : Z :=
  let q := a / b in
  let r := a mod b in
  if 2 * r <? b then q
  else if b <? 2 * r then q + 1
  else if Z.even q then q else q + 1.

End Py.

(** ** Exceptions *)

Inductive exn : Type :=
| ValueError (msg : string)
| KeyError (msg : string)
| TypeError (msg : string)
| OverflowError
| ZeroDivisionError
| ImportError
| IntegrityError        (* a constraint of the schema refused the statement *)
| OperationalError.     (* the storage engine failed to run the statement *)

Inductive result (A : Type) : Type :=
| Ok (a : A)
| Raise (e : exn).
Arguments Ok {A} a.
Arguments Raise {A} e.

(** ** url_utils.py, over [urllib.parse] *)

Module Url.

Definition is_alpha (c : ascii) : bool :=
  let n := nat_of_ascii c in
  (((65 <=? n) && (n <=? 90)) || ((97 <=? n) && (n <=? 122)))%nat.

Definition is_digit (c : ascii) : bool :=
  let n := nat_of_ascii c in ((48 <=? n) && (n <=? 57))%nat.

Definition char_in (c : ascii) (s : string) : bool :=
  existsb (Ascii.eqb c) (list_ascii_of_string s).

(** [urllib.parse.scheme_chars] *)
Definition is_scheme_char (c : ascii) : bool :=
  is_alpha c || is_digit c || char_in c "+-.".

Definition string_forall (p : ascii -> bool) (s : string) : bool :=
  forallb p (list_ascii_of_string s).

Definition remove_chars (p : ascii -> bool) (s : string) : string :=
  string_of_list_ascii (List.filter (fun c => negb (p c)) (list_ascii_of_string s)).

Fixpoint lstrip_c0 (s : string) : string :=
  match s with
  | EmptyString => EmptyString
  | String c r => if (nat_of_ascii c <=? 32)%nat then lstrip_c0 r else s
  end.

(** [_splitnetloc(url, 2)] on the text after the two slashes: the authority
    runs up to the first of [/], [?], [#]. *)
Fixpoint splitnetloc (s : string) : string * string :=
  match s with
  | EmptyString => (EmptyString, EmptyString)
  | String c r =>
      if char_in c "/?#" then (EmptyString, s)
      else let '(a, b) := splitnetloc r in (String c a, b)
  end.

Record SplitResult := mkSplit {
  sp_scheme : string; sp_netloc : string; sp_path : string;
  sp_query : string; sp_fragment : string }.

(** [s.rpartition(c)[2]]: what follows the last [c], all of [s] without
    one. *)
Fixpoint after_last (c : ascii) (s : string) : string :=
  match s with
  | EmptyString => EmptyString
  | String d r =>
      if char_in c r then after_last c r
      else if Ascii.eqb c d then r else s
  end.

Definition is_hex (c : ascii) : bool :=
  let n := nat_of_ascii c in
  is_digit c || ((65 <=? n) && (n <=? 70))%nat || ((97 <=? n) && (n <=? 102))%nat.

Fixpoint take_hex (s : string) : string * string :=
  match s with
  | EmptyString => (EmptyString, EmptyString)
  | String c r =>
      if is_hex c then let '(a, b) := take_hex r in (String c a, b)
      else (EmptyString, s)
  end.

(** [int(s)] for a string of decimal digits. *)
Definition decimal (s : string) : nat :=
  fold_left (fun n c => (10 * n + (nat_of_ascii c - 48))%nat) (list_ascii_of_string s) O.

(** [repr(s)] of a text of ASCII and other printable characters. *)
Definition repr (s : string) : string :=
  let quote : ascii := if char_in "'" s && negb (char_in "034" s) then "034"%char else "'"%char in
  let hex (n : nat) : ascii :=
    if (n <? 10)%nat then ascii_of_nat (48 + n) else ascii_of_nat (87 + n) in
  let escape (c : ascii) : string :=
    let n := nat_of_ascii c in
    if Ascii.eqb c quote || Ascii.eqb c "\" then String "\" (String c EmptyString)
    else if Ascii.eqb c "009" then "\t"
    else if Ascii.eqb c "010" then "\n"
    else if Ascii.eqb c "013" then "\r"
    else if ((n <? 32) || (n =? 127))%nat
    then String "\" (String "x" (String (hex (n / 16)%nat)
                               (String (hex (n mod 16)%nat) EmptyString)))
    else String c EmptyString in
  String quote (String.concat "" (map escape (list_ascii_of_string s)))
  +:+ String quote EmptyString.

(** *** [ipaddress]: which texts are addresses *)

(** [IPv4Address._parse_octet] returns. *)
Definition _parse_octet (octet_str : string) : bool :=
  if negb (Py.truthy octet_str) then false
  else if negb (string_forall is_digit octet_str) then false
  else if (3 <? String.length octet_str)%nat then false
  else if negb (String.eqb octet_str "0") && Py.startswith "0" octet_str then false
  else (decimal octet_str <=? 255)%nat.

(** [IPv4Address(address)] returns. *)
Definition IPv4Address (address : string) : bool :=
  negb (char_in "/" address)
  && Py.truthy address
  && let octets := Py.split_all "." address in
     (length octets =? 4)%nat && forallb _parse_octet octets.

(** [IPv6Address._parse_hextet] returns. *)
Definition _parse_hextet (hextet_str : string) : bool :=
  string_forall is_hex hextet_str
  && (String.length hextet_str <=? 4)%nat
  && Py.truthy hextet_str.

(** [IPv6Address._ip_int_from_string] returns.  The two hextets that stand
    for an IPv4 suffix are hexadecimal numbers whatever the suffix is; they
    are written "0" here, as the number the address denotes is not used. *)
Definition _ip_int_from_string (ip_str : string) : bool :=
  let parts := Py.split_all ":" ip_str in
  if negb (Py.truthy ip_str) then false
  else if (length parts <? 3)%nat then false
  else
    let suffix := List.last parts EmptyString in
    if char_in "." suffix && negb (IPv4Address suffix) then false
    else
      let parts := if char_in "." suffix then removelast parts ++ ["0"; "0"] else parts in
      let count := length parts in
      if (9 <? count)%nat then false
      else
        let empty (i : nat) := negb (Py.truthy (nth i parts EmptyString)) in
        match List.filter empty (seq 1 (count - 2)) with
        | _ :: _ :: _ => false
        | [skip_index] =>
            let parts_hi := if empty O then (skip_index - 1)%nat else skip_index in
            let parts_lo := if empty (count - 1)%nat then (count - skip_index - 2)%nat
                            else (count - skip_index - 1)%nat in
            if empty O && negb (parts_hi =? 0)%nat then false
            else if empty (count - 1)%nat && negb (parts_lo =? 0)%nat then false
            else if (8 <=? parts_hi + parts_lo)%nat then false
            else forallb _parse_hextet
                   (firstn parts_hi parts ++ skipn (count - parts_lo) parts)
        | [] =>
            (count =? 8)%nat && negb (empty O) && negb (empty (count - 1)%nat)
            && forallb _parse_hextet parts
        end.

(** [IPv6Address(address)] returns. *)
Definition IPv6Address (address : string) : bool :=
  if char_in "/" address then false
  else
    match Py.split_once "%" address with
    | Some (addr, scope_id) =>
        if negb (Py.truthy scope_id) || char_in "%" scope_id then false
        else _ip_int_from_string addr
    | None => _ip_int_from_string address
    end.

Inductive ip_version : Type := IPv4 | IPv6.

(** [ipaddress.ip_address(address)] *)
Definition ip_address (address : string) : result ip_version :=
  if IPv4Address address then Ok IPv4
  else if IPv6Address address then Ok IPv6
  else Raise (ValueError (repr address +:+ " does not appear to be an IPv4 or IPv6 address")).

(** [re.match(r"\Av[a-fA-F0-9]+\..+\Z", hostname)] *)
Definition is_ipvfuture (hostname : string) : bool :=
  match hostname with
  | String "v" rest =>
      let '(digits, tail) := take_hex rest in
      Py.truthy digits
      && match tail with
         | String "." text => Py.truthy text && negb (char_in "010" text)
         | _ => false
         end
  | _ => false
  end.

Definition _check_bracketed_host (hostname : string) : result unit :=
  if Py.startswith "v" hostname then
    if is_ipvfuture hostname then Ok tt
    else Raise (ValueError "IPvFuture address is invalid")
  else
    match ip_address hostname with
    | Raise e => Raise e
    | Ok IPv4 => Raise (ValueError "An IPv4 address cannot be in brackets")
    | Ok IPv6 => Ok tt
    end.

Definition _check_bracketed_netloc (netloc : string) : result unit :=
  let hostname_and_port := after_last "@" netloc in
  match Py.split_once "[" hostname_and_port with
  | Some (before_bracket, bracketed) =>
      if Py.truthy before_bracket then Raise (ValueError "Invalid IPv6 URL")
      else
        let '(hostname, port) :=
          match Py.split_once "]" bracketed with
          | Some (a, b) => (a, b)
          | None => (bracketed, EmptyString)
          end in
        if Py.truthy port && negb (Py.startswith ":" port)
        then Raise (ValueError "Invalid IPv6 URL")
        else _check_bracketed_host hostname
  | None =>
      let hostname :=
        match Py.split_once ":" hostname_and_port with
        | Some (a, _) => a
        | None => hostname_and_port
        end in
      _check_bracketed_host hostname
  end.

(** [urlsplit(url)].  Its last check, [_checknetloc], looks at an authority
    with characters outside ASCII only and is left out. *)
Definition urlsplit (url0 : string) : result SplitResult :=
  let url := remove_chars (fun c => char_in c (String "009" (String "013" (String "010" ""))))
               (lstrip_c0 url0) in
  let '(scheme, url) :=
    match Py.split_once ":" url with
    | Some (String c r as pre, post) =>
        if is_alpha c && string_forall is_scheme_char pre
        then (Py.lower pre, post) else ("", url)
    | _ => ("", url)
    end in
  let '(netloc, url) :=
    if Py.startswith "//" url then splitnetloc (Py.drop_string 2 url)
    else ("", url) in
  let checked :=
    if xorb (char_in "[" netloc) (char_in "]" netloc)
    then Raise (ValueError "Invalid IPv6 URL")
    else if char_in "[" netloc && char_in "]" netloc then _check_bracketed_netloc netloc
    else Ok tt in
  match checked with
  | Raise e => Raise e
  | Ok _ =>
      let '(url, fragment) :=
        match Py.split_once "#" url with Some (a, b) => (a, b) | None => (url, "") end in
      let '(url, query) :=
        match Py.split_once "?" url with Some (a, b) => (a, b) | None => (url, "") end in
      Ok (mkSplit scheme netloc url query fragment)
  end.

Definition uses_params : list string :=
  [""; "ftp"; "hdl"; "prospero"; "http"; "imap"; "https"; "shttp"; "rtsp";
   "rtspu"; "sip"; "sips"; "mms"; "sftp"; "tel"].

Definition uses_netloc : list string :=
  [""; "ftp"; "http"; "gopher"; "nntp"; "telnet"; "imap"; "wais"; "file";
   "mms"; "https"; "shttp"; "snews"; "prospero"; "rtsp"; "rtspu"; "rsync";
   "svn"; "svn+ssh"; "sftp"; "nfs"; "git"; "git+ssh"; "ws"; "wss"].

(** [_splitparams(url)[0]]: the path cut at the first [;] of its last
    segment (the text from the last [/] on). *)
Fixpoint splitparams_path (url : string) : string :=
  match url with
  | EmptyString => EmptyString
  | String c r =>
      if char_in "/" r then String c (splitparams_path r)
      else if Ascii.eqb c ";" then EmptyString
      else String c (splitparams_path r)
  end.

Record ParseResult := mkParse {
  scheme : string; netloc : string; path : string; query : string }.

(** [urlparse(url)]; the [params] and [fragment] components are not used
    by the package and are dropped. *)
Definition urlparse (url : string) : result ParseResult :=
  match urlsplit url with
  | Raise e => Raise e
  | Ok r =>
      let p := if Py.mem (sp_scheme r) uses_params then splitparams_path (sp_path r)
               else sp_path r in
      Ok (mkParse (sp_scheme r) (sp_netloc r) p (sp_query r))
  end.

Definition hex_value (c : ascii) : option nat :=
  let n := nat_of_ascii c in
  if ((48 <=? n) && (n <=? 57))%nat then Some (n - 48)%nat
  else if ((65 <=? n) && (n <=? 70))%nat then Some (n - 55)%nat
  else if ((97 <=? n) && (n <=? 102))%nat then Some (n - 87)%nat
  else None.

(** [unquote_to_bytes]: percent escapes become bytes, anything else stays. *)
Fixpoint unquote_to_bytes (s : string) : string :=
  match s with
  | EmptyString => EmptyString
  | String c r =>
      if Ascii.eqb c "%" then
        match r with
        | String a (String b r') =>
            match hex_value a, hex_value b with
            | Some x, Some y => String (ascii_of_nat (16 * x + y)) (unquote_to_bytes r')
            | _, _ => String c (unquote_to_bytes r)
            end
        | _ => String c (unquote_to_bytes r)
        end
      else String c (unquote_to_bytes r)
  end.

(** U+FFFD, which stands for bytes that are not UTF-8. *)
Definition REPLACEMENT : string := Py.utf8 0xFFFD%N.

(** May [c2] follow the first byte [n] of a character of three or four
    bytes?  Neither an overlong form, nor a surrogate, nor a code point
    above U+10FFFF. *)
Definition second_byte (n : nat) (c2 : ascii) : bool :=
  let m := nat_of_ascii c2 in
  Py.is_continuation c2
  && (if n =? 224 then 160 <=? m
      else if n =? 237 then m <? 160
      else if n =? 240 then 144 <=? m
      else if n =? 244 then m <? 144
      else true)%nat.

(** [bytes.decode("utf-8", "replace")], the text again as its UTF-8 bytes:
    a character that is well formed stays, and every longest run of bytes
    that starts a character and does not complete it becomes U+FFFD, as
    does every byte that can start none. *)
Fixpoint decode_replace (s : string) : string :=
  match s with
  | EmptyString => EmptyString
  | String c r =>
      let n := nat_of_ascii c in
      if (n <? 128)%nat then String c (decode_replace r)
      else if ((194 <=? n) && (n <=? 223))%nat then
        match r with
        | String c2 r2 =>
            if Py.is_continuation c2 then String c (String c2 (decode_replace r2))
            else REPLACEMENT +:+ decode_replace r
        | EmptyString => REPLACEMENT
        end
      else if ((224 <=? n) && (n <=? 239))%nat then
        match r with
        | String c2 r2 =>
            if second_byte n c2 then
              match r2 with
              | String c3 r3 =>
                  if Py.is_continuation c3
                  then String c (String c2 (String c3 (decode_replace r3)))
                  else REPLACEMENT +:+ decode_replace r2
              | EmptyString => REPLACEMENT
              end
            else REPLACEMENT +:+ decode_replace r
        | EmptyString => REPLACEMENT
        end
      else if ((240 <=? n) && (n <=? 244))%nat then
        match r with
        | String c2 r2 =>
            if second_byte n c2 then
              match r2 with
              | String c3 r3 =>
                  if Py.is_continuation c3 then
                    match r3 with
                    | String c4 r4 =>
                        if Py.is_continuation c4
                        then String c (String c2 (String c3 (String c4 (decode_replace r4))))
                        else REPLACEMENT +:+ decode_replace r3
                    | EmptyString => REPLACEMENT
                    end
                  else REPLACEMENT +:+ decode_replace r2
              | EmptyString => REPLACEMENT
              end
            else REPLACEMENT +:+ decode_replace r
        | EmptyString => REPLACEMENT
        end
      else REPLACEMENT +:+ decode_replace r
  end.

(** [unquote(s)]: the escapes are decoded as UTF-8 with
    [errors="replace"].  Python decodes each run of ASCII characters of [s]
    on its own; in UTF-8 text the characters between two runs are well
    formed, so that this is the decoding of all the bytes. *)
Definition unquote (s : string) : string :=
  if negb (char_in "%" s) then s else decode_replace (unquote_to_bytes s).

Definition replace_char (a b : ascii) (s : string) : string :=
  string_of_list_ascii
    (map (fun c => if Ascii.eqb c a then b else c) (list_ascii_of_string s)).

(** [parse_qsl(qs, keep_blank_values=False)]: fields are separated by [&];
    a field without [=] or with an empty value is skipped. *)
Definition parse_qsl (qs : string) : list (string * string) :=
  let fields := if Py.truthy qs then Py.split_all "&" qs else [] in
  flat_map
    (fun name_value =>
       match Py.split_once "=" name_value with
       | Some (n, v) =>
           if Py.truthy v
           then [(unquote (replace_char "+" " " n), unquote (replace_char "+" " " v))]
           else []
       | None => []
       end)
    fields.

Definition hex_digit (n : nat) : ascii :=
  if (n <? 10)%nat then ascii_of_nat (48 + n) else ascii_of_nat (55 + n).

(** [quote_plus(s)] with the default [safe='']. *)
Fixpoint quote_plus (s : string) : string :=
  match s with
  | EmptyString => EmptyString
  | String c r =>
      if is_alpha c || is_digit c || char_in c "_.-~" then String c (quote_plus r)
      else if Ascii.eqb c " " then String "+" (quote_plus r)
      else
        let n := nat_of_ascii c in
        String "%" (String (hex_digit (n / 16)) (String (hex_digit (n mod 16)) (quote_plus r)))
  end.

(** [urlencode(items)] *)
Definition urlencode (items : list (string * string)) : string :=
  Py.join "&" (map (fun kv => quote_plus (fst kv) +:+ "=" +:+ quote_plus (snd kv)) items).

(** [urlunparse((scheme, netloc, path, "", query, ""))] *)
Definition urlunparse (scheme netloc path query : string) : string :=
  let url :=
    if Py.truthy netloc
       || (Py.truthy scheme && Py.mem scheme uses_netloc
           && negb (Py.startswith "//" path))
    then "//" +:+ netloc
         +:+ (if Py.truthy path && negb (Py.startswith "/" path) then "/" +:+ path else path)
    else path in
  let url := if Py.truthy scheme then scheme +:+ ":" +:+ url else url in
  if Py.truthy query then url +:+ "?" +:+ query else url.

Definition TRACKING_PARAM_PREFIXES : list string := ["utm_"].

Definition TRACKING_PARAMS : list string :=
  ["fbclid"; "gclid"; "igshid"; "mc_cid"; "mc_eid"; "ref_src"].

(** Order of the tuples [(key, value)] under [sorted]. *)
Definition pair_le (a b : string * string) : bool :=
  match String.compare (fst a) (fst b) with
  | Lt => true
  | Gt => false
  | Eq => String.leb (snd a) (snd b)
  end.

Definition canonicalize_url (url : string) : result string :=
  match urlparse (Py.strip url) with
  | Raise e => Raise e
  | Ok parsed =>
      let scheme := let s := Py.lower (scheme parsed) in
                    if Py.truthy s then s else "https" in
      let netloc := Py.lower (netloc parsed) in
      let netloc := if Py.startswith "www." netloc then Py.drop_string 4 netloc
                    else netloc in
      let query_items :=
        List.filter
          (fun kv =>
             let key_lower := Py.lower (fst kv) in
             negb (Py.mem key_lower TRACKING_PARAMS)
             && negb (existsb (fun prefix => Py.startswith prefix key_lower)
                        TRACKING_PARAM_PREFIXES))
          (parse_qsl (query parsed)) in
      let query := urlencode (Py.sort pair_le query_items) in
      let path := if Py.truthy (path parsed) then path parsed else "/" in
      let path := let p := Py.rstrip_char "/" path in
                  if Py.truthy p then p else "/" in
      Ok (urlunparse scheme netloc path query)
  end.

Definition extract_domain (url : string) : result string :=
  match urlparse url with
  | Raise e => Raise e
  | Ok parsed =>
      let host := Py.lower (netloc parsed) in
      Ok (if Py.startswith "www." host then Py.drop_string 4 host else host)
  end.

End Url.

(** ** Calendar dates and the clock

    A [datetime.date] is its day number, counted from 1970-01-01; a
    timestamp written by [_now_iso] is its number of whole seconds since
    the epoch.  The ISO text the tables hold determines these numbers and
    is determined by them. *)

Module Date.

Definition is_leap (y : Z) : bool :=
  ((y mod 4 =? 0) && negb (y mod 100 =? 0)) || (y mod 400 =? 0).

Definition days_in_month (y m : Z) : Z :=
  if m =? 2 then (if is_leap y then 29 else 28)
  else if (m =? 4) || (m =? 6) || (m =? 9) || (m =? 11) then 30 else 31.

Definition days_from_civil (y m d : Z) : Z :=
  let y' := if m <=? 2 then y - 1 else y in
  let era := y' / 400 in
  let yoe := y' - era * 400 in
  let mp := (m + 9) mod 12 in
  let doy := (153 * mp + 2) / 5 + d - 1 in
  let doe := yoe * 365 + yoe / 4 - yoe / 100 + doy in
  era * 146097 + doe - 719468.

Definition civil_from_days (z : Z) : Z * Z * Z :=
  let z := z + 719468 in
  let era := z / 146097 in
  let doe := z - era * 146097 in
  let yoe := (doe - doe / 1460 + doe / 36524 - doe / 146096) / 365 in
  let doy := doe - (365 * yoe + yoe / 4 - yoe / 100) in
  let mp := (5 * doy + 2) / 153 in
  let d := doy - (153 * mp + 2) / 5 + 1 in
  let m := if mp <? 10 then mp + 3 else mp - 9 in
  (yoe + era * 400 + (if m <=? 2 then 1 else 0), m, d).

Definition digit (c : ascii) : option Z :=
  let n := nat_of_ascii c in
  if ((48 <=? n) && (n <=? 57))%nat then Some (Z.of_nat n - 48) else None.

Fixpoint number (acc : Z) (cs : list ascii) : option Z :=
  match cs with
  | [] => Some acc
  | c :: r => match digit c with
              | Some v => number (10 * acc + v) r
              | None => None
              end
  end.

(** [date.fromisoformat], for the form [YYYY-MM-DD]. *)
Definition fromisoformat (s : string) : result Z :=
  match list_ascii_of_string s with
  | [y1; y2; y3; y4; s1; m1; m2; s2; d1; d2] =>
      match number 0 [y1; y2; y3; y4], number 0 [m1; m2], number 0 [d1; d2] with
      | Some y, Some m, Some d =>
          if Ascii.eqb s1 "-" && Ascii.eqb s2 "-"
             && (1 <=? y) && (1 <=? m) && (m <=? 12)
             && (1 <=? d) && (d <=? days_in_month y m)
          then Ok (days_from_civil y m d)
          else Raise (ValueError "Invalid isoformat string")
      | _, _, _ => Raise (ValueError "Invalid isoformat string")
      end
  | _ => Raise (ValueError "Invalid isoformat string")
  end.

Fixpoint pad (width : nat) (n : Z) : string :=
  match width with
  | O => EmptyString
  | S w => pad w (n / 10) +:+ String (ascii_of_nat (48 + Z.to_nat (n mod 10))) EmptyString
  end.

(** [date.isoformat] *)
Definition isoformat (day : Z) : string :=
  let '(y, m, d) := civil_from_days day in
  pad 4 y +:+ "-" +:+ pad 2 m +:+ "-" +:+ pad 2 d.

Definition MICROSECONDS_PER_SECOND : Z := 1000000.
Definition SECONDS_PER_HOUR : Z := 3600.
Definition SECONDS_PER_DAY : Z := 86400.

(** [strftime('%Y%m%d%H')] of a UTC time given in microseconds. *)
Definition strftime_hour (us : Z) : string :=
  let secs := us / MICROSECONDS_PER_SECOND in
  let '(y, m, d) := civil_from_days (secs / SECONDS_PER_DAY) in
  pad 4 y +:+ pad 2 m +:+ pad 2 d +:+ pad 2 ((secs mod SECONDS_PER_DAY) / SECONDS_PER_HOUR).

(** [timedelta(hours=h)] in microseconds; a [timedelta] holds at most
    999999999 days either way. *)
Definition timedelta_hours (h : Z) : result Z :=
  let days := h / 24 in
  if (-999999999 <=? days) && (days <=? 999999999)
  then Ok (h * SECONDS_PER_HOUR * MICROSECONDS_PER_SECOND)
  else Raise OverflowError.

End Date.

(** ** constants.py *)

Definition STARTING_CHIPS : Z := 100.
Definition DAILY_CHIPS : Z := 10.
Definition MAX_PICKS_PER_CYCLE : Z := 10.

Definition CURATION_RANK_REWARDS : list (Z * Z) := [(1, 40); (2, 20); (3, 10)].

(** Reward chips for a correct pick at rank N. *)
Definition RANK_REWARDS : list (Z * Z) :=
  [(1, 20); (2, 18); (3, 16); (4, 14); (5, 12);
   (6, 10); (7, 8); (8, 6); (9, 4); (10, 2)].

(** Weights used for market-implied probabilities. *)
Definition RANK_WEIGHTS : list (Z * Z) :=
  [(1, 10); (2, 9); (3, 8); (4, 7); (5, 6);
   (6, 5); (7, 4); (8, 3); (9, 2); (10, 1)].

(** [table.get(k, default)] on a dict with integer keys. *)
Fixpoint table_get (table : list (Z * Z)) (k : Z) (default : Z) : Z :=
  match table with
  | [] => default
  | (k', v) :: r => if k' =? k then v else table_get r k default
  end.

(** [k in table] *)
Definition table_mem (table : list (Z * Z)) (k : Z) : bool :=
  existsb (fun kv => fst kv =? k) table.

(** ** models.py and the rows of the schema *)

Inductive CycleStatus : Type := OPEN | SETTLED.

Definition CycleStatus_eqb (a b : CycleStatus) : bool :=
  match a, b with
  | OPEN, OPEN | SETTLED, SETTLED => true
  | _, _ => false
  end.

Module User.
Record t : Type := mk {
  id : string;
  display_name : string;
  email : string;
  google_sub : option string;
  account_type : string;
  current_chips : Z;
  created_at : Z;
  last_daily_credit_date : Z }.
End User.

Module Cycle.
Record t : Type := mk {
  id : string;
  cycle_date : Z;
  status : CycleStatus;
  opened_at : Z;
  closed_at : option Z }.
End Cycle.

Module CandidateLink.
Record t : Type := mk {
  id : string;
  cycle_id : string;
  submitted_by_user_id : string;
  original_url : string;
  canonical_url : string;
  domain : string;
  title : string;
  created_at : Z }.
End CandidateLink.

Module Pick.
Record t : Type := mk {
  id : string;
  cycle_id : string;
  user_id : string;
  candidate_id : string;
  rank : Z;
  picked_at : Z }.
End Pick.

Module ModelAgentConfig.
Record t : Type := mk {
  id : string;
  provider : string;
  model_name : string;
  enabled : bool;
  strategy_profile : string;
  max_daily_picks : Z;
  temperature : Q;
  strategy_plugin : option string }.
End ModelAgentConfig.

Module SettlementEntry.
Record t : Type := mk {
  user_id : string;
  correct_count : Z;
  reward_chips : Z;
  rank : Z }.
End SettlementEntry.

(** A row of [model_predictions]; the dataclass [ModelPrediction] is the
    row without [created_at]. *)
Module ModelPrediction.
Record t : Type := mk {
  cycle_id : string;
  model_user_id : string;
  candidate_id : string;
  probability : Q;
  explanation : string;
  created_at : Z }.
End ModelPrediction.

(** JSON values written to [metadata] and [details_json]. *)
Inductive json : Type :=
| JInt (n : Z)
| JStr (s : string).

Module Ledger.
Record t : Type := mk {
  id : string;
  user_id : string;
  cycle_id : option string;
  event_type : string;
  chips_delta : Z;
  metadata : Py.dict json;
  created_at : Z }.
End Ledger.

Module CycleResult.
Record t : Type := mk {
  cycle_id : string;
  candidate_id : string;
  is_winner : Z }.
End CycleResult.

Module ClickEvent.
Record t : Type := mk {
  id : string;
  cycle_id : string;
  candidate_id : string;
  clicked_by_user_id : option string;
  fingerprint_hash : string;
  created_at : Z }.
End ClickEvent.

Module CurationReward.
Record t : Type := mk {
  cycle_id : string;
  user_id : string;
  rank : Z;
  unique_clicks : Z;
  reward_chips : Z;
  awarded_at : Z }.
End CurationReward.

Module JobRun.
Record t : Type := mk {
  id : string;
  job_name : string;
  run_key : string;
  status : string;
  details_json : Py.dict json;
  created_at : Z }.
End JobRun.

(** ** The database and the connection *)

Record DB : Type := mkDB {
  users : list User.t;
  chip_ledger : list Ledger.t;
  cycles : list Cycle.t;
  candidate_links : list CandidateLink.t;
  picks : list Pick.t;
  cycle_results : list CycleResult.t;
  click_events : list ClickEvent.t;
  curation_rewards : list CurationReward.t;
  model_predictions : list ModelPrediction.t;
  job_runs : list JobRun.t }.

(** The tables after [_create_schema] on a new database. *)
Definition empty_db : DB := mkDB [] [] [] [] [] [] [] [] [] [].

Definition set_users (v : list User.t) (d : DB) : DB :=
  mkDB v (chip_ledger d) (cycles d) (candidate_links d) (picks d) (cycle_results d)
       (click_events d) (curation_rewards d) (model_predictions d) (job_runs d).
Definition set_chip_ledger (v : list Ledger.t) (d : DB) : DB :=
  mkDB (users d) v (cycles d) (candidate_links d) (picks d) (cycle_results d)
       (click_events d) (curation_rewards d) (model_predictions d) (job_runs d).
Definition set_cycles (v : list Cycle.t) (d : DB) : DB :=
  mkDB (users d) (chip_ledger d) v (candidate_links d) (picks d) (cycle_results d)
       (click_events d) (curation_rewards d) (model_predictions d) (job_runs d).
Definition set_candidate_links (v : list CandidateLink.t) (d : DB) : DB :=
  mkDB (users d) (chip_ledger d) (cycles d) v (picks d) (cycle_results d)
       (click_events d) (curation_rewards d) (model_predictions d) (job_runs d).
Definition set_picks (v : list Pick.t) (d : DB) : DB :=
  mkDB (users d) (chip_ledger d) (cycles d) (candidate_links d) v (cycle_results d)
       (click_events d) (curation_rewards d) (model_predictions d) (job_runs d).
Definition set_cycle_results (v : list CycleResult.t) (d : DB) : DB :=
  mkDB (users d) (chip_ledger d) (cycles d) (candidate_links d) (picks d) v
       (click_events d) (curation_rewards d) (model_predictions d) (job_runs d).
Definition set_click_events (v : list ClickEvent.t) (d : DB) : DB :=
  mkDB (users d) (chip_ledger d) (cycles d) (candidate_links d) (picks d) (cycle_results d)
       v (curation_rewards d) (model_predictions d) (job_runs d).
Definition set_curation_rewards (v : list CurationReward.t) (d : DB) : DB :=
  mkDB (users d) (chip_ledger d) (cycles d) (candidate_links d) (picks d) (cycle_results d)
       (click_events d) v (model_predictions d) (job_runs d).
Definition set_model_predictions (v : list ModelPrediction.t) (d : DB) : DB :=
  mkDB (users d) (chip_ledger d) (cycles d) (candidate_links d) (picks d) (cycle_results d)
       (click_events d) (curation_rewards d) v (job_runs d).
Definition set_job_runs (v : list JobRun.t) (d : DB) : DB :=
  mkDB (users d) (chip_ledger d) (cycles d) (candidate_links d) (picks d) (cycle_results d)
       (click_events d) (curation_rewards d) (model_predictions d) v.

Record Conn : Type := mkConn {
  committed : DB;            (* the database as of the last commit *)
  db : DB;                   (* the database this connection sees *)
  clock : Z;                 (* current UTC time, microseconds since the epoch *)
  next_id : nat;             (* number of identifiers drawn so far *)
  fault_plan : list bool }.  (* for each coming statement: does the engine fail? *)

(** [Storage(":memory:")] at time [t]. *)
Definition connect (t : Z) : Conn := mkConn empty_db empty_db t 0 [].

(** ** Computations on a connection that may raise *)

Definition M (A : Type) : Type := Conn -> result A * Conn.

Definition ret {A} (a : A) : M A := fun c => (Ok a, c).

Definition raise {A} (e : exn) : M A := fun c => (Raise e, c).

Definition bind {A B} (m : M A) (k : A -> M B) : M B :=
  fun c => match m c with
           | (Ok a, c') => k a c'
           | (Raise e, c') => (Raise e, c')
           end.

Declare Scope py_scope.
Delimit Scope py_scope with py.
Notation "x <- m ;; k" := (bind m (fun x => k))
  (at level 100, m at next level, right associativity) : py_scope.
Notation "m ;; k" := (bind m (fun _ => k))
  (at level 100, right associativity) : py_scope.
Local Open Scope py_scope.

(** A pure step that may raise. *)
Definition lift {A} (r : result A) : M A := fun c => (r, c).

(** [try: body except Exception: handler] *)
Definition try_except {A} (body : M A) (handler : exn -> M A) : M A :=
  fun c => match body c with
           | (Ok a, c') => (Ok a, c')
           | (Raise e, c') => handler e c'
           end.

(** [for x in xs: body x] *)
Fixpoint for_each {A} (xs : list A) (body : A -> M unit) : M unit :=
  match xs with
  | [] => ret tt
  | x :: r => body x ;; for_each r body
  end.

(** A loop that updates local variables [S]. *)
Fixpoint for_fold {A S} (xs : list A) (s : S) (body : S -> A -> M S) : M S :=
  match xs with
  | [] => ret s
  | x :: r => s' <- body s x ;; for_fold r s' body
  end.

(** [with self.conn: body]: commit when the body returns, roll back and
    re-raise when it raises. *)
Definition with_conn {A} (body : M A) : M A :=
  fun c => match body c with
           | (Ok a, c') =>
               (Ok a, mkConn (db c') (db c') (clock c') (next_id c') (fault_plan c'))
           | (Raise e, c') =>
               (Raise e, mkConn (committed c') (committed c') (clock c') (next_id c')
                           (fault_plan c'))
           end.

(** [Storage._execute]: the statement [stmt] reads the working database and
    returns its result and the database it leaves, or is refused by a
    constraint.  The engine fails instead when the plan says so. *)
Definition _execute {A} (stmt : DB -> result (A * DB)) : M A :=
  fun c =>
    match fault_plan c with
    | true :: plan =>
        (Raise OperationalError, mkConn (committed c) (db c) (clock c) (next_id c) plan)
    | plan =>
        let plan' := tail plan in
        match stmt (db c) with
        | Ok (a, d) => (Ok a, mkConn (committed c) d (clock c) (next_id c) plan')
        | Raise e => (Raise e, mkConn (committed c) (db c) (clock c) (next_id c) plan')
        end
    end.

(** A [SELECT]. *)
Definition query {A} (q : DB -> A) : M A := _execute (fun d => Ok (q d, d)).

(** [Storage._id(prefix)] *)
Definition _id (prefix : string) : M string :=
  fun c => (Ok (prefix +:+ "_" +:+ pretty (next_id c)),
            mkConn (committed c) (db c) (clock c) (S (next_id c)) (fault_plan c)).

(** [_now()] in microseconds. *)
Definition _now : M Z := fun c => (Ok (clock c), c).

(** [_now_iso()]: the time without its microseconds. *)
Definition _now_iso : M Z := fun c => (Ok (clock c / Date.MICROSECONDS_PER_SECOND), c).

(** [date.today()] *)
Definition today : M Z :=
  fun c => (Ok (clock c / Date.MICROSECONDS_PER_SECOND / Date.SECONDS_PER_DAY), c).

(** Time passing between two calls. *)
Definition advance_clock (dt : Z) (c : Conn) : Conn :=
  mkConn (committed c) (db c) (clock c + Z.max 0 dt) (next_id c) (fault_plan c).

(** The same connection with the failures [plan] ahead of it. *)
Definition with_faults (plan : list bool) (c : Conn) : Conn :=
  mkConn (committed c) (db c) (clock c) (next_id c) plan.

(** ** storage.py *)

Module Storage.

Definition _parse_date (value : string) : M Z := lift (Date.fromisoformat value).

(** [self._parse_date(v) if v else date.today()] *)
Definition date_or_today (value : option string) : M Z :=
  match value with
  | Some v => if Py.truthy v then _parse_date v else today
  | None => today
  end.

(** *** Rows referenced by foreign keys *)

Definition user_exists (d : DB) (user_id : string) : bool :=
  existsb (fun u => String.eqb (User.id u) user_id) (users d).

Definition cycle_exists (d : DB) (cycle_id : string) : bool :=
  existsb (fun c => String.eqb (Cycle.id c) cycle_id) (cycles d).

Definition candidate_exists (d : DB) (candidate_id : string) : bool :=
  existsb (fun c => String.eqb (CandidateLink.id c) candidate_id) (candidate_links d).

Definition option_eqb (a b : option string) : bool :=
  match a, b with
  | Some x, Some y => String.eqb x y
  | None, None => true
  | _, _ => false
  end.

(** *** Users and chips *)

(** [INSERT INTO users]: [email] and a non-null [google_sub] are unique,
    [account_type] is HUMAN or AI. *)
Definition insert_user (u : User.t) (d : DB) : result (unit * DB) :=
  if existsb (fun v => String.eqb (User.email v) (User.email u)) (users d)
     || existsb (fun v => match User.google_sub u with
                          | Some g => option_eqb (User.google_sub v) (Some g)
                          | None => false
                          end) (users d)
     || negb (Py.mem (User.account_type u) ["HUMAN"; "AI"])
  then Raise IntegrityError
  else Ok (tt, set_users (users d ++ [u]) d).

(** [INSERT INTO chip_ledger]: [user_id] references [users]. *)
Definition insert_ledger (l : Ledger.t) (d : DB) : result (unit * DB) :=
  if user_exists d (Ledger.user_id l)
  then Ok (tt, set_chip_ledger (chip_ledger d ++ [l]) d)
  else Raise IntegrityError.

Definition get_user (user_id : string) : M User.t :=
  row <- query (fun d => List.find (fun u => String.eqb (User.id u) user_id) (users d)) ;;
  match row with
  | None => raise (KeyError "User not found")
  | Some u => ret u
  end.

Definition get_user_by_email (email : string) : M (option User.t) :=
  query (fun d => List.find (fun u => String.eqb (User.email u) email) (users d)).

Definition create_user (display_name email account_type : string)
    (created_date : option string) (google_sub : option string) : M User.t :=
  created <- date_or_today created_date ;;
  user_id <- _id "usr" ;;
  now <- _now_iso ;;
  with_conn (
    _execute (insert_user
      (User.mk user_id display_name email google_sub account_type STARTING_CHIPS
         now created)) ;;
    ledger_id <- _id "led" ;;
    _execute (insert_ledger
      (Ledger.mk ledger_id user_id None "signup_bonus" STARTING_CHIPS
         [("reason", JStr "starting_chips")] now))) ;;
  get_user user_id.

Definition get_or_create_ai_user (model_id : string) : M User.t :=
  let email := "model:" +:+ model_id +:+ "@local" in
  existing <- get_user_by_email email ;;
  match existing with
  | Some u => ret u
  | None => create_user model_id email "AI" None None
  end.

(** [UPDATE users SET google_sub = ?, display_name = ? WHERE id = ?]:
    [google_sub] is unique. *)
Definition update_google (user_id google_sub display_name : string) (d : DB)
    : result (unit * DB) :=
  if user_exists d user_id
     && existsb (fun v => negb (String.eqb (User.id v) user_id)
                          && option_eqb (User.google_sub v) (Some google_sub)) (users d)
  then Raise IntegrityError
  else Ok (tt, set_users
                 (map (fun u =>
                         if String.eqb (User.id u) user_id
                         then User.mk (User.id u) display_name (User.email u)
                                (Some google_sub) (User.account_type u)
                                (User.current_chips u) (User.created_at u)
                                (User.last_daily_credit_date u)
                         else u) (users d)) d).

Definition get_or_create_google_user (google_sub email display_name : string) : M User.t :=
  row <- query (fun d =>
           List.find (fun u => option_eqb (User.google_sub u) (Some google_sub)) (users d)) ;;
  match row with
  | Some u => get_user (User.id u)
  | None =>
      row <- query (fun d => List.find (fun u => String.eqb (User.email u) email) (users d)) ;;
      match row with
      | Some u =>
          with_conn (_execute (update_google (User.id u) google_sub display_name)) ;;
          get_user (User.id u)
      | None => create_user display_name email "HUMAN" None (Some google_sub)
      end
  end.

(** [UPDATE users SET current_chips = current_chips + ? WHERE id = ?] *)
Definition update_chips (user_id : string) (delta : Z) (d : DB) : result (unit * DB) :=
  Ok (tt, set_users
            (map (fun u =>
                    if String.eqb (User.id u) user_id
                    then User.mk (User.id u) (User.display_name u) (User.email u)
                           (User.google_sub u) (User.account_type u)
                           (User.current_chips u + delta) (User.created_at u)
                           (User.last_daily_credit_date u)
                    else u) (users d)) d).

Definition credit_user_chips (user_id : string) (chips_delta : Z) (event_type : string)
    (cycle_id : option string) (metadata : option (Py.dict json)) : M unit :=
  now <- _now_iso ;;
  with_conn (
    (if negb (chips_delta =? 0) then _execute (update_chips user_id chips_delta)
     else ret tt) ;;
    ledger_id <- _id "led" ;;
    _execute (insert_ledger
      (Ledger.mk ledger_id user_id cycle_id event_type chips_delta
         (match metadata with Some m => m | None => [] end) now))).

(** [UPDATE users SET current_chips = current_chips + ?,
    last_daily_credit_date = ? WHERE id = ?] *)
Definition update_faucet (user_id : string) (chips as_of : Z) (d : DB)
    : result (unit * DB) :=
  Ok (tt, set_users
            (map (fun u =>
                    if String.eqb (User.id u) user_id
                    then User.mk (User.id u) (User.display_name u) (User.email u)
                           (User.google_sub u) (User.account_type u)
                           (User.current_chips u + chips) (User.created_at u) as_of
                    else u) (users d)) d).

Definition apply_daily_faucet (as_of_date : option string) : M (Py.dict Z) :=
  as_of <- date_or_today as_of_date ;;
  rows <- query (fun d => map (fun u => (User.id u, User.last_daily_credit_date u)) (users d)) ;;
  with_conn (
    for_fold rows ([] : Py.dict Z) (fun credited row =>
      let user_id := fst row in
      let last_credit := snd row in
      let missed_days := as_of - last_credit in
      if missed_days <=? 0 then ret credited
      else
        let chips := missed_days * DAILY_CHIPS in
        let credited := Py.dict_set credited user_id chips in
        _execute (update_faucet user_id chips as_of) ;;
        ledger_id <- _id "led" ;;
        now <- _now_iso ;;
        _execute (insert_ledger
          (Ledger.mk ledger_id user_id None "daily_faucet" chips
             [("missed_days", JInt missed_days)] now)) ;;
        ret credited)).

(** *** Cycles *)

(** [INSERT INTO cycles] *)
Definition insert_cycle (c : Cycle.t) (d : DB) : result (unit * DB) :=
  Ok (tt, set_cycles (cycles d ++ [c]) d).

Definition get_cycle (cycle_id : string) : M Cycle.t :=
  row <- query (fun d => List.find (fun c => String.eqb (Cycle.id c) cycle_id) (cycles d)) ;;
  match row with
  | None => raise (KeyError "Cycle not found")
  | Some c => ret c
  end.

Definition create_cycle (cycle_date : option string) : M Cycle.t :=
  cycle_id <- _id "cyc" ;;
  d <- date_or_today cycle_date ;;
  now <- _now_iso ;;
  with_conn (_execute (insert_cycle (Cycle.mk cycle_id d OPEN now None))) ;;
  get_cycle cycle_id.

(** [ORDER BY opened_at DESC] *)
Definition by_opened_desc (a b : Cycle.t) : bool :=
  Cycle.opened_at b <=? Cycle.opened_at a.

Definition list_cycles (limit : nat) : M (list Cycle.t) :=
  query (fun d => take limit (Py.sort by_opened_desc (cycles d))).

Definition get_open_cycle : M (option Cycle.t) :=
  query (fun d =>
    head (Py.sort by_opened_desc
            (List.filter (fun c => CycleStatus_eqb (Cycle.status c) OPEN) (cycles d)))).

(** *** Candidates *)

Definition candidate_by_canonical (d : DB) (cycle_id canonical : string)
    : option CandidateLink.t :=
  List.find (fun c => String.eqb (CandidateLink.cycle_id c) cycle_id
                      && String.eqb (CandidateLink.canonical_url c) canonical)
    (candidate_links d).

(** [INSERT INTO candidate_links]: [(cycle_id, canonical_url)] is unique,
    the cycle and the submitter are existing rows. *)
Definition insert_candidate (c : CandidateLink.t) (d : DB) : result (unit * DB) :=
  if negb (cycle_exists d (CandidateLink.cycle_id c))
     || negb (user_exists d (CandidateLink.submitted_by_user_id c))
     || match candidate_by_canonical d (CandidateLink.cycle_id c)
                (CandidateLink.canonical_url c) with
        | Some _ => true
        | None => false
        end
  then Raise IntegrityError
  else Ok (tt, set_candidate_links (candidate_links d ++ [c]) d).

Definition get_candidate (candidate_id : string) : M CandidateLink.t :=
  row <- query (fun d =>
    List.find (fun c => String.eqb (CandidateLink.id c) candidate_id) (candidate_links d)) ;;
  match row with
  | None => raise (KeyError "Candidate not found")
  | Some c => ret c
  end.

Definition create_candidate (cycle_id submitted_by_user_id url title : string)
    : M CandidateLink.t :=
  candidate_id <- _id "lnk" ;;
  canonical <- lift (Url.canonicalize_url url) ;;
  domain <- lift (Url.extract_domain canonical) ;;
  now <- _now_iso ;;
  existing <- with_conn (
    try_except
      (_execute (insert_candidate
         (CandidateLink.mk candidate_id cycle_id submitted_by_user_id url canonical
            domain title now)) ;;
       ret None)
      (fun e =>
         row <- query (fun d => candidate_by_canonical d cycle_id canonical) ;;
         match row with
         | None => raise e
         | Some r => ret (Some r)
         end)) ;;
  match existing with
  | Some r => ret r
  | None => get_candidate candidate_id
  end.

(** [ORDER BY created_at ASC] *)
Definition by_created (a b : CandidateLink.t) : bool :=
  CandidateLink.created_at a <=? CandidateLink.created_at b.

Definition candidates_of (d : DB) (cycle_id : string) : list CandidateLink.t :=
  List.filter (fun c => String.eqb (CandidateLink.cycle_id c) cycle_id) (candidate_links d).

Definition list_candidates (cycle_id : string) : M (list CandidateLink.t) :=
  query (fun d => Py.sort by_created (candidates_of d cycle_id)).

(** *** Picks *)

Definition pick_of (cycle_id user_id : string) (p : Pick.t) : bool :=
  String.eqb (Pick.cycle_id p) cycle_id && String.eqb (Pick.user_id p) user_id.

(** [DELETE FROM picks WHERE cycle_id = ? AND user_id = ?] *)
Definition delete_picks (cycle_id user_id : string) (d : DB) : result (unit * DB) :=
  Ok (tt, set_picks (List.filter (fun p => negb (pick_of cycle_id user_id p)) (picks d)) d).

(** [INSERT INTO picks]: per cycle and user a rank and a candidate occur
    once; cycle, user and candidate are existing rows. *)
Definition insert_pick (p : Pick.t) (d : DB) : result (unit * DB) :=
  if negb (cycle_exists d (Pick.cycle_id p))
     || negb (user_exists d (Pick.user_id p))
     || negb (candidate_exists d (Pick.candidate_id p))
     || existsb (fun q => pick_of (Pick.cycle_id p) (Pick.user_id p) q
                          && ((Pick.rank q =? Pick.rank p)
                              || String.eqb (Pick.candidate_id q) (Pick.candidate_id p)))
          (picks d)
  then Raise IntegrityError
  else Ok (tt, set_picks (picks d ++ [p]) d).

(** [ORDER BY rank ASC] *)
Definition by_rank (a b : Pick.t) : bool := Pick.rank a <=? Pick.rank b.

(** [ORDER BY picked_at ASC, rank ASC] *)
Definition by_picked_rank (a b : Pick.t) : bool :=
  (Pick.picked_at a <? Pick.picked_at b)
  || ((Pick.picked_at a =? Pick.picked_at b) && (Pick.rank a <=? Pick.rank b)).

Definition list_user_picks (cycle_id user_id : string) : M (list Pick.t) :=
  query (fun d => Py.sort by_rank (List.filter (pick_of cycle_id user_id) (picks d))).

Definition list_picks (cycle_id : string) : M (list Pick.t) :=
  query (fun d =>
    Py.sort by_picked_rank
      (List.filter (fun p => String.eqb (Pick.cycle_id p) cycle_id) (picks d))).

(** [enumerate(xs, start=1)] *)
Definition enumerate1 {A} (xs : list A) : list (Z * A) :=
  combine (map (fun i => Z.of_nat i + 1) (seq 0 (length xs))) xs.

(** [len(set(ids)) != len(ids)] *)
Definition has_duplicates (ids : list string) : bool :=
  negb (Nat.eqb (length (Py.set_of ids)) (length ids)).

Definition set_ranked_picks (cycle_id user_id : string) (ids : list string)
    : M (list Pick.t) :=
  (if Z.of_nat (length ids) >? MAX_PICKS_PER_CYCLE
   then raise (ValueError "You can only pick 10 links per cycle") else ret tt) ;;
  (if has_duplicates ids then raise (ValueError "Picks must be unique") else ret tt) ;;
  (match ids with
   | [] => ret tt
   | _ =>
       c <- query (fun d =>
              length (List.filter (fun c => Py.mem (CandidateLink.id c) ids)
                        (candidates_of d cycle_id))) ;;
       if negb (Nat.eqb c (length ids))
       then raise (ValueError "Some picks do not belong to this cycle")
       else ret tt
   end) ;;
  with_conn (
    _execute (delete_picks cycle_id user_id) ;;
    now <- _now_iso ;;
    for_each (enumerate1 ids) (fun item =>
      pick_id <- _id "pk" ;;
      _execute (insert_pick (Pick.mk pick_id cycle_id user_id (snd item) (fst item) now)))) ;;
  list_user_picks cycle_id user_id.

(** *** Cycle results *)

(** [DELETE FROM cycle_results WHERE cycle_id = ?] *)
Definition delete_results (cycle_id : string) (d : DB) : result (unit * DB) :=
  Ok (tt, set_cycle_results
            (List.filter (fun r => negb (String.eqb (CycleResult.cycle_id r) cycle_id))
               (cycle_results d)) d).

(** [INSERT INTO cycle_results]: [(cycle_id, candidate_id)] is the key;
    cycle and candidate are existing rows. *)
Definition insert_result (r : CycleResult.t) (d : DB) : result (unit * DB) :=
  if negb (cycle_exists d (CycleResult.cycle_id r))
     || negb (candidate_exists d (CycleResult.candidate_id r))
     || existsb (fun q => String.eqb (CycleResult.cycle_id q) (CycleResult.cycle_id r)
                          && String.eqb (CycleResult.candidate_id q)
                               (CycleResult.candidate_id r))
          (cycle_results d)
  then Raise IntegrityError
  else Ok (tt, set_cycle_results (cycle_results d ++ [r]) d).

(** [UPDATE cycles SET status = 'SETTLED', closed_at = ? WHERE id = ?] *)
Definition update_settled (cycle_id : string) (now : Z) (d : DB) : result (unit * DB) :=
  Ok (tt, set_cycles
            (map (fun c =>
                    if String.eqb (Cycle.id c) cycle_id
                    then Cycle.mk (Cycle.id c) (Cycle.cycle_date c) SETTLED
                           (Cycle.opened_at c) (Some now)
                    else c) (cycles d)) d).

Definition save_cycle_results (cycle_id : string) (winner_candidate_ids : list string)
    : M unit :=
  let winner_set := Py.set_of winner_candidate_ids in
  candidate_rows <- query (fun d => map CandidateLink.id (candidates_of d cycle_id)) ;;
  with_conn (
    _execute (delete_results cycle_id) ;;
    for_each candidate_rows (fun candidate_id =>
      _execute (insert_result
        (CycleResult.mk cycle_id candidate_id
           (if Py.mem candidate_id winner_set then 1 else 0)))) ;;
    now <- _now_iso ;;
    _execute (update_settled cycle_id now)).

Definition list_winner_candidate_ids (cycle_id : string) : M (list string) :=
  query (fun d =>
    map CycleResult.candidate_id
      (List.filter (fun r => String.eqb (CycleResult.cycle_id r) cycle_id
                             && (CycleResult.is_winner r =? 1))
         (cycle_results d))).

(** *** Model predictions *)

Definition prediction_key (cycle_id model_user_id candidate_id : string)
    (r : ModelPrediction.t) : bool :=
  String.eqb (ModelPrediction.cycle_id r) cycle_id
  && String.eqb (ModelPrediction.model_user_id r) model_user_id
  && String.eqb (ModelPrediction.candidate_id r) candidate_id.

(** [INSERT INTO model_predictions ... ON CONFLICT(cycle_id, model_user_id,
    candidate_id) DO UPDATE]: cycle, user and candidate are existing rows. *)
Definition upsert_prediction (r : ModelPrediction.t) (d : DB) : result (unit * DB) :=
  if negb (cycle_exists d (ModelPrediction.cycle_id r))
     || negb (user_exists d (ModelPrediction.model_user_id r))
     || negb (candidate_exists d (ModelPrediction.candidate_id r))
  then Raise IntegrityError
  else
    let same := prediction_key (ModelPrediction.cycle_id r)
                  (ModelPrediction.model_user_id r) (ModelPrediction.candidate_id r) in
    if existsb same (model_predictions d)
    then Ok (tt, set_model_predictions
                   (map (fun q => if same q then r else q) (model_predictions d)) d)
    else Ok (tt, set_model_predictions (model_predictions d ++ [r]) d).

Definition upsert_model_prediction (cycle_id model_user_id candidate_id : string)
    (probability : Q) (explanation : string) : M unit :=
  with_conn (
    now <- _now_iso ;;
    _execute (upsert_prediction
      (ModelPrediction.mk cycle_id model_user_id candidate_id probability explanation now))).

(** [ORDER BY probability DESC] *)
Definition by_probability_desc (a b : ModelPrediction.t) : bool :=
  Qle_bool (ModelPrediction.probability b) (ModelPrediction.probability a).

Definition list_model_predictions (cycle_id : string) (model_user_id : option string)
    : M (list ModelPrediction.t) :=
  if Py.truthy_opt model_user_id
  then query (fun d =>
         Py.sort by_probability_desc
           (List.filter (fun r => String.eqb (ModelPrediction.cycle_id r) cycle_id
                                  && option_eqb (Some (ModelPrediction.model_user_id r))
                                       model_user_id)
              (model_predictions d)))
  else query (fun d =>
         Py.sort by_probability_desc
           (List.filter (fun r => String.eqb (ModelPrediction.cycle_id r) cycle_id)
              (model_predictions d))).

(** *** Clicks *)

(** [sha256(source).hexdigest()], taken to be free of collisions: the
    fingerprint stands for its own digest. *)
Definition fingerprint_digest (fingerprint_source : string) : string := fingerprint_source.

(** [INSERT INTO click_events]: [(candidate_id, fingerprint_hash)] is
    unique; cycle, candidate and a non-null user are existing rows. *)
Definition insert_click (e : ClickEvent.t) (d : DB) : result (unit * DB) :=
  if negb (cycle_exists d (ClickEvent.cycle_id e))
     || negb (candidate_exists d (ClickEvent.candidate_id e))
     || match ClickEvent.clicked_by_user_id e with
        | Some u => negb (user_exists d u)
        | None => false
        end
     || existsb (fun q => String.eqb (ClickEvent.candidate_id q) (ClickEvent.candidate_id e)
                          && String.eqb (ClickEvent.fingerprint_hash q)
                               (ClickEvent.fingerprint_hash e))
          (click_events d)
  then Raise IntegrityError
  else Ok (tt, set_click_events (click_events d ++ [e]) d).

(** The result [{"counted": .., "reason": ..}]. *)
Definition record_click (candidate_id fingerprint_source : string)
    (clicked_by_user_id : option string) : M (bool * string) :=
  candidate <- query (fun d =>
    List.find (fun c => String.eqb (CandidateLink.id c) candidate_id) (candidate_links d)) ;;
  match candidate with
  | None => raise (KeyError "Candidate not found")
  | Some cand =>
      if Py.truthy_opt clicked_by_user_id
         && option_eqb clicked_by_user_id (Some (CandidateLink.submitted_by_user_id cand))
      then ret (false, "self_click")
      else
        let fingerprint_hash := fingerprint_digest fingerprint_source in
        try_except
          (with_conn (
             click_id <- _id "clk" ;;
             now <- _now_iso ;;
             _execute (insert_click
               (ClickEvent.mk click_id (CandidateLink.cycle_id cand) candidate_id
                  clicked_by_user_id fingerprint_hash now))) ;;
           ret (true, "unique"))
          (fun _ => ret (false, "duplicate"))
  end.

(** *** Curation rewards *)

Module RewardRow.
Record t : Type := mk {
  user_id : string;
  rank : Z;
  unique_clicks : Z;
  reward_chips : Z }.
End RewardRow.

Definition has_curation_rewards (cycle_id : string) : M bool :=
  query (fun d =>
    negb (Nat.eqb 0
      (length (List.filter (fun r => String.eqb (CurationReward.cycle_id r) cycle_id)
                 (curation_rewards d))))).

(** [COUNT(e.id)] of the join of the cycle's candidates submitted by
    [user_id] with their click events. *)
Definition unique_clicks (d : DB) (cycle_id user_id : string) : Z :=
  Py.sum
    (map (fun c =>
            Z.of_nat (length (List.filter
                        (fun e => String.eqb (ClickEvent.candidate_id e) (CandidateLink.id c))
                        (click_events d))))
       (List.filter (fun c => String.eqb (CandidateLink.submitted_by_user_id c) user_id)
          (candidates_of d cycle_id))).

(** [ORDER BY unique_clicks DESC, user_id ASC] *)
Definition by_clicks_desc_user (a b : string * Z) : bool :=
  (snd b <? snd a) || ((snd a =? snd b) && String.leb (fst a) (fst b)).

(** The grouped and ordered query of [compute_curation_reward_rows]. *)
Definition click_counts (d : DB) (cycle_id : string) : list (string * Z) :=
  let submitters :=
    Py.set_of (map CandidateLink.submitted_by_user_id (candidates_of d cycle_id)) in
  Py.sort by_clicks_desc_user
    (List.filter (fun row => 0 <? snd row)
       (map (fun u => (u, unique_clicks d cycle_id u)) submitters)).

(** The inner [while]: the rows at the front that share [click_count], and
    the rows left. *)
Fixpoint take_ties (click_count : Z) (rows : list (string * Z))
    : list (string * Z) * list (string * Z) :=
  match rows with
  | [] => ([], [])
  | row :: rest =>
      if snd row =? click_count
      then let '(group, remaining) := take_ties click_count rest in (row :: group, remaining)
      else ([], rows)
  end.

(** [range(a, b)] *)
Definition range (a b : Z) : list Z :=
  map (fun i => a + Z.of_nat i) (seq 0 (Z.to_nat (b - a))).

(** The outer [while] of [compute_curation_reward_rows]; [rows] is what is
    left of [sorted_rows] from [idx] on.  Every turn consumes a row, so
    [fuel = len(rows)] turns are enough. *)
Fixpoint reward_loop (fuel : nat) (rows : list (string * Z)) (next_rank max_rank : Z)
    (reward_rows : list RewardRow.t) : list RewardRow.t :=
  match fuel, rows with
  | O, _ => reward_rows
  | _, [] => reward_rows
  | S fuel', first :: _ =>
      if negb (next_rank <=? max_rank) then reward_rows
      else
        let click_count := snd first in
        let '(tie_group, remaining) := take_ties click_count rows in
        let size := Z.of_nat (length tie_group) in
        let start_rank := next_rank in
        let end_rank := Z.min (start_rank + size - 1) max_rank in
        let eligible_positions :=
          List.filter (table_mem CURATION_RANK_REWARDS) (range start_rank (end_rank + 1)) in
        match eligible_positions with
        | [] => reward_rows
        | _ =>
            let total_pool :=
              Py.sum (map (fun rank => table_get CURATION_RANK_REWARDS rank 0)
                        eligible_positions) in
            let split_reward := Py.round_div total_pool size in
            reward_loop fuel' remaining (next_rank + size) max_rank
              (reward_rows
               ++ map (fun row => RewardRow.mk (fst row) start_rank click_count split_reward)
                    tie_group)
        end
  end.

(** The allocation of [compute_curation_reward_rows] on the rows the query
    returned. *)
Definition curation_reward_rows (sorted_rows : list (string * Z)) : list RewardRow.t :=
  match sorted_rows with
  | [] => []
  | _ =>
      let max_rank := fold_right Z.max 0 (map fst CURATION_RANK_REWARDS) in
      reward_loop (length sorted_rows) sorted_rows 1 max_rank []
  end.

Definition compute_curation_reward_rows (cycle_id : string) : M (list RewardRow.t) :=
  sorted_rows <- query (fun d => click_counts d cycle_id) ;;
  ret (curation_reward_rows sorted_rows).

(** [INSERT INTO curation_rewards]: [(cycle_id, user_id)] is the key; cycle
    and user are existing rows. *)
Definition insert_curation_reward (r : CurationReward.t) (d : DB) : result (unit * DB) :=
  if negb (cycle_exists d (CurationReward.cycle_id r))
     || negb (user_exists d (CurationReward.user_id r))
     || existsb (fun q => String.eqb (CurationReward.cycle_id q) (CurationReward.cycle_id r)
                          && String.eqb (CurationReward.user_id q) (CurationReward.user_id r))
          (curation_rewards d)
  then Raise IntegrityError
  else Ok (tt, set_curation_rewards (curation_rewards d ++ [r]) d).

Definition apply_curation_rewards (cycle_id : string) : M (list RewardRow.t) :=
  has <- has_curation_rewards cycle_id ;;
  if has then ret []
  else
    reward_rows <- compute_curation_reward_rows cycle_id ;;
    match reward_rows with
    | [] => ret []
    | _ =>
        with_conn (
          for_each reward_rows (fun row =>
            now <- _now_iso ;;
            _execute (insert_curation_reward
              (CurationReward.mk cycle_id (RewardRow.user_id row) (RewardRow.rank row)
                 (RewardRow.unique_clicks row) (RewardRow.reward_chips row) now)) ;;
            credit_user_chips (RewardRow.user_id row) (RewardRow.reward_chips row)
              "curation_reward" (Some cycle_id)
              (Some [("rank", JInt (RewardRow.rank row));
                     ("unique_clicks", JInt (RewardRow.unique_clicks row))]))) ;;
        ret reward_rows
    end.

(** *** Job runs *)

Definition has_job_run (d : DB) (job_name run_key : string) : bool :=
  existsb (fun r => String.eqb (JobRun.job_name r) job_name
                    && String.eqb (JobRun.run_key r) run_key) (job_runs d).

(** [INSERT INTO job_runs]: [(job_name, run_key)] is unique. *)
Definition insert_job_run (r : JobRun.t) (d : DB) : result (unit * DB) :=
  if has_job_run d (JobRun.job_name r) (JobRun.run_key r)
  then Raise IntegrityError
  else Ok (tt, set_job_runs (job_runs d ++ [r]) d).

Definition claim_job_run (job_name run_key : string) (details : option (Py.dict json))
    : M bool :=
  try_except
    (with_conn (
       job_id <- _id "job" ;;
       now <- _now_iso ;;
       _execute (insert_job_run
         (JobRun.mk job_id job_name run_key "DONE"
            (match details with Some m => m | None => [] end) now))) ;;
     ret true)
    (fun _ => ret false).

End Storage.

(** ** market.py *)

Module MarketService.

Definition submit_candidate (cycle_id user_id url title : string) : M CandidateLink.t :=
  Storage.create_candidate cycle_id user_id url title.

Definition set_ranked_picks (cycle_id user_id : string) (candidate_ids : list string)
    : M (list Pick.t) :=
  let ranked_ids := candidate_ids in
  if Z.of_nat (length ranked_ids) >? MAX_PICKS_PER_CYCLE
  then raise (ValueError "At most 10 picks are allowed")
  else Storage.set_ranked_picks cycle_id user_id ranked_ids.

(** *** Market probabilities *)

Module MarketRow.
Record t : Type := mk {
  candidate_id : string;
  url : string;
  domain : string;
  rank_weight_score : Z;
  market_probability : Q }.
End MarketRow.

(** [weights[pick.candidate_id] += RANK_WEIGHTS.get(pick.rank, 1)] over the
    picks. *)
Definition rank_weight_scores (picks : list Pick.t) : Py.dict Z :=
  fold_left
    (fun weights pick =>
       Py.dict_add weights (Pick.candidate_id pick) (table_get RANK_WEIGHTS (Pick.rank pick) 1))
    picks [].

(** [score / total_weight], the quotient of two integers. *)
Definition ratio (score total_weight : Z) : Q := inject_Z score / inject_Z total_weight.

Definition by_market_probability_desc (a b : MarketRow.t) : bool :=
  Qle_bool (MarketRow.market_probability b) (MarketRow.market_probability a).

(** The rows [compute_market_probabilities] derives from the candidates
    and picks of a cycle. *)
Definition market_probabilities (candidates : list CandidateLink.t) (picks : list Pick.t)
    : list MarketRow.t :=
  let weights := rank_weight_scores picks in
  let total_weight := Py.sum (Py.dict_values weights) in
  let output :=
    map (fun candidate =>
           let score := Py.dict_get_default weights (CandidateLink.id candidate) 0 in
           let probability := if 0 <? total_weight then ratio score total_weight else 0%Q in
           MarketRow.mk (CandidateLink.id candidate) (CandidateLink.original_url candidate)
             (CandidateLink.domain candidate) score probability)
      candidates in
  Py.sort by_market_probability_desc output.

Definition compute_market_probabilities (cycle_id : string) : M (list MarketRow.t) :=
  candidates <- Storage.list_candidates cycle_id ;;
  picks <- Storage.list_picks cycle_id ;;
  ret (market_probabilities candidates picks).

(** *** Settlement *)

(** The result of [settle_cycle]; its [reward_model] entry repeats the
    constants [MAX_PICKS_PER_CYCLE] and [RANK_REWARDS]. *)
Module Settlement.
Record t : Type := mk {
  cycle_id : string;
  winner_candidate_ids : list string;
  winner_count : Z;
  ranking : list SettlementEntry.t }.
End Settlement.

(** [{canonicalize_url(url) for url in winner_urls}] *)
Fixpoint canonical_urls (winner_urls : list string) : result (list string) :=
  match winner_urls with
  | [] => Ok []
  | url :: rest =>
      match Url.canonicalize_url url with
      | Raise e => Raise e
      | Ok c => match canonical_urls rest with
                | Raise e => Raise e
                | Ok cs => Ok (c :: cs)
                end
      end
  end.

(** The candidates' ids whose canonical URL is among the winners'. *)
Definition match_winners (candidates : list CandidateLink.t)
    (winner_canonical_urls : list string) : list string :=
  let candidate_by_canonical :=
    fold_left (fun by_url candidate =>
                 Py.dict_set by_url (CandidateLink.canonical_url candidate) candidate)
      candidates [] in
  flat_map (fun canonical =>
              match Py.dict_get candidate_by_canonical canonical with
              | Some candidate => [CandidateLink.id candidate]
              | None => []
              end)
    winner_canonical_urls.

(** The local variables of the loop over the picks. *)
Record Tally : Type := mkTally {
  user_rewards : Py.dict Z;
  user_hits : Py.dict Z;
  participant_ids : list string }.

Definition tally_pick (winner_set : list string) (t : Tally) (pick : Pick.t) : Tally :=
  let participants :=
    if negb (Py.mem (Pick.user_id pick) (participant_ids t))
    then participant_ids t ++ [Pick.user_id pick]
    else participant_ids t in
  if Py.mem (Pick.candidate_id pick) winner_set
  then
    let reward := table_get RANK_REWARDS (Pick.rank pick) 0 in
    mkTally (Py.dict_add (user_rewards t) (Pick.user_id pick) reward)
            (Py.dict_add (user_hits t) (Pick.user_id pick) 1)
            participants
  else mkTally (user_rewards t) (user_hits t) participants.

Definition tally_picks (winner_set : list string) (picks : list Pick.t) : Tally :=
  fold_left (tally_pick winner_set) picks (mkTally [] [] []).

(** A row of [ranking_entries]. *)
Record RankingRow : Type := mkRow {
  row_user_id : string;
  row_correct_count : Z;
  row_reward_chips : Z }.

Definition ranking_entries (t : Tally) : list RankingRow :=
  map (fun user_id =>
         mkRow user_id (Py.dict_get_default (user_hits t) user_id 0)
               (Py.dict_get_default (user_rewards t) user_id 0))
    (participant_ids t).

Definition score_key (row : RankingRow) : Z * Z :=
  (row_reward_chips row, row_correct_count row).

(** [a <= b] on tuples of two integers. *)
Definition key_le (a b : Z * Z) : bool :=
  (fst a <? fst b) || ((fst a =? fst b) && (snd a <=? snd b)).

Definition key_eqb (a b : Z * Z) : bool := (fst a =? fst b) && (snd a =? snd b).

(** [sort(key=(reward_chips, correct_count), reverse=True)] *)
Definition by_score_desc (a b : RankingRow) : bool := key_le (score_key b) (score_key a).

(** The loop over [enumerate(ranking_entries, start=1)]. *)
Fixpoint assign_ranks (idx current_rank : Z) (previous_score_key : option (Z * Z))
    (rows : list RankingRow) : list SettlementEntry.t :=
  match rows with
  | [] => []
  | row :: rest =>
      let changed := match previous_score_key with
                     | Some k => negb (key_eqb (score_key row) k)
                     | None => true
                     end in
      let current_rank := if changed then idx else current_rank in
      let previous_score_key := if changed then Some (score_key row) else previous_score_key in
      SettlementEntry.mk (row_user_id row) (row_correct_count row) (row_reward_chips row)
        current_rank
      :: assign_ranks (idx + 1) current_rank previous_score_key rest
  end.

(** [ranking_entries] sorted and ranked. *)
Definition rank_rows (entries : list RankingRow) : list SettlementEntry.t :=
  assign_ranks 1 0 None (Py.sort by_score_desc entries).

(** The leaderboard of a settlement. *)
Definition leaderboard (t : Tally) : list SettlementEntry.t :=
  rank_rows (ranking_entries t).

Definition settle_cycle (cycle_id : string) (winner_urls : list string)
    : M Settlement.t :=
  candidates <- Storage.list_candidates cycle_id ;;
  winner_canonical_urls <- lift (canonical_urls winner_urls) ;;
  let winner_candidate_ids := match_winners candidates (Py.set_of winner_canonical_urls) in
  let winner_set := Py.set_of winner_candidate_ids in
  Storage.save_cycle_results cycle_id winner_candidate_ids ;;
  picks <- Storage.list_picks cycle_id ;;
  let t := tally_picks winner_set picks in
  for_each (user_rewards t) (fun item =>
    let user_id := fst item in
    let reward := snd item in
    if reward <=? 0 then ret tt
    else Storage.credit_user_chips user_id reward "prediction_reward" (Some cycle_id)
           (Some [("correct_picks", JInt (Py.dict_get_default (user_hits t) user_id 0))])) ;;
  ret (Settlement.mk cycle_id winner_candidate_ids
         (Z.of_nat (length winner_candidate_ids)) (leaderboard t)).

(** *** Curation rewards *)

(** The result [{"awarded": .., "reason": .., "rows": ..}]. *)
Module Award.
Record t : Type := mk {
  awarded : bool;
  reason : string;
  rows : list Storage.RewardRow.t }.
End Award.

Definition apply_curation_rewards (cycle_id : string) (min_age_hours : Z) (force : bool)
    : M Award.t :=
  cycle <- Storage.get_cycle cycle_id ;;
  if negb (CycleStatus_eqb (Cycle.status cycle) SETTLED)
  then ret (Award.mk false "cycle_not_settled" [])
  else
    wait <- match Cycle.closed_at cycle with
            | Some closed_at =>
                if negb force then
                  now <- _now ;;
                  min_age <- lift (Date.timedelta_hours min_age_hours) ;;
                  ret (now - closed_at * Date.MICROSECONDS_PER_SECOND <? min_age)
                else ret false
            | None => ret false
            end ;;
    if (wait : bool) then ret (Award.mk false "wait_window" [])
    else
      rows <- Storage.apply_curation_rewards cycle_id ;;
      match rows with
      | [] => ret (Award.mk false "none_or_already_awarded" [])
      | _ => ret (Award.mk true "ok" rows)
      end.

End MarketService.

(** ** model_agents.py *)

Module ModelAgents.

(** The interface [ModelStrategy]; either method of a plugin may raise. *)
Record ModelStrategy : Type := mkStrategy {
  predict_probabilities :
    ModelAgentConfig.t -> list CandidateLink.t -> result (Py.dict Q);
  explain_choice :
    ModelAgentConfig.t -> CandidateLink.t -> Q -> bool -> result string }.

(** What [importlib] finds for [module:Class]: the import or the attribute
    lookup raises, or the instance is not a [ModelStrategy], or it is one. *)
Definition Plugins : Type := string -> string -> result (option ModelStrategy).

(** [f"{x:.3f}"] for a probability. *)
Definition format_3f (x : Q) : string :=
  let n := Py.round_div (Qnum x * 1000) (Z.pos (Qden x)) in
  pretty (n / 1000) +:+ "." +:+ Date.pad 3 (n mod 1000).

Definition DOMAIN_BONUS : Py.dict Q :=
  [("ft.com", 115 # 100); ("economist.com", 112 # 100); ("bloomberg.com", 108 # 100);
   ("substack.com", 105 # 100); ("arxiv.org", 11 # 10)].

Definition qmax (a b : Q) : Q := if Qle_bool a b then b else a.

(** [DefaultRankingStrategy]; [digest10 s] is [int(sha256(s).hexdigest()[:10], 16)]. *)
Definition DefaultRankingStrategy (digest10 : string -> Z) : ModelStrategy :=
  mkStrategy
    (fun config candidates =>
       let raw_scores :=
         fold_left
           (fun raw candidate =>
              let base : Q :=
                (inject_Z (digest10 (ModelAgentConfig.id config +:+ ":"
                                     +:+ CandidateLink.canonical_url candidate))
                 / inject_Z (16 ^ 10))%Q in
              let bonus := Py.dict_get_default DOMAIN_BONUS (CandidateLink.domain candidate) 1%Q in
              Py.dict_set raw (CandidateLink.id candidate)
                (qmax (1 # 10000) (((1 # 2) + base) * bonus)%Q))
           candidates [] in
       let total := Py.qsum (Py.dict_values raw_scores) in
       if Qle_bool total 0%Q then
         match candidates with
         | [] => Raise ZeroDivisionError
         | _ =>
             let uniform : Q := (1 / inject_Z (Z.of_nat (length candidates)))%Q in
             Ok (fold_left (fun d candidate => Py.dict_set d (CandidateLink.id candidate) uniform)
                   candidates [])
         end
       else Ok (map (fun kv => (fst kv, (snd kv / total)%Q)) raw_scores))
    (fun config candidate probability selected =>
       let rounded := format_3f probability in
       if selected then
         Ok (ModelAgentConfig.model_name config
             +:+ " selected this link because it scores well on likely assorted-links fit "
             +:+ "(domain relevance plus novelty signal). Assigned probability: "
             +:+ rounded +:+ ".")
       else
         Ok (ModelAgentConfig.model_name config
             +:+ " evaluated this link but ranked it below the top "
             +:+ pretty (ModelAgentConfig.max_daily_picks config)
             +:+ ". Assigned probability: " +:+ rounded +:+ ".")).

Definition _normalize_probabilities (probs : Py.dict Q) (candidates : list CandidateLink.t)
    : Py.dict Q :=
  let probs :=
    fold_left (fun d candidate => Py.dict_setdefault d (CandidateLink.id candidate) 0%Q)
      candidates probs in
  let safe_scores := map (fun kv => (fst kv, qmax 0%Q (snd kv))) probs in
  let total := Py.qsum (Py.dict_values safe_scores) in
  if Qle_bool total 0%Q then
    let uniform : Q := match candidates with
                       | [] => 0%Q
                       | _ => (1 / inject_Z (Z.of_nat (length candidates)))%Q
                       end in
    fold_left (fun d candidate => Py.dict_set d (CandidateLink.id candidate) uniform)
      candidates []
  else
    fold_left (fun d candidate =>
                 Py.dict_set d (CandidateLink.id candidate)
                   (Py.dict_get_default safe_scores (CandidateLink.id candidate) 0%Q / total)%Q)
      candidates [].

Section Runner.
(** The runner's collaborators: the default strategy (fixed by the digest
    function) and the plugins that can be imported. *)
Variable default_strategy : ModelStrategy.
Variable plugins : Plugins.

Definition _load_strategy (config : ModelAgentConfig.t) : M ModelStrategy :=
  match ModelAgentConfig.strategy_plugin config with
  | None => ret default_strategy
  | Some plugin =>
      if negb (Py.truthy plugin) then ret default_strategy
      else
        match Py.split_once ":" plugin with
        | None => raise (ValueError "strategy_plugin must be module:Class")
        | Some (module_name, class_name) =>
            loaded <- lift (plugins module_name class_name) ;;
            match loaded with
            | None => raise (TypeError "Plugin strategy must inherit ModelStrategy")
            | Some strategy => ret strategy
            end
        end
  end.

(** A row of [predictions] in the output of [run_cycle]. *)
Record PredictionRow : Type := mkPrediction {
  pr_candidate_id : string;
  pr_probability : Q;
  pr_explanation : string;
  pr_selected : bool }.

(** The entry [output[config.id]]. *)
Record ModelRun : Type := mkRun {
  run_model_user_id : string;
  run_selected_count : Z;
  run_predictions : list PredictionRow }.

(** [probabilities[candidate.id]]: the normalized distribution has every
    candidate's id as a key. *)
Definition probability_of (probabilities : Py.dict Q) (candidate : CandidateLink.t) : Q :=
  Py.dict_get_default probabilities (CandidateLink.id candidate) 0%Q.

Definition by_probability_desc (probabilities : Py.dict Q) (a b : CandidateLink.t) : bool :=
  Qle_bool (probability_of probabilities b) (probability_of probabilities a).

Definition by_row_probability_desc (a b : PredictionRow) : bool :=
  Qle_bool (pr_probability b) (pr_probability a).

(** The loop over the candidates in the body of [run_cycle]: explain, check
    the contract for a selected candidate, store the prediction. *)
Definition explain_and_store (cycle_id model_user_id : string) (config : ModelAgentConfig.t)
    (strategy : ModelStrategy) (probabilities : Py.dict Q) (selected_id_set : list string)
    (candidates : list CandidateLink.t) : M (list PredictionRow) :=
  for_fold candidates [] (fun model_rows candidate =>
    let selected := Py.mem (CandidateLink.id candidate) selected_id_set in
    explanation <- lift (explain_choice strategy config candidate
                           (probability_of probabilities candidate) selected) ;;
    if selected && negb (Py.truthy (Py.strip explanation))
    then raise (ValueError ("Model " +:+ ModelAgentConfig.id config
                            +:+ " must provide explanation for selected candidate "
                            +:+ CandidateLink.id candidate))
    else
      Storage.upsert_model_prediction cycle_id model_user_id (CandidateLink.id candidate)
        (probability_of probabilities candidate) explanation ;;
      ret (model_rows
           ++ [mkPrediction (CandidateLink.id candidate)
                 (probability_of probabilities candidate) explanation selected])).

(** The body of the loop over the configurations, for an enabled one. *)
Definition run_config (cycle_id : string) (candidates : list CandidateLink.t)
    (config : ModelAgentConfig.t) : M ModelRun :=
  model_user <- Storage.get_or_create_ai_user (ModelAgentConfig.id config) ;;
  strategy <- _load_strategy config ;;
  probabilities <- lift (predict_probabilities strategy config candidates) ;;
  let probabilities := _normalize_probabilities probabilities candidates in
  let ranked_candidates := Py.sort (by_probability_desc probabilities) candidates in
  let pick_cap :=
    Z.max 0 (Z.min (Z.min (ModelAgentConfig.max_daily_picks config) MAX_PICKS_PER_CYCLE)
               (Z.of_nat (length ranked_candidates))) in
  let selected_candidates := take (Z.to_nat pick_cap) ranked_candidates in
  let selected_ids := map CandidateLink.id selected_candidates in
  let selected_id_set := Py.set_of selected_ids in
  MarketService.set_ranked_picks cycle_id (User.id model_user) selected_ids ;;
  model_rows <- explain_and_store cycle_id (User.id model_user) config strategy
                  probabilities selected_id_set candidates ;;
  ret (mkRun (User.id model_user) (Z.of_nat (length selected_ids))
         (Py.sort by_row_probability_desc model_rows)).

Definition run_cycle (configs : list ModelAgentConfig.t) (cycle_id : string)
    : M (Py.dict ModelRun) :=
  candidates <- Storage.list_candidates cycle_id ;;
  match candidates with
  | [] => ret []
  | _ =>
      for_fold configs [] (fun output config =>
        if negb (ModelAgentConfig.enabled config) then ret output
        else
          run <- run_config cycle_id candidates config ;;
          ret (Py.dict_set output (ModelAgentConfig.id config) run))
  end.

End Runner.

End ModelAgents.

(** ** jobs.py *)

Module JobService.

(** A job's structured outcome: skipped with a reason (and the run key when
    one was derived), or executed with what the operation produced. *)
Inductive outcome (A : Type) : Type :=
| Skipped (reason : string) (run_key : option string)
| Executed (run_key : string) (payload : A).
Arguments Skipped {A} reason run_key.
Arguments Executed {A} run_key payload.


(** [not force and not self.storage.claim_job_run(..)]: with [force] the
    claim is not evaluated. *)
Definition already_ran (force : bool) (job_name run_key : string)
    (details : option (Py.dict json)) : M bool :=
  if force then ret false
  else claimed <- Storage.claim_job_run job_name run_key details ;;
       ret (negb claimed).

Definition run_daily_faucet (as_of_date : option string) (force : bool)
    : M (outcome (Py.dict Z)) :=
  run_date <- match as_of_date with
              | Some s => if Py.truthy s then ret s
                          else d <- today ;; ret (Date.isoformat d)
              | None => d <- today ;; ret (Date.isoformat d)
              end ;;
  let run_key := run_date in
  skip <- already_ran force "daily_faucet" run_key (Some [("as_of_date", JStr run_date)]) ;;
  if (skip : bool) then ret (Skipped "already_ran" (Some run_key))
  else
    credited <- Storage.apply_daily_faucet (Some run_date) ;;
    ret (Executed run_key credited).

Section Models.
Variable default_strategy : ModelAgents.ModelStrategy.
Variable plugins : ModelAgents.Plugins.
Variable configs : list ModelAgentConfig.t.

Definition run_models (cycle_id : option string) (force : bool)
    : M (outcome (Py.dict ModelAgents.ModelRun)) :=
  cycle <- (if Py.truthy_opt cycle_id
            then c <- Storage.get_cycle (default "" cycle_id) ;; ret (Some c)
            else Storage.get_open_cycle) ;;
  match cycle with
  | None => ret (Skipped "no_open_cycle" None)
  | Some cycle =>
      now <- _now ;;
      let run_key := Cycle.id cycle +:+ ":" +:+ Date.strftime_hour now in
      skip <- already_ran force "model_run" run_key
                (Some [("cycle_id", JStr (Cycle.id cycle))]) ;;
      if (skip : bool) then ret (Skipped "already_ran" (Some run_key))
      else
        result <- ModelAgents.run_cycle default_strategy plugins configs (Cycle.id cycle) ;;
        ret (Executed run_key result)
  end.

End Models.

(** An entry of [results] in the output of [run_curation_rewards]. *)
Inductive curation_entry : Type :=
| CurationSkipped (cycle_id : string) (reason : string)
| CurationApplied (cycle_id : string) (award : MarketService.Award.t).

Definition run_curation_rewards (cycle_id : option string) (force : bool)
    (min_age_hours : Z) : M (list curation_entry) :=
  targets <- (if Py.truthy_opt cycle_id
              then c <- Storage.get_cycle (default "" cycle_id) ;; ret [c]
              else cs <- Storage.list_cycles 200 ;;
                   ret (List.filter (fun c => CycleStatus_eqb (Cycle.status c) SETTLED) cs)) ;;
  for_fold targets [] (fun output cycle =>
    let run_key := Cycle.id cycle in
    skip <- already_ran force "curation_rewards" run_key None ;;
    if (skip : bool)
    then ret (output ++ [CurationSkipped (Cycle.id cycle) "already_ran"])
    else
      result <- MarketService.apply_curation_rewards (Cycle.id cycle) min_age_hours force ;;
      ret (output ++ [CurationApplied (Cycle.id cycle) result])).

End JobService.

(** * Reasoning about computations on a connection *)

(** No transaction is open: the connection sees what was committed. *)
Definition clean (c : Conn) : Prop := committed c = db c.

(** The engine does not fail during the coming statements. *)
Definition no_faults (c : Conn) : Prop := fault_plan c = [].

(** [hoare P m Q E]: started where [P] holds, [m] returns a value and a
    connection related by [Q], or raises an exception and leaves a
    connection related by [E]. *)
Definition hoare {A} (P : Conn -> Prop) (m : M A)
    (Q : A -> Conn -> Prop) (E : exn -> Conn -> Prop) : Prop :=
  forall c, P c ->
    match m c with
    | (Ok a, c') => Q a c'
    | (Raise e, c') => E e c'
    end.

(** [m] keeps [P], whether it returns or raises. *)
Definition preserves {A} (P : Conn -> Prop) (m : M A) : Prop :=
  hoare P m (fun _ => P) (fun _ => P).

Section HoareRules.
Context {A B : Type}.
Implicit Types (P : Conn -> Prop) (E : exn -> Conn -> Prop).

Lemma hoare_conseq P P' (m : M A) (Q Q' : A -> Conn -> Prop) E E' :
  hoare P' m Q' E' ->
  (forall c, P c -> P' c) ->
  (forall a c, Q' a c -> Q a c) ->
  (forall e c, E' e c -> E e c) ->
  hoare P m Q E.
Proof.
  intros H HP HQ HE c Hc. specialize (H c (HP c Hc)).
  destruct (m c) as [[a|e] c']; auto.
Qed.

Lemma hoare_ret P (a : A) (Q : A -> Conn -> Prop) E :
  (forall c, P c -> Q a c) -> hoare P (ret a) Q E.
Proof. intros H c Hc. simpl. auto. Qed.

Lemma hoare_raise P e (Q : A -> Conn -> Prop) E :
  (forall c, P c -> E e c) -> hoare P (raise e) Q E.
Proof. intros H c Hc. simpl. auto. Qed.

Lemma hoare_lift P (r : result A) (Q : A -> Conn -> Prop) E :
  (forall c, P c -> match r with Ok a => Q a c | Raise e => E e c end) ->
  hoare P (lift r) Q E.
Proof. intros H c Hc. unfold lift. apply H, Hc. Qed.

Lemma hoare_bind P (m : M A) (k : A -> M B) (R : A -> Conn -> Prop)
    (Q : B -> Conn -> Prop) E :
  hoare P m R E ->
  (forall a, hoare (R a) (k a) Q E) ->
  hoare P (bind m k) Q E.
Proof.
  intros Hm Hk c Hc. unfold bind. specialize (Hm c Hc).
  destruct (m c) as [[a|e] c']; [apply (Hk a c' Hm) | exact Hm].
Qed.

Lemma hoare_try_except P (body : M A) (handler : exn -> M A)
    (Q : A -> Conn -> Prop) (R : exn -> Conn -> Prop) E :
  hoare P body Q R ->
  (forall e, hoare (R e) (handler e) Q E) ->
  hoare P (try_except body handler) Q E.
Proof.
  intros Hb Hh c Hc. unfold try_except. specialize (Hb c Hc).
  destruct (body c) as [[a|e] c']; [exact Hb | apply (Hh e c' Hb)].
Qed.

(** Leaving [with self.conn:] commits or rolls back. *)
Definition commit (c : Conn) : Conn :=
  mkConn (db c) (db c) (clock c) (next_id c) (fault_plan c).

Definition rollback (c : Conn) : Conn :=
  mkConn (committed c) (committed c) (clock c) (next_id c) (fault_plan c).

Lemma hoare_with_conn P (body : M A) (Q : A -> Conn -> Prop) E :
  hoare P body (fun a c => Q a (commit c)) (fun e c => E e (rollback c)) ->
  hoare P (with_conn body) Q E.
Proof.
  intros Hb c Hc. unfold with_conn. specialize (Hb c Hc).
  destruct (body c) as [[a|e] c']; exact Hb.
Qed.

Lemma hoare_execute P (stmt : DB -> result (A * DB)) (Q : A -> Conn -> Prop) E :
  (forall c plan, P c -> fault_plan c = true :: plan ->
     E OperationalError (with_faults plan c)) ->
  (forall c, P c -> head (fault_plan c) <> Some true ->
     match stmt (db c) with
     | Ok (a, d) =>
         Q a (mkConn (committed c) d (clock c) (next_id c) (tail (fault_plan c)))
     | Raise e => E e (with_faults (tail (fault_plan c)) c)
     end) ->
  hoare P (_execute stmt) Q E.
Proof.
  intros Hf Hs c Hc. unfold _execute.
  destruct (fault_plan c) as [|[|] plan] eqn:Hp.
  - specialize (Hs c Hc). rewrite Hp in Hs. simpl in Hs.
    destruct (stmt (db c)) as [[a d]|e]; apply Hs; discriminate.
  - apply (Hf c plan Hc Hp).
  - specialize (Hs c Hc). rewrite Hp in Hs. simpl in Hs.
    destruct (stmt (db c)) as [[a d]|e]; apply Hs; discriminate.
Qed.

End HoareRules.

Lemma hoare_for_each {A} (I : Conn -> Prop) (xs : list A) (body : A -> M unit)
    (E : exn -> Conn -> Prop) :
  (forall x, In x xs -> hoare I (body x) (fun _ => I) E) ->
  hoare I (for_each xs body) (fun _ => I) E.
Proof.
  induction xs as [|x r IH]; intros Hb.
  - apply hoare_ret. auto.
  - simpl. eapply hoare_bind.
    + apply Hb. left. reflexivity.
    + intros u. apply IH. intros y Hy. apply Hb. right. exact Hy.
Qed.

Lemma hoare_for_fold {A S} (I : S -> Conn -> Prop) (xs : list A) (s0 : S)
    (body : S -> A -> M S) (E : exn -> Conn -> Prop) :
  (forall s x, In x xs -> hoare (I s) (body s x) I E) ->
  hoare (I s0) (for_fold xs s0 body) I E.
Proof.
  revert s0. induction xs as [|x r IH]; intros s0 Hb.
  - apply hoare_ret. auto.
  - simpl. eapply hoare_bind.
    + apply Hb. left. reflexivity.
    + intros s'. apply IH. intros s y Hy. apply Hb. right. exact Hy.
Qed.

(** *** Properties that every step keeps *)

(** [P] is framed by [D], [F] and [T]: it asks [D] of the committed and of
    the working database, each on its own and relative to the number of
    identifiers drawn, [F] of the plan and [T] of the clock; [D] survives
    the drawing of an identifier and [F] holds of what is left of a plan it
    holds of.  Committing and rolling back keep such a property; a
    statement keeps it when it keeps [D]. *)
Class Framed (P : Conn -> Prop) (D : nat -> DB -> Prop) (F : list bool -> Prop)
    (T : Z -> Prop) : Prop := {
  framed_def : forall c,
    P c <-> D (next_id c) (committed c) /\ D (next_id c) (db c)
            /\ F (fault_plan c) /\ T (clock c);
  framed_drawn : forall n d, D n d -> D (S n) d;
  framed_tail : forall plan, F plan -> F (tail plan) }.

Section Preserves.
Context (P : Conn -> Prop) (D : nat -> DB -> Prop) (F : list bool -> Prop) (T : Z -> Prop)
  `{!Framed P D F T}.

Lemma preserves_ret {A} (a : A) : preserves P (ret a).
Proof. apply hoare_ret. auto. Qed.

Lemma preserves_raise {A} e : preserves P (@raise A e).
Proof. apply hoare_raise. auto. Qed.

Lemma preserves_lift {A} (r : result A) : preserves P (lift r).
Proof. apply hoare_lift. intros c Hc. destruct r; exact Hc. Qed.

Lemma preserves_bind {A B} (m : M A) (k : A -> M B) :
  preserves P m -> (forall a, preserves P (k a)) -> preserves P (bind m k).
Proof. intros Hm Hk. eapply hoare_bind; [exact Hm | exact Hk]. Qed.

Lemma preserves_try_except {A} (body : M A) handler :
  preserves P body -> (forall e, preserves P (handler e)) ->
  preserves P (try_except body handler).
Proof. intros Hb Hh. eapply hoare_try_except; [exact Hb | exact Hh]. Qed.

Lemma preserves_with_conn {A} (body : M A) :
  preserves P body -> preserves P (with_conn body).
Proof.
  intros Hb. apply hoare_with_conn.
  eapply hoare_conseq; [exact Hb | auto | |]; cbv beta; intros ? c Hc;
    apply framed_def in Hc; apply framed_def; simpl; tauto.
Qed.

Lemma preserves_for_each {A} (xs : list A) (body : A -> M unit) :
  (forall x, preserves P (body x)) -> preserves P (for_each xs body).
Proof. intros Hb. apply hoare_for_each. intros x _. apply Hb. Qed.

Lemma preserves_for_fold {A S} (xs : list A) (s0 : S) (body : S -> A -> M S) :
  (forall s x, preserves P (body s x)) -> preserves P (for_fold xs s0 body).
Proof.
  intros Hb.
  apply (hoare_for_fold (fun _ => P) xs s0 body (fun _ => P)).
  intros s x _. apply Hb.
Qed.

Lemma preserves_execute {A} (stmt : DB -> result (A * DB)) :
  (forall n d a d', D n d -> stmt d = Ok (a, d') -> D n d') ->
  preserves P (_execute stmt).
Proof.
  intros Hs. apply hoare_execute.
  - intros c plan Hc Hp. apply framed_def in Hc. apply framed_def. simpl.
    destruct Hc as (Hc1 & Hc2 & Hc3 & Hc4). repeat split; try assumption.
    apply framed_tail in Hc3. rewrite Hp in Hc3. exact Hc3.
  - intros c Hc _. apply framed_def in Hc. destruct Hc as (Hc1 & Hc2 & Hc3 & Hc4).
    apply framed_tail in Hc3.
    destruct (stmt (db c)) as [[a d]|e] eqn:Hst; apply framed_def; simpl;
      repeat split; try assumption.
    eapply Hs; [exact Hc2 | exact Hst].
Qed.

Lemma preserves_query {A} (q : DB -> A) : preserves P (query q).
Proof.
  apply preserves_execute. intros n d a d' Hd Heq. inversion Heq. subst. exact Hd.
Qed.

Lemma preserves_id prefix : preserves P (_id prefix).
Proof.
  intros c Hc. simpl. apply framed_def in Hc. apply framed_def. simpl.
  destruct Hc as (Hc1 & Hc2 & Hc3 & Hc4).
  repeat split; try assumption; apply framed_drawn; assumption.
Qed.

Lemma preserves_now : preserves P _now.
Proof. intros c Hc. exact Hc. Qed.

Lemma preserves_now_iso : preserves P _now_iso.
Proof. intros c Hc. exact Hc. Qed.

Lemma preserves_today : preserves P today.
Proof. intros c Hc. exact Hc. Qed.

End Preserves.

#[global] Instance no_faults_framed :
  Framed no_faults (fun _ _ => True) (fun plan => plan = []) (fun _ => True).
Proof.
  split.
  - intros c. unfold no_faults. tauto.
  - auto.
  - intros plan ->. reflexivity.
Qed.

(** Unfold a computation into the steps above and split it. *)
Ltac preserves_step :=
  lazymatch goal with
  | |- preserves ?P (bind _ _) => eapply (preserves_bind P _ _); [ | intros ?]
  | |- preserves ?P (ret _) => eapply (preserves_ret P)
  | |- preserves ?P (raise _) => eapply (preserves_raise P)
  | |- preserves ?P (lift _) => eapply (preserves_lift P)
  | |- preserves ?P (query _) => eapply (preserves_query P _ _ _)
  | |- preserves ?P (_id _) => eapply (preserves_id P _ _ _)
  | |- preserves ?P _now => eapply (preserves_now P)
  | |- preserves ?P _now_iso => eapply (preserves_now_iso P)
  | |- preserves ?P today => eapply (preserves_today P)
  | |- preserves ?P (with_conn _) => eapply (preserves_with_conn P _ _ _)
  | |- preserves ?P (try_except _ _) => eapply (preserves_try_except P); [ | intros ?]
  | |- preserves ?P (for_each _ _) => eapply (preserves_for_each P); intros ?
  | |- preserves ?P (for_fold _ _ _) => eapply (preserves_for_fold P); intros ? ?
  | |- preserves _ (if ?b then _ else _) => destruct b
  | |- preserves _ (match ?x with _ => _ end) => destruct x
  end.

(** A statement that returns the database with some tables replaced keeps
    what is said of the other tables. *)
Ltac statement_result Hd Hst :=
  cbv beta delta [Storage.insert_user Storage.insert_ledger Storage.update_google
    Storage.update_chips
    Storage.update_faucet Storage.insert_cycle Storage.insert_candidate
    Storage.delete_picks Storage.insert_pick Storage.delete_results
    Storage.insert_result Storage.update_settled Storage.upsert_prediction
    Storage.insert_click Storage.insert_curation_reward Storage.insert_job_run] in Hst;
  repeat match type of Hst with
         | (if ?b then _ else _) = _ => destruct b
         | (let _ := _ in _) = _ => cbv zeta in Hst
         end;
  try discriminate Hst;
  injection Hst as <- <-; simpl; try exact Hd.

Ltac statement_keeps :=
  let n := fresh "n" in
  let d := fresh "d" in let a := fresh "a" in let d' := fresh "d'" in
  let Hd := fresh "Hd" in let Hst := fresh "Hst" in
  intros n d a d' Hd Hst; statement_result Hd Hst.

Ltac statement_keeps_db :=
  let d := fresh "d" in let a := fresh "a" in let d' := fresh "d'" in
  let Hd := fresh "Hd" in let Hst := fresh "Hst" in
  intros d a d' Hd Hst; statement_result Hd Hst.

Ltac preserves_auto unfolder :=
  repeat first
    [ preserves_step
    | match goal with
      | |- preserves ?P (_execute _) => eapply (preserves_execute P _ _ _); statement_keeps
      end
    | progress unfolder ].

Ltac unfold_storage :=
  unfold Storage.create_user, Storage.get_user, Storage.get_user_by_email,
    Storage.get_or_create_ai_user, Storage.get_or_create_google_user,
    Storage.credit_user_chips,
    Storage.apply_daily_faucet, Storage.date_or_today, Storage._parse_date,
    Storage.get_cycle, Storage.create_cycle, Storage.list_cycles,
    Storage.get_open_cycle, Storage.get_candidate, Storage.create_candidate,
    Storage.list_candidates, Storage.list_user_picks, Storage.list_picks,
    Storage.set_ranked_picks, Storage.save_cycle_results,
    Storage.list_winner_candidate_ids, Storage.upsert_model_prediction,
    Storage.list_model_predictions, Storage.record_click,
    Storage.has_curation_rewards, Storage.compute_curation_reward_rows,
    Storage.apply_curation_rewards, Storage.claim_job_run.

Lemma claim_job_run_no_faults job_name run_key details :
  preserves no_faults (Storage.claim_job_run job_name run_key details).
Proof. preserves_auto unfold_storage. Qed.

Lemma apply_daily_faucet_no_faults as_of :
  preserves no_faults (Storage.apply_daily_faucet as_of).
Proof. preserves_auto unfold_storage. Qed.

(** ** Job claims *)

(** A sequence of [claim_job_run] calls, each after some time has passed,
    and the answers they give. *)
Definition claim_call : Type := Z * string * string * option (Py.dict json).

Fixpoint claim_all (calls : list claim_call) (c : Conn) : list (result bool) * Conn :=
  match calls with
  | [] => ([], c)
  | (dt, job_name, run_key, details) :: rest =>
      let '(r, c1) := Storage.claim_job_run job_name run_key details (advance_clock dt c) in
      let '(rs, c2) := claim_all rest c1 in
      (r :: rs, c2)
  end.

Definition call_has_key (job_name run_key : string) (call : claim_call) : bool :=
  let '(_, j, k, _) := call in String.eqb j job_name && String.eqb k run_key.

(** The answers given to the calls for [(job_name, run_key)], in order. *)
Fixpoint answers_for (job_name run_key : string) (calls : list claim_call)
    (answers : list (result bool)) : list (result bool) :=
  match calls, answers with
  | call :: calls', r :: answers' =>
      if call_has_key job_name run_key call
      then r :: answers_for job_name run_key calls' answers'
      else answers_for job_name run_key calls' answers'
  | _, _ => []
  end.

Definition job_marker (job_id job_name run_key : string) (details : option (Py.dict json))
    (now : Z) : JobRun.t :=
  JobRun.mk job_id job_name run_key "DONE"
    (match details with Some m => m | None => [] end) now.

Lemma claim_job_run_eq c job_name run_key details :
  no_faults c -> clean c ->
  Storage.claim_job_run job_name run_key details c =
    if Storage.has_job_run (db c) job_name run_key
    then (Ok false, mkConn (db c) (db c) (clock c) (S (next_id c)) [])
    else
      let d := set_job_runs
                 (job_runs (db c)
                  ++ [job_marker ("job" +:+ "_" +:+ pretty (next_id c)) job_name run_key
                        details (clock c / Date.MICROSECONDS_PER_SECOND)])
                 (db c) in
      (Ok true, mkConn d d (clock c) (S (next_id c)) []).
Proof.
  unfold no_faults, clean. destruct c as [cm d t n plan]. simpl. intros -> ->.
  unfold Storage.claim_job_run, try_except, with_conn, bind, _id, _now_iso, _execute,
    Storage.insert_job_run, ret.
  simpl. destruct (Storage.has_job_run d job_name run_key); reflexivity.
Qed.

Lemma has_job_run_app d rows job_name run_key :
  Storage.has_job_run (set_job_runs (job_runs d ++ rows) d) job_name run_key
  = Storage.has_job_run d job_name run_key
    || existsb (fun r => String.eqb (JobRun.job_name r) job_name
                         && String.eqb (JobRun.run_key r) run_key) rows.
Proof. unfold Storage.has_job_run. simpl. apply existsb_app. Qed.

(** Once the marker is there, every later call for the key answers false. *)
Lemma claim_all_marked calls : forall c job_name run_key,
  no_faults c -> clean c ->
  Storage.has_job_run (db c) job_name run_key = true ->
  answers_for job_name run_key calls (fst (claim_all calls c))
  = repeat (Ok false) (length (List.filter (call_has_key job_name run_key) calls)).
Proof.
  induction calls as [|[[[dt j] k] details] rest IH]; intros c job_name run_key Hf Hc Hm.
  - reflexivity.
  - simpl claim_all.
    assert (Hf' : no_faults (advance_clock dt c)) by exact Hf.
    assert (Hc' : clean (advance_clock dt c)) by exact Hc.
    rewrite (claim_job_run_eq _ j k details Hf' Hc'). simpl db.
    destruct (Storage.has_job_run (db c) j k) eqn:Hjk; lazy beta iota zeta.
    + match goal with
      | |- context [claim_all rest ?c1] =>
          specialize (IH c1 job_name run_key eq_refl eq_refl Hm);
          destruct (claim_all rest c1) as [rs c2]
      end.
      simpl in *. unfold call_has_key at 1 2.
      destruct (String.eqb j job_name && String.eqb k run_key) eqn:Hkey.
      * simpl. rewrite IH. reflexivity.
      * exact IH.
    + match goal with
      | |- context [claim_all rest ?c1] =>
          specialize (IH c1 job_name run_key eq_refl eq_refl);
          destruct (claim_all rest c1) as [rs c2]
      end.
      simpl db in IH. rewrite has_job_run_app, Hm in IH. specialize (IH eq_refl).
      simpl in *. unfold call_has_key at 1 2.
      destruct (String.eqb j job_name && String.eqb k run_key) eqn:Hkey.
      * apply andb_true_iff in Hkey as [Hj Hk].
        apply String.eqb_eq in Hj, Hk. subst. congruence.
      * exact IH.
Qed.

(** C4. [claim_job_run] answers true on the first call for a pair
    [(job_name, run_key)] that has no marker yet and false on every later
    call for it: over any sequence of calls, whatever other keys are
    claimed and whatever time passes in between, exactly the first call
    for the pair is answered true. *)
Theorem claim_job_run_exactly_once calls : forall c job_name run_key,
  no_faults c -> clean c ->
  Storage.has_job_run (db c) job_name run_key = false ->
  answers_for job_name run_key calls (fst (claim_all calls c))
  = match length (List.filter (call_has_key job_name run_key) calls) with
    | O => []
    | S n => Ok true :: repeat (Ok false) n
    end.
Proof.
  induction calls as [|[[[dt j] k] details] rest IH]; intros c job_name run_key Hf Hc Hm.
  - reflexivity.
  - simpl claim_all.
    assert (Hf' : no_faults (advance_clock dt c)) by exact Hf.
    assert (Hc' : clean (advance_clock dt c)) by exact Hc.
    rewrite (claim_job_run_eq _ j k details Hf' Hc'). simpl db.
    destruct (String.eqb j job_name && String.eqb k run_key) eqn:Hkey.
    + pose proof Hkey as Hkey'.
      apply andb_true_iff in Hkey' as [Hj Hk].
      apply String.eqb_eq in Hj, Hk. subst j k. rewrite Hm. lazy beta iota zeta.
      match goal with
      | |- context [claim_all rest ?c1] =>
          pose proof (claim_all_marked rest c1 job_name run_key eq_refl eq_refl) as Hrest;
          destruct (claim_all rest c1) as [rs c2]
      end.
      simpl db in Hrest. rewrite has_job_run_app in Hrest. simpl in Hrest.
      rewrite !String.eqb_refl, orb_true_r in Hrest. specialize (Hrest eq_refl).
      simpl. unfold call_has_key at 1 2. rewrite Hkey. simpl. rewrite Hrest. reflexivity.
    + destruct (Storage.has_job_run (db c) j k) eqn:Hjk; lazy beta iota zeta.
      * match goal with
        | |- context [claim_all rest ?c1] =>
            specialize (IH c1 job_name run_key eq_refl eq_refl Hm);
            destruct (claim_all rest c1) as [rs c2]
        end.
        simpl in *. unfold call_has_key at 1 2. rewrite Hkey. exact IH.
      * match goal with
        | |- context [claim_all rest ?c1] =>
            specialize (IH c1 job_name run_key eq_refl eq_refl);
            destruct (claim_all rest c1) as [rs c2]
        end.
        simpl db in IH. rewrite has_job_run_app, Hm in IH. simpl in IH.
        rewrite Hkey in IH. specialize (IH eq_refl).
        simpl in *. unfold call_has_key at 1 2. rewrite Hkey. exact IH.
Qed.

Lemma claim_job_run_exactly_once_witness :
  answers_for "daily_faucet" "2026-02-09"
    [(0, "daily_faucet", "2026-02-09", None);
     (5, "model_run", "cyc_1:2026020900", None);
     (1, "daily_faucet", "2026-02-09", Some [("as_of_date", JStr "2026-02-09")]);
     (86400000000, "daily_faucet", "2026-02-10", None);
     (0, "daily_faucet", "2026-02-09", None)]
    (fst (claim_all
       [(0, "daily_faucet", "2026-02-09", None);
        (5, "model_run", "cyc_1:2026020900", None);
        (1, "daily_faucet", "2026-02-09", Some [("as_of_date", JStr "2026-02-09")]);
        (86400000000, "daily_faucet", "2026-02-10", None);
        (0, "daily_faucet", "2026-02-09", None)]
       (connect 1770595200000000)))
  = [Ok true; Ok false; Ok false].
Proof.
  apply (claim_job_run_exactly_once
           [(0, "daily_faucet", "2026-02-09", None);
            (5, "model_run", "cyc_1:2026020900", None);
            (1, "daily_faucet", "2026-02-09", Some [("as_of_date", JStr "2026-02-09")]);
            (86400000000, "daily_faucet", "2026-02-10", None);
            (0, "daily_faucet", "2026-02-09", None)]
           (connect 1770595200000000) "daily_faucet" "2026-02-09");
    reflexivity.
Defined.

(** ** Forced job runs *)



(** Both databases hold the job markers [J], no failure is planned and the
    clock shows [t]. *)
Definition job_runs_at (J : list JobRun.t) (t : Z) (c : Conn) : Prop :=
  job_runs (committed c) = J /\ job_runs (db c) = J /\ fault_plan c = [] /\ clock c = t.

#[global] Instance job_runs_at_framed J t :
  Framed (job_runs_at J t) (fun _ d => job_runs d = J) (fun plan => plan = [])
    (fun t' => t' = t).
Proof.
  split.
  - intros c. unfold job_runs_at. tauto.
  - auto.
  - intros plan ->. reflexivity.
Qed.






(** A connection on 2026-02-09 with one user who signed up three days
    earlier. *)
Definition faucet_day : Conn :=
  advance_clock (3 * 86400 * 1000000)
    (snd (Storage.create_user "Alice" "alice@example.com" "HUMAN" None None
            (connect 1770336000000000))).



(** ** The gates of [MarketService.apply_curation_rewards] *)

Lemma execute_query_eq {A} (q : DB -> A) c :
  no_faults c -> query q c = (Ok (q (db c)), c).
Proof.
  unfold no_faults, query, _execute. destruct c as [cm d t n plan]. simpl.
  intros ->. reflexivity.
Qed.

Lemma get_cycle_eq c cycle_id :
  no_faults c ->
  Storage.get_cycle cycle_id c
  = match List.find (fun cy => String.eqb (Cycle.id cy) cycle_id) (cycles (db c)) with
    | Some cy => (Ok cy, c)
    | None => (Raise (KeyError "Cycle not found"), c)
    end.
Proof.
  intros Hf. unfold Storage.get_cycle, bind. rewrite (execute_query_eq _ c Hf).
  destruct (List.find _ _); reflexivity.
Qed.

(** C10. [MarketService.apply_curation_rewards] looks at the cycle before
    it awards anything.  For a cycle that is not SETTLED it answers
    [awarded = false] with reason "cycle_not_settled"; for a SETTLED cycle,
    called without [force] while less than [min_age_hours] have passed since
    [closed_at], it answers [awarded = false] with reason "wait_window".  In
    both cases the connection is left as it was: nothing is written. *)
Theorem apply_curation_rewards_gates c cycle_id cycle min_age_hours force :
  no_faults c ->
  List.find (fun cy => String.eqb (Cycle.id cy) cycle_id) (cycles (db c)) = Some cycle ->
  (Cycle.status cycle <> SETTLED ->
   MarketService.apply_curation_rewards cycle_id min_age_hours force c
   = (Ok (MarketService.Award.mk false "cycle_not_settled" []), c))
  /\ (forall closed_at,
        Cycle.status cycle = SETTLED ->
        Cycle.closed_at cycle = Some closed_at ->
        force = false ->
        -999999999 <= min_age_hours / 24 <= 999999999 ->
        clock c - closed_at * Date.MICROSECONDS_PER_SECOND
          < min_age_hours * Date.SECONDS_PER_HOUR * Date.MICROSECONDS_PER_SECOND ->
        MarketService.apply_curation_rewards cycle_id min_age_hours force c
        = (Ok (MarketService.Award.mk false "wait_window" []), c)).
Proof.
  intros Hf Hfind. unfold MarketService.apply_curation_rewards, bind.
  rewrite (get_cycle_eq c cycle_id Hf), Hfind. split.
  - intros Hst. destruct (Cycle.status cycle); [reflexivity | congruence].
  - intros closed_at Hst Hcl -> Hrange Hlt. rewrite Hst, Hcl.
    unfold _now, lift, Date.timedelta_hours, ret.
    destruct Hrange as [Hlo Hhi].
    apply Z.leb_le in Hlo, Hhi. rewrite Hlo, Hhi.
    cbv beta iota delta [negb andb CycleStatus_eqb].
    apply Z.ltb_lt in Hlt. rewrite Hlt. reflexivity.
Qed.

Definition open_cycle_day : Conn :=
  snd (Storage.create_cycle (Some "2026-02-06") (connect 1770336000000000)).

Definition settled_cycle_day : Conn :=
  advance_clock (23 * 3600 * 1000000)
    (snd (MarketService.settle_cycle "cyc_0" [] open_cycle_day)).

Lemma apply_curation_rewards_gates_witness :
  MarketService.apply_curation_rewards "cyc_0" 24 false open_cycle_day
  = (Ok (MarketService.Award.mk false "cycle_not_settled" []), open_cycle_day)
  /\ MarketService.apply_curation_rewards "cyc_0" 24 false settled_cycle_day
     = (Ok (MarketService.Award.mk false "wait_window" []), settled_cycle_day).
Proof.
  split.
  - apply (proj1 (apply_curation_rewards_gates open_cycle_day "cyc_0"
                      (Cycle.mk "cyc_0" 20490 OPEN 1770336000 None) 24 false
                      eq_refl eq_refl)).
    discriminate.
  - apply (proj2 (apply_curation_rewards_gates settled_cycle_day "cyc_0"
                      (Cycle.mk "cyc_0" 20490 SETTLED 1770336000 (Some 1770336000))
                      24 false eq_refl eq_refl) 1770336000);
      [reflexivity | reflexivity | reflexivity | vm_compute; split; discriminate
      | reflexivity].
Defined.


(** ** Candidate submission *)

(** The identifier drawn when [n] were drawn before. *)
Definition drawn_id (prefix : string) (n : nat) : string := prefix +:+ "_" +:+ pretty n.

Lemma drawn_id_inj prefix n m : drawn_id prefix n = drawn_id prefix m -> n = m.
Proof.
  unfold drawn_id. induction prefix as [|ch prefix IH]; simpl.
  - intros H. injection H as H. exact (inj pretty n m H).
  - intros H. injection H as H. apply IH, H.
Qed.

(** The candidate ids in the table are not among those still to be drawn. *)
Definition candidate_ids_drawn (c : Conn) : Prop :=
  forall cand n, In cand (candidate_links (db c)) -> (next_id c <= n)%nat ->
    CandidateLink.id cand <> drawn_id "lnk" n.

(** The rows of [candidate_links] for a canonical URL in a cycle. *)
Definition records_for (d : DB) (cycle_id canonical : string) : list CandidateLink.t :=
  List.filter (fun x => String.eqb (CandidateLink.cycle_id x) cycle_id
                        && String.eqb (CandidateLink.canonical_url x) canonical)
    (candidate_links d).

Lemma find_none_iff {A} (f : A -> bool) (l : list A) :
  List.find f l = None <-> forall x, In x l -> f x = false.
Proof.
  split.
  - intros H x Hx. exact (find_none f l H x Hx).
  - induction l as [|y l IH]; intros H; [reflexivity|]. simpl.
    rewrite (H y (or_introl eq_refl)). apply IH. intros x Hx. apply H. right. exact Hx.
Qed.

Lemma find_app_last {A} (f : A -> bool) (l : list A) (x : A) :
  List.find f l = None -> f x = true -> List.find f (l ++ [x]) = Some x.
Proof.
  induction l as [|y l IH]; simpl; intros Hn Hx.
  - rewrite Hx. reflexivity.
  - destruct (f y); [discriminate | apply IH; assumption].
Qed.

Lemma find_app_none {A} (f : A -> bool) (l : list A) (x : A) :
  List.find f l = None -> f x = false -> List.find f (l ++ [x]) = None.
Proof.
  induction l as [|y l IH]; simpl; intros Hn Hx.
  - rewrite Hx. reflexivity.
  - destruct (f y); [discriminate | apply IH; assumption].
Qed.

Lemma filter_find_none {A} (f : A -> bool) (l : list A) :
  List.find f l = None -> List.filter f l = [].
Proof.
  induction l as [|y l IH]; simpl; [reflexivity|].
  destruct (f y); [discriminate | exact IH].
Qed.

(** A first submission of a canonical URL inserts the row and returns it. *)
Lemma create_candidate_new c cycle_id user_id url title canonical domain :
  no_faults c -> clean c -> candidate_ids_drawn c ->
  Url.canonicalize_url url = Ok canonical ->
  Url.extract_domain canonical = Ok domain ->
  Storage.cycle_exists (db c) cycle_id = true ->
  Storage.user_exists (db c) user_id = true ->
  Storage.candidate_by_canonical (db c) cycle_id canonical = None ->
  let cand := CandidateLink.mk (drawn_id "lnk" (next_id c)) cycle_id user_id url canonical
                domain title (clock c / Date.MICROSECONDS_PER_SECOND) in
  let d := set_candidate_links (candidate_links (db c) ++ [cand]) (db c) in
  Storage.create_candidate cycle_id user_id url title c
  = (Ok cand, mkConn d d (clock c) (S (next_id c)) []).
Proof.
  unfold no_faults, clean, candidate_ids_drawn.
  destruct c as [cm d t n plan]. simpl. intros -> -> Hids Hcan Hdom Hcy Hus Hnone.
  unfold Storage.create_candidate, Storage.get_candidate, Storage.insert_candidate,
    with_conn, try_except, query, _execute, bind, _id, lift, _now_iso, ret.
  simpl. rewrite Hcan, Hdom. simpl. rewrite Hcy, Hus, Hnone. simpl.
  fold (drawn_id "lnk" n).
  rewrite find_app_last; [reflexivity | | simpl; apply String.eqb_refl].
  apply find_none_iff. intros x Hx. apply String.eqb_neq. apply (Hids x n Hx). lia.
Qed.

(** A submission whose canonical URL is already a candidate of the cycle
    returns the stored row and changes no table. *)
Lemma create_candidate_existing c cycle_id user_id url title canonical domain cand :
  no_faults c -> clean c ->
  Url.canonicalize_url url = Ok canonical ->
  Url.extract_domain canonical = Ok domain ->
  Storage.candidate_by_canonical (db c) cycle_id canonical = Some cand ->
  Storage.create_candidate cycle_id user_id url title c
  = (Ok cand, mkConn (db c) (db c) (clock c) (S (next_id c)) []).
Proof.
  unfold no_faults, clean.
  destruct c as [cm d t n plan]. simpl. intros -> -> Hcan Hdom Hsome.
  unfold Storage.create_candidate, Storage.get_candidate, Storage.insert_candidate,
    with_conn, try_except, query, _execute, bind, _id, lift, _now_iso, ret, raise.
  simpl. rewrite Hcan, Hdom. simpl. rewrite Hsome. rewrite !orb_true_r. simpl.
  rewrite Hsome. reflexivity.
Qed.

Lemma filter_nil_find {A} (f : A -> bool) (l : list A) :
  List.filter f l = [] -> List.find f l = None.
Proof.
  induction l as [|y l IH]; simpl; [reflexivity|].
  destruct (f y); [discriminate | exact IH].
Qed.

Lemma user_exists_set_candidate_links v d user_id :
  Storage.user_exists (set_candidate_links v d) user_id = Storage.user_exists d user_id.
Proof. reflexivity. Qed.

Lemma cycle_exists_set_candidate_links v d cycle_id :
  Storage.cycle_exists (set_candidate_links v d) cycle_id = Storage.cycle_exists d cycle_id.
Proof. reflexivity. Qed.

(** C9. Candidate submission dedupes by canonical URL within a cycle: two
    submissions whose URLs have the same canonical form return the same
    record, and the cycle holds exactly one row for that form; a submission
    with another canonical form creates a second, distinct record.  The
    URLs are ASCII text: for such text [canonicalize_url] above computes
    the canonical form the code computes, percent escapes that are not
    UTF-8 and bracketed hosts included. *)
Theorem create_candidate_dedupes_by_canonical_url
    c cycle_id user1 user2 user3 url1 url2 url3 title1 title2 title3
    canonical domain canonical3 domain3 dt1 dt2 :
  no_faults c -> clean c -> candidate_ids_drawn c ->
  Py.isascii url1 = true -> Py.isascii url2 = true -> Py.isascii url3 = true ->
  Storage.cycle_exists (db c) cycle_id = true ->
  Storage.user_exists (db c) user1 = true ->
  Storage.user_exists (db c) user3 = true ->
  Url.canonicalize_url url1 = Ok canonical ->
  Url.canonicalize_url url2 = Ok canonical ->
  Url.extract_domain canonical = Ok domain ->
  Url.canonicalize_url url3 = Ok canonical3 ->
  Url.extract_domain canonical3 = Ok domain3 ->
  canonical3 <> canonical ->
  records_for (db c) cycle_id canonical = [] ->
  records_for (db c) cycle_id canonical3 = [] ->
  let '(r1, c1) := Storage.create_candidate cycle_id user1 url1 title1 c in
  let '(r2, c2) :=
    Storage.create_candidate cycle_id user2 url2 title2 (advance_clock dt1 c1) in
  let '(r3, c3) :=
    Storage.create_candidate cycle_id user3 url3 title3 (advance_clock dt2 c2) in
  exists a b,
    r1 = Ok a /\ r2 = Ok a /\ r3 = Ok b
    /\ CandidateLink.id a <> CandidateLink.id b
    /\ records_for (db c2) cycle_id canonical = [a]
    /\ records_for (db c3) cycle_id canonical = [a]
    /\ records_for (db c3) cycle_id canonical3 = [b].
Proof.
  intros Hf Hc Hids _ _ _ Hcy Hu1 Hu3 Hcan1 Hcan2 Hdom Hcan3 Hdom3 Hne Hrec Hrec3.
  pose proof (filter_nil_find _ _ Hrec) as Hnone.
  pose proof (filter_nil_find _ _ Hrec3) as Hnone3.
  rewrite (create_candidate_new c cycle_id user1 url1 title1 canonical domain
             Hf Hc Hids Hcan1 Hdom Hcy Hu1 Hnone).
  cbv zeta.
  set (a := CandidateLink.mk (drawn_id "lnk" (next_id c)) cycle_id user1 url1 canonical
              domain title1 (clock c / Date.MICROSECONDS_PER_SECOND)).
  set (d1 := set_candidate_links (candidate_links (db c) ++ [a]) (db c)).
  assert (Ha : Storage.candidate_by_canonical d1 cycle_id canonical = Some a).
  { unfold Storage.candidate_by_canonical, d1. simpl.
    apply find_app_last; [exact Hnone|]. simpl. rewrite !String.eqb_refl. reflexivity. }
  rewrite (create_candidate_existing
             (advance_clock dt1 (mkConn d1 d1 (clock c) (S (next_id c)) []))
             cycle_id user2 url2 title2 canonical domain a
             eq_refl eq_refl Hcan2 Hdom Ha).
  simpl db. simpl clock. simpl next_id.
  set (c2 := advance_clock dt2 _).
  assert (Hids2 : candidate_ids_drawn c2).
  { intros x n Hx Hn. simpl in Hx, Hn. apply in_app_or in Hx as [Hx|[<-|[]]].
    - apply (Hids x n Hx). lia.
    - simpl. intros Heq. apply drawn_id_inj in Heq. lia. }
  assert (Hnone3' : Storage.candidate_by_canonical (db c2) cycle_id canonical3 = None).
  { unfold Storage.candidate_by_canonical. simpl.
    apply find_app_none; [exact Hnone3|]. simpl.
    destruct (String.eqb_spec canonical canonical3) as [Heq|_];
      [congruence | apply andb_false_r]. }
  rewrite (create_candidate_new c2 cycle_id user3 url3 title3 canonical3 domain3
             eq_refl eq_refl Hids2 Hcan3 Hdom3 Hcy Hu3 Hnone3').
  cbv zeta.
  eexists a, _. repeat split.
  - simpl. intros Heq. apply drawn_id_inj in Heq. lia.
  - unfold records_for. simpl. rewrite List.filter_app. fold (records_for (db c) cycle_id canonical).
    rewrite Hrec. simpl. rewrite !String.eqb_refl. reflexivity.
  - unfold records_for. simpl. rewrite !List.filter_app.
    fold (records_for (db c) cycle_id canonical).
    rewrite Hrec. simpl. rewrite !String.eqb_refl. simpl.
    destruct (String.eqb_spec canonical3 canonical) as [Heq|_]; [congruence|].
    reflexivity.
  - unfold records_for. simpl. rewrite !List.filter_app.
    fold (records_for (db c) cycle_id canonical3).
    rewrite Hrec3. simpl. rewrite !String.eqb_refl. simpl.
    destruct (String.eqb_spec canonical canonical3) as [Heq|_]; [congruence|].
    rewrite ?andb_false_r. reflexivity.
Qed.

(** A connection with a user and an open cycle. *)
Definition submission_day : Conn :=
  snd (Storage.create_cycle (Some "2026-02-06")
         (snd (Storage.create_user "Alice" "alice@example.com" "HUMAN" None None
                 (connect 1770336000000000)))).

Lemma create_candidate_dedupes_by_canonical_url_witness :
  (let '(r1, c1) :=
     Storage.create_candidate "cyc_2" "usr_0" "https://example.com/a?utm_source=x" "A"
       submission_day in
   let '(r2, c2) :=
     Storage.create_candidate "cyc_2" "usr_0" "https://example.com/a?utm_campaign=y" "A"
       (advance_clock 1000000 c1) in
   let '(r3, c3) :=
     Storage.create_candidate "cyc_2" "usr_0" "https://example.com/b" "B"
       (advance_clock 1000000 c2) in
   exists a b,
     r1 = Ok a /\ r2 = Ok a /\ r3 = Ok b
     /\ CandidateLink.id a <> CandidateLink.id b
     /\ records_for (db c2) "cyc_2" "https://example.com/a" = [a]
     /\ records_for (db c3) "cyc_2" "https://example.com/a" = [a]
     /\ records_for (db c3) "cyc_2" "https://example.com/b" = [b])
  /\ (let '(r1, c1) :=
        Storage.create_candidate "cyc_2" "usr_0" "https://example.com/a?x=%FF" "A"
          submission_day in
      let '(r2, c2) :=
        Storage.create_candidate "cyc_2" "usr_0" "https://example.com/a?x=%EF%BF%BD" "A"
          (advance_clock 1000000 c1) in
      let '(r3, c3) :=
        Storage.create_candidate "cyc_2" "usr_0" "http://[::1]:8080/a/" "B"
          (advance_clock 1000000 c2) in
      exists a b,
        r1 = Ok a /\ r2 = Ok a /\ r3 = Ok b
        /\ CandidateLink.id a <> CandidateLink.id b
        /\ records_for (db c2) "cyc_2" "https://example.com/a?x=%EF%BF%BD" = [a]
        /\ records_for (db c3) "cyc_2" "https://example.com/a?x=%EF%BF%BD" = [a]
        /\ records_for (db c3) "cyc_2" "http://[::1]:8080/a" = [b]).
Proof.
  split.
  - apply (create_candidate_dedupes_by_canonical_url submission_day "cyc_2"
             "usr_0" "usr_0" "usr_0"
             "https://example.com/a?utm_source=x" "https://example.com/a?utm_campaign=y"
             "https://example.com/b" "A" "A" "B"
             "https://example.com/a" "example.com" "https://example.com/b" "example.com"
             1000000 1000000);
      try reflexivity.
    + intros cand n [].
    + discriminate.
  - apply (create_candidate_dedupes_by_canonical_url submission_day "cyc_2"
             "usr_0" "usr_0" "usr_0"
             "https://example.com/a?x=%FF" "https://example.com/a?x=%EF%BF%BD"
             "http://[::1]:8080/a/" "A" "A" "B"
             "https://example.com/a?x=%EF%BF%BD" "example.com"
             "http://[::1]:8080/a" "[::1]:8080"
             1000000 1000000);
      try reflexivity.
    + intros cand n [].
    + discriminate.
Defined.

(** Bytes of a percent escape that are not UTF-8 are read as U+FFFD, and
    what stands between brackets in the authority has to be an address. *)
Example canonicalize_url_examples :
  Url.canonicalize_url "https://example.com/a?x=%FF"
  = Ok "https://example.com/a?x=%EF%BF%BD"
  /\ Url.canonicalize_url "http://[zz]/a"
     = Raise (ValueError "'zz' does not appear to be an IPv4 or IPv6 address")
  /\ Url.canonicalize_url "http://[1.2.3.4]/a"
     = Raise (ValueError "An IPv4 address cannot be in brackets")
  /\ Url.canonicalize_url "HTTP://[::1]:8080/a/" = Ok "http://[::1]:8080/a"
  /\ Url.canonicalize_url "example.com/a" = Ok "https:///example.com/a".
Proof. vm_compute. repeat split; reflexivity. Qed.

(** White space outside ASCII is stripped as well. *)
Example strip_unicode_white_space :
  Py.strip (Py.utf8 0xA0 +:+ Py.utf8 0x2003 +:+ " " +:+ Py.utf8 0x85) = ""
  /\ Py.strip (Py.utf8 0x3000 +:+ "a b" +:+ Py.utf8 0x2028) = "a b".
Proof. vm_compute. split; reflexivity. Qed.


(** ** The stable sort *)

Section SortFacts.
Context {A : Type} (le : A -> A -> bool).

Lemma insert_sorted_perm x l : Permutation (Py.insert_sorted le x l) (x :: l).
Proof.
  induction l as [|y l IH]; simpl; [reflexivity|].
  destruct (le x y); [reflexivity|].
  rewrite IH. apply perm_swap.
Qed.

Lemma sort_perm l : Permutation (Py.sort le l) l.
Proof.
  induction l as [|x l IH]; simpl; [reflexivity|].
  rewrite insert_sorted_perm. apply perm_skip, IH.
Qed.

(** The output is in the order [R] when [R] is transitive, holds where
    [le] answers true and holds the other way round where it answers
    false. *)
Context (R : A -> A -> Prop).
Hypothesis R_trans : forall a b c, R a b -> R b c -> R a c.
Hypothesis le_true : forall a b, le a b = true -> R a b.
Hypothesis le_false : forall a b, le a b = false -> R b a.

Lemma insert_sorted_sorted x l :
  StronglySorted R l -> StronglySorted R (Py.insert_sorted le x l).
Proof.
  induction 1 as [|y l Hs IH Hy]; simpl.
  - constructor; constructor.
  - destruct (le x y) eqn:Hxy.
    + constructor; [constructor; assumption|].
      constructor; [exact (le_true _ _ Hxy)|].
      eapply Forall_impl; [exact Hy|]. intros z Hz.
      exact (R_trans _ _ _ (le_true _ _ Hxy) Hz).
    + constructor; [exact IH|].
      eapply Permutation_Forall; [symmetry; apply insert_sorted_perm|].
      constructor; [exact (le_false _ _ Hxy) | assumption].
Qed.

Lemma sort_sorted l : StronglySorted R (Py.sort le l).
Proof.
  induction l as [|x l IH]; simpl; [constructor | apply insert_sorted_sorted, IH].
Qed.

End SortFacts.

(** ** The settlement leaderboard *)

Import MarketService.

(** The pair an entry is ranked by. *)
Definition entry_key (e : SettlementEntry.t) : Z * Z :=
  (SettlementEntry.reward_chips e, SettlementEntry.correct_count e).

(** 0-based position of the first item whose pair is [k]. *)
Fixpoint first_position {X} (key : X -> Z * Z) (k : Z * Z) (l : list X) : nat :=
  match l with
  | [] => O
  | x :: r => if key_eqb (key x) k then O else S (first_position key k r)
  end.

(** Descending order of the pairs: a later item never has a greater one. *)
Definition descending {X} (key : X -> Z * Z) (l : list X) : Prop :=
  StronglySorted (fun a b => key_le (key b) (key a) = true) l.

Lemma key_eqb_eq a b : key_eqb a b = true <-> a = b.
Proof.
  destruct a as [a1 a2], b as [b1 b2]. unfold key_eqb. simpl.
  rewrite andb_true_iff, !Z.eqb_eq. split; [intros [-> ->]; reflexivity|].
  intros H. injection H as -> ->. auto.
Qed.

Lemma key_le_total a b : key_le a b = true \/ key_le b a = true.
Proof.
  unfold key_le.
  destruct (Z.ltb_spec (fst a) (fst b)); [left; reflexivity|].
  destruct (Z.ltb_spec (fst b) (fst a)); [right; reflexivity|].
  assert (fst a = fst b) as -> by lia. rewrite Z.eqb_refl. simpl.
  destruct (Z.leb_spec (snd a) (snd b)); [left; reflexivity|].
  right. apply Z.leb_le. lia.
Qed.

Lemma key_le_trans a b c : key_le a b = true -> key_le b c = true -> key_le a c = true.
Proof.
  unfold key_le. rewrite !orb_true_iff, !andb_true_iff, !Z.ltb_lt, !Z.eqb_eq, !Z.leb_le.
  lia.
Qed.

Lemma key_le_antisym a b : key_le a b = true -> key_le b a = true -> a = b.
Proof.
  destruct a as [a1 a2], b as [b1 b2]. unfold key_le. simpl.
  rewrite !orb_true_iff, !andb_true_iff, !Z.ltb_lt, !Z.eqb_eq, !Z.leb_le.
  intros H1 H2. f_equal; lia.
Qed.

Lemma sort_by_score_descending rows :
  descending score_key (Py.sort by_score_desc rows).
Proof.
  apply (sort_sorted by_score_desc).
  - intros a b c H1 H2. exact (key_le_trans _ _ _ H2 H1).
  - intros a b H. exact H.
  - intros a b H. unfold by_score_desc in H.
    destruct (key_le_total (score_key b) (score_key a)); congruence.
Qed.

Lemma first_position_app_in {X} (key : X -> Z * Z) k l1 l2 :
  (exists x, In x l1 /\ key x = k) ->
  first_position key k (l1 ++ l2) = first_position key k l1.
Proof.
  induction l1 as [|y l1 IH]; intros (x & Hx & Hk); [destruct Hx|].
  simpl. destruct (key_eqb (key y) k) eqn:Hy; [reflexivity|].
  f_equal. apply IH. destruct Hx as [->|Hx].
  - apply key_eqb_eq in Hk. congruence.
  - exists x. auto.
Qed.

Lemma first_position_app_notin {X} (key : X -> Z * Z) k l1 l2 :
  (forall x, In x l1 -> key x <> k) ->
  first_position key k (l1 ++ l2) = (length l1 + first_position key k l2)%nat.
Proof.
  induction l1 as [|y l1 IH]; intros Hn; [reflexivity|].
  simpl. destruct (key_eqb (key y) k) eqn:Hy.
  - apply key_eqb_eq in Hy. exfalso. apply (Hn y); [left; reflexivity | exact Hy].
  - f_equal. apply IH. intros x Hx. apply Hn. right. exact Hx.
Qed.

Lemma first_position_map {X Y} (f : X -> Y) (key : Y -> Z * Z) k l :
  first_position key k (map f l) = first_position (fun x => key (f x)) k l.
Proof. induction l as [|x l IH]; simpl; [reflexivity|]. rewrite IH. reflexivity. Qed.

Definition entry_of (row : RankingRow) (rank : Z) : SettlementEntry.t :=
  SettlementEntry.mk (row_user_id row) (row_correct_count row) (row_reward_chips row) rank.

(** The loop, started after the rows [pre], gives each row left the
    position at which its pair first occurs. *)
Lemma assign_ranks_first_position rows : forall pre idx current_rank previous,
  descending score_key (pre ++ rows) ->
  idx = Z.of_nat (length pre) + 1 ->
  match last pre with
  | None => previous = None
  | Some l =>
      previous = Some (score_key l)
      /\ current_rank = Z.of_nat (first_position score_key (score_key l) pre) + 1
  end ->
  assign_ranks idx current_rank previous rows
  = map (fun row =>
           entry_of row
             (Z.of_nat (first_position score_key (score_key row) (pre ++ rows)) + 1))
      rows.
Proof.
  induction rows as [|row rest IH]; intros pre idx cur prev Hs Hidx Hlast; [reflexivity|].
  simpl assign_ranks. simpl map.
  set (changed := match prev with
                  | Some k => negb (key_eqb (score_key row) k)
                  | None => true
                  end).
  set (cur' := if changed then idx else cur).
  set (prev' := if changed then Some (score_key row) else prev).
  assert (Hprev' : prev' = Some (score_key row)).
  { unfold prev', changed. destruct prev as [k|]; [|reflexivity].
    destruct (key_eqb (score_key row) k) eqn:Hk; [|reflexivity].
    apply key_eqb_eq in Hk. simpl. congruence. }
  assert (Hcur' : cur' = Z.of_nat (first_position score_key (score_key row) (pre ++ [row])) + 1).
  { unfold cur', changed. destruct (last pre) as [l|] eqn:Hl.
    - destruct Hlast as [-> ->].
      apply last_Some in Hl as [pre0 ->].
      destruct (key_eqb (score_key row) (score_key l)) eqn:Hk; simpl.
      + apply key_eqb_eq in Hk. rewrite Hk.
        rewrite (first_position_app_in score_key (score_key l) (pre0 ++ [l]) [row]);
          [reflexivity|].
        exists l. split; [apply in_or_app; right; left; reflexivity | reflexivity].
      + rewrite first_position_app_notin.
        * simpl. rewrite (proj2 (key_eqb_eq _ _) eq_refl). subst idx. lia.
        * intros x Hx Heq.
          unfold descending in Hs.
          apply StronglySorted_app in Hs as (Hcross & Hpre & _).
          assert (Hrl : key_le (score_key row) (score_key l) = true).
          { apply Hcross; [|left].
            apply elem_of_app. right. left. }
          assert (Hlx : key_le (score_key l) (score_key x) = true).
          { apply in_app_or in Hx as [Hx|[<-|[]]].
            - apply StronglySorted_app in Hpre as (Hin & _ & _).
              apply Hin; [apply list_elem_of_In, Hx | left].
            - destruct (key_le_total (score_key l) (score_key l)); assumption. }
          assert (score_key row = score_key l).
          { apply key_le_antisym; [exact Hrl|]. rewrite <- Heq. exact Hlx. }
          apply key_eqb_eq in H. congruence.
    - apply last_None in Hl. subst pre. subst prev. simpl.
      rewrite (proj2 (key_eqb_eq _ _) eq_refl). subst idx. reflexivity. }
  f_equal.
  - unfold entry_of. f_equal. rewrite Hcur'.
    change (pre ++ row :: rest) with (pre ++ [row] ++ rest). rewrite app_assoc.
    rewrite (first_position_app_in score_key (score_key row) (pre ++ [row]) rest);
      [reflexivity|].
    exists row. split; [apply in_or_app; right; left; reflexivity | reflexivity].
  - rewrite (IH (pre ++ [row]) (idx + 1) cur' prev').
    + rewrite <- app_assoc. reflexivity.
    + rewrite <- app_assoc. exact Hs.
    + rewrite length_app. simpl. lia.
    + rewrite last_snoc. split; [exact Hprev'|].
      rewrite Hcur'. reflexivity.
Qed.

Lemma bind_ok {A B} (m : M A) (k : A -> M B) c b c' :
  bind m k c = (Ok b, c') -> exists a c1, m c = (Ok a, c1) /\ k a c1 = (Ok b, c').
Proof.
  unfold bind. destruct (m c) as [[a|e] c1]; [|discriminate].
  intros H. exists a, c1. auto.
Qed.

Lemma rank_rows_eq rows :
  rank_rows rows
  = map (fun row =>
           entry_of row
             (Z.of_nat (first_position score_key (score_key row)
                          (Py.sort by_score_desc rows)) + 1))
      (Py.sort by_score_desc rows).
Proof.
  unfold rank_rows.
  apply (assign_ranks_first_position (Py.sort by_score_desc rows) [] 1 0 None).
  - apply sort_by_score_descending.
  - reflexivity.
  - reflexivity.
Qed.

Lemma first_position_ext {X} (key key' : X -> Z * Z) k l :
  (forall x, key x = key' x) -> first_position key k l = first_position key' k l.
Proof.
  intros H. induction l as [|x l IH]; simpl; [reflexivity|]. rewrite H, IH. reflexivity.
Qed.

Lemma settle_cycle_ranking c cycle_id winner_urls r c' :
  settle_cycle cycle_id winner_urls c = (Ok r, c') ->
  exists t, Settlement.ranking r = leaderboard t.
Proof.
  unfold settle_cycle. intros H.
  apply bind_ok in H as (candidates & c1 & _ & H).
  apply bind_ok in H as (urls & c2 & _ & H).
  apply bind_ok in H as (u & c3 & _ & H).
  apply bind_ok in H as (picks & c4 & _ & H).
  apply bind_ok in H as (u' & c5 & _ & H).
  unfold ret in H. injection H as <- _. eexists. reflexivity.
Qed.

(** Alice and Bob rank the winning link first, Carol ranks it sixth. *)
Definition ranking_day : Conn :=
  let c := connect 1770336000000000 in
  let c := snd (Storage.create_user "Alice" "alice@example.com" "HUMAN" None None c) in
  let c := snd (Storage.create_user "Bob" "bob@example.com" "HUMAN" None None c) in
  let c := snd (Storage.create_user "Carol" "carol@example.com" "HUMAN" None None c) in
  let c := snd (Storage.create_cycle (Some "2026-02-06") c) in
  let c := snd (Storage.create_candidate "cyc_6" "usr_0" "https://example.com/a" "A" c) in
  let c := snd (Storage.create_candidate "cyc_6" "usr_0" "https://example.com/b" "B" c) in
  let c := snd (Storage.create_candidate "cyc_6" "usr_0" "https://example.com/c" "C" c) in
  let c := snd (Storage.create_candidate "cyc_6" "usr_0" "https://example.com/d" "D" c) in
  let c := snd (Storage.create_candidate "cyc_6" "usr_0" "https://example.com/e" "E" c) in
  let c := snd (Storage.create_candidate "cyc_6" "usr_0" "https://example.com/f" "F" c) in
  let c := snd (set_ranked_picks "cyc_6" "usr_0" ["lnk_7"] c) in
  let c := snd (set_ranked_picks "cyc_6" "usr_2" ["lnk_7"] c) in
  snd (set_ranked_picks "cyc_6" "usr_4"
         ["lnk_8"; "lnk_9"; "lnk_10"; "lnk_11"; "lnk_12"; "lnk_7"] c).

(** Their settlement: the pairs (20,1), (20,1), (10,1) and the ranks
    1, 1, 3. *)
Example settle_cycle_ranks_tie :
  match fst (settle_cycle "cyc_6" ["https://example.com/a?utm_source=x"] ranking_day) with
  | Ok s =>
      map (fun e => (SettlementEntry.user_id e, SettlementEntry.reward_chips e,
                     SettlementEntry.correct_count e, SettlementEntry.rank e))
        (Settlement.ranking s)
  | Raise _ => []
  end
  = [("usr_0", 20, 1, 1); ("usr_2", 20, 1, 1); ("usr_4", 10, 1, 3)].
Proof. vm_compute. reflexivity. Qed.

(** ** Python dictionaries *)

Lemma dict_get_set {V} (d : Py.dict V) k v k' :
  Py.dict_get (Py.dict_set d k v) k'
  = if String.eqb k k' then Some v else Py.dict_get d k'.
Proof.
  induction d as [|[k0 v0] d IH]; simpl.
  - destruct (String.eqb_spec k k'); reflexivity.
  - destruct (String.eqb_spec k0 k) as [->|Hne]; simpl.
    + destruct (String.eqb_spec k k'); reflexivity.
    + rewrite IH. destruct (String.eqb_spec k0 k') as [->|Hne'].
      * destruct (String.eqb_spec k k'); [congruence | reflexivity].
      * reflexivity.
Qed.

Lemma dict_get_default_add d k n k' :
  Py.dict_get_default (Py.dict_add d k n) k' 0
  = Py.dict_get_default d k' 0 + (if String.eqb k k' then n else 0).
Proof.
  unfold Py.dict_add, Py.dict_get_default at 1. rewrite dict_get_set.
  destruct (String.eqb_spec k k') as [->|Hne]; [reflexivity|].
  fold (Py.dict_get_default d k' 0). lia.
Qed.

Lemma dict_values_sum_set d k v :
  Py.sum (Py.dict_values (Py.dict_set d k v))
  = Py.sum (Py.dict_values d) - Py.dict_get_default d k 0 + v.
Proof.
  unfold Py.dict_get_default.
  induction d as [|[k0 v0] d IH]; simpl.
  - lia.
  - destruct (String.eqb_spec k0 k) as [->|Hne]; simpl.
    + lia.
    + fold (Py.dict_values d) in *. fold (Py.dict_values (Py.dict_set d k v)).
      rewrite IH. lia.
Qed.

Lemma dict_values_sum_add d k n :
  Py.sum (Py.dict_values (Py.dict_add d k n)) = Py.sum (Py.dict_values d) + n.
Proof. unfold Py.dict_add. rewrite dict_values_sum_set. lia. Qed.

(** ** Market probabilities *)

(** The weight a pick adds to its candidate. *)
Definition pick_weight (p : Pick.t) : Z := table_get RANK_WEIGHTS (Pick.rank p) 1.

(** The weight the picks add to the candidate [candidate_id]. *)
Definition weight_for (candidate_id : string) (picks : list Pick.t) : Z :=
  Py.sum (map (fun p => if String.eqb (Pick.candidate_id p) candidate_id
                        then pick_weight p else 0) picks).

(** The total weight over all picks. *)
Definition total_pick_weight (picks : list Pick.t) : Z := Py.sum (map pick_weight picks).

Lemma rank_weight_formula rank :
  table_get RANK_WEIGHTS rank 1 = if (1 <=? rank) && (rank <=? 10) then 11 - rank else 1.
Proof.
  unfold RANK_WEIGHTS. cbn [table_get].
  repeat match goal with
         | |- context [?a =? rank] =>
             destruct (Z.eqb_spec a rank) as [<-|?]; [reflexivity|]
         end.
  destruct (Z.leb_spec 1 rank); [destruct (Z.leb_spec rank 10)|]; cbn [andb]; lia.
Qed.

Lemma pick_weight_pos p : 1 <= pick_weight p.
Proof.
  unfold pick_weight. rewrite rank_weight_formula.
  destruct (Z.leb_spec 1 (Pick.rank p)); [destruct (Z.leb_spec (Pick.rank p) 10)|];
    cbn [andb]; lia.
Qed.

Lemma weight_for_cons k p picks :
  weight_for k (p :: picks)
  = (if String.eqb (Pick.candidate_id p) k then pick_weight p else 0) + weight_for k picks.
Proof. reflexivity. Qed.

Lemma total_pick_weight_cons p picks :
  total_pick_weight (p :: picks) = pick_weight p + total_pick_weight picks.
Proof. reflexivity. Qed.

Lemma rank_weight_scores_get picks : forall d k,
  Py.dict_get_default
    (fold_left (fun weights pick =>
                  Py.dict_add weights (Pick.candidate_id pick) (pick_weight pick)) picks d)
    k 0
  = Py.dict_get_default d k 0 + weight_for k picks.
Proof.
  induction picks as [|p picks IH]; intros d k; cbn [fold_left].
  - change (weight_for k []) with 0. lia.
  - rewrite IH, dict_get_default_add, weight_for_cons. lia.
Qed.

Lemma rank_weight_scores_total picks : forall d,
  Py.sum (Py.dict_values
    (fold_left (fun weights pick =>
                  Py.dict_add weights (Pick.candidate_id pick) (pick_weight pick)) picks d))
  = Py.sum (Py.dict_values d) + total_pick_weight picks.
Proof.
  induction picks as [|p picks IH]; intros d; cbn [fold_left].
  - change (total_pick_weight []) with 0. lia.
  - rewrite IH, dict_values_sum_add, total_pick_weight_cons. lia.
Qed.

(** Each pick of a listed candidate is counted for exactly one candidate. *)
Lemma sum_cons x l : Py.sum (x :: l) = x + Py.sum l.
Proof. reflexivity. Qed.

Lemma weight_for_nil ids : Py.sum (map (fun k => weight_for k []) ids) = 0.
Proof.
  induction ids as [|k ids IH]; cbn [map]; [reflexivity|].
  rewrite sum_cons, IH. reflexivity.
Qed.

Lemma weight_for_cons_sum_other ids p picks :
  ~ In (Pick.candidate_id p) ids ->
  Py.sum (map (fun k => weight_for k (p :: picks)) ids)
  = Py.sum (map (fun k => weight_for k picks) ids).
Proof.
  induction ids as [|k ids IH]; intros Hn; cbn [map]; [reflexivity|].
  rewrite !sum_cons.
  rewrite IH by (intros H; apply Hn; right; exact H).
  rewrite weight_for_cons.
  destruct (String.eqb_spec (Pick.candidate_id p) k) as [Heq|_]; [|lia].
  exfalso. apply Hn. left. symmetry. exact Heq.
Qed.

Lemma weight_for_cons_sum ids p picks :
  List.NoDup ids -> In (Pick.candidate_id p) ids ->
  Py.sum (map (fun k => weight_for k (p :: picks)) ids)
  = pick_weight p + Py.sum (map (fun k => weight_for k picks) ids).
Proof.
  induction 1 as [|k ids Hk Hnd IH]; intros Hp; [destruct Hp|].
  cbn [map]. rewrite !sum_cons, weight_for_cons.
  destruct (String.eqb_spec (Pick.candidate_id p) k) as [Heq|Hne].
  - rewrite weight_for_cons_sum_other by (rewrite Heq; exact Hk). lia.
  - destruct Hp as [Hp|Hp]; [congruence|]. rewrite (IH Hp). lia.
Qed.

Lemma weight_for_sum ids picks :
  List.NoDup ids ->
  (forall p, In p picks -> In (Pick.candidate_id p) ids) ->
  Py.sum (map (fun k => weight_for k picks) ids) = total_pick_weight picks.
Proof.
  intros Hnd. induction picks as [|p picks IH]; intros Hin.
  - apply weight_for_nil.
  - rewrite weight_for_cons_sum; [|exact Hnd | apply Hin; left; reflexivity].
    rewrite IH by (intros q Hq; apply Hin; right; exact Hq).
    rewrite total_pick_weight_cons. reflexivity.
Qed.

Lemma sum_map_perm {X} (f : X -> Z) l l' :
  Permutation l l' -> Py.sum (map f l) = Py.sum (map f l').
Proof.
  induction 1 as [|x l l' _ IH|x y l|l l' l'' _ IH1 _ IH2]; cbn [map].
  - reflexivity.
  - rewrite !sum_cons, IH. reflexivity.
  - rewrite !sum_cons. lia.
  - congruence.
Qed.

Lemma qsum_cons x l : Py.qsum (x :: l) = (x + Py.qsum l)%Q.
Proof. reflexivity. Qed.

Lemma qsum_perm l l' : Permutation l l' -> (Py.qsum l == Py.qsum l')%Q.
Proof.
  induction 1 as [|x l l' _ IH|x y l|l l' l'' _ IH1 _ IH2].
  - reflexivity.
  - rewrite !qsum_cons, IH. reflexivity.
  - rewrite !qsum_cons. ring.
  - rewrite IH1. exact IH2.
Qed.

Lemma qsum_ratio {X} (score : X -> Z) total l :
  (Py.qsum (map (fun x => ratio (score x) total) l)
   == ratio (Py.sum (map score l)) total)%Q.
Proof.
  induction l as [|x l IH]; cbn [map].
  - unfold ratio. cbn [Py.qsum Py.sum fold_right]. unfold Qdiv. ring.
  - rewrite qsum_cons, sum_cons, IH. unfold ratio, Qdiv. rewrite inject_Z_plus. ring.
Qed.

Lemma ratio_self total : 0 < total -> (ratio total total == 1)%Q.
Proof.
  intros H. unfold ratio, Qdiv. apply Qmult_inv_r.
  intros Heq. unfold Qeq in Heq. simpl in Heq. lia.
Qed.

(** The row [market_probabilities] makes for a candidate. *)
Definition market_row (weights : Py.dict Z) (total_weight : Z) (candidate : CandidateLink.t)
    : MarketRow.t :=
  let score := Py.dict_get_default weights (CandidateLink.id candidate) 0 in
  MarketRow.mk (CandidateLink.id candidate) (CandidateLink.original_url candidate)
    (CandidateLink.domain candidate) score
    (if 0 <? total_weight then ratio score total_weight else 0%Q).

Lemma market_probabilities_eq candidates picks :
  market_probabilities candidates picks
  = Py.sort by_market_probability_desc
      (map (market_row (rank_weight_scores picks) (total_pick_weight picks)) candidates).
Proof.
  unfold market_probabilities, market_row.
  replace (Py.sum (Py.dict_values (rank_weight_scores picks))) with (total_pick_weight picks);
    [reflexivity|].
  symmetry. exact (rank_weight_scores_total picks []).
Qed.

Lemma market_row_score picks total candidate :
  MarketRow.rank_weight_score (market_row (rank_weight_scores picks) total candidate)
  = weight_for (CandidateLink.id candidate) picks.
Proof.
  exact (rank_weight_scores_get picks [] (CandidateLink.id candidate)).
Qed.

(** The probabilities of the candidates add up to one when some pick has
    weight, for candidates with distinct ids that include every picked one. *)
Lemma market_probabilities_sum candidates picks :
  List.NoDup (map CandidateLink.id candidates) ->
  (forall p, In p picks -> In (Pick.candidate_id p) (map CandidateLink.id candidates)) ->
  0 < total_pick_weight picks ->
  (Py.qsum (map MarketRow.market_probability (market_probabilities candidates picks))
   == 1)%Q.
Proof.
  intros Hnd Hin Hpos. rewrite market_probabilities_eq.
  rewrite (qsum_perm _ _ (Permutation_map _ (sort_perm _ _))).
  rewrite map_map.
  assert (Hrow : forall cand,
            MarketRow.market_probability
              (market_row (rank_weight_scores picks) (total_pick_weight picks) cand)
            = ratio (weight_for (CandidateLink.id cand) picks) (total_pick_weight picks)).
  { intros cand. pose proof (market_row_score picks (total_pick_weight picks) cand) as Hs.
    unfold market_row in *. cbn [MarketRow.market_probability MarketRow.rank_weight_score] in *.
    rewrite Hs. apply Z.ltb_lt in Hpos. rewrite Hpos. reflexivity. }
  rewrite (map_ext _ _ Hrow).
  rewrite (qsum_ratio (fun cand => weight_for (CandidateLink.id cand) picks)).
  rewrite <- (map_map CandidateLink.id (fun k => weight_for k picks)).
  rewrite (weight_for_sum _ picks Hnd Hin).
  apply ratio_self, Hpos.
Qed.

Lemma list_candidates_eq c cycle_id :
  no_faults c ->
  Storage.list_candidates cycle_id c
  = (Ok (Py.sort Storage.by_created (Storage.candidates_of (db c) cycle_id)), c).
Proof. intros Hf. unfold Storage.list_candidates. apply execute_query_eq, Hf. Qed.

Lemma list_picks_eq c cycle_id :
  no_faults c ->
  Storage.list_picks cycle_id c
  = (Ok (Py.sort Storage.by_picked_rank
           (List.filter (fun p => String.eqb (Pick.cycle_id p) cycle_id) (picks (db c)))), c).
Proof. intros Hf. unfold Storage.list_picks. apply execute_query_eq, Hf. Qed.

(** C7. [compute_market_probabilities] gives a pick the weight 11 - rank for
    the ranks 1..10 and 1 for any other rank, sums these weights per
    candidate and divides by the total over all picks of the cycle.  The
    probabilities over all candidates of the cycle, those without a pick
    included, add up to 1 when the total weight is positive and are all 0
    when it is zero.  (The quotients are exact rationals here; the code's
    floats carry their rounding, the spec's "floating tolerance".) *)
Theorem market_probabilities_normalized c cycle_id :
  no_faults c ->
  List.NoDup (map CandidateLink.id (Storage.candidates_of (db c) cycle_id)) ->
  (forall p, In p (picks (db c)) -> Pick.cycle_id p = cycle_id ->
     In (Pick.candidate_id p)
        (map CandidateLink.id (Storage.candidates_of (db c) cycle_id))) ->
  let cycle_picks :=
    List.filter (fun p => String.eqb (Pick.cycle_id p) cycle_id) (picks (db c)) in
  let total := total_pick_weight cycle_picks in
  (forall p, pick_weight p
             = if (1 <=? Pick.rank p) && (Pick.rank p <=? 10) then 11 - Pick.rank p else 1)
  /\ exists rows,
       compute_market_probabilities cycle_id c = (Ok rows, c)
       /\ Permutation (map MarketRow.candidate_id rows)
            (map CandidateLink.id (Storage.candidates_of (db c) cycle_id))
       /\ (forall row, In row rows ->
             MarketRow.rank_weight_score row
             = weight_for (MarketRow.candidate_id row) cycle_picks
             /\ MarketRow.market_probability row
                = if 0 <? total then ratio (MarketRow.rank_weight_score row) total
                  else 0%Q)
       /\ (0 < total -> (Py.qsum (map MarketRow.market_probability rows) == 1)%Q)
       /\ (total = 0 ->
           forall row, In row rows -> MarketRow.market_probability row = 0%Q).
Proof.
  intros Hf Hnd Hin cycle_picks total.
  split; [intros p; apply rank_weight_formula|].
  set (cands := Py.sort Storage.by_created (Storage.candidates_of (db c) cycle_id)).
  set (sorted_picks := Py.sort Storage.by_picked_rank cycle_picks).
  assert (Hpc : Permutation cands (Storage.candidates_of (db c) cycle_id))
    by apply sort_perm.
  assert (Hpp : Permutation sorted_picks cycle_picks) by apply sort_perm.
  assert (Htotal : total_pick_weight sorted_picks = total)
    by (apply sum_map_perm, Hpp).
  assert (Hweight : forall k, weight_for k sorted_picks = weight_for k cycle_picks)
    by (intros k; apply sum_map_perm, Hpp).
  exists (market_probabilities cands sorted_picks).
  assert (Hrows : forall row, In row (market_probabilities cands sorted_picks) ->
            exists cand, In cand cands
              /\ row = market_row (rank_weight_scores sorted_picks) total cand).
  { intros row Hrow. rewrite market_probabilities_eq, Htotal in Hrow.
    apply (Permutation_in _ (sort_perm _ _)) in Hrow.
    apply in_map_iff in Hrow as (cand & <- & Hcand). exists cand. auto. }
  split; [|split; [|split; [|split]]].
  - unfold compute_market_probabilities, bind.
    rewrite (list_candidates_eq c cycle_id Hf), (list_picks_eq c cycle_id Hf). reflexivity.
  - rewrite market_probabilities_eq.
    rewrite (Permutation_map _ (sort_perm _ _)), map_map. cbn [market_row MarketRow.candidate_id].
    apply Permutation_map, Hpc.
  - intros row Hrow. destruct (Hrows row Hrow) as (cand & _ & ->).
    split; [|reflexivity].
    rewrite market_row_score. apply Hweight.
  - intros Hpos. apply market_probabilities_sum.
    + eapply Permutation_NoDup; [|exact Hnd]. apply Permutation_map. symmetry. exact Hpc.
    + intros p Hp. apply (Permutation_in _ Hpp) in Hp.
      apply filter_In in Hp as [Hp Hcy]. apply String.eqb_eq in Hcy.
      eapply Permutation_in; [|exact (Hin p Hp Hcy)].
      apply Permutation_map. symmetry. exact Hpc.
    + rewrite Htotal. exact Hpos.
  - intros Hzero row Hrow. destruct (Hrows row Hrow) as (cand & _ & ->).
    unfold market_row. cbn [MarketRow.market_probability]. rewrite Hzero. reflexivity.
Qed.

(** Checks that decide the hypotheses on a given database. *)
Fixpoint distinct (l : list string) : bool :=
  match l with
  | [] => true
  | x :: r => negb (Py.mem x r) && distinct r
  end.

Lemma mem_In x l : Py.mem x l = true <-> In x l.
Proof.
  unfold Py.mem. rewrite existsb_exists. split.
  - intros (y & Hy & Heq). apply String.eqb_eq in Heq. subst. exact Hy.
  - intros H. exists x. split; [exact H | apply String.eqb_refl].
Qed.

Lemma distinct_NoDup l : distinct l = true -> List.NoDup l.
Proof.
  induction l as [|x l IH]; simpl; intros H; constructor.
  - apply andb_true_iff in H as [H _]. intros Hin. apply mem_In in Hin.
    rewrite Hin in H. discriminate.
  - apply IH. apply andb_true_iff in H as [_ H]. exact H.
Qed.

Definition picks_name_candidates (d : DB) (cycle_id : string) : bool :=
  forallb (fun p => negb (String.eqb (Pick.cycle_id p) cycle_id)
                    || Py.mem (Pick.candidate_id p)
                         (map CandidateLink.id (Storage.candidates_of d cycle_id)))
    (picks d).

Lemma picks_name_candidates_spec d cycle_id :
  picks_name_candidates d cycle_id = true ->
  forall p, In p (picks d) -> Pick.cycle_id p = cycle_id ->
    In (Pick.candidate_id p) (map CandidateLink.id (Storage.candidates_of d cycle_id)).
Proof.
  unfold picks_name_candidates. rewrite forallb_forall. intros H p Hp Hcy.
  specialize (H p Hp). rewrite Hcy, String.eqb_refl in H. simpl in H.
  apply mem_In, H.
Qed.

(** Two users rank three candidates: Alice picks A then B, Bob picks A
    then C. *)
Definition market_day : Conn :=
  let c := connect 1770336000000000 in
  let c := snd (Storage.create_user "Alice" "alice@example.com" "HUMAN" None None c) in
  let c := snd (Storage.create_user "Bob" "bob@example.com" "HUMAN" None None c) in
  let c := snd (Storage.create_cycle (Some "2026-02-06") c) in
  let c := snd (Storage.create_candidate "cyc_4" "usr_0" "https://example.com/a" "A" c) in
  let c := snd (Storage.create_candidate "cyc_4" "usr_0" "https://example.com/b" "B" c) in
  let c := snd (Storage.create_candidate "cyc_4" "usr_2" "https://example.com/c" "C" c) in
  let c := snd (set_ranked_picks "cyc_4" "usr_0" ["lnk_5"; "lnk_6"] c) in
  snd (set_ranked_picks "cyc_4" "usr_2" ["lnk_5"; "lnk_7"] c).

Lemma market_probabilities_normalized_witness :
  exists rows,
    compute_market_probabilities "cyc_4" market_day = (Ok rows, market_day)
    /\ map MarketRow.rank_weight_score rows = [20; 9; 9]
    /\ (Py.qsum (map MarketRow.market_probability rows) == 1)%Q.
Proof.
  destruct (market_probabilities_normalized market_day "cyc_4") as (_ & rows & Hrun & _ & _ & Hsum & _).
  - vm_compute. reflexivity.
  - apply distinct_NoDup. vm_compute. reflexivity.
  - apply picks_name_candidates_spec. vm_compute. reflexivity.
  - exists rows. split; [exact Hrun|].
    assert (Hscores : exists rs,
              fst (compute_market_probabilities "cyc_4" market_day) = Ok rs
              /\ map MarketRow.rank_weight_score rs = [20; 9; 9])
      by (vm_compute; eexists; split; reflexivity).
    destruct Hscores as (rs & Hrs & Hscores). rewrite Hrun in Hrs.
    injection Hrs as <-.
    split; [exact Hscores|]. apply Hsum. vm_compute. reflexivity.
Defined.

(** ** Curation rewards *)

(** Descending order of the click counts, as the query returns its rows. *)
Definition clicks_descending (rows : list (string * Z)) : Prop :=
  StronglySorted (fun a b => snd b <= snd a) rows.

(** 0-based position of the first row with [click_count] clicks: the start
    of the run of rows tied at that count. *)
Fixpoint run_start (click_count : Z) (rows : list (string * Z)) : nat :=
  match rows with
  | [] => O
  | row :: rest => if snd row =? click_count then O else S (run_start click_count rest)
  end.

(** Number of rows tied at [click_count]. *)
Definition run_size (click_count : Z) (rows : list (string * Z)) : Z :=
  Z.of_nat (length (List.filter (fun row => snd row =? click_count) rows)).

(** The table rewards of a run that starts at rank [start_rank]: those of
    the positions it occupies, as far as the table reaches. *)
Definition run_pool (start_rank size : Z) : Z :=
  Py.sum (map (fun rank => table_get CURATION_RANK_REWARDS rank 0)
            (List.filter (table_mem CURATION_RANK_REWARDS)
               (Storage.range start_rank (Z.min (start_rank + size - 1) 3 + 1)))).

(** The reward row of an input row, by its place among all rows. *)
Definition reward_row_of (all : list (string * Z)) (row : string * Z) : Storage.RewardRow.t :=
  let start_rank := Z.of_nat (run_start (snd row) all) + 1 in
  let size := run_size (snd row) all in
  Storage.RewardRow.mk (fst row) start_rank (snd row)
    (Py.round_div (run_pool start_rank size) size).

(** An input row is rewarded when its run starts within the table. *)
Definition rewarded (all : list (string * Z)) (row : string * Z) : bool :=
  Z.of_nat (run_start (snd row) all) + 1 <=? 3.

Lemma take_ties_spec k rows :
  let '(group, rest) := Storage.take_ties k rows in
  rows = group ++ rest
  /\ Forall (fun row => snd row = k) group
  /\ match rest with [] => True | row :: _ => snd row <> k end.
Proof.
  induction rows as [|row rows IH]; simpl; [auto|].
  destruct (Z.eqb_spec (snd row) k) as [Heq|Hne].
  - destruct (Storage.take_ties k rows) as [group rest].
    destruct IH as (-> & Hg & Hr). repeat split; auto.
  - repeat split; auto.
Qed.

Lemma range_cons a b : a < b -> Storage.range a b = a :: Storage.range (a + 1) b.
Proof.
  intros H. unfold Storage.range.
  replace (Z.to_nat (b - a)) with (S (Z.to_nat (b - (a + 1)))) by lia.
  cbn [seq map]. f_equal; [lia|].
  rewrite <- seq_shift, map_map. apply map_ext. intros i. lia.
Qed.

Lemma run_start_app_notin k pre rows :
  Forall (fun row => snd row <> k) pre ->
  run_start k (pre ++ rows) = (length pre + run_start k rows)%nat.
Proof.
  induction 1 as [|row pre Hrow _ IH]; [reflexivity|].
  simpl. destruct (Z.eqb_spec (snd row) k); [contradiction|]. rewrite IH. reflexivity.
Qed.

Lemma run_size_app k l1 l2 : run_size k (l1 ++ l2) = run_size k l1 + run_size k l2.
Proof. unfold run_size. rewrite List.filter_app, length_app. lia. Qed.

Lemma run_size_none k l : Forall (fun row => snd row <> k) l -> run_size k l = 0.
Proof.
  unfold run_size. induction 1 as [|row l Hrow _ IH]; [reflexivity|].
  simpl. destruct (Z.eqb_spec (snd row) k); [contradiction | exact IH].
Qed.

Lemma run_size_all k l : Forall (fun row => snd row = k) l -> run_size k l = Z.of_nat (length l).
Proof.
  unfold run_size. induction 1 as [|row l Hrow _ IH]; [reflexivity|].
  simpl. destruct (Z.eqb_spec (snd row) k); [|contradiction]. simpl length. lia.
Qed.

Lemma filter_none {X} (f : X -> bool) l :
  (forall x, In x l -> f x = false) -> List.filter f l = [].
Proof.
  induction l as [|x l IH]; intros H; [reflexivity|]. simpl.
  rewrite (H x (or_introl eq_refl)). apply IH. intros y Hy. apply H. right. exact Hy.
Qed.

Lemma filter_all {X} (f : X -> bool) l :
  (forall x, In x l -> f x = true) -> List.filter f l = l.
Proof.
  induction l as [|x l IH]; intros H; [reflexivity|]. simpl.
  rewrite (H x (or_introl eq_refl)). f_equal. apply IH. intros y Hy. apply H. right. exact Hy.
Qed.

Lemma reward_loop_step fuel first rows' next_rank max_rank reward_rows :
  Storage.reward_loop (S fuel) (first :: rows') next_rank max_rank reward_rows
  = if negb (next_rank <=? max_rank) then reward_rows
    else
      let click_count := snd first in
      let '(tie_group, remaining) := Storage.take_ties click_count (first :: rows') in
      let size := Z.of_nat (length tie_group) in
      let start_rank := next_rank in
      let end_rank := Z.min (start_rank + size - 1) max_rank in
      let eligible_positions :=
        List.filter (table_mem CURATION_RANK_REWARDS)
          (Storage.range start_rank (end_rank + 1)) in
      match eligible_positions with
      | [] => reward_rows
      | _ =>
          let total_pool :=
            Py.sum (map (fun rank => table_get CURATION_RANK_REWARDS rank 0)
                      eligible_positions) in
          let split_reward := Py.round_div total_pool size in
          Storage.reward_loop fuel remaining (next_rank + size) max_rank
            (reward_rows
             ++ map (fun row =>
                       Storage.RewardRow.mk (fst row) start_rank click_count split_reward)
                  tie_group)
      end.
Proof. reflexivity. Qed.

(** The loop, entered after the rows [pre] of strictly more clicks, rewards
    each row left whose run starts within the table, at the start of its
    run. *)
Lemma reward_loop_spec fuel : forall rows pre reward_rows,
  clicks_descending (pre ++ rows) ->
  (length rows <= fuel)%nat ->
  (forall x y, In x pre -> In y rows -> snd y < snd x) ->
  Storage.reward_loop fuel rows (Z.of_nat (length pre) + 1) 3 reward_rows
  = reward_rows
    ++ map (reward_row_of (pre ++ rows)) (List.filter (rewarded (pre ++ rows)) rows).
Proof.
  induction fuel as [|fuel IH]; intros rows pre acc Hs Hfuel Hsep.
  - destruct rows; [|simpl in Hfuel; lia]. simpl. rewrite app_nil_r. reflexivity.
  - destruct rows as [|first rows']; [simpl; rewrite app_nil_r; reflexivity|].
    rewrite reward_loop_step.
    remember (first :: rows') as rows eqn:Hrows.
    assert (Hnotin : forall y, In y rows -> Forall (fun row => snd row <> snd y) pre).
    { intros y Hy. apply Forall_forall. intros x Hx.
      apply list_elem_of_In in Hx. specialize (Hsep x y Hx Hy). lia. }
    assert (Hstart : forall y, In y rows ->
              (length pre <= run_start (snd y) (pre ++ rows))%nat).
    { intros y Hy. rewrite run_start_app_notin by (apply Hnotin, Hy). lia. }
    destruct (Z.leb_spec (Z.of_nat (length pre) + 1) 3) as [Hle|Hgt]; cbn [negb].
    2:{ rewrite filter_none; [simpl; rewrite app_nil_r; reflexivity|].
        intros y Hy. unfold rewarded. apply Z.leb_gt.
        specialize (Hstart y Hy). lia. }
    cbv zeta.
    set (k := snd first).
    pose proof (take_ties_spec k rows) as Hties.
    destruct (Storage.take_ties k rows) as [group rest] eqn:Htake.
    destruct Hties as (Hsplit & Hgroup & Hrest).
    assert (Hfirst : exists group', group = first :: group').
    { rewrite Hrows in Htake. simpl in Htake. fold k in Htake.
      rewrite Z.eqb_refl in Htake.
      destruct (Storage.take_ties k rows') as [g r]. injection Htake as <- _. eauto. }
    destruct Hfirst as (group' & Hgroup').
    assert (Hsize : 1 <= Z.of_nat (length group)) by (rewrite Hgroup'; simpl; lia).
    set (size := Z.of_nat (length group)) in *.
    set (start_rank := Z.of_nat (length pre) + 1) in *.
    assert (Hrange : Storage.range start_rank (Z.min (start_rank + size - 1) 3 + 1)
                     = start_rank
                       :: Storage.range (start_rank + 1) (Z.min (start_rank + size - 1) 3 + 1))
      by (apply range_cons; lia).
    assert (Hmem : table_mem CURATION_RANK_REWARDS start_rank = true).
    { assert (Hcases : start_rank = 1 \/ start_rank = 2 \/ start_rank = 3) by lia.
      destruct Hcases as [->|[->| ->]]; reflexivity. }
    rewrite Hrange. cbn [List.filter]. rewrite Hmem.
    assert (Hrest_lt : forall y, In y rest -> snd y < k).
    { intros y Hy.
      assert (Hsr : clicks_descending rows)
        by (unfold clicks_descending in *; eapply StronglySorted_app_1_r, Hs).
      rewrite Hsplit in Hsr. unfold clicks_descending in Hsr.
      apply StronglySorted_app in Hsr as (Hcross & _ & Hsrest).
      destruct rest as [|r0 rest0]; [destruct Hy|].
      assert (Hr0 : snd r0 < k).
      { assert (snd r0 <= snd first).
        { apply Hcross; [rewrite Hgroup'; left | left]. }
        fold k in H. lia. }
      destruct Hy as [<-|Hy]; [exact Hr0|].
      apply StronglySorted_cons in Hsrest as [Hall _].
      rewrite Forall_forall in Hall. specialize (Hall y).
      assert (snd y <= snd r0) by (apply Hall, list_elem_of_In, Hy). lia. }
    assert (Hall : pre ++ rows = (pre ++ group) ++ rest)
      by (rewrite Hsplit, app_assoc; reflexivity).
    transitivity
      (Storage.reward_loop fuel rest (Z.of_nat (length (pre ++ group)) + 1) 3
         (acc ++ map (fun row => Storage.RewardRow.mk (fst row) start_rank k
                                   (Py.round_div (run_pool start_rank size) size))
                   group)).
    { f_equal; [rewrite length_app; unfold start_rank, size; lia|].
      f_equal. unfold run_pool. rewrite Hrange. cbn [List.filter]. rewrite Hmem.
      reflexivity. }
    rewrite (IH rest (pre ++ group)
               (acc ++ map (fun row => Storage.RewardRow.mk (fst row) start_rank k
                                         (Py.round_div (run_pool start_rank size) size))
                         group)).
    + rewrite <- Hall, <- app_assoc. f_equal.
      replace (List.filter (rewarded (pre ++ rows)) rows)
        with (List.filter (rewarded (pre ++ rows)) group
              ++ List.filter (rewarded (pre ++ rows)) rest)
        by (rewrite <- List.filter_app, <- Hsplit; reflexivity).
      rewrite map_app. f_equal.
      rewrite filter_all.
      * apply map_ext_in. intros g Hg.
        assert (Hgk : snd g = k).
        { rewrite Forall_forall in Hgroup. apply Hgroup, list_elem_of_In, Hg. }
        unfold reward_row_of. rewrite Hgk.
        assert (Hrs : run_start k (pre ++ rows) = length pre).
        { rewrite run_start_app_notin.
          - rewrite Hrows. simpl. fold k. rewrite Z.eqb_refl. lia.
          - rewrite <- (eq_refl : snd first = k). apply Hnotin. rewrite Hrows. left.
            reflexivity. }
        assert (Hrz : run_size k (pre ++ rows) = size).
        { rewrite Hsplit, !run_size_app.
          rewrite (run_size_all k group Hgroup).
          rewrite (run_size_none k pre), (run_size_none k rest); [unfold size; lia| |].
          - apply Forall_forall. intros y Hy. apply list_elem_of_In in Hy.
            specialize (Hrest_lt y Hy). lia.
          - rewrite <- (eq_refl : snd first = k). apply Hnotin. rewrite Hrows. left.
            reflexivity. }
        rewrite Hrs, Hrz. reflexivity.
      * intros g Hg. unfold rewarded. apply Z.leb_le.
        assert (Hgk : snd g = k).
        { rewrite Forall_forall in Hgroup. apply Hgroup, list_elem_of_In, Hg. }
        rewrite Hgk, run_start_app_notin.
        -- rewrite Hrows. simpl. fold k. rewrite Z.eqb_refl. lia.
        -- rewrite <- (eq_refl : snd first = k). apply Hnotin. rewrite Hrows. left.
           reflexivity.
    + rewrite <- Hall. exact Hs.
    + assert (length rows = (length group + length rest)%nat)
        by (rewrite Hsplit, length_app; reflexivity).
      lia.
    + intros x y Hx Hy. apply in_app_or in Hx as [Hx|Hx].
      * apply Hsep; [exact Hx|]. rewrite Hsplit. apply in_or_app. right. exact Hy.
      * assert (snd x = k).
        { rewrite Forall_forall in Hgroup. apply Hgroup, list_elem_of_In, Hx. }
        specialize (Hrest_lt y Hy). lia.
Qed.

Lemma click_counts_descending d cycle_id :
  clicks_descending (Storage.click_counts d cycle_id).
Proof.
  unfold Storage.click_counts. apply (sort_sorted Storage.by_clicks_desc_user).
  - intros a b c H1 H2. lia.
  - intros a b. unfold Storage.by_clicks_desc_user.
    rewrite orb_true_iff, andb_true_iff, Z.ltb_lt, Z.eqb_eq. lia.
  - intros a b. unfold Storage.by_clicks_desc_user.
    rewrite orb_false_iff, andb_false_iff, Z.ltb_ge, Z.eqb_neq. lia.
Qed.

Lemma curation_reward_rows_spec rows :
  clicks_descending rows ->
  Storage.curation_reward_rows rows
  = map (reward_row_of rows) (List.filter (rewarded rows) rows).
Proof.
  intros Hs. unfold Storage.curation_reward_rows.
  destruct rows as [|first rows']; [reflexivity|].
  change (fold_right Z.max 0 (map fst CURATION_RANK_REWARDS)) with 3.
  apply (reward_loop_spec (length (first :: rows')) (first :: rows') [] []).
  - exact Hs.
  - lia.
  - intros x y [].
Qed.

(** *** What a computation that returns has kept *)

(** [returns_keeping D m]: when [m] returns, the working database still has
    the property [D] it had before.  (When [m] raises, a rollback may have
    undone what [D] spoke of.) *)
Definition returns_keeping {A} (D : DB -> Prop) (m : M A) : Prop :=
  hoare (fun c => D (db c)) m (fun _ c => D (db c)) (fun _ _ => True).

Section ReturnsKeeping.
Variable D : DB -> Prop.

Lemma keeping_ret {A} (a : A) : returns_keeping D (ret a).
Proof. apply hoare_ret. auto. Qed.

Lemma keeping_raise {A} e : returns_keeping D (@raise A e).
Proof. apply hoare_raise. auto. Qed.

Lemma keeping_bind {A B} (m : M A) (k : A -> M B) :
  returns_keeping D m -> (forall a, returns_keeping D (k a)) ->
  returns_keeping D (bind m k).
Proof. intros Hm Hk. eapply hoare_bind; [exact Hm | exact Hk]. Qed.

Lemma keeping_with_conn {A} (body : M A) :
  returns_keeping D body -> returns_keeping D (with_conn body).
Proof.
  intros Hb. apply hoare_with_conn.
  eapply hoare_conseq; [exact Hb | | |]; cbv beta; auto.
Qed.

Lemma keeping_execute {A} (stmt : DB -> result (A * DB)) :
  (forall d a d', D d -> stmt d = Ok (a, d') -> D d') ->
  returns_keeping D (_execute stmt).
Proof.
  intros Hs. apply hoare_execute; [auto|].
  intros c Hc _. destruct (stmt (db c)) as [[a d]|e] eqn:Hst; [|exact I].
  simpl. eapply Hs; [exact Hc | exact Hst].
Qed.

Lemma keeping_id prefix : returns_keeping D (_id prefix).
Proof. intros c Hc. exact Hc. Qed.

Lemma keeping_now_iso : returns_keeping D _now_iso.
Proof. intros c Hc. exact Hc. Qed.

Lemma keeping_for_each {A} (xs : list A) (body : A -> M unit) :
  (forall x, returns_keeping D (body x)) -> returns_keeping D (for_each xs body).
Proof.
  intros Hb.
  apply (hoare_for_each (fun c => D (db c)) xs body (fun _ _ => True)).
  intros x _. apply Hb.
Qed.

End ReturnsKeeping.

(** The cycle has reward rows: what [has_curation_rewards] answers. *)
Definition rewards_recorded (cycle_id : string) (d : DB) : bool :=
  negb (Nat.eqb 0
    (length (List.filter (fun r => String.eqb (CurationReward.cycle_id r) cycle_id)
               (curation_rewards d)))).

Lemma rewards_recorded_app cycle_id d rows :
  rewards_recorded cycle_id d = true ->
  rewards_recorded cycle_id (set_curation_rewards (curation_rewards d ++ rows) d) = true.
Proof.
  unfold rewards_recorded. simpl. rewrite List.filter_app, length_app.
  destruct (length (List.filter _ (curation_rewards d))); [discriminate | reflexivity].
Qed.

Lemma credit_user_chips_keeps_rewards cycle_id user_id delta event cy metadata :
  returns_keeping (fun d => rewards_recorded cycle_id d = true)
    (Storage.credit_user_chips user_id delta event cy metadata).
Proof.
  unfold Storage.credit_user_chips.
  apply keeping_bind; [apply keeping_now_iso | intros now].
  apply keeping_with_conn.
  apply keeping_bind; [|intros u; apply keeping_bind; [apply keeping_id | intros ledger_id]].
  - destruct (negb (delta =? 0)); [|apply keeping_ret].
    apply keeping_execute. statement_keeps_db.
  - apply keeping_execute. statement_keeps_db.
Qed.

(** The body of the loop of [apply_curation_rewards]. *)
Definition award_row (cycle_id : string) (row : Storage.RewardRow.t) : M unit :=
  (now <- _now_iso ;;
   _execute (Storage.insert_curation_reward
     (CurationReward.mk cycle_id (Storage.RewardRow.user_id row)
        (Storage.RewardRow.rank row) (Storage.RewardRow.unique_clicks row)
        (Storage.RewardRow.reward_chips row) now)) ;;
   Storage.credit_user_chips (Storage.RewardRow.user_id row)
     (Storage.RewardRow.reward_chips row) "curation_reward" (Some cycle_id)
     (Some [("rank", JInt (Storage.RewardRow.rank row));
            ("unique_clicks", JInt (Storage.RewardRow.unique_clicks row))]))%py.

Lemma execute_ok_inv {A} (stmt : DB -> result (A * DB)) c a c' :
  _execute stmt c = (Ok a, c') ->
  exists d, stmt (db c) = Ok (a, d) /\ db c' = d /\ committed c' = committed c
            /\ clock c' = clock c /\ next_id c' = next_id c
            /\ fault_plan c' = tail (fault_plan c).
Proof.
  unfold _execute. intros H.
  destruct (fault_plan c) as [|[|] plan]; try discriminate;
    destruct (stmt (db c)) as [[a0 d]|e]; try discriminate;
    injection H as <- <-; exists d; simpl; auto 10.
Qed.

Lemma award_row_records cycle_id row :
  hoare (fun _ => True) (award_row cycle_id row)
    (fun _ c => rewards_recorded cycle_id (db c) = true) (fun _ _ => True).
Proof.
  intros c _. unfold award_row, bind at 1 2, _now_iso.
  destruct (_execute _ c) as [[u|e] c1] eqn:Hex; [|exact I].
  apply execute_ok_inv in Hex as (d & Hst & Hd & _).
  assert (Hrec : rewards_recorded cycle_id (db c1) = true).
  { unfold Storage.insert_curation_reward in Hst.
    destruct (_ || _) in Hst; [discriminate|]. injection Hst as _ Hd'.
    rewrite Hd, <- Hd'.
    unfold rewards_recorded. cbn [curation_rewards set_curation_rewards].
    rewrite List.filter_app, length_app. cbn [List.filter CurationReward.cycle_id].
    rewrite String.eqb_refl. cbn [length]. rewrite Nat.add_1_r. reflexivity. }
  exact (credit_user_chips_keeps_rewards cycle_id _ _ _ _ _ c1 Hrec).
Qed.

Lemma award_row_keeps cycle_id row :
  returns_keeping (fun d => rewards_recorded cycle_id d = true) (award_row cycle_id row).
Proof.
  eapply hoare_conseq; [apply award_row_records | | |]; cbv beta; auto.
Qed.

Lemma apply_curation_rewards_no_faults cycle_id :
  preserves no_faults (Storage.apply_curation_rewards cycle_id).
Proof. preserves_auto unfold_storage. Qed.

Lemma award_rows_record cycle_id row rows :
  hoare (fun _ => True) (for_each (row :: rows) (award_row cycle_id))
    (fun _ c => rewards_recorded cycle_id (db c) = true) (fun _ _ => True).
Proof.
  cbn [for_each]. eapply hoare_bind; [apply award_row_records|].
  intros u. apply (keeping_for_each (fun d => rewards_recorded cycle_id d = true)).
  intros x. apply award_row_keeps.
Qed.

Lemma has_curation_rewards_eq c cycle_id :
  no_faults c ->
  Storage.has_curation_rewards cycle_id c = (Ok (rewards_recorded cycle_id (db c)), c).
Proof. intros Hf. unfold Storage.has_curation_rewards. apply execute_query_eq, Hf. Qed.

(** After a run that returned, a second run returns no rows and leaves the
    connection as it is. *)
Lemma apply_curation_rewards_rerun c cycle_id rows c1 :
  no_faults c ->
  Storage.apply_curation_rewards cycle_id c = (Ok rows, c1) ->
  Storage.apply_curation_rewards cycle_id c1 = (Ok [], c1).
Proof.
  intros Hf Hrun.
  assert (Hf1 : no_faults c1).
  { pose proof (apply_curation_rewards_no_faults cycle_id c Hf) as H.
    rewrite Hrun in H. exact H. }
  assert (Hsame : forall c0, no_faults c0 ->
            rewards_recorded cycle_id (db c0) = true ->
            Storage.apply_curation_rewards cycle_id c0 = (Ok [], c0)).
  { intros c0 Hf0 Hrec. unfold Storage.apply_curation_rewards, bind.
    rewrite (has_curation_rewards_eq c0 cycle_id Hf0), Hrec. reflexivity. }
  unfold Storage.apply_curation_rewards, bind in Hrun.
  rewrite (has_curation_rewards_eq c cycle_id Hf) in Hrun.
  destruct (rewards_recorded cycle_id (db c)) eqn:Hrec.
  - injection Hrun as <- <-. apply Hsame; assumption.
  - unfold Storage.compute_curation_reward_rows, bind in Hrun.
    rewrite (execute_query_eq _ c Hf) in Hrun. unfold ret in Hrun.
    destruct (Storage.curation_reward_rows (Storage.click_counts (db c) cycle_id))
      as [|row rest] eqn:Hrows.
    + injection Hrun as <- <-.
      unfold Storage.apply_curation_rewards, bind.
      rewrite (has_curation_rewards_eq c cycle_id Hf), Hrec.
      unfold Storage.compute_curation_reward_rows, bind.
      rewrite (execute_query_eq _ c Hf). unfold ret. rewrite Hrows. reflexivity.
    + unfold with_conn in Hrun.
      pose proof (award_rows_record cycle_id row rest c I) as Hrecd.
      change (for_each (row :: rest) (award_row cycle_id) c)
        with (for_each (row :: rest)
                (fun row0 =>
                   (now <- _now_iso ;;
                    _execute (Storage.insert_curation_reward
                      (CurationReward.mk cycle_id (Storage.RewardRow.user_id row0)
                         (Storage.RewardRow.rank row0)
                         (Storage.RewardRow.unique_clicks row0)
                         (Storage.RewardRow.reward_chips row0) now)) ;;
                    Storage.credit_user_chips (Storage.RewardRow.user_id row0)
                      (Storage.RewardRow.reward_chips row0) "curation_reward"
                      (Some cycle_id)
                      (Some [("rank", JInt (Storage.RewardRow.rank row0));
                             ("unique_clicks",
                              JInt (Storage.RewardRow.unique_clicks row0))]))%py) c)
        in Hrecd.
      destruct (for_each (row :: rest) _ c) as [[u|e] c'] eqn:Hloop;
        [|discriminate].
      injection Hrun as _ <-.
      apply Hsame; [exact Hf1 | exact Hrecd].
Qed.

(** C6. Curation rewards pool the table rewards of a tie.  Click counts
    5, 5, 3 under the table 1->40, 2->20, 3->10 give both users with
    5 clicks a row at rank 1 with reward round((40 + 20) / 2) = 30 and the
    user with 3 clicks a row at rank 3 with reward 10.  In general every
    rewarded submitter is recorded at the first position of its run of tied
    click counts, with the pooled reward of the run split evenly.  A rerun
    of [apply_curation_rewards] on the cycle returns no rows and writes
    nothing. *)
Theorem curation_rewards_allocation :
  (forall u1 u2 u3,
     Storage.curation_reward_rows [(u1, 5); (u2, 5); (u3, 3)]
     = [Storage.RewardRow.mk u1 1 5 30; Storage.RewardRow.mk u2 1 5 30;
        Storage.RewardRow.mk u3 3 3 10]
     /\ Py.round_div (40 + 20) 2 = 30)
  /\ (forall c cycle_id,
        no_faults c ->
        let counts := Storage.click_counts (db c) cycle_id in
        Storage.compute_curation_reward_rows cycle_id c
        = (Ok (map (reward_row_of counts) (List.filter (rewarded counts) counts)), c))
  /\ (forall c cycle_id rows c1,
        no_faults c ->
        Storage.apply_curation_rewards cycle_id c = (Ok rows, c1) ->
        Storage.apply_curation_rewards cycle_id c1 = (Ok [], c1)).
Proof.
  split; [|split].
  - intros u1 u2 u3. split; reflexivity.
  - intros c cycle_id Hf counts. unfold Storage.compute_curation_reward_rows, bind.
    rewrite (execute_query_eq _ c Hf). unfold ret. fold counts.
    rewrite (curation_reward_rows_spec counts (click_counts_descending _ _)).
    reflexivity.
  - exact apply_curation_rewards_rerun.
Qed.

(** Three submitters whose links got 5, 5 and 3 distinct clicks. *)
Definition click_day : Conn :=
  let c := connect 1770336000000000 in
  let c := snd (Storage.create_user "Ann" "ann@example.com" "HUMAN" None None c) in
  let c := snd (Storage.create_user "Ben" "ben@example.com" "HUMAN" None None c) in
  let c := snd (Storage.create_user "Cyd" "cyd@example.com" "HUMAN" None None c) in
  let c := snd (Storage.create_cycle (Some "2026-02-06") c) in
  let c := snd (Storage.create_candidate "cyc_6" "usr_0" "https://example.com/a" "A" c) in
  let c := snd (Storage.create_candidate "cyc_6" "usr_2" "https://example.com/b" "B" c) in
  let c := snd (Storage.create_candidate "cyc_6" "usr_4" "https://example.com/c" "C" c) in
  fold_left (fun c click => snd (Storage.record_click (fst click) (snd click) None c))
    [("lnk_7", "f1"); ("lnk_7", "f2"); ("lnk_7", "f3"); ("lnk_7", "f4"); ("lnk_7", "f5");
     ("lnk_7", "f5");
     ("lnk_8", "f1"); ("lnk_8", "f2"); ("lnk_8", "f3"); ("lnk_8", "f4"); ("lnk_8", "f5");
     ("lnk_9", "f1"); ("lnk_9", "f2"); ("lnk_9", "f3")]
    c.

Lemma curation_rewards_allocation_witness :
  exists c1,
    Storage.apply_curation_rewards "cyc_6" click_day
    = (Ok [Storage.RewardRow.mk "usr_0" 1 5 30; Storage.RewardRow.mk "usr_2" 1 5 30;
           Storage.RewardRow.mk "usr_4" 3 3 10], c1)
    /\ Storage.apply_curation_rewards "cyc_6" c1 = (Ok [], c1).
Proof.
  exists (snd (Storage.apply_curation_rewards "cyc_6" click_day)).
  assert (Hrun : Storage.apply_curation_rewards "cyc_6" click_day
                 = (Ok [Storage.RewardRow.mk "usr_0" 1 5 30;
                        Storage.RewardRow.mk "usr_2" 1 5 30;
                        Storage.RewardRow.mk "usr_4" 3 3 10],
                    snd (Storage.apply_curation_rewards "cyc_6" click_day)))
    by (vm_compute; reflexivity).
  split; [exact Hrun|].
  eapply (proj2 (proj2 curation_rewards_allocation) click_day "cyc_6");
    [vm_compute; reflexivity | exact Hrun].
Defined.

(** ** The chip ledger *)

(** The sum of the ledger deltas recorded for a user. *)
Definition ledger_total (user_id : string) (ledger : list Ledger.t) : Z :=
  Py.sum (map Ledger.chips_delta
            (List.filter (fun l => String.eqb (Ledger.user_id l) user_id) ledger)).

(** Every balance is the sum of the user's ledger deltas. *)
Definition chips_match (d : DB) : Prop :=
  forall u, In u (users d) -> User.current_chips u = ledger_total (User.id u) (chip_ledger d).

(** Every ledger row is a user's. *)
Definition ledger_refs (d : DB) : Prop :=
  forall l, In l (chip_ledger d) -> Storage.user_exists d (Ledger.user_id l) = true.

(** Every user id is one of the first [n] identifiers drawn. *)
Definition users_drawn (n : nat) (d : DB) : Prop :=
  forall u, In u (users d) -> exists k, (k < n)%nat /\ User.id u = drawn_id "usr" k.

Definition consistent_db (n : nat) (d : DB) : Prop :=
  chips_match d /\ ledger_refs d /\ users_drawn n d.

(** The invariant of the ledger, on what is committed and on what the
    connection sees. *)
Definition ledger_consistent (c : Conn) : Prop :=
  consistent_db (next_id c) (committed c) /\ consistent_db (next_id c) (db c).

Lemma consistent_db_drawn n d : consistent_db n d -> consistent_db (S n) d.
Proof.
  intros (H1 & H2 & H3). repeat split; try assumption.
  intros u Hu. destruct (H3 u Hu) as (k & Hk & Hid). exists k. split; [lia | exact Hid].
Qed.

Lemma consistent_db_le n m d : (n <= m)%nat -> consistent_db n d -> consistent_db m d.
Proof. induction 1 as [|m Hle IH]; [auto|]. intros Hd. apply consistent_db_drawn. auto. Qed.

#[global] Instance ledger_consistent_framed :
  Framed ledger_consistent consistent_db (fun _ => True) (fun _ => True).
Proof.
  split.
  - intros c. unfold ledger_consistent. tauto.
  - exact consistent_db_drawn.
  - auto.
Qed.

Lemma ledger_total_app user_id l1 l2 :
  ledger_total user_id (l1 ++ l2) = ledger_total user_id l1 + ledger_total user_id l2.
Proof.
  unfold ledger_total. rewrite List.filter_app, map_app.
  induction (map Ledger.chips_delta (List.filter _ l1)) as [|x xs IH]; simpl.
  - reflexivity.
  - fold (Py.sum xs). unfold Py.sum in *. simpl. fold (Py.sum xs) in *. lia.
Qed.

Lemma ledger_total_one user_id l :
  ledger_total user_id [l]
  = if String.eqb (Ledger.user_id l) user_id then Ledger.chips_delta l else 0.
Proof.
  unfold ledger_total. simpl. destruct (String.eqb _ _); simpl; lia.
Qed.

Lemma user_exists_map f d user_id :
  (forall u, User.id (f u) = User.id u) ->
  Storage.user_exists (set_users (map f (users d)) d) user_id = Storage.user_exists d user_id.
Proof.
  intros Hid. unfold Storage.user_exists. simpl.
  induction (users d) as [|u us IH]; simpl; [reflexivity|]. rewrite Hid, IH. reflexivity.
Qed.

(** A balance update paired with its ledger row keeps the invariant. *)
Lemma consistent_bump n d user_id delta f l :
  consistent_db n d ->
  (forall u, User.id (f u) = User.id u) ->
  (forall u, User.current_chips (f u)
             = User.current_chips u + (if String.eqb (User.id u) user_id then delta else 0)) ->
  Ledger.user_id l = user_id ->
  Ledger.chips_delta l = delta ->
  Storage.user_exists d user_id = true ->
  consistent_db n
    (set_chip_ledger (chip_ledger d ++ [l]) (set_users (map f (users d)) d)).
Proof.
  intros (Hm & Hr & Hd) Hid Hchips Hl Hdelta Hex. repeat split.
  - intros u' Hu'. simpl in Hu'. apply in_map_iff in Hu' as (u & <- & Hu).
    simpl. rewrite ledger_total_app, ledger_total_one, Hid, Hchips, (Hm u Hu), Hl, Hdelta.
    rewrite (String.eqb_sym user_id). reflexivity.
  - intros l' Hl'. simpl in Hl'.
    change (Storage.user_exists (set_chip_ledger _ ?x) ?y) with (Storage.user_exists x y).
    rewrite (user_exists_map f d _ Hid).
    apply in_app_or in Hl' as [Hl'|[<-|[]]]; [apply Hr, Hl' | rewrite Hl; exact Hex].
  - intros u' Hu'. simpl in Hu'. apply in_map_iff in Hu' as (u & <- & Hu).
    rewrite Hid. apply Hd, Hu.
Qed.

(** So does a ledger row of zero chips. *)
Lemma consistent_zero n d l :
  consistent_db n d ->
  Ledger.chips_delta l = 0 ->
  Storage.user_exists d (Ledger.user_id l) = true ->
  consistent_db n (set_chip_ledger (chip_ledger d ++ [l]) d).
Proof.
  intros (Hm & Hr & Hd) Hdelta Hex. repeat split.
  - intros u Hu. simpl. rewrite ledger_total_app, ledger_total_one, Hdelta.
    rewrite (Hm u Hu). destruct (String.eqb _ _); lia.
  - intros l' Hl'. simpl in Hl'.
    change (Storage.user_exists (set_chip_ledger _ ?x) ?y) with (Storage.user_exists x y).
    apply in_app_or in Hl' as [Hl'|[<-|[]]]; [apply Hr, Hl' | exact Hex].
  - exact Hd.
Qed.

Lemma user_exists_In d user_id :
  Storage.user_exists d user_id = true <-> exists u, In u (users d) /\ User.id u = user_id.
Proof.
  unfold Storage.user_exists. rewrite existsb_exists. split.
  - intros (u & Hu & Heq). apply String.eqb_eq in Heq. eauto.
  - intros (u & Hu & Heq). exists u. split; [exact Hu | apply String.eqb_eq, Heq].
Qed.

(** A new user with a fresh id and the signup row keeps the invariant. *)
Lemma consistent_signup n0 n d u l :
  consistent_db n0 d ->
  (n0 < n)%nat ->
  User.id u = drawn_id "usr" n0 ->
  Ledger.user_id l = User.id u ->
  Ledger.chips_delta l = User.current_chips u ->
  consistent_db n
    (set_chip_ledger (chip_ledger d ++ [l]) (set_users (users d ++ [u]) d)).
Proof.
  intros (Hm & Hr & Hd) Hn Hid Hl Hdelta.
  assert (Hfresh : forall v, In v (users d) -> User.id v <> User.id u).
  { intros v Hv Heq. destruct (Hd v Hv) as (k & Hk & Hvk).
    rewrite Hid, Hvk in Heq. apply drawn_id_inj in Heq. lia. }
  assert (Hnone : ledger_total (User.id u) (chip_ledger d) = 0).
  { unfold ledger_total. rewrite filter_none; [reflexivity|].
    intros l' Hl'. apply String.eqb_neq. intros Heq.
    specialize (Hr l' Hl'). apply user_exists_In in Hr as (v & Hv & Hvid).
    apply (Hfresh v Hv). congruence. }
  repeat split.
  - intros v Hv. simpl in Hv. simpl. rewrite ledger_total_app, ledger_total_one, Hl.
    apply in_app_or in Hv as [Hv|[<-|[]]].
    + rewrite (Hm v Hv).
      destruct (String.eqb_spec (User.id u) (User.id v)) as [Heq|_]; [|lia].
      exfalso. apply (Hfresh v Hv). auto.
    + rewrite String.eqb_refl, Hnone, Hdelta. lia.
  - intros l' Hl'. simpl in Hl'. apply user_exists_In. simpl.
    apply in_app_or in Hl' as [Hl'|[<-|[]]].
    + specialize (Hr l' Hl'). apply user_exists_In in Hr as (v & Hv & Hvid).
      exists v. split; [apply in_or_app; left; exact Hv | exact Hvid].
    + exists u. split; [apply in_or_app; right; left; reflexivity | auto].
  - intros v Hv. simpl in Hv. apply in_app_or in Hv as [Hv|[<-|[]]].
    + destruct (Hd v Hv) as (k & Hk & Hvk). exists k. split; [lia | exact Hvk].
    + exists n0. split; [exact Hn | exact Hid].
Qed.

Lemma consistent_db_ext n d d' :
  users d' = users d -> chip_ledger d' = chip_ledger d ->
  consistent_db n d -> consistent_db n d'.
Proof.
  intros Hu Hl (Hm & Hr & Hd). unfold consistent_db, chips_match, ledger_refs, users_drawn,
    Storage.user_exists. rewrite Hu, Hl. auto.
Qed.

(** An update that touches neither ids nor balances keeps the invariant. *)
Lemma consistent_relabel n d f :
  (forall u, User.id (f u) = User.id u) ->
  (forall u, User.current_chips (f u) = User.current_chips u) ->
  consistent_db n d ->
  consistent_db n (set_users (map f (users d)) d).
Proof.
  intros Hid Hchips (Hm & Hr & Hd). repeat split.
  - intros u' Hu'. simpl in Hu'. apply in_map_iff in Hu' as (u & <- & Hu).
    simpl. rewrite Hid, Hchips. apply Hm, Hu.
  - intros l Hl. simpl in Hl. rewrite (user_exists_map f d _ Hid). apply Hr, Hl.
  - intros u' Hu'. simpl in Hu'. apply in_map_iff in Hu' as (u & <- & Hu).
    rewrite Hid. apply Hd, Hu.
Qed.

(** Inside a transaction, what was committed stays as it was. *)
Definition committed_consistent (c : Conn) : Prop :=
  consistent_db (next_id c) (committed c).

Lemma rollback_consistent c : committed_consistent c -> ledger_consistent (rollback c).
Proof. intros H. split; exact H. Qed.

Lemma commit_consistent c :
  consistent_db (next_id c) (db c) -> ledger_consistent (commit c).
Proof. intros H. split; exact H. Qed.

Lemma hoare_execute_txn {A} (P : Conn -> Prop) (stmt : DB -> result (A * DB))
    (Q : A -> Conn -> Prop) :
  (forall c, P c -> committed_consistent c) ->
  (forall c a d, P c -> stmt (db c) = Ok (a, d) ->
     Q a (mkConn (committed c) d (clock c) (next_id c) (tail (fault_plan c)))) ->
  hoare P (_execute stmt) Q (fun _ => committed_consistent).
Proof.
  intros Hc Hs. apply hoare_execute.
  - intros c plan HP _. exact (Hc c HP).
  - intros c HP _. destruct (stmt (db c)) as [[a d]|e] eqn:Hst.
    + apply (Hs c a d HP Hst).
    + exact (Hc c HP).
Qed.

(** The working database is one that satisfied the invariant, with [delta]
    added to the balance of [user_id] and the ledger row still to come. *)
Definition credit_pending (user_id : string) (delta : Z) (c : Conn) : Prop :=
  committed_consistent c /\
  exists d0 f,
    consistent_db (next_id c) d0 /\
    (forall u, User.id (f u) = User.id u) /\
    (forall u, User.current_chips (f u)
               = User.current_chips u + (if String.eqb (User.id u) user_id then delta else 0)) /\
    db c = set_users (map f (users d0)) d0.

Lemma credit_pending_id user_id delta prefix :
  hoare (credit_pending user_id delta) (_id prefix)
    (fun _ => credit_pending user_id delta) (fun _ => committed_consistent).
Proof.
  intros c (Hc & d0 & f & Hd0 & Hid & Hchips & Hdb). simpl. split.
  - apply consistent_db_drawn, Hc.
  - exists d0, f. split; [apply consistent_db_drawn, Hd0|].
    split; [exact Hid|]. split; [exact Hchips | exact Hdb].
Qed.

Lemma credit_pending_ledger user_id delta l :
  Ledger.user_id l = user_id ->
  Ledger.chips_delta l = delta ->
  hoare (credit_pending user_id delta) (_execute (Storage.insert_ledger l))
    (fun _ => ledger_consistent) (fun _ => committed_consistent).
Proof.
  intros Hl Hdelta. apply hoare_execute_txn.
  - intros c (Hc & _). exact Hc.
  - intros c a d (Hc & d0 & f & Hd0 & Hid & Hchips & Hdb) Hst.
    unfold Storage.insert_ledger in Hst.
    destruct (Storage.user_exists (db c) (Ledger.user_id l)) eqn:Hex; [|discriminate].
    injection Hst as _ <-. split; [exact Hc|]. simpl. rewrite Hdb in Hex |- *.
    rewrite (user_exists_map f d0 _ Hid), Hl in Hex.
    exact (consistent_bump _ d0 user_id delta f l Hd0 Hid Hchips Hl Hdelta Hex).
Qed.

Lemma credit_user_chips_consistent user_id chips_delta event_type cycle_id metadata :
  preserves ledger_consistent
    (Storage.credit_user_chips user_id chips_delta event_type cycle_id metadata).
Proof.
  unfold Storage.credit_user_chips.
  eapply hoare_bind; [apply (preserves_now_iso ledger_consistent)|]. intros now.
  apply hoare_with_conn.
  eapply hoare_conseq with (Q' := fun _ => ledger_consistent)
                           (E' := fun _ => committed_consistent);
    [ | intros c Hc; exact Hc
      | intros _ c (Hc1 & Hc2); apply commit_consistent, Hc2
      | intros _ c Hc; apply rollback_consistent, Hc ].
  destruct (chips_delta =? 0) eqn:Hzero; simpl negb; cbv iota.
  - apply Z.eqb_eq in Hzero. subst chips_delta.
    eapply hoare_bind with (R := fun _ => ledger_consistent);
      [apply hoare_ret; intros c Hc; exact Hc|]. intros _.
    eapply hoare_bind with (R := fun _ => ledger_consistent).
    + intros c (Hc1 & Hc2). simpl. split; apply consistent_db_drawn; assumption.
    + intros ledger_id. apply hoare_execute_txn.
      * intros c (Hc & _). exact Hc.
      * intros c a d (Hc1 & Hc2) Hst. unfold Storage.insert_ledger in Hst.
        destruct (Storage.user_exists (db c) _) eqn:Hex; [|discriminate].
        injection Hst as _ <-. split; [exact Hc1|]. simpl.
        apply consistent_zero; [exact Hc2 | reflexivity | exact Hex].
  - eapply hoare_bind with (R := fun _ => credit_pending user_id chips_delta).
    + apply hoare_execute_txn.
      * intros c (Hc & _). exact Hc.
      * intros c a d (Hc1 & Hc2) Hst. unfold Storage.update_chips in Hst.
        injection Hst as _ <-. split; [exact Hc1|]. simpl.
        eexists (db c), _. split; [exact Hc2|]. split; [|split; [|reflexivity]].
        -- intros u. simpl. destruct (String.eqb _ _); reflexivity.
        -- intros u. simpl. destruct (String.eqb _ _); simpl; lia.
    + intros _. eapply hoare_bind; [apply credit_pending_id|]. intros ledger_id.
      apply credit_pending_ledger; reflexivity.
Qed.

Lemma date_or_today_consistent value :
  preserves ledger_consistent (Storage.date_or_today value).
Proof. preserves_auto unfold_storage. Qed.

Lemma apply_daily_faucet_consistent as_of_date :
  preserves ledger_consistent (Storage.apply_daily_faucet as_of_date).
Proof.
  unfold Storage.apply_daily_faucet.
  eapply hoare_bind; [apply date_or_today_consistent|]. intros as_of.
  eapply hoare_bind; [apply (preserves_query ledger_consistent _ _ _)|]. intros rows.
  apply hoare_with_conn.
  eapply hoare_conseq with (Q' := fun _ => ledger_consistent)
                           (E' := fun _ => committed_consistent);
    [ | intros c Hc; exact Hc
      | intros _ c (Hc1 & Hc2); apply commit_consistent, Hc2
      | intros _ c Hc; apply rollback_consistent, Hc ].
  apply (hoare_for_fold (fun _ => ledger_consistent)).
  intros credited [user_id last_credit] _. cbv beta zeta. simpl fst. simpl snd.
  destruct (as_of - last_credit <=? 0).
  - apply hoare_ret. auto.
  - eapply hoare_bind
      with (R := fun _ => credit_pending user_id ((as_of - last_credit) * DAILY_CHIPS)).
    + apply hoare_execute_txn.
      * intros c (Hc & _). exact Hc.
      * intros c a d (Hc1 & Hc2) Hst. unfold Storage.update_faucet in Hst.
        injection Hst as _ <-. split; [exact Hc1|]. simpl.
        eexists (db c), _. split; [exact Hc2|]. split; [|split; [|reflexivity]].
        -- intros u. simpl. destruct (String.eqb _ _); reflexivity.
        -- intros u. simpl. destruct (String.eqb _ _); simpl; lia.
    + intros _. eapply hoare_bind; [apply credit_pending_id|]. intros ledger_id.
      eapply hoare_bind
        with (R := fun _ => credit_pending user_id ((as_of - last_credit) * DAILY_CHIPS));
        [intros c Hc; exact Hc|]. intros now.
      eapply hoare_bind; [apply credit_pending_ledger; reflexivity|]. intros u.
      apply hoare_ret. auto.
Qed.

(** The user row is written and its signup row is still to come. *)
Definition signup_pending (n0 : nat) (u : User.t) (c : Conn) : Prop :=
  committed_consistent c /\ (n0 < next_id c)%nat /\
  exists d0, consistent_db n0 d0 /\ db c = set_users (users d0 ++ [u]) d0.

Lemma create_user_consistent display_name email account_type created_date google_sub :
  preserves ledger_consistent
    (Storage.create_user display_name email account_type created_date google_sub).
Proof.
  unfold Storage.create_user.
  eapply hoare_bind; [apply date_or_today_consistent|]. intros created.
  eapply hoare_bind
    with (R := fun user_id c =>
                 exists n0, user_id = drawn_id "usr" n0 /\ next_id c = S n0 /\
                            consistent_db n0 (committed c) /\ consistent_db n0 (db c)).
  { intros c (Hc1 & Hc2). simpl. exists (next_id c). auto. }
  intros user_id.
  eapply hoare_bind
    with (R := fun _ c =>
                 exists n0, user_id = drawn_id "usr" n0 /\ next_id c = S n0 /\
                            consistent_db n0 (committed c) /\ consistent_db n0 (db c)).
  { intros c Hc. exact Hc. }
  intros now.
  eapply hoare_bind with (R := fun _ => ledger_consistent).
  2:{ intros _. change (preserves ledger_consistent (Storage.get_user user_id)).
      unfold Storage.get_user. preserves_auto idtac. }
  apply hoare_with_conn.
  eapply hoare_conseq with (Q' := fun _ => ledger_consistent)
                           (E' := fun _ => committed_consistent);
    [ | intros c Hc; exact Hc
      | intros _ c (Hc1 & Hc2); apply commit_consistent, Hc2
      | intros _ c Hc; apply rollback_consistent, Hc ].
  set (u := User.mk user_id display_name email google_sub account_type STARTING_CHIPS
              now created).
  assert (Hcommitted : forall c,
            (exists n0, user_id = drawn_id "usr" n0 /\ next_id c = S n0 /\
               consistent_db n0 (committed c) /\ consistent_db n0 (db c)) ->
            committed_consistent c).
  { intros c (n0 & _ & Hn & Hc & _). unfold committed_consistent. rewrite Hn.
    apply consistent_db_drawn, Hc. }
  eapply hoare_bind
    with (R := fun _ c => exists n0, user_id = drawn_id "usr" n0 /\ signup_pending n0 u c).
  - apply hoare_execute_txn; [exact Hcommitted|].
    intros c a d Hc Hst. pose proof (Hcommitted c Hc) as Hcc.
    destruct Hc as (n0 & Hid & Hn & Hc1 & Hc2).
    unfold Storage.insert_user in Hst.
    destruct (_ || _); [discriminate|]. injection Hst as _ <-.
    exists n0. split; [exact Hid|]. split; [exact Hcc|]. simpl. split; [lia|].
    exists (db c). auto.
  - intros _.
    eapply hoare_bind
      with (R := fun _ c => exists n0, user_id = drawn_id "usr" n0 /\ signup_pending n0 u c).
    + intros c (n0 & Hid & Hc & Hn & d0 & Hd0 & Hdb). simpl.
      exists n0. split; [exact Hid|]. split; [apply consistent_db_drawn, Hc|].
      simpl. split; [lia|]. exists d0. auto.
    + intros ledger_id. apply hoare_execute_txn.
      * intros c (n0 & _ & Hc & _). exact Hc.
      * intros c a d (n0 & Hid & Hc & Hn & d0 & Hd0 & Hdb) Hst.
        unfold Storage.insert_ledger in Hst.
        destruct (Storage.user_exists _ _); [|discriminate]. injection Hst as _ <-.
        split; [exact Hc|]. simpl. rewrite Hdb.
        lazymatch goal with
        | |- consistent_db _ (set_chip_ledger (_ ++ [?l]) _) =>
            exact (consistent_signup n0 _ d0 u l Hd0 Hn Hid eq_refl eq_refl)
        end.
Qed.

(** The statements on the other tables, and those that relabel a user,
    keep the invariant. *)
Ltac ledger_statement :=
  lazymatch goal with
  | |- consistent_db _ (set_users (map _ _) _) =>
      apply consistent_relabel; [ intros ?; simpl; destruct (String.eqb _ _); reflexivity
                                | intros ?; simpl; destruct (String.eqb _ _); reflexivity
                                | assumption ]
  | |- consistent_db _ _ =>
      eapply consistent_db_ext; [ | | eassumption]; reflexivity
  end.

Ltac unfold_ledger :=
  first
    [ apply credit_user_chips_consistent
    | apply create_user_consistent
    | apply apply_daily_faucet_consistent
    | unfold Storage.get_user, Storage.get_user_by_email,
        Storage.get_or_create_ai_user, Storage.get_or_create_google_user,
        Storage.date_or_today, Storage._parse_date,
        Storage.get_cycle, Storage.create_cycle, Storage.list_cycles,
        Storage.get_open_cycle, Storage.get_candidate, Storage.create_candidate,
        Storage.list_candidates, Storage.list_user_picks, Storage.list_picks,
        Storage.set_ranked_picks, Storage.save_cycle_results,
        Storage.list_winner_candidate_ids, Storage.upsert_model_prediction,
        Storage.list_model_predictions, Storage.record_click,
        Storage.has_curation_rewards, Storage.compute_curation_reward_rows,
        Storage.apply_curation_rewards, Storage.claim_job_run,
        MarketService.submit_candidate, MarketService.set_ranked_picks,
        MarketService.compute_market_probabilities, MarketService.settle_cycle,
        MarketService.apply_curation_rewards,
        ModelAgents.run_cycle, ModelAgents.run_config, ModelAgents.explain_and_store,
        ModelAgents._load_strategy,
        JobService.run_daily_faucet, JobService.run_models,
        JobService.run_curation_rewards, JobService.already_ran ].

Ltac ledger_auto := preserves_auto unfold_ledger; try ledger_statement.

(** What a caller can do to the service: call it, let time pass, or meet
    engine failures during the statements to come. *)
Inductive operation : Type :=
| CreateUser (display_name email account_type : string)
    (created_date google_sub : option string)
| GetOrCreateAiUser (model_id : string)
| GetOrCreateGoogleUser (google_sub email display_name : string)
| CreditUserChips (user_id : string) (chips_delta : Z) (event_type : string)
    (cycle_id : option string) (metadata : option (Py.dict json))
| ApplyDailyFaucet (as_of_date : option string)
| CreateCycle (cycle_date : option string)
| SubmitCandidate (cycle_id user_id url title : string)
| SetRankedPicks (cycle_id user_id : string) (candidate_ids : list string)
| RecordClick (candidate_id fingerprint_source : string) (clicked_by_user_id : option string)
| SettleCycle (cycle_id : string) (winner_urls : list string)
| ApplyCurationRewards (cycle_id : string) (min_age_hours : Z) (force : bool)
| UpsertModelPrediction (cycle_id model_user_id candidate_id : string) (probability : Q)
    (explanation : string)
| RunCycle (default_strategy : ModelAgents.ModelStrategy) (plugins : ModelAgents.Plugins)
    (configs : list ModelAgentConfig.t) (cycle_id : string)
| ClaimJobRun (job_name run_key : string) (details : option (Py.dict json))
| RunDailyFaucet (as_of_date : option string) (force : bool)
| RunModels (default_strategy : ModelAgents.ModelStrategy) (plugins : ModelAgents.Plugins)
    (configs : list ModelAgentConfig.t) (cycle_id : option string) (force : bool)
| RunCurationRewards (cycle_id : option string) (force : bool) (min_age_hours : Z)
| Wait (dt : Z)
| Faults (plan : list bool).

(** The connection an operation leaves, whether it returned or raised. *)
Definition perform (op : operation) (c : Conn) : Conn :=
  match op with
  | CreateUser display_name email account_type created_date google_sub =>
      snd (Storage.create_user display_name email account_type created_date google_sub c)
  | GetOrCreateAiUser model_id => snd (Storage.get_or_create_ai_user model_id c)
  | GetOrCreateGoogleUser google_sub email display_name =>
      snd (Storage.get_or_create_google_user google_sub email display_name c)
  | CreditUserChips user_id chips_delta event_type cycle_id metadata =>
      snd (Storage.credit_user_chips user_id chips_delta event_type cycle_id metadata c)
  | ApplyDailyFaucet as_of_date => snd (Storage.apply_daily_faucet as_of_date c)
  | CreateCycle cycle_date => snd (Storage.create_cycle cycle_date c)
  | SubmitCandidate cycle_id user_id url title =>
      snd (MarketService.submit_candidate cycle_id user_id url title c)
  | SetRankedPicks cycle_id user_id candidate_ids =>
      snd (MarketService.set_ranked_picks cycle_id user_id candidate_ids c)
  | RecordClick candidate_id fingerprint_source clicked_by_user_id =>
      snd (Storage.record_click candidate_id fingerprint_source clicked_by_user_id c)
  | SettleCycle cycle_id winner_urls => snd (MarketService.settle_cycle cycle_id winner_urls c)
  | ApplyCurationRewards cycle_id min_age_hours force =>
      snd (MarketService.apply_curation_rewards cycle_id min_age_hours force c)
  | UpsertModelPrediction cycle_id model_user_id candidate_id probability explanation =>
      snd (Storage.upsert_model_prediction cycle_id model_user_id candidate_id probability
             explanation c)
  | RunCycle default_strategy plugins configs cycle_id =>
      snd (ModelAgents.run_cycle default_strategy plugins configs cycle_id c)
  | ClaimJobRun job_name run_key details => snd (Storage.claim_job_run job_name run_key details c)
  | RunDailyFaucet as_of_date force => snd (JobService.run_daily_faucet as_of_date force c)
  | RunModels default_strategy plugins configs cycle_id force =>
      snd (JobService.run_models default_strategy plugins configs cycle_id force c)
  | RunCurationRewards cycle_id force min_age_hours =>
      snd (JobService.run_curation_rewards cycle_id force min_age_hours c)
  | Wait dt => advance_clock dt c
  | Faults plan => with_faults plan c
  end.

Definition perform_all (ops : list operation) (c : Conn) : Conn :=
  fold_left (fun c op => perform op c) ops c.

(** Every balance of [d] is the sum of the user's ledger deltas. *)
Definition balanced (d : DB) : Prop :=
  Forall (fun u => User.current_chips u = ledger_total (User.id u) (chip_ledger d)) (users d).

Lemma preserves_snd {A} (P : Conn -> Prop) (m : M A) c :
  preserves P m -> P c -> P (snd (m c)).
Proof. intros Hm Hc. specialize (Hm c Hc). destruct (m c) as [[a|e] c']; exact Hm. Qed.

Lemma settle_cycle_consistent cycle_id winner_urls :
  preserves ledger_consistent (MarketService.settle_cycle cycle_id winner_urls).
Proof. ledger_auto. Qed.

Lemma apply_curation_rewards_consistent cycle_id min_age_hours force :
  preserves ledger_consistent
    (MarketService.apply_curation_rewards cycle_id min_age_hours force).
Proof. ledger_auto. Qed.

Lemma run_cycle_consistent default_strategy plugins configs cycle_id :
  preserves ledger_consistent
    (ModelAgents.run_cycle default_strategy plugins configs cycle_id).
Proof. ledger_auto. Qed.

Lemma perform_consistent op c : ledger_consistent c -> ledger_consistent (perform op c).
Proof.
  intros Hc. destruct op; cbn [perform];
    try (apply preserves_snd; [|exact Hc]);
    try apply settle_cycle_consistent;
    try apply apply_curation_rewards_consistent;
    try apply run_cycle_consistent;
    try (ledger_auto; fail).
  - destruct Hc as (Hc1 & Hc2). split; [exact Hc1 | exact Hc2].
  - destruct Hc as (Hc1 & Hc2). split; [exact Hc1 | exact Hc2].
Qed.

Lemma perform_all_consistent ops c :
  ledger_consistent c -> ledger_consistent (perform_all ops c).
Proof.
  revert c. induction ops as [|op ops IH]; intros c Hc; [exact Hc|].
  apply IH, perform_consistent, Hc.
Qed.

Lemma connect_consistent t : ledger_consistent (connect t).
Proof. split; (split; [|split]); intros x []. Qed.

Lemma consistent_balanced n d : consistent_db n d -> balanced d.
Proof.
  intros (Hm & _). apply Forall_forall. intros u Hu. apply Hm, list_elem_of_In, Hu.
Qed.

(** C8. From a new database, after any sequence of operations of the
    service (user creation, prediction rewards at settlement, curation
    rewards, the daily faucet and all the others, with time passing and
    engine failures between and during them), the balance [current_chips]
    of every user is the sum of the [chip_ledger] deltas recorded for that
    user, in what was committed and in what the connection sees. *)
Theorem balances_match_ledger (ops : list operation) (t : Z) :
  balanced (committed (perform_all ops (connect t)))
  /\ balanced (db (perform_all ops (connect t))).
Proof.
  destruct (perform_all_consistent ops (connect t) (connect_consistent t)) as (H1 & H2).
  split; eapply consistent_balanced; eassumption.
Qed.

(** One user signs up, two days pass and the faucet runs, the user is
    credited 7 chips, and a second credit fails in the engine. *)
Definition ledger_run : list operation :=
  [CreateUser "Ann" "ann@example.org" "HUMAN" None None;
   Wait (2 * 86400 * 1000000);
   ApplyDailyFaucet None;
   CreditUserChips "usr_0" 7 "bonus" None None;
   Faults [false; true];
   CreditUserChips "usr_0" 5 "bonus" None None].

Lemma balances_match_ledger_witness :
  balanced (committed (perform_all ledger_run (connect 1700000000000000)))
  /\ balanced (db (perform_all ledger_run (connect 1700000000000000))).
Proof. exact (balances_match_ledger ledger_run 1700000000000000). Defined.

(** The balance after [ledger_run] is the sum of the three ledger rows that
    were written. *)
Example balance_after_faucet_and_failed_credit :
  let c := perform_all ledger_run (connect 1700000000000000) in
  map (fun u => (User.id u, User.current_chips u)) (users (db c)) = [("usr_0", 127)]
  /\ map Ledger.chips_delta (chip_ledger (db c)) = [100; 20; 7].
Proof. vm_compute. split; reflexivity. Qed.

(** ** Settlement and its transactions *)

(** The connection is at an exact state: what is committed, what the
    connection sees, the time and the number of identifiers drawn. *)
Definition in_txn (d0 d : DB) (t : Z) (n : nat) (c : Conn) : Prop :=
  committed c = d0 /\ db c = d /\ clock c = t /\ next_id c = n.

Definition at_state (d : DB) (t : Z) (n : nat) (c : Conn) : Prop := in_txn d d t n c.

(** Nothing was written. *)
Definition unchanged (d0 : DB) (c : Conn) : Prop := committed c = d0 /\ db c = d0.

Lemma hoare_execute_at {A} d0 d t n (stmt : DB -> result (A * DB))
    (Q : A -> Conn -> Prop) (E : exn -> Conn -> Prop) :
  (forall a d' c, stmt d = Ok (a, d') -> in_txn d0 d' t n c -> Q a c) ->
  (forall e c, in_txn d0 d t n c -> E e c) ->
  hoare (in_txn d0 d t n) (_execute stmt) Q E.
Proof.
  intros HQ HE. apply hoare_execute.
  - intros c plan (H1 & H2 & H3 & H4) _. apply HE. repeat split; assumption.
  - intros c (H1 & H2 & H3 & H4) _. rewrite H2.
    destruct (stmt d) as [[a d']|e] eqn:Hst.
    + apply (HQ a d'); [reflexivity|]. repeat split; assumption.
    + apply HE. repeat split; assumption.
Qed.

Lemma hoare_query_at {A} d0 d t n (q : DB -> A) (Q : A -> Conn -> Prop)
    (E : exn -> Conn -> Prop) :
  (forall c, in_txn d0 d t n c -> Q (q d) c) ->
  (forall e c, in_txn d0 d t n c -> E e c) ->
  hoare (in_txn d0 d t n) (query q) Q E.
Proof.
  intros HQ HE. apply hoare_execute_at; [|exact HE].
  intros a d' c Heq Hc. injection Heq as <- <-. apply HQ, Hc.
Qed.

Lemma hoare_with_conn_at {A} d0 t n (body : M A) (Q : A -> Conn -> Prop)
    (E : exn -> Conn -> Prop) d1 n1 :
  hoare (at_state d0 t n) body (fun _ => in_txn d0 d1 t n1) (fun _ c => committed c = d0) ->
  (forall a c, at_state d1 t n1 c -> Q a c) ->
  (forall e c, unchanged d0 c -> E e c) ->
  hoare (at_state d0 t n) (with_conn body) Q E.
Proof.
  intros Hb HQ HE. apply hoare_with_conn.
  eapply hoare_conseq; [exact Hb | auto | |]; cbv beta.
  - intros a c (H1 & H2 & H3 & H4). apply HQ. repeat split; assumption.
  - intros e c H. apply HE. split; exact H.
Qed.

(** The tables after the transaction of [save_cycle_results]: the result
    rows of the cycle are replaced and the cycle is SETTLED. *)
Definition results_saved (cycle_id : string) (winner_candidate_ids : list string) (now : Z)
    (d : DB) : DB :=
  set_cycles
    (map (fun c =>
            if String.eqb (Cycle.id c) cycle_id
            then Cycle.mk (Cycle.id c) (Cycle.cycle_date c) SETTLED (Cycle.opened_at c)
                   (Some now)
            else c) (cycles d))
    (set_cycle_results
       (List.filter (fun r => negb (String.eqb (CycleResult.cycle_id r) cycle_id))
          (cycle_results d)
        ++ map (fun candidate_id =>
                  CycleResult.mk cycle_id candidate_id
                    (if Py.mem candidate_id (Py.set_of winner_candidate_ids) then 1 else 0))
             (map CandidateLink.id (Storage.candidates_of d cycle_id)))
       d).

Lemma insert_results_spec d0 t n cycle_id winner_set rows acc :
  hoare (in_txn d0 (set_cycle_results acc d0) t n)
    (for_each rows (fun candidate_id =>
       _execute (Storage.insert_result
         (CycleResult.mk cycle_id candidate_id
            (if Py.mem candidate_id winner_set then 1 else 0)))))
    (fun _ =>
       in_txn d0
         (set_cycle_results
            (acc ++ map (fun candidate_id =>
                           CycleResult.mk cycle_id candidate_id
                             (if Py.mem candidate_id winner_set then 1 else 0)) rows) d0)
         t n)
    (fun _ c => committed c = d0).
Proof.
  revert acc. induction rows as [|row rows IH]; intros acc.
  - apply hoare_ret. intros c Hc. simpl. rewrite app_nil_r. exact Hc.
  - cbn [for_each map]. eapply hoare_bind.
    + apply hoare_execute_at with
        (Q := fun _ => in_txn d0 (set_cycle_results (acc ++ [CycleResult.mk cycle_id row
                 (if Py.mem row winner_set then 1 else 0)]) d0) t n).
      * intros a d' c Hst Hc. unfold Storage.insert_result in Hst.
        destruct (_ || _); [discriminate|]. injection Hst as _ <-. exact Hc.
      * intros e c (H & _). exact H.
    + intros u. eapply hoare_conseq; [apply IH | intros c Hc; exact Hc | | auto].
      cbv beta. intros _ c Hc. rewrite <- app_assoc in Hc. exact Hc.
Qed.

Lemma hoare_pure {A} (phi : Prop) (P : Conn -> Prop) (m : M A) Q E :
  (phi -> hoare P m Q E) -> hoare (fun c => phi /\ P c) m Q E.
Proof. intros H c (Hphi & Hc). apply (H Hphi c Hc). Qed.

(** The result rows and the status flip are one transaction. *)
Lemma save_cycle_results_spec d0 t n cycle_id winner_candidate_ids :
  hoare (at_state d0 t n) (Storage.save_cycle_results cycle_id winner_candidate_ids)
    (fun _ => at_state
                (results_saved cycle_id winner_candidate_ids
                   (t / Date.MICROSECONDS_PER_SECOND) d0) t n)
    (fun _ => unchanged d0).
Proof.
  unfold Storage.save_cycle_results. cbv zeta.
  eapply hoare_bind.
  - apply hoare_query_at with
      (Q := fun rows c => rows = map CandidateLink.id (Storage.candidates_of d0 cycle_id)
                          /\ at_state d0 t n c).
    + intros c Hc. split; [reflexivity | exact Hc].
    + intros e c (H1 & H2 & _). split; assumption.
  - intros rows. apply hoare_pure. intros ->.
    eapply hoare_with_conn_at; [ | intros a c Hc; exact Hc | intros e c Hc; exact Hc].
    eapply hoare_bind.
    { apply hoare_execute_at with
        (Q := fun _ =>
           in_txn d0
             (set_cycle_results
                (List.filter (fun r => negb (String.eqb (CycleResult.cycle_id r) cycle_id))
                   (cycle_results d0)) d0) t n).
      - intros a d' c Hst Hc. injection Hst as _ <-. exact Hc.
      - intros e c (H & _). exact H. }
    intros u. eapply hoare_bind; [apply insert_results_spec|]. intros u'.
    eapply hoare_bind
      with (R := fun now c =>
                   now = t / Date.MICROSECONDS_PER_SECOND /\
                   in_txn d0
                     (set_cycle_results
                        (List.filter
                           (fun r => negb (String.eqb (CycleResult.cycle_id r) cycle_id))
                           (cycle_results d0)
                         ++ map (fun candidate_id =>
                                   CycleResult.mk cycle_id candidate_id
                                     (if Py.mem candidate_id (Py.set_of winner_candidate_ids)
                                      then 1 else 0))
                              (map CandidateLink.id (Storage.candidates_of d0 cycle_id))) d0)
                     t n c).
    { intros c Hc. simpl. split; [|exact Hc]. destruct Hc as (_ & _ & -> & _). reflexivity. }
    intros now. apply hoare_pure. intros ->.
    apply hoare_execute_at.
    + intros a d' c Hst Hc. injection Hst as _ <-. exact Hc.
    + intros e c (H & _). exact H.
Qed.

(** The tables after the transaction of [credit_user_chips] that writes the
    ledger row [l]. *)
Definition credit_applied (l : Ledger.t) (d : DB) : DB :=
  set_chip_ledger (chip_ledger d ++ [l])
    (set_users
       (map (fun u =>
               if String.eqb (User.id u) (Ledger.user_id l)
               then User.mk (User.id u) (User.display_name u) (User.email u)
                      (User.google_sub u) (User.account_type u)
                      (User.current_chips u + Ledger.chips_delta l) (User.created_at u)
                      (User.last_daily_credit_date u)
               else u) (users d)) d).

(** A credit is one transaction: the balance and the ledger row, or
    nothing. *)
Lemma credit_user_chips_spec d t n user_id chips_delta event_type cycle_id metadata :
  chips_delta <> 0 ->
  hoare (at_state d t n)
    (Storage.credit_user_chips user_id chips_delta event_type cycle_id metadata)
    (fun _ =>
       at_state
         (credit_applied
            (Ledger.mk (drawn_id "led" n) user_id cycle_id event_type chips_delta
               (match metadata with Some m => m | None => [] end)
               (t / Date.MICROSECONDS_PER_SECOND)) d)
         t (S n))
    (fun _ => unchanged d).
Proof.
  intros Hdelta. unfold Storage.credit_user_chips.
  eapply hoare_bind
    with (R := fun now c => now = t / Date.MICROSECONDS_PER_SECOND /\ at_state d t n c).
  { intros c Hc. simpl. split; [|exact Hc]. destruct Hc as (_ & _ & -> & _). reflexivity. }
  intros now. apply hoare_pure. intros ->.
  eapply hoare_with_conn_at; [ | intros a c Hc; exact Hc | intros e c Hc; exact Hc].
  apply Z.eqb_neq in Hdelta. rewrite Hdelta. simpl negb. cbv iota.
  eapply hoare_bind.
  { apply hoare_execute_at with
      (Q := fun _ =>
         in_txn d
           (set_users
              (map (fun u =>
                      if String.eqb (User.id u) user_id
                      then User.mk (User.id u) (User.display_name u) (User.email u)
                             (User.google_sub u) (User.account_type u)
                             (User.current_chips u + chips_delta) (User.created_at u)
                             (User.last_daily_credit_date u)
                      else u) (users d)) d) t n).
    - intros a d' c Hst Hc. injection Hst as _ <-. exact Hc.
    - intros e c (H & _). exact H. }
  intros u.
  eapply hoare_bind
    with (R := fun ledger_id c =>
                 ledger_id = drawn_id "led" n /\
                 in_txn d
                   (set_users
                      (map (fun u =>
                              if String.eqb (User.id u) user_id
                              then User.mk (User.id u) (User.display_name u) (User.email u)
                                     (User.google_sub u) (User.account_type u)
                                     (User.current_chips u + chips_delta) (User.created_at u)
                                     (User.last_daily_credit_date u)
                              else u) (users d)) d) t (S n) c).
  { intros c (H1 & H2 & H3 & H4). simpl. rewrite H4. repeat split; assumption. }
  intros ledger_id. apply hoare_pure. intros ->.
  apply hoare_execute_at.
  - intros a d' c Hst Hc. unfold Storage.insert_ledger in Hst.
    destruct (Storage.user_exists _ _); [|discriminate]. injection Hst as _ <-. exact Hc.
  - intros e c (H & _). exact H.
Qed.

(** The ledger row of a prediction reward. *)
Definition reward_row (cycle_id : string) (t : Tally) (now : Z) (n : nat)
    (item : string * Z) : Ledger.t :=
  Ledger.mk (drawn_id "led" n) (fst item) (Some cycle_id) "prediction_reward" (snd item)
    [("correct_picks", JInt (Py.dict_get_default (user_hits t) (fst item) 0))] now.

(** The rewards that are credited: the positive ones. *)
Definition rewards_due (items : list (string * Z)) : list (string * Z) :=
  List.filter (fun item => negb (snd item <=? 0)) items.

(** The tables after the credits of [items], one transaction each. *)
Fixpoint credit_rewards (cycle_id : string) (t : Tally) (now : Z) (n : nat)
    (items : list (string * Z)) (d : DB) : DB :=
  match items with
  | [] => d
  | item :: rest =>
      credit_rewards cycle_id t now (S n) rest
        (credit_applied (reward_row cycle_id t now n item) d)
  end.

(** The loop over the rewards: when it fails, the credits made before the
    failure stay. *)
Lemma credit_loop_spec cycle_id tally t items : forall d n,
  hoare (at_state d t n)
    (for_each items (fun item =>
       let user_id := fst item in
       let reward := snd item in
       if reward <=? 0 then ret tt
       else Storage.credit_user_chips user_id reward "prediction_reward" (Some cycle_id)
              (Some [("correct_picks",
                      JInt (Py.dict_get_default (user_hits tally) user_id 0))])))
    (fun _ c =>
       clean c /\
       db c = credit_rewards cycle_id tally (t / Date.MICROSECONDS_PER_SECOND) n
                (rewards_due items) d)
    (fun _ c =>
       exists k, (k <= length (rewards_due items))%nat /\ clean c /\
         db c = credit_rewards cycle_id tally (t / Date.MICROSECONDS_PER_SECOND) n
                  (take k (rewards_due items)) d).
Proof.
  induction items as [|[user_id reward] items IH]; intros d n.
  - apply hoare_ret. intros c (H1 & H2 & _). split; [|exact H2].
    unfold clean. congruence.
  - cbn [for_each]. cbv zeta. cbn [fst snd]. unfold rewards_due. cbn [List.filter snd].
    fold (rewards_due items).
    destruct (reward <=? 0) eqn:Hreward; cbn [negb].
    + eapply hoare_bind with (R := fun _ => at_state d t n);
        [apply hoare_ret; auto | intros u; apply IH].
    + eapply hoare_bind.
      * eapply hoare_conseq.
        -- apply (credit_user_chips_spec d t n user_id reward); lia.
        -- intros c Hc. exact Hc.
        -- cbv beta. intros a c Hc. exact Hc.
        -- cbv beta. intros e c (H1 & H2). exists 0%nat.
           split; [simpl; lia|]. split; [unfold clean; congruence | exact H2].
      * intros u. eapply hoare_conseq; [apply IH | intros c Hc; exact Hc | |]; cbv beta.
        -- intros a c Hc. exact Hc.
        -- intros e c (k & Hk & Hclean & Hdb). exists (S k).
           split; [simpl; lia|]. split; [exact Hclean | exact Hdb].
Qed.

(** What [settle_cycle] derives from the tables [d]: the winners among the
    candidates, and the rewards its picks earn. *)
Definition winners_of (d : DB) (cycle_id : string) (winner_canonical_urls : list string)
    : list string :=
  match_winners (Py.sort Storage.by_created (Storage.candidates_of d cycle_id))
    (Py.set_of winner_canonical_urls).

Definition tally_of (d : DB) (cycle_id : string) (winner_canonical_urls : list string)
    : Tally :=
  tally_picks (Py.set_of (winners_of d cycle_id winner_canonical_urls))
    (Py.sort Storage.by_picked_rank
       (List.filter (fun p => String.eqb (Pick.cycle_id p) cycle_id) (picks d))).

Definition rewards_of (d : DB) (cycle_id : string) (winner_canonical_urls : list string)
    : list (string * Z) :=
  rewards_due (user_rewards (tally_of d cycle_id winner_canonical_urls)).

(** The tables once the results are saved and the first [k] rewards are
    credited, from the tables [d0] at time [t] with [n] identifiers drawn. *)
Definition settled_db (d0 : DB) (t : Z) (n : nat) (cycle_id : string)
    (winner_canonical_urls : list string) (k : nat) : DB :=
  let now := t / Date.MICROSECONDS_PER_SECOND in
  credit_rewards cycle_id (tally_of d0 cycle_id winner_canonical_urls) now n
    (take k (rewards_of d0 cycle_id winner_canonical_urls))
    (results_saved cycle_id (winners_of d0 cycle_id winner_canonical_urls) now d0).

(** Where [settle_cycle] leaves the connection when it returns, and when it
    raises. *)
Definition settled (d0 : DB) (t : Z) (n : nat) (cycle_id : string)
    (winner_urls : list string) (c : Conn) : Prop :=
  clean c /\
  exists canon, canonical_urls winner_urls = Ok canon /\
    db c = settled_db d0 t n cycle_id canon (length (rewards_of d0 cycle_id canon)).

Definition settlement_failed (d0 : DB) (t : Z) (n : nat) (cycle_id : string)
    (winner_urls : list string) (c : Conn) : Prop :=
  clean c /\
  (db c = d0
   \/ exists canon k, canonical_urls winner_urls = Ok canon /\
        (k <= length (rewards_of d0 cycle_id canon))%nat /\
        db c = settled_db d0 t n cycle_id canon k).

Lemma settle_cycle_spec d0 t n cycle_id winner_urls :
  hoare (at_state d0 t n) (settle_cycle cycle_id winner_urls)
    (fun _ => settled d0 t n cycle_id winner_urls)
    (fun _ => settlement_failed d0 t n cycle_id winner_urls).
Proof.
  assert (Hunchanged : forall c, unchanged d0 c -> settlement_failed d0 t n cycle_id winner_urls c).
  { intros c (H1 & H2). split; [unfold clean; congruence | left; exact H2]. }
  unfold settle_cycle.
  eapply hoare_bind.
  { unfold Storage.list_candidates. apply hoare_query_at with
      (Q := fun candidates c =>
              candidates = Py.sort Storage.by_created (Storage.candidates_of d0 cycle_id)
              /\ at_state d0 t n c).
    - intros c Hc. split; [reflexivity | exact Hc].
    - intros e c (H1 & H2 & _). apply Hunchanged. split; assumption. }
  intros candidates. apply hoare_pure. intros ->.
  eapply hoare_bind
    with (R := fun canon c => canonical_urls winner_urls = Ok canon /\ at_state d0 t n c).
  { apply hoare_lift. intros c Hc. destruct (canonical_urls winner_urls) as [canon|e].
    - split; [reflexivity | exact Hc].
    - destruct Hc as (H1 & H2 & _). apply Hunchanged. split; assumption. }
  intros canon. apply hoare_pure. intros Hcanon. cbv zeta.
  fold (winners_of d0 cycle_id canon).
  set (now := t / Date.MICROSECONDS_PER_SECOND).
  set (d1 := results_saved cycle_id (winners_of d0 cycle_id canon) now d0).
  assert (Hpartial : forall k c,
            (k <= length (rewards_of d0 cycle_id canon))%nat -> clean c ->
            db c = credit_rewards cycle_id (tally_of d0 cycle_id canon) now n
                     (take k (rewards_of d0 cycle_id canon)) d1 ->
            settlement_failed d0 t n cycle_id winner_urls c).
  { intros k c Hk Hclean Hdb. split; [exact Hclean|]. right. exists canon, k. auto. }
  eapply hoare_bind with (R := fun _ => at_state d1 t n).
  { eapply hoare_conseq; [apply save_cycle_results_spec | intros c Hc; exact Hc
                         | intros a c Hc; exact Hc |].
    cbv beta. intros e c Hc. apply Hunchanged, Hc. }
  intros u.
  eapply hoare_bind.
  { unfold Storage.list_picks. apply hoare_query_at with
      (Q := fun rows c =>
              rows = Py.sort Storage.by_picked_rank
                       (List.filter (fun p => String.eqb (Pick.cycle_id p) cycle_id)
                          (picks d0))
              /\ at_state d1 t n c).
    - intros c Hc. split; [reflexivity | exact Hc].
    - intros e c (H1 & H2 & _). apply (Hpartial 0%nat); [lia | unfold clean; congruence |].
      exact H2. }
  intros picks. apply hoare_pure. intros ->.
  fold (tally_of d0 cycle_id canon).
  eapply hoare_bind.
  { eapply hoare_conseq; [apply (credit_loop_spec cycle_id (tally_of d0 cycle_id canon) t)
                         | intros c Hc; exact Hc | intros a c Hc; exact Hc |].
    cbv beta. intros e c (k & Hk & Hclean & Hdb). apply (Hpartial k); assumption. }
  intros u'. apply hoare_ret. intros c (Hclean & Hdb). split; [exact Hclean|].
  exists canon. split; [exact Hcanon|]. unfold settled_db. rewrite firstn_all. exact Hdb.
Qed.

(** The ledger rows of the credits of [items]. *)
Fixpoint reward_rows (cycle_id : string) (t : Tally) (now : Z) (n : nat)
    (items : list (string * Z)) : list Ledger.t :=
  match items with
  | [] => []
  | item :: rest => reward_row cycle_id t now n item :: reward_rows cycle_id t now (S n) rest
  end.

Lemma credit_rewards_tables cycle_id t now items : forall n d,
  cycles (credit_rewards cycle_id t now n items d) = cycles d
  /\ cycle_results (credit_rewards cycle_id t now n items d) = cycle_results d
  /\ chip_ledger (credit_rewards cycle_id t now n items d)
     = chip_ledger d ++ reward_rows cycle_id t now n items.
Proof.
  induction items as [|item items IH]; intros n d; simpl.
  - rewrite app_nil_r. auto.
  - destruct (IH (S n) (credit_applied (reward_row cycle_id t now n item) d))
      as (H1 & H2 & H3).
    rewrite H1, H2, H3. simpl. rewrite <- app_assoc. auto.
Qed.

(** Whatever number of rewards was credited, the cycle is SETTLED with its
    result rows, and the ledger has grown by the rows of these credits. *)
Lemma settled_db_tables d0 t n cycle_id canon k :
  let now := t / Date.MICROSECONDS_PER_SECOND in
  let saved := results_saved cycle_id (winners_of d0 cycle_id canon) now d0 in
  cycles (settled_db d0 t n cycle_id canon k) = cycles saved
  /\ cycle_results (settled_db d0 t n cycle_id canon k) = cycle_results saved
  /\ chip_ledger (settled_db d0 t n cycle_id canon k)
     = chip_ledger d0
       ++ reward_rows cycle_id (tally_of d0 cycle_id canon) now n
            (take k (rewards_of d0 cycle_id canon)).
Proof.
  cbv zeta. unfold settled_db.
  exact (credit_rewards_tables cycle_id _ _ _ n
           (results_saved cycle_id (winners_of d0 cycle_id canon)
              (t / Date.MICROSECONDS_PER_SECOND) d0)).
Qed.

(** C1 (as the code has it). [settle_cycle] on a connection with no open
    transaction, whatever the engine failures ahead, runs the write of the
    result rows together with the flip to SETTLED as one transaction and
    then each prediction-reward credit as a transaction of its own.  When
    it returns, the results are saved and every positive reward is
    credited.  When it raises, either nothing was written (the database is
    the one before the call, so the cycle is as it was and settling again
    starts from the same state), or the results and the SETTLED status are
    committed together with the credits of the first [k] rewarded users
    and none of the later ones.  No credit is written before the results
    and the status. *)
Theorem settle_cycle_transactions c cycle_id winner_urls :
  clean c ->
  match settle_cycle cycle_id winner_urls c with
  | (Ok _, c') => settled (db c) (clock c) (next_id c) cycle_id winner_urls c'
  | (Raise _, c') => settlement_failed (db c) (clock c) (next_id c) cycle_id winner_urls c'
  end.
Proof.
  intros Hclean.
  apply (settle_cycle_spec (db c) (clock c) (next_id c) cycle_id winner_urls c).
  repeat split. exact Hclean.
Qed.

(** The two users of [market_day] both ranked the winning link first; the
    engine fails at the eleventh statement of the settlement, the balance
    update of the second user's credit. *)
Definition settlement_day : Conn := with_faults (repeat false 10 ++ [true]) market_day.

Lemma settle_cycle_transactions_witness :
  settlement_failed (db settlement_day) (clock settlement_day) (next_id settlement_day)
    "cyc_4" ["https://example.com/a"]
    (snd (settle_cycle "cyc_4" ["https://example.com/a"] settlement_day)).
Proof.
  assert (Hclean : clean settlement_day) by (vm_compute; reflexivity).
  pose proof (settle_cycle_transactions settlement_day "cyc_4" ["https://example.com/a"]
                Hclean) as H.
  assert (Hraise : fst (settle_cycle "cyc_4" ["https://example.com/a"] settlement_day)
                   = Raise OperationalError) by (vm_compute; reflexivity).
  destruct (settle_cycle "cyc_4" ["https://example.com/a"] settlement_day) as [[s|e] c'].
  - discriminate Hraise.
  - exact H.
Defined.

(** Settlement is not one unit: the failing settlement raises, and yet the
    cycle that was OPEN is SETTLED with its result rows and the first user
    has the reward that the second user, who earned the same, has not. *)
Lemma settlement_failure_leaves_partial_state :
  map Cycle.status (cycles (db settlement_day)) = [OPEN]
  /\ fst (settle_cycle "cyc_4" ["https://example.com/a"] settlement_day)
     = Raise OperationalError
  /\ (let c' := snd (settle_cycle "cyc_4" ["https://example.com/a"] settlement_day) in
      map Cycle.status (cycles (committed c')) = [SETTLED]
      /\ map (fun r => (CycleResult.candidate_id r, CycleResult.is_winner r))
           (cycle_results (committed c'))
         = [("lnk_5", 1); ("lnk_6", 0); ("lnk_7", 0)]
      /\ map (fun l => (Ledger.user_id l, Ledger.event_type l, Ledger.chips_delta l))
           (chip_ledger (committed c'))
         = [("usr_0", "signup_bonus", 100); ("usr_2", "signup_bonus", 100);
            ("usr_0", "prediction_reward", 20)]
      /\ map (fun u => (User.id u, User.current_chips u)) (users (committed c'))
         = [("usr_0", 120); ("usr_2", 100)]).
Proof. vm_compute. repeat split; reflexivity. Qed.

(** ** Model runs and the explanation contract *)

(** The prediction rows, committed and seen, are [X], at time [t]. *)
Definition predictions_are (X : list ModelPrediction.t) (t : Z) (c : Conn) : Prop :=
  model_predictions (committed c) = X /\ model_predictions (db c) = X /\ clock c = t.

#[global] Instance predictions_are_framed X t :
  Framed (predictions_are X t) (fun _ d => model_predictions d = X) (fun _ => True)
    (fun clock => clock = t).
Proof.
  split.
  - intros c. unfold predictions_are. tauto.
  - auto.
  - auto.
Qed.

(** The prediction rows after the upsert of [r]. *)
Definition store_prediction (r : ModelPrediction.t) (X : list ModelPrediction.t)
    : list ModelPrediction.t :=
  let same := Storage.prediction_key (ModelPrediction.cycle_id r)
                (ModelPrediction.model_user_id r) (ModelPrediction.candidate_id r) in
  if existsb same X then map (fun q => if same q then r else q) X else X ++ [r].

(** An upsert is a transaction of its own. *)
Lemma upsert_model_prediction_spec X t cycle_id model_user_id candidate_id probability
    explanation :
  hoare (predictions_are X t)
    (Storage.upsert_model_prediction cycle_id model_user_id candidate_id probability
       explanation)
    (fun _ =>
       predictions_are
         (store_prediction
            (ModelPrediction.mk cycle_id model_user_id candidate_id probability explanation
               (t / Date.MICROSECONDS_PER_SECOND)) X) t)
    (fun _ => predictions_are X t).
Proof.
  unfold Storage.upsert_model_prediction. apply hoare_with_conn.
  eapply hoare_bind
    with (R := fun now c => now = t / Date.MICROSECONDS_PER_SECOND /\ predictions_are X t c).
  { intros c Hc. simpl. split; [|exact Hc]. destruct Hc as (_ & _ & ->). reflexivity. }
  intros now. apply hoare_pure. intros ->.
  apply hoare_execute.
  - intros c plan (H1 & H2 & H3) _. repeat split; assumption.
  - intros c (H1 & H2 & H3) _. unfold Storage.upsert_prediction.
    destruct (_ || _); [repeat split; assumption|].
    cbv zeta. cbn [ModelPrediction.cycle_id ModelPrediction.model_user_id
                   ModelPrediction.candidate_id].
    unfold store_prediction. cbv zeta.
    cbn [ModelPrediction.cycle_id ModelPrediction.model_user_id
         ModelPrediction.candidate_id].
    rewrite H2. destruct (existsb _ X); repeat split; try assumption; reflexivity.
Qed.

Section Explanations.
Variables (cycle_id model_user_id : string) (config : ModelAgentConfig.t)
  (strategy : ModelAgents.ModelStrategy) (probabilities : Py.dict Q)
  (selected_id_set : list string) (t : Z).

(** The candidate is selected and its explanation is blank. *)
Definition unexplained (candidate : CandidateLink.t) : bool :=
  Py.mem (CandidateLink.id candidate) selected_id_set
  && match ModelAgents.explain_choice strategy config candidate
             (ModelAgents.probability_of probabilities candidate) true with
     | Ok explanation => negb (Py.truthy (Py.strip explanation))
     | Raise _ => false
     end.

(** The explanation that was stored for a candidate. *)
Definition explanation_of (candidate : CandidateLink.t) : string :=
  match ModelAgents.explain_choice strategy config candidate
          (ModelAgents.probability_of probabilities candidate)
          (Py.mem (CandidateLink.id candidate) selected_id_set) with
  | Ok explanation => explanation
  | Raise _ => ""
  end.

Definition prediction_row (candidate : CandidateLink.t) : ModelPrediction.t :=
  ModelPrediction.mk cycle_id model_user_id (CandidateLink.id candidate)
    (ModelAgents.probability_of probabilities candidate) (explanation_of candidate)
    (t / Date.MICROSECONDS_PER_SECOND).

(** The prediction rows after the upserts for [candidates]. *)
Definition store_all (candidates : list CandidateLink.t) (X : list ModelPrediction.t)
    : list ModelPrediction.t :=
  fold_left (fun X candidate => store_prediction (prediction_row candidate) X) candidates X.

(** The loop stops at the unexplained candidate at the latest: the rows of
    some of the candidates before it are stored, its own and the later ones
    are not. *)
Lemma explain_and_store_stops before bad after :
  unexplained bad = true ->
  forall X (rows0 : list ModelAgents.PredictionRow),
  hoare (predictions_are X t)
    (for_fold (before ++ bad :: after) rows0 (fun model_rows candidate =>
       let selected := Py.mem (CandidateLink.id candidate) selected_id_set in
       explanation <- lift (ModelAgents.explain_choice strategy config candidate
                              (ModelAgents.probability_of probabilities candidate)
                              selected) ;;
       if selected && negb (Py.truthy (Py.strip explanation))
       then raise (ValueError ("Model " +:+ ModelAgentConfig.id config
                               +:+ " must provide explanation for selected candidate "
                               +:+ CandidateLink.id candidate))
       else
         Storage.upsert_model_prediction cycle_id model_user_id (CandidateLink.id candidate)
           (ModelAgents.probability_of probabilities candidate) explanation ;;
         ret (model_rows
              ++ [ModelAgents.mkPrediction (CandidateLink.id candidate)
                    (ModelAgents.probability_of probabilities candidate) explanation
                    selected])))
    (fun _ _ => False)
    (fun _ c => exists k, (k <= length before)%nat /\
                  predictions_are (store_all (take k before) X) t c).
Proof.
  intros Hbad. induction before as [|x before IH]; intros X rows0.
  - cbn [app for_fold]. cbv zeta.
    unfold unexplained in Hbad. apply andb_true_iff in Hbad as (Hsel & Hblank).
    rewrite Hsel. intros c Hc. unfold bind, lift.
    destruct (ModelAgents.explain_choice strategy config bad _ true) as [e|e].
    + rewrite Hblank. simpl. exists 0%nat. split; [simpl; lia | exact Hc].
    + discriminate Hblank.
  - cbn [app for_fold]. cbv zeta. eapply hoare_bind.
    + eapply hoare_bind
        with (R := fun e c =>
                ModelAgents.explain_choice strategy config x
                  (ModelAgents.probability_of probabilities x)
                  (Py.mem (CandidateLink.id x) selected_id_set) = Ok e
                /\ predictions_are X t c).
      * apply hoare_lift. intros c Hc.
        destruct (ModelAgents.explain_choice strategy config x _ _) as [e|e].
        -- split; [reflexivity | exact Hc].
        -- exists 0%nat. split; [simpl; lia | exact Hc].
      * intros e. apply hoare_pure. intros He.
        destruct (_ && _).
        -- apply hoare_raise. intros c Hc. exists 0%nat. split; [simpl; lia | exact Hc].
        -- eapply hoare_bind
             with (R := fun _ => predictions_are (store_prediction (prediction_row x) X) t).
           ++ eapply hoare_conseq; [apply upsert_model_prediction_spec
                                   | intros c Hc; exact Hc | |]; cbv beta.
              ** intros _ c Hc. unfold prediction_row, explanation_of. rewrite He. exact Hc.
              ** intros _ c Hc. exists 0%nat. split; [simpl; lia | exact Hc].
           ++ intros u. apply hoare_ret
                with (Q := fun _ => predictions_are (store_prediction (prediction_row x) X) t).
              auto.
    + intros rows1. eapply hoare_conseq; [apply IH | intros c Hc; exact Hc | auto |].
      cbv beta. intros _ c (k & Hk & Hc). exists (S k). split; [simpl; lia | exact Hc].
Qed.

End Explanations.

(** What [_load_strategy] returns: it does not touch the connection. *)
Definition loaded_strategy (default_strategy : ModelAgents.ModelStrategy)
    (plugins : ModelAgents.Plugins) (config : ModelAgentConfig.t)
    : result ModelAgents.ModelStrategy :=
  fst (ModelAgents._load_strategy default_strategy plugins config (connect 0)).

Lemma _load_strategy_eq default_strategy plugins config c :
  ModelAgents._load_strategy default_strategy plugins config c
  = (loaded_strategy default_strategy plugins config, c).
Proof.
  unfold loaded_strategy, ModelAgents._load_strategy.
  destruct (ModelAgentConfig.strategy_plugin config) as [plugin|]; [|reflexivity].
  destruct (negb (Py.truthy plugin)); [reflexivity|].
  destruct (Py.split_once ":" plugin) as [[module_name class_name]|]; [|reflexivity].
  unfold bind, lift. destruct (plugins module_name class_name) as [[strategy|]|e]; reflexivity.
Qed.

(** The ids [run_cycle] selects for a model: the first [pick_cap] candidates
    by descending probability. *)
Definition selected_ids (config : ModelAgentConfig.t) (candidates : list CandidateLink.t)
    (probabilities : Py.dict Q) : list string :=
  let ranked_candidates :=
    Py.sort (ModelAgents.by_probability_desc probabilities) candidates in
  let pick_cap :=
    Z.max 0 (Z.min (Z.min (ModelAgentConfig.max_daily_picks config) MAX_PICKS_PER_CYCLE)
               (Z.of_nat (length ranked_candidates))) in
  map CandidateLink.id (take (Z.to_nat pick_cap) ranked_candidates).

Lemma get_or_create_ai_user_predictions X t model_id :
  preserves (predictions_are X t) (Storage.get_or_create_ai_user model_id).
Proof. preserves_auto unfold_storage. Qed.

Lemma set_ranked_picks_predictions X t cycle_id user_id ids :
  preserves (predictions_are X t) (MarketService.set_ranked_picks cycle_id user_id ids).
Proof. unfold MarketService.set_ranked_picks. preserves_auto unfold_storage. Qed.

Section ModelRun.
Variables (default_strategy : ModelAgents.ModelStrategy) (plugins : ModelAgents.Plugins)
  (config : ModelAgentConfig.t) (strategy : ModelAgents.ModelStrategy)
  (cycle_id : string) (before : list CandidateLink.t) (bad : CandidateLink.t)
  (after : list CandidateLink.t) (probs : Py.dict Q).

Let candidates := before ++ bad :: after.
Let probabilities := ModelAgents._normalize_probabilities probs candidates.
Let selected_id_set := Py.set_of (selected_ids config candidates probabilities).

Hypothesis Hloaded : loaded_strategy default_strategy plugins config = Ok strategy.
Hypothesis Hpredict :
  ModelAgents.predict_probabilities strategy config candidates = Ok probs.
Hypothesis Hbad : unexplained config strategy probabilities selected_id_set bad = true.

(** Where the run of the model leaves the prediction rows when it fails. *)
Definition stored_before (X : list ModelPrediction.t) (t : Z) (c : Conn) : Prop :=
  exists model_user_id k,
    (k <= length before)%nat /\
    predictions_are
      (store_all cycle_id model_user_id config strategy probabilities selected_id_set t
         (take k before) X) t c.

Lemma stored_before_zero X t c : predictions_are X t c -> stored_before X t c.
Proof. intros Hc. exists "", 0%nat. split; [lia | exact Hc]. Qed.

Lemma run_config_stops X t :
  hoare (predictions_are X t)
    (ModelAgents.run_config default_strategy plugins cycle_id candidates config)
    (fun _ _ => False) (fun _ => stored_before X t).
Proof.
  unfold ModelAgents.run_config.
  eapply hoare_bind with (R := fun _ => predictions_are X t).
  { eapply hoare_conseq; [apply get_or_create_ai_user_predictions
                         | intros c Hc; exact Hc | intros a c Hc; exact Hc |].
    cbv beta. intros e c Hc. apply stored_before_zero, Hc. }
  intros model_user.
  eapply hoare_bind with (R := fun s c => s = strategy /\ predictions_are X t c).
  { intros c Hc. rewrite _load_strategy_eq, Hloaded. split; [reflexivity | exact Hc]. }
  intros s. apply hoare_pure. intros ->.
  eapply hoare_bind with (R := fun p c => p = probs /\ predictions_are X t c).
  { apply hoare_lift. intros c Hc. rewrite Hpredict. split; [reflexivity | exact Hc]. }
  intros p. apply hoare_pure. intros ->. cbv zeta.
  eapply hoare_bind with (R := fun _ => predictions_are X t).
  { eapply hoare_conseq; [apply set_ranked_picks_predictions
                         | intros c Hc; exact Hc | intros a c Hc; exact Hc |].
    cbv beta. intros e c Hc. apply stored_before_zero, Hc. }
  intros picks. eapply hoare_bind with (R := fun _ _ => False).
  - unfold ModelAgents.explain_and_store.
    eapply hoare_conseq;
      [apply (explain_and_store_stops cycle_id (User.id model_user) config strategy
                probabilities selected_id_set t before bad after Hbad X [])
      | intros c Hc; exact Hc | intros a c Hc; exact Hc |].
    cbv beta. intros e c (k & Hk & Hc). exists (User.id model_user), k. auto.
  - intros rows c [].
Qed.

End ModelRun.

Lemma list_candidates_predictions X t d0 cycle_id :
  hoare (fun c => db c = d0 /\ predictions_are X t c) (Storage.list_candidates cycle_id)
    (fun candidates c =>
       candidates = Py.sort Storage.by_created (Storage.candidates_of d0 cycle_id)
       /\ predictions_are X t c)
    (fun _ => predictions_are X t).
Proof.
  intros c (<- & H1 & H2 & H3). unfold Storage.list_candidates, query, _execute.
  destruct (fault_plan c) as [|[|] plan]; simpl; repeat split; assumption.
Qed.

(** Two loops in a row are the loop over both lists. *)
Lemma for_fold_app {A S} (xs ys : list A) (body : S -> A -> M S) : forall s c,
  for_fold (xs ++ ys) s body c
  = (s' <- for_fold xs s body ;; for_fold ys s' body) c.
Proof.
  induction xs as [|x xs IH]; intros s c; cbn [app for_fold].
  - reflexivity.
  - unfold bind. destruct (body s x c) as [[s1|e] c1]; [|reflexivity].
    rewrite IH. reflexivity.
Qed.

(** ** Transactions are closed when a call is over *)

Lemma clean_with_conn {A} (body : M A) : preserves clean (with_conn body).
Proof. intros c _. unfold with_conn. destruct (body c) as [[a|e] c']; reflexivity. Qed.

Lemma clean_query {A} (q : DB -> A) : preserves clean (query q).
Proof.
  intros c Hc. unfold query, _execute.
  destruct (fault_plan c) as [|[|] plan]; exact Hc.
Qed.

Lemma clean_id prefix : preserves clean (_id prefix).
Proof. intros c Hc. exact Hc. Qed.

Ltac clean_step :=
  lazymatch goal with
  | |- preserves clean (with_conn _) => apply clean_with_conn
  | |- preserves clean (query _) => apply clean_query
  | |- preserves clean (_id _) => apply clean_id
  | |- _ => preserves_step
  end.

(** A model pass leaves no transaction open, whether it returns or
    raises. *)
Lemma run_cycle_clean default_strategy plugins configs cycle_id :
  preserves clean (ModelAgents.run_cycle default_strategy plugins configs cycle_id).
Proof.
  repeat first
    [ clean_step
    | progress unfold ModelAgents.run_cycle, ModelAgents.run_config,
        ModelAgents.explain_and_store, ModelAgents._load_strategy,
        MarketService.set_ranked_picks
    | progress unfold_storage ].
Qed.

(** The body of the loop over the configurations in [run_cycle]. *)
Definition config_step (default_strategy : ModelAgents.ModelStrategy)
    (plugins : ModelAgents.Plugins) (cycle_id : string) (candidates : list CandidateLink.t)
    (output : Py.dict ModelAgents.ModelRun) (config : ModelAgentConfig.t)
    : M (Py.dict ModelAgents.ModelRun) :=
  if negb (ModelAgentConfig.enabled config) then ret output
  else
    run <- ModelAgents.run_config default_strategy plugins cycle_id candidates config ;;
    ret (Py.dict_set output (ModelAgentConfig.id config) run).

Lemma run_cycle_steps default_strategy plugins configs cycle_id c :
  ModelAgents.run_cycle default_strategy plugins configs cycle_id c
  = match Storage.list_candidates cycle_id c with
    | (Ok [], c0) => (Ok [], c0)
    | (Ok candidates, c0) =>
        for_fold configs [] (config_step default_strategy plugins cycle_id candidates) c0
    | (Raise e, c0) => (Raise e, c0)
    end.
Proof.
  unfold ModelAgents.run_cycle, bind.
  destruct (Storage.list_candidates cycle_id c) as [[[|x xs]|e] c0]; reflexivity.
Qed.

(** C2 (as the code has it). When the strategy of an enabled configuration,
    wherever it stands in the list of configurations, returns a blank
    explanation (empty or white space only, the white space of Unicode
    included) for a candidate it selected, [run_cycle] never returns: it
    raises.  Either the pass of an earlier configuration has raised, and
    the run ends as the run over the earlier configurations alone ends; or
    these have all returned, and the pass of this configuration raises at
    the unexplained candidate at the latest, so that the configurations
    after it are not run.  The rows are not all-or-nothing: each
    prediction is upserted in a transaction of its own as the candidates
    are visited in creation order, so the rows of [k] of the candidates
    before the unexplained one are added to those the earlier
    configurations left, and no row is written for the unexplained
    candidate or for a later one. *)
Theorem run_cycle_stops_at_unexplained default_strategy plugins earlier config later strategy
    cycle_id c before bad after probs :
  let candidates := before ++ bad :: after in
  let probabilities := ModelAgents._normalize_probabilities probs candidates in
  let selected_id_set := Py.set_of (selected_ids config candidates probabilities) in
  clean c ->
  ModelAgentConfig.enabled config = true ->
  Py.sort Storage.by_created (Storage.candidates_of (db c) cycle_id) = candidates ->
  loaded_strategy default_strategy plugins config = Ok strategy ->
  ModelAgents.predict_probabilities strategy config candidates = Ok probs ->
  unexplained config strategy probabilities selected_id_set bad = true ->
  match ModelAgents.run_cycle default_strategy plugins (earlier ++ config :: later)
          cycle_id c with
  | (Ok _, _) => False
  | (Raise e, c') =>
      match ModelAgents.run_cycle default_strategy plugins earlier cycle_id c with
      | (Raise e1, c1) => e = e1 /\ c' = c1
      | (Ok _, c1) =>
          exists model_user_id k,
            (k <= length before)%nat /\
            predictions_are
              (store_all cycle_id model_user_id config strategy probabilities selected_id_set
                 (clock c1) (take k before) (model_predictions (db c1)))
              (clock c1) c'
      end
  end.
Proof.
  intros candidates probabilities selected_id_set Hclean Henabled Hcandidates Hloaded
    Hpredict Hbad.
  pose proof (run_cycle_clean default_strategy plugins earlier cycle_id c Hclean) as Hclean1.
  pose proof (list_candidates_predictions (model_predictions (db c)) (clock c) (db c)
                cycle_id c) as Hlist.
  rewrite !run_cycle_steps in *.
  destruct (Storage.list_candidates cycle_id c) as [[cands|e0] c0].
  2:{ split; reflexivity. }
  destruct Hlist as (-> & _).
  { unfold predictions_are. rewrite Hclean. auto. }
  rewrite Hcandidates in Hclean1 |- *.
  pose proof (fun X t =>
                run_config_stops default_strategy plugins config strategy cycle_id before bad
                  after probs Hloaded Hpredict Hbad X t) as Hrun.
  fold candidates in Hrun.
  assert (Hcons : exists x xs, candidates = x :: xs).
  { unfold candidates. destruct before; simpl; eauto. }
  destruct Hcons as (x & xs & Hcons). rewrite Hcons in Hclean1, Hrun |- *.
  rewrite for_fold_app. unfold bind at 1.
  destruct (for_fold earlier [] (config_step default_strategy plugins cycle_id (x :: xs)) c0)
    as [[out1|e1] c1].
  2:{ split; reflexivity. }
  cbn [for_fold]. unfold config_step at 1. rewrite Henabled. cbn [negb].
  specialize (Hrun (model_predictions (db c1)) (clock c1) c1).
  unfold bind at 1 2.
  destruct (ModelAgents.run_config default_strategy plugins cycle_id (x :: xs) config c1)
    as [[run|e] c'].
  - exfalso. apply Hrun. unfold predictions_are. rewrite Hclean1. auto.
  - apply Hrun. unfold predictions_are. rewrite Hclean1. auto.
Qed.

(** A cycle with two links, and a model whose plugin strategy prefers the
    second one and, like [BadExplanationStrategy] of the tests, explains
    only what it did not select. *)
Definition model_day : Conn :=
  let c := connect 1770336000000000 in
  let c := snd (Storage.create_user "Owner" "owner@example.com" "HUMAN" None None c) in
  let c := snd (Storage.create_cycle (Some "2026-02-06") c) in
  let c := snd (Storage.create_candidate "cyc_2" "usr_0" "https://a.com/1" "A" c) in
  snd (Storage.create_candidate "cyc_2" "usr_0" "https://b.com/2" "B" c).

Definition first_link : CandidateLink.t :=
  CandidateLink.mk "lnk_3" "cyc_2" "usr_0" "https://a.com/1" "https://a.com/1" "a.com" "A"
    1770336000.

Definition second_link : CandidateLink.t :=
  CandidateLink.mk "lnk_4" "cyc_2" "usr_0" "https://b.com/2" "https://b.com/2" "b.com" "B"
    1770336000.

Definition SecondChoiceStrategy : ModelAgents.ModelStrategy :=
  ModelAgents.mkStrategy
    (fun config candidates =>
       Ok (match candidates with
           | [] => []
           | first :: rest =>
               (CandidateLink.id first, (1 # 4)%Q)
               :: map (fun candidate => (CandidateLink.id candidate, (3 # 4)%Q)) rest
           end))
    (fun config candidate probability selected =>
       Ok (if selected then "" else "not selected")).

Definition test_plugins : ModelAgents.Plugins :=
  fun module_name class_name =>
    if String.eqb module_name "tests.plugins" && String.eqb class_name "SecondChoiceStrategy"
    then Ok (Some SecondChoiceStrategy)
    else Raise ImportError.

Definition bad_model : ModelAgentConfig.t :=
  ModelAgentConfig.mk "bad-model" "local" "bad" true "default" 1 (2 # 10)
    (Some "tests.plugins:SecondChoiceStrategy").

Definition second_choice_probabilities : Py.dict Q :=
  ModelAgents._normalize_probabilities [("lnk_3", (1 # 4)%Q); ("lnk_4", (3 # 4)%Q)]
    [first_link; second_link].

(** A model that keeps the contract: the default strategy. *)
Definition good_model : ModelAgentConfig.t :=
  ModelAgentConfig.mk "good-model" "local" "good" true "default" 1 (2 # 10) None.

Lemma run_cycle_stops_at_unexplained_witness :
  let run := ModelAgents.run_cycle (ModelAgents.DefaultRankingStrategy (fun _ => 0))
               test_plugins in
  exists out c1 e c',
    run [good_model] "cyc_2" model_day = (Ok out, c1)
    /\ run [good_model; bad_model] "cyc_2" model_day = (Raise e, c')
    /\ exists model_user_id k,
         (k <= 1)%nat /\
         predictions_are
           (store_all "cyc_2" model_user_id bad_model SecondChoiceStrategy
              second_choice_probabilities
              (Py.set_of (selected_ids bad_model [first_link; second_link]
                            second_choice_probabilities))
              (clock c1) (take k [first_link]) (model_predictions (db c1)))
           (clock c1) c'.
Proof.
  cbv zeta.
  pose proof (run_cycle_stops_at_unexplained
                (ModelAgents.DefaultRankingStrategy (fun _ => 0)) test_plugins
                [good_model] bad_model []
                SecondChoiceStrategy "cyc_2" model_day [first_link] second_link []
                [("lnk_3", (1 # 4)%Q); ("lnk_4", (3 # 4)%Q)]) as H.
  cbv zeta in H.
  assert (H1 : clean model_day) by (vm_compute; reflexivity).
  assert (H2 : ModelAgentConfig.enabled bad_model = true) by reflexivity.
  assert (H3 : Py.sort Storage.by_created (Storage.candidates_of (db model_day) "cyc_2")
               = [first_link] ++ [second_link]) by (vm_compute; reflexivity).
  assert (H4 : loaded_strategy (ModelAgents.DefaultRankingStrategy (fun _ => 0))
                 test_plugins bad_model = Ok SecondChoiceStrategy)
    by (vm_compute; reflexivity).
  assert (H5 : ModelAgents.predict_probabilities SecondChoiceStrategy bad_model
                 ([first_link] ++ [second_link])
               = Ok [("lnk_3", (1 # 4)%Q); ("lnk_4", (3 # 4)%Q)])
    by (vm_compute; reflexivity).
  assert (H6 : unexplained bad_model SecondChoiceStrategy
                 (ModelAgents._normalize_probabilities
                    [("lnk_3", (1 # 4)%Q); ("lnk_4", (3 # 4)%Q)]
                    ([first_link] ++ [second_link]))
                 (Py.set_of
                    (selected_ids bad_model ([first_link] ++ [second_link])
                       (ModelAgents._normalize_probabilities
                          [("lnk_3", (1 # 4)%Q); ("lnk_4", (3 # 4)%Q)]
                          ([first_link] ++ [second_link]))))
                 second_link = true)
    by (vm_compute; reflexivity).
  specialize (H H1 H2 H3 H4 H5 H6).
  assert (E : exists out c1,
            ModelAgents.run_cycle (ModelAgents.DefaultRankingStrategy (fun _ => 0))
              test_plugins [good_model] "cyc_2" model_day = (Ok out, c1))
    by (vm_compute; eexists _, _; reflexivity).
  destruct E as (out & c1 & E). rewrite E in H.
  change ([good_model] ++ [bad_model]) with [good_model; bad_model] in H.
  destruct (ModelAgents.run_cycle (ModelAgents.DefaultRankingStrategy (fun _ => 0))
              test_plugins [good_model; bad_model] "cyc_2" model_day) as [[s|e] c'].
  - destruct H.
  - exists out, c1, e, c'. split; [exact E|]. split; [reflexivity | exact H].
Defined.

(** The rows of a failing model are not all-or-nothing: the run raises for
    the missing explanation of the selected second link, and the row of
    the first link, which it had stored before, is persisted. *)
Lemma run_cycle_persists_rows_before_failure :
  model_predictions (db model_day) = []
  /\ fst (ModelAgents.run_cycle (ModelAgents.DefaultRankingStrategy (fun _ => 0))
            test_plugins [bad_model] "cyc_2" model_day)
     = Raise (ValueError
                "Model bad-model must provide explanation for selected candidate lnk_4")
  /\ map (fun r => (ModelPrediction.model_user_id r, ModelPrediction.candidate_id r,
                    ModelPrediction.explanation r))
       (model_predictions
          (committed
             (snd (ModelAgents.run_cycle (ModelAgents.DefaultRankingStrategy (fun _ => 0))
                     test_plugins [bad_model] "cyc_2" model_day))))
     = [("usr_5", "lnk_3", "not selected")].
Proof. vm_compute. repeat split; reflexivity. Qed.

(** * Further properties of the package *)

(** ** Runs without engine failures *)

(** No transaction is open and no failure is ahead. *)
Definition ready (c : Conn) : Prop := clean c /\ no_faults c.

(** Name the parts of a ready connection. *)
Ltac ready_conn c H :=
  let cm := fresh "cm" in let d := fresh "d" in let t := fresh "t" in
  let n := fresh "n" in let plan := fresh "plan" in
  let Hc := fresh "Hc" in let Hf := fresh "Hf" in
  destruct c as [cm d t n plan]; destruct H as [Hc Hf];
  unfold clean, no_faults in Hc, Hf; simpl in Hc, Hf; subst cm plan.

(** Run the steps of a computation on an explicit connection. *)
Ltac run_steps :=
  cbv beta iota zeta delta
    [bind ret raise lift query _execute with_conn try_except _id _now_iso _now today
     fault_plan db committed clock next_id tail advance_clock with_faults fst snd].

Ltac run_steps_in H :=
  cbv beta iota zeta delta
    [bind ret raise lift query _execute with_conn try_except _id _now_iso _now today
     fault_plan db committed clock next_id tail advance_clock with_faults fst snd] in H.

Lemma ready_mk d t n : ready (mkConn d d t n []).
Proof. split; reflexivity. Qed.

(** ** Clicks *)

(** X1. [record_click] on an existing candidate: a click by the candidate's
    own submitter is not counted ("self_click") and writes nothing.  A
    counted click ("unique") appends one click event with the candidate's
    cycle, the clicking user and the fingerprint digest, and every later
    click on the same candidate with the same fingerprint, by whatever
    user, is not counted and leaves the tables as they are. *)
Theorem record_click_counts_once c candidate_id cand :
  ready c ->
  List.find (fun x => String.eqb (CandidateLink.id x) candidate_id) (candidate_links (db c))
    = Some cand ->
  (forall fingerprint u,
     u <> "" -> u = CandidateLink.submitted_by_user_id cand ->
     Storage.record_click candidate_id fingerprint (Some u) c
     = (Ok (false, "self_click"), c))
  /\ (forall fingerprint user c1,
        Storage.record_click candidate_id fingerprint user c = (Ok (true, "unique"), c1) ->
        ready c1
        /\ (exists e,
              click_events (db c1) = click_events (db c) ++ [e]
              /\ ClickEvent.candidate_id e = candidate_id
              /\ ClickEvent.cycle_id e = CandidateLink.cycle_id cand
              /\ ClickEvent.clicked_by_user_id e = user
              /\ ClickEvent.fingerprint_hash e = Storage.fingerprint_digest fingerprint)
        /\ forall user2 dt,
             exists reason c2,
               Storage.record_click candidate_id fingerprint user2 (advance_clock dt c1)
               = (Ok (false, reason), c2)
               /\ db c2 = db c1 /\ committed c2 = db c1).
Proof.
  intros Hready Hfind. ready_conn c Hready. simpl in Hfind. split.
  - intros fingerprint u Hu ->. unfold Storage.record_click. run_steps. rewrite Hfind.
    cbv beta iota. destruct (CandidateLink.submitted_by_user_id cand) as [|ch r] eqn:Hs;
      [congruence|].
    unfold Py.truthy_opt, Py.truthy, Storage.option_eqb. rewrite String.eqb_refl.
    reflexivity.
  - intros fingerprint user c1. unfold Storage.record_click. run_steps. rewrite Hfind.
    cbv beta iota.
    destruct (Py.truthy_opt user && _); [discriminate|].
    destruct (Storage.insert_click _ d) as [[u d1]|e] eqn:Hins; [|discriminate].
    intros H. injection H as <-.
    unfold Storage.insert_click in Hins.
    destruct (_ || _) eqn:Hcheck; [discriminate|]. injection Hins as _ <-.
    split; [apply ready_mk|]. split.
    { eexists. split; [reflexivity|]. simpl. auto. }
    intros user2 dt. unfold Storage.record_click. run_steps. cbn [candidate_links set_click_events]. rewrite Hfind. cbv beta iota.
    destruct (Py.truthy_opt user2 && _).
    + eexists _, _. split; [reflexivity|]. split; reflexivity.
    + assert (Hdup : Storage.insert_click
                (ClickEvent.mk ("clk" +:+ "_" +:+ pretty (S n)) (CandidateLink.cycle_id cand)
                   candidate_id user2 (Storage.fingerprint_digest fingerprint)
                   ((t + Z.max 0 dt) / Date.MICROSECONDS_PER_SECOND))
                (set_click_events
                   (click_events d
                    ++ [ClickEvent.mk ("clk" +:+ "_" +:+ pretty n) (CandidateLink.cycle_id cand)
                          candidate_id user (Storage.fingerprint_digest fingerprint)
                          (t / Date.MICROSECONDS_PER_SECOND)]) d)
              = Raise IntegrityError).
      { unfold Storage.insert_click.
        match goal with |- (if ?b then _ else _) = _ => assert (Hb : b = true) end.
        { apply orb_true_iff. right. simpl click_events. rewrite existsb_app.
          apply orb_true_iff. right. simpl. rewrite !String.eqb_refl. reflexivity. }
        rewrite Hb. reflexivity. }
      rewrite Hdup. eexists _, _. split; [reflexivity|]. split; reflexivity.
Qed.

(** The link of [market_day] that got the id lnk_5. *)
Definition clicked_link : CandidateLink.t :=
  CandidateLink.mk "lnk_5" "cyc_4" "usr_0" "https://example.com/a" "https://example.com/a"
    "example.com" "A" 1770336000.

Lemma record_click_counts_once_witness :
  Storage.record_click "lnk_5" "203.0.113.7 Mozilla" (Some "usr_0") market_day
  = (Ok (false, "self_click"), market_day).
Proof.
  assert (H1 : ready market_day) by (split; vm_compute; reflexivity).
  assert (H2 : List.find (fun x => String.eqb (CandidateLink.id x) "lnk_5")
                 (candidate_links (db market_day)) = Some clicked_link)
    by (vm_compute; reflexivity).
  apply (proj1 (record_click_counts_once market_day "lnk_5" clicked_link H1 H2));
    [discriminate | reflexivity].
Defined.

(** ** Model runs with nothing to do *)

(** X2. [ModelRunner.run_cycle] returns the empty result and writes nothing
    when the cycle has no candidates, and also when every configuration
    is disabled. *)
Theorem run_cycle_nothing_to_do default_strategy plugins configs cycle_id c :
  ready c ->
  Storage.candidates_of (db c) cycle_id = []
  \/ forallb (fun config => negb (ModelAgentConfig.enabled config)) configs = true ->
  ModelAgents.run_cycle default_strategy plugins configs cycle_id c = (Ok [], c).
Proof.
  intros Hready Hcase. ready_conn c Hready. simpl in Hcase.
  unfold ModelAgents.run_cycle, Storage.list_candidates. run_steps.
  destruct (Py.sort Storage.by_created (Storage.candidates_of d cycle_id))
    as [|x xs] eqn:Hsort; [reflexivity|].
  destruct Hcase as [Hnone|Hdisabled].
  - rewrite Hnone in Hsort. discriminate.
  - clear Hsort. generalize (x :: xs). intros candidates.
    generalize (@nil (string * ModelAgents.ModelRun)).
    induction configs as [|config configs IH]; intros output; [reflexivity|].
    simpl in Hdisabled. apply andb_true_iff in Hdisabled as (Hoff & Hrest).
    cbn [for_fold]. rewrite Hoff. run_steps. apply IH, Hrest.
Qed.

Lemma run_cycle_nothing_to_do_witness :
  ModelAgents.run_cycle (ModelAgents.DefaultRankingStrategy (fun _ => 0)) test_plugins
    [bad_model] "cyc_9" model_day
  = (Ok [], model_day).
Proof.
  apply run_cycle_nothing_to_do.
  - split; vm_compute; reflexivity.
  - left. vm_compute. reflexivity.
Defined.

(** ** Users *)

(** None of the identifiers still to be drawn is among [ids]. *)
Definition ids_fresh (prefix : string) (ids : list string) (n : nat) : Prop :=
  forall m, (n <= m)%nat -> ~ In (drawn_id prefix m) ids.

Lemma find_id_fresh {A} (id : A -> string) (rows : list A) prefix n x :
  ids_fresh prefix (map id rows) n ->
  id x = drawn_id prefix n ->
  List.find (fun y => String.eqb (id y) (drawn_id prefix n)) (rows ++ [x]) = Some x.
Proof.
  intros Hfresh Hx. apply find_app_last.
  - apply find_none_iff. intros y Hy. apply String.eqb_neq. intros Heq.
    apply (Hfresh n (le_n n)). rewrite <- Heq. apply in_map, Hy.
  - rewrite Hx. apply String.eqb_refl.
Qed.

Lemma existsb_const_false {A} (l : list A) : existsb (fun _ => false) l = false.
Proof. induction l; simpl; auto. Qed.

(** The row [create_user] writes. *)
Definition new_user (c : Conn) (display_name email account_type : string)
    (google_sub : option string) : User.t :=
  User.mk (drawn_id "usr" (next_id c)) display_name email google_sub account_type
    STARTING_CHIPS (clock c / Date.MICROSECONDS_PER_SECOND)
    (clock c / Date.MICROSECONDS_PER_SECOND / Date.SECONDS_PER_DAY).

Definition signup_row (c : Conn) : Ledger.t :=
  Ledger.mk (drawn_id "led" (S (next_id c))) (drawn_id "usr" (next_id c)) None
    "signup_bonus" STARTING_CHIPS [("reason", JStr "starting_chips")]
    (clock c / Date.MICROSECONDS_PER_SECOND).

Definition email_taken (d : DB) (email : string) : bool :=
  existsb (fun v => String.eqb (User.email v) email) (users d).

Definition google_sub_free (d : DB) (google_sub : option string) : bool :=
  match google_sub with
  | Some g => negb (existsb (fun v => Storage.option_eqb (User.google_sub v) (Some g)) (users d))
  | None => true
  end.

Lemma create_user_new c display_name email account_type google_sub :
  ready c ->
  ids_fresh "usr" (map User.id (users (db c))) (next_id c) ->
  email_taken (db c) email = false ->
  google_sub_free (db c) google_sub = true ->
  Py.mem account_type ["HUMAN"; "AI"] = true ->
  let u := new_user c display_name email account_type google_sub in
  let d1 := set_chip_ledger (chip_ledger (db c) ++ [signup_row c])
              (set_users (users (db c) ++ [u]) (db c)) in
  Storage.create_user display_name email account_type None google_sub c
  = (Ok u, mkConn d1 d1 (clock c) (S (S (next_id c))) []).
Proof.
  intros Hready Hfresh Hemail Hgoogle Htype. ready_conn c Hready.
  cbn [db next_id clock] in *.
  unfold Storage.create_user, Storage.date_or_today, Storage.get_user. run_steps.
  unfold Storage.insert_user. cbn [User.email User.google_sub User.account_type users].
  unfold email_taken in Hemail. rewrite Hemail, Htype.
  assert (Hg : existsb (fun v => match google_sub with
                                 | Some g => Storage.option_eqb (User.google_sub v) (Some g)
                                 | None => false
                                 end) (users d) = false).
  { destruct google_sub as [g|]; [|apply existsb_const_false].
    unfold google_sub_free in Hgoogle. apply negb_true_iff in Hgoogle. exact Hgoogle. }
  rewrite Hg. cbn [orb negb]. run_steps.
  unfold Storage.insert_ledger, Storage.user_exists.
  cbn [Ledger.user_id users set_users]. rewrite existsb_app. cbn [existsb User.id].
  rewrite String.eqb_refl, orb_true_r. cbn [orb]. run_steps.
  cbn [users set_users set_chip_ledger].
  change ("usr" +:+ "_" +:+ pretty n) with (drawn_id "usr" n).
  match goal with
  | |- context [List.find _ (users d ++ [?u])] =>
      rewrite (find_id_fresh User.id (users d) "usr" n u Hfresh eq_refl)
  end.
  reflexivity.
Qed.

Lemma existsb_find_none {A} (f : A -> bool) (l : list A) :
  existsb f l = false <-> List.find f l = None.
Proof.
  induction l as [|x l IH]; simpl; [tauto|].
  destruct (f x); simpl; [split; discriminate | exact IH].
Qed.

(** X3. [create_user] with an email that a user already has raises the
    integrity error and leaves the tables as they were; with a new email
    it returns the new user, appends the user row and the signup-bonus
    ledger row, and commits. *)
Theorem create_user_signs_up_once c display_name email account_type google_sub :
  ready c ->
  ids_fresh "usr" (map User.id (users (db c))) (next_id c) ->
  google_sub_free (db c) google_sub = true ->
  Py.mem account_type ["HUMAN"; "AI"] = true ->
  let out := Storage.create_user display_name email account_type None google_sub c in
  if email_taken (db c) email
  then fst out = Raise IntegrityError
       /\ db (snd out) = db c /\ committed (snd out) = db c
  else fst out = Ok (new_user c display_name email account_type google_sub)
       /\ users (db (snd out))
          = users (db c) ++ [new_user c display_name email account_type google_sub]
       /\ chip_ledger (db (snd out)) = chip_ledger (db c) ++ [signup_row c]
       /\ committed (snd out) = db (snd out).
Proof.
  intros Hready Hfresh Hgoogle Htype. cbv zeta.
  destruct (email_taken (db c) email) eqn:Hemail.
  - ready_conn c Hready. cbn [db next_id clock] in *.
    unfold Storage.create_user, Storage.date_or_today. run_steps.
    unfold Storage.insert_user. cbn [User.email users].
    unfold email_taken in Hemail. rewrite Hemail. cbn [orb]. auto.
  - rewrite (create_user_new c display_name email account_type google_sub
               Hready Hfresh Hemail Hgoogle Htype).
    cbn [fst snd db committed users chip_ledger set_users set_chip_ledger]. auto.
Qed.

Lemma create_user_signs_up_once_witness :
  let out := Storage.create_user "Bob" "alice@example.com" "HUMAN" None None faucet_day in
  fst out = Raise IntegrityError
  /\ db (snd out) = db faucet_day /\ committed (snd out) = db faucet_day.
Proof.
  assert (H1 : ready faucet_day) by (split; vm_compute; reflexivity).
  assert (H2 : ids_fresh "usr" (map User.id (users (db faucet_day))) (next_id faucet_day)).
  { intros m Hm [Heq|[]]. change "usr_0" with (drawn_id "usr" 0) in Heq.
    apply drawn_id_inj in Heq. subst m. vm_compute in Hm. lia. }
  pose proof (create_user_signs_up_once faucet_day "Bob" "alice@example.com" "HUMAN" None
                H1 H2 eq_refl eq_refl) as H.
  assert (Htaken : email_taken (db faucet_day) "alice@example.com" = true)
    by (vm_compute; reflexivity).
  cbv zeta in H. rewrite Htaken in H. exact H.
Defined.

(** X4. [get_or_create_ai_user] returns the user with the email
    "model:<model_id>@local": it creates the account (type AI, starting
    chips) when no user has that email and changes nothing otherwise, and
    every later call returns the same user and changes nothing. *)
Theorem get_or_create_ai_user_once c model_id :
  ready c ->
  ids_fresh "usr" (map User.id (users (db c))) (next_id c) ->
  exists u c1,
    Storage.get_or_create_ai_user model_id c = (Ok u, c1)
    /\ ready c1
    /\ User.email u = "model:" +:+ model_id +:+ "@local"
    /\ (if email_taken (db c) (User.email u) then c1 = c
        else users (db c1) = users (db c) ++ [u]
             /\ User.account_type u = "AI" /\ User.current_chips u = STARTING_CHIPS)
    /\ forall dt,
         Storage.get_or_create_ai_user model_id (advance_clock dt c1)
         = (Ok u, advance_clock dt c1).
Proof.
  intros Hready Hfresh. pose proof Hready as Hready'. ready_conn c Hready.
  cbn [db next_id clock] in *.
  unfold Storage.get_or_create_ai_user, Storage.get_user_by_email. run_steps.
  destruct (List.find (fun u => String.eqb (User.email u) ("model:" +:+ model_id +:+ "@local"))
              (users d)) as [u|] eqn:Hfind.
  - exists u, (mkConn d d t n []). pose proof (find_some _ _ Hfind) as (Hin & Heq).
    apply String.eqb_eq in Heq.
    assert (Htaken : email_taken d (User.email u) = true).
    { unfold email_taken. apply existsb_exists. exists u. split; [exact Hin|].
      apply String.eqb_refl. }
    rewrite Htaken.
    split; [reflexivity|]. split; [apply ready_mk|]. split; [exact Heq|].
    split; [reflexivity|]. intros dt. run_steps. rewrite Hfind. reflexivity.
  - assert (Htaken : email_taken d ("model:" +:+ model_id +:+ "@local") = false)
      by (apply existsb_find_none, Hfind).
    pose proof (create_user_new _ model_id ("model:" +:+ model_id +:+ "@local") "AI" None
                  Hready' Hfresh Htaken eq_refl eq_refl) as Hcreate.
    cbv zeta in Hcreate. cbn [db next_id clock] in Hcreate. rewrite Hcreate.
    eexists _, _. split; [reflexivity|].
    cbn [User.email new_user]. rewrite Htaken.
    split; [apply ready_mk|]. split; [reflexivity|]. split.
    + cbn [db users set_users set_chip_ledger]. auto.
    + intros dt. run_steps. cbn [users set_users set_chip_ledger].
      erewrite find_app_last; [reflexivity | exact Hfind | apply String.eqb_refl].
Qed.

Lemma get_or_create_ai_user_once_witness :
  exists u c1,
    Storage.get_or_create_ai_user "gpt-5.2" faucet_day = (Ok u, c1)
    /\ Storage.get_or_create_ai_user "gpt-5.2" (advance_clock 1000000 c1)
       = (Ok u, advance_clock 1000000 c1)
    /\ map User.email (users (db c1)) = ["alice@example.com"; "model:gpt-5.2@local"].
Proof.
  assert (H1 : ready faucet_day) by (split; vm_compute; reflexivity).
  assert (H2 : ids_fresh "usr" (map User.id (users (db faucet_day))) (next_id faucet_day)).
  { intros m Hm [Heq|[]]. change "usr_0" with (drawn_id "usr" 0) in Heq.
    apply drawn_id_inj in Heq. subst m. vm_compute in Hm. lia. }
  destruct (get_or_create_ai_user_once faucet_day "gpt-5.2" H1 H2)
    as (u & c1 & Hrun & Hready & Hemail & Hcase & Hagain).
  exists u, c1. split; [exact Hrun|]. split.
  - exact (Hagain 1000000).
  - assert (Htaken : email_taken (db faucet_day) (User.email u) = false)
      by (rewrite Hemail; vm_compute; reflexivity).
    rewrite Htaken in Hcase. destruct Hcase as (Husers & _).
    rewrite Husers, map_app. simpl map at 2. rewrite Hemail.
    assert (Hold : map User.email (users (db faucet_day)) = ["alice@example.com"])
      by (vm_compute; reflexivity).
    rewrite Hold. reflexivity.
Defined.

(** ** Ranked picks *)

Lemma existsb_false_iff {A} (f : A -> bool) (l : list A) :
  existsb f l = false <-> forall x, In x l -> f x = false.
Proof. rewrite existsb_find_none. apply find_none_iff. Qed.

Lemma set_of_subset xs : forall x, In x (Py.set_of xs) -> In x xs.
Proof.
  induction xs as [|y r IH]; simpl; [tauto|]. intros x [->|Hx]; [left; reflexivity|].
  right. apply IH. apply filter_In in Hx. tauto.
Qed.

Lemma set_of_length xs : (length (Py.set_of xs) <= length xs)%nat.
Proof.
  induction xs as [|y r IH]; simpl; [lia|].
  pose proof (List.filter_length_le (fun z => negb (String.eqb y z)) (Py.set_of r)). lia.
Qed.

(** [len(set(ids)) == len(ids)] says that no id occurs twice. *)
Lemma has_duplicates_NoDup ids :
  Storage.has_duplicates ids = false <-> List.NoDup ids.
Proof.
  unfold Storage.has_duplicates. rewrite negb_false_iff, Nat.eqb_eq.
  induction ids as [|y r IH]; simpl.
  - split; [constructor | reflexivity].
  - split.
    + intros Hlen.
      pose proof (List.filter_length_le (fun z => negb (String.eqb y z)) (Py.set_of r)) as H1.
      pose proof (set_of_length r) as H2.
      assert (Hr : length (Py.set_of r) = length r) by lia.
      assert (Hf : length (List.filter (fun z => negb (String.eqb y z)) (Py.set_of r))
                   = length (Py.set_of r)) by lia.
      constructor; [|apply IH, Hr].
      intros Hy. apply IH in Hr.
      assert (Hin : In y (Py.set_of r)).
      { clear -Hy. induction r as [|z r IH]; simpl in *; [tauto|].
        destruct Hy as [->|Hy]; [left; reflexivity|].
        destruct (String.eqb_spec z y) as [->|Hne]; [left; reflexivity|].
        right. apply filter_In. split; [apply IH, Hy|].
        apply negb_true_iff, String.eqb_neq. exact Hne. }
      clear -Hf Hin. induction (Py.set_of r) as [|z l IH]; simpl in *; [tauto|].
      pose proof (List.filter_length_le (fun z => negb (String.eqb y z)) l).
      destruct (String.eqb_spec y z) as [->|Hne]; simpl in Hf; [lia|].
      destruct Hin as [->|Hin]; [congruence|]. apply IH; [lia | exact Hin].
    + intros Hnd. inversion Hnd as [|? ? Hy Hr]. subst. apply IH in Hr.
      f_equal. rewrite filter_all; [exact Hr|].
      intros z Hz. apply negb_true_iff, String.eqb_neq. intros ->.
      apply Hy, set_of_subset, Hz.
Qed.

Lemma sort_sorted_id {A} (le : A -> A -> bool) l :
  StronglySorted (fun a b => le a b = true) l -> Py.sort le l = l.
Proof.
  induction 1 as [|x l Hs IH Hx]; [reflexivity|]. simpl. rewrite IH.
  destruct l as [|y r]; [reflexivity|]. simpl.
  inversion Hx as [|? ? Hxy _]. rewrite Hxy. reflexivity.
Qed.

(** The count of the cycle's candidates among [ids] is the number of [ids]
    exactly when every id is such a candidate. *)
Lemma picked_count ids (cands : list CandidateLink.t) :
  List.NoDup ids -> List.NoDup (map CandidateLink.id cands) ->
  length (List.filter (fun c => Py.mem (CandidateLink.id c) ids) cands) = length ids
  <-> forall x, In x ids -> In x (map CandidateLink.id cands).
Proof.
  intros Hids Hcands.
  set (found := map CandidateLink.id
                  (List.filter (fun c => Py.mem (CandidateLink.id c) ids) cands)).
  assert (Hlen : length found
                 = length (List.filter (fun c => Py.mem (CandidateLink.id c) ids) cands))
    by apply length_map.
  assert (Hnd : List.NoDup found).
  { unfold found. clear -Hcands. induction cands as [|c r IH]; simpl; [constructor|].
    inversion Hcands as [|? ? Hc Hr]. subst.
    destruct (Py.mem (CandidateLink.id c) ids); [|apply IH, Hr].
    simpl. constructor; [|apply IH, Hr].
    intros Hin. apply Hc. apply in_map_iff in Hin as (c' & Heq & Hc').
    apply filter_In in Hc' as (Hc' & _). rewrite <- Heq. apply in_map, Hc'. }
  assert (Hsub : incl found ids).
  { intros x Hx. apply in_map_iff in Hx as (c & <- & Hc).
    apply filter_In in Hc as (_ & Hm). apply mem_In, Hm. }
  assert (Hcand : incl found (map CandidateLink.id cands)).
  { intros x Hx. apply in_map_iff in Hx as (c & <- & Hc).
    apply filter_In in Hc as (Hc & _). apply in_map, Hc. }
  rewrite <- Hlen. split.
  - intros Heq x Hx. apply Hcand.
    apply (NoDup_length_incl (l := found) (l' := ids) Hnd); [lia | exact Hsub | exact Hx].
  - intros Hall. apply Nat.le_antisymm.
    + apply NoDup_incl_length; assumption.
    + apply NoDup_incl_length; [exact Hids|].
      intros x Hx. pose proof (Hall x Hx) as Hc.
      apply in_map_iff in Hc as (c & Heq & Hc).
      apply in_map_iff. exists c. split; [exact Heq|].
      apply filter_In. split; [exact Hc|]. apply mem_In. rewrite Heq. exact Hx.
Qed.

Lemma NoDup_map_filter {A B} (f : A -> B) (p : A -> bool) l :
  List.NoDup (map f l) -> List.NoDup (map f (List.filter p l)).
Proof.
  induction l as [|x l IH]; simpl; intros H; [constructor|].
  inversion H as [|? ? Hx Hl]. subst.
  destruct (p x); [|apply IH, Hl]. simpl. constructor; [|apply IH, Hl].
  intros Hin. apply Hx. apply in_map_iff in Hin as (y & Heq & Hy).
  apply filter_In in Hy as (Hy & _). rewrite <- Heq. apply in_map, Hy.
Qed.

(** X5. [MarketService.set_ranked_picks] refuses more than 10 picks, picks
    that repeat a candidate, and picks that name a candidate which is not
    in the cycle; it raises ValueError with the message of the first of
    these checks that fails, and nothing is written. *)
Theorem set_ranked_picks_rejects c cycle_id user_id ids :
  ready c ->
  List.NoDup (map CandidateLink.id (candidate_links (db c))) ->
  (10 < length ids)%nat
  \/ ~ List.NoDup ids
  \/ (exists x, In x ids
                /\ ~ In x (map CandidateLink.id (Storage.candidates_of (db c) cycle_id))) ->
  MarketService.set_ranked_picks cycle_id user_id ids c
  = (Raise (ValueError
              (if Z.of_nat (length ids) >? MAX_PICKS_PER_CYCLE
               then "At most 10 picks are allowed"
               else if Storage.has_duplicates ids then "Picks must be unique"
               else "Some picks do not belong to this cycle")), c).
Proof.
  intros Hready Hcands Hbad. ready_conn c Hready. cbn [db] in *.
  unfold MarketService.set_ranked_picks. cbv zeta.
  destruct (Z.of_nat (length ids) >? MAX_PICKS_PER_CYCLE) eqn:Hlen; [reflexivity|].
  unfold Storage.set_ranked_picks. rewrite Hlen. run_steps.
  destruct (Storage.has_duplicates ids) eqn:Hdup; [reflexivity|].
  apply has_duplicates_NoDup in Hdup.
  destruct Hbad as [Hlong|[Hnd|(x & Hx & Hnot)]].
  - unfold MAX_PICKS_PER_CYCLE in Hlen. lia.
  - contradiction.
  - destruct ids as [|y r]; [destruct Hx|].
    match goal with
    | |- context [negb (Nat.eqb ?a ?b)] => destruct (Nat.eqb a b) eqn:Hcount
    end; [|reflexivity].
    apply Nat.eqb_eq in Hcount. exfalso. apply Hnot.
    apply (proj1 (picked_count (y :: r) (Storage.candidates_of d cycle_id) Hdup
                    (NoDup_map_filter _ _ _ Hcands)) Hcount x Hx).
Qed.

Lemma set_ranked_picks_rejects_witness :
  MarketService.set_ranked_picks "cyc_4" "usr_0" ["lnk_5"; "lnk_5"] market_day
  = (Raise (ValueError "Picks must be unique"), market_day).
Proof.
  apply (set_ranked_picks_rejects market_day "cyc_4" "usr_0" ["lnk_5"; "lnk_5"]).
  - split; vm_compute; reflexivity.
  - apply distinct_NoDup. vm_compute. reflexivity.
  - right. left. intros H. inversion H as [|? ? Hin _]. apply Hin. left. reflexivity.
Defined.

(** The rows [set_ranked_picks] writes for [ids]: ranks count up from
    [rank], identifiers are drawn from [n] on. *)
Fixpoint ranked_rows (cycle_id user_id : string) (now : Z) (n : nat) (rank : Z)
    (ids : list string) : list Pick.t :=
  match ids with
  | [] => []
  | x :: r =>
      Pick.mk (drawn_id "pk" n) cycle_id user_id x rank now
      :: ranked_rows cycle_id user_id now (S n) (rank + 1) r
  end.

Lemma ranked_rows_length cycle_id user_id now n rank ids :
  length (ranked_rows cycle_id user_id now n rank ids) = length ids.
Proof. revert n rank. induction ids; simpl; intros; [reflexivity | f_equal; auto]. Qed.

Lemma ranked_rows_fields cycle_id user_id now ids : forall n rank,
  map (fun p => (Pick.candidate_id p, Pick.rank p))
    (ranked_rows cycle_id user_id now n rank ids)
  = combine ids (map (fun i => rank + Z.of_nat i) (seq 0 (length ids))).
Proof.
  induction ids as [|x r IH]; intros n rank; [reflexivity|]. simpl.
  rewrite Z.add_0_r. f_equal. rewrite IH. f_equal.
  rewrite <- seq_shift, map_map. apply map_ext. intros i. lia.
Qed.

Lemma ranked_rows_owned cycle_id user_id now ids : forall n rank q,
  In q (ranked_rows cycle_id user_id now n rank ids) ->
  Storage.pick_of cycle_id user_id q = true
  /\ rank <= Pick.rank q /\ In (Pick.candidate_id q) ids.
Proof.
  induction ids as [|x r IH]; intros n rank q; simpl; [tauto|].
  intros [<-|Hq].
  - unfold Storage.pick_of. simpl. rewrite !String.eqb_refl. split; [reflexivity|].
    split; [lia | left; reflexivity].
  - destruct (IH _ _ _ Hq) as (H1 & H2 & H3). split; [exact H1|]. split; [lia | right; exact H3].
Qed.

Lemma ranked_rows_sorted cycle_id user_id now ids : forall n rank,
  StronglySorted (fun a b => Storage.by_rank a b = true)
    (ranked_rows cycle_id user_id now n rank ids).
Proof.
  induction ids as [|x r IH]; intros n rank; simpl; constructor; [apply IH|].
  apply Forall_forall. intros q Hq. apply list_elem_of_In in Hq.
  destruct (ranked_rows_owned _ _ _ _ _ _ _ Hq) as (_ & Hrank & _).
  unfold Storage.by_rank. simpl. apply Z.leb_le. lia.
Qed.

(** The loop of [set_ranked_picks] over [enumerate(ids, start)]. *)
Lemma insert_picks_run cycle_id user_id now d0 cm t :
  Storage.cycle_exists d0 cycle_id = true ->
  Storage.user_exists d0 user_id = true ->
  forall xs s P n,
    (forall x, In x xs -> Storage.candidate_exists d0 x = true) ->
    List.NoDup xs ->
    (forall q, In q P -> Storage.pick_of cycle_id user_id q = true ->
       Pick.rank q < Z.of_nat s + 1 /\ ~ In (Pick.candidate_id q) xs) ->
    for_each (combine (map (fun i => Z.of_nat i + 1) (seq s (length xs))) xs)
      (fun item =>
         pick_id <- _id "pk" ;;
         _execute (Storage.insert_pick
                     (Pick.mk pick_id cycle_id user_id (snd item) (fst item) now)))
      (mkConn cm (set_picks P d0) t n [])
    = (Ok tt,
       mkConn cm
         (set_picks (P ++ ranked_rows cycle_id user_id now n (Z.of_nat s + 1) xs) d0)
         t (n + length xs) []).
Proof.
  intros Hcycle Huser xs. induction xs as [|x xs IH]; intros s P n Hcand Hnd HP.
  - simpl. rewrite app_nil_r, Nat.add_0_r. reflexivity.
  - inversion Hnd as [|? ? Hx Hxs]. subst.
    cbn [length seq map combine for_each]. run_steps.
    unfold Storage.insert_pick.
    cbn [Pick.cycle_id Pick.user_id Pick.candidate_id Pick.rank picks set_picks].
    change (Storage.cycle_exists (set_picks P d0) cycle_id)
      with (Storage.cycle_exists d0 cycle_id).
    change (Storage.user_exists (set_picks P d0) user_id)
      with (Storage.user_exists d0 user_id).
    change (Storage.candidate_exists (set_picks P d0) x)
      with (Storage.candidate_exists d0 x).
    rewrite Hcycle, Huser, (Hcand x (or_introl eq_refl)). cbn [negb orb].
    assert (Hfree : existsb
              (fun q => Storage.pick_of cycle_id user_id q
                        && ((Pick.rank q =? Z.of_nat s + 1)
                            || String.eqb (Pick.candidate_id q) x)) P = false).
    { apply existsb_false_iff. intros q Hq.
      destruct (Storage.pick_of cycle_id user_id q) eqn:Hown; [|reflexivity].
      destruct (HP q Hq Hown) as (Hrank & Hnot). cbn [andb].
      apply orb_false_iff. split; [apply Z.eqb_neq; lia|].
      apply String.eqb_neq. intros Heq. apply Hnot. left. auto. }
    rewrite Hfree. run_steps. cbn [picks set_picks].
    change (set_picks (P ++ [?p]) (set_picks P d0)) with (set_picks (P ++ [p]) d0).
    rewrite (IH (S s) _ (S n)).
    + rewrite <- app_assoc. cbn [app ranked_rows].
      change ("pk" +:+ "_" +:+ pretty n) with (drawn_id "pk" n).
      replace (Z.of_nat (S s) + 1) with (Z.of_nat s + 1 + 1) by lia.
      replace (S n + length xs)%nat with (n + S (length xs))%nat by lia.
      reflexivity.
    + intros y Hy. apply Hcand. right. exact Hy.
    + exact Hxs.
    + intros q Hq Hown. apply in_app_or in Hq as [Hq|[<-|[]]].
      * destruct (HP q Hq Hown) as (Hrank & Hnot). split; [lia|].
        intros Hin. apply Hnot. right. exact Hin.
      * cbn [Pick.rank Pick.candidate_id]. split; [lia | exact Hx].
Qed.

(** X6. With at most 10 distinct candidates of the cycle,
    [set_ranked_picks] replaces the user's picks in the cycle by [ids] at
    the ranks 1, 2, ..., returns these rows, and [list_user_picks] reads
    them back; the picks of other users and cycles stay. *)
Theorem set_ranked_picks_replaces c cycle_id user_id ids :
  ready c ->
  List.NoDup (map CandidateLink.id (candidate_links (db c))) ->
  Storage.cycle_exists (db c) cycle_id = true ->
  Storage.user_exists (db c) user_id = true ->
  (length ids <= 10)%nat ->
  List.NoDup ids ->
  (forall x, In x ids -> In x (map CandidateLink.id (Storage.candidates_of (db c) cycle_id))) ->
  let rows := ranked_rows cycle_id user_id (clock c / Date.MICROSECONDS_PER_SECOND)
                (next_id c) 1 ids in
  let d1 := set_picks
              (List.filter (fun p => negb (Storage.pick_of cycle_id user_id p)) (picks (db c))
               ++ rows) (db c) in
  let c1 := mkConn d1 d1 (clock c) (next_id c + length ids) [] in
  MarketService.set_ranked_picks cycle_id user_id ids c = (Ok rows, c1)
  /\ Storage.list_user_picks cycle_id user_id c1 = (Ok rows, c1)
  /\ map (fun p => (Pick.candidate_id p, Pick.rank p)) rows
     = combine ids (map (fun i => 1 + Z.of_nat i) (seq 0 (length ids))).
Proof.
  intros Hready Hcands Hcycle Huser Hlen Hnd Hall. ready_conn c Hready.
  cbn [db clock next_id] in *. cbv zeta.
  set (now := t / Date.MICROSECONDS_PER_SECOND).
  set (rows := ranked_rows cycle_id user_id now n 1 ids).
  set (P0 := List.filter (fun p => negb (Storage.pick_of cycle_id user_id p)) (picks d)).
  assert (Hread : Py.sort Storage.by_rank
                    (List.filter (Storage.pick_of cycle_id user_id) (P0 ++ rows)) = rows).
  { rewrite List.filter_app. rewrite (filter_none _ P0), (filter_all _ rows).
    - apply sort_sorted_id, ranked_rows_sorted.
    - intros q Hq. apply (ranked_rows_owned _ _ _ _ _ _ _ Hq).
    - intros q Hq. apply filter_In in Hq as (_ & Hq). apply negb_true_iff, Hq. }
  split; [|split].
  - unfold MarketService.set_ranked_picks. cbv zeta.
    assert (Hle : (Z.of_nat (length ids) >? MAX_PICKS_PER_CYCLE) = false).
    { unfold MAX_PICKS_PER_CYCLE. lia. }
    rewrite Hle. unfold Storage.set_ranked_picks, Storage.list_user_picks.
    rewrite Hle. rewrite (proj2 (has_duplicates_NoDup ids) Hnd).
    assert (Hcount : negb (Nat.eqb (length (List.filter
                              (fun c => Py.mem (CandidateLink.id c) ids)
                              (Storage.candidates_of d cycle_id))) (length ids)) = false).
    { apply negb_false_iff, Nat.eqb_eq.
      apply (picked_count ids _ Hnd (NoDup_map_filter _ _ _ Hcands)), Hall. }
    assert (Hloop := insert_picks_run cycle_id user_id now d d t Hcycle Huser ids 0 P0 n).
    cbn [Z.of_nat Z.add] in Hloop. fold rows in Hloop.
    assert (Hrun : for_each (Storage.enumerate1 ids)
              (fun item =>
                 pick_id <- _id "pk" ;;
                 _execute (Storage.insert_pick
                             (Pick.mk pick_id cycle_id user_id (snd item) (fst item) now)))
              (mkConn d (set_picks P0 d) t n [])
            = (Ok tt, mkConn d (set_picks (P0 ++ rows) d) t (n + length ids) [])).
    { apply Hloop.
      - intros x Hx. apply Hall in Hx. apply in_map_iff in Hx as (cand & <- & Hc).
        apply filter_In in Hc as (Hc & _). unfold Storage.candidate_exists.
        apply existsb_exists. exists cand. split; [exact Hc | apply String.eqb_refl].
      - exact Hnd.
      - intros q Hq Hown. apply filter_In in Hq as (_ & Hq).
        rewrite Hown in Hq. discriminate. }
    clear Hloop. subst now. run_steps_in Hrun.
    destruct ids as [|x r].
    + run_steps. unfold Storage.delete_picks. fold P0. run_steps.
      rewrite Hrun. cbn [picks set_picks]. rewrite Hread. reflexivity.
    + run_steps. rewrite Hcount. run_steps. unfold Storage.delete_picks. fold P0.
      run_steps. rewrite Hrun. cbn [picks set_picks]. rewrite Hread. reflexivity.
  - unfold Storage.list_user_picks. run_steps. cbn [picks set_picks].
    rewrite Hread. reflexivity.
  - apply ranked_rows_fields.
Qed.

Lemma set_ranked_picks_replaces_witness :
  exists rows c1,
    MarketService.set_ranked_picks "cyc_4" "usr_0" ["lnk_7"; "lnk_5"] market_day
    = (Ok rows, c1)
    /\ Storage.list_user_picks "cyc_4" "usr_0" c1 = (Ok rows, c1)
    /\ map (fun p => (Pick.candidate_id p, Pick.rank p)) rows = [("lnk_7", 1); ("lnk_5", 2)].
Proof.
  destruct (set_ranked_picks_replaces market_day "cyc_4" "usr_0" ["lnk_7"; "lnk_5"])
    as (H1 & H2 & H3).
  - split; vm_compute; reflexivity.
  - apply distinct_NoDup. vm_compute. reflexivity.
  - vm_compute. reflexivity.
  - vm_compute. reflexivity.
  - simpl. lia.
  - apply distinct_NoDup. vm_compute. reflexivity.
  - intros x [<-|[<-|[]]]; apply (proj1 (mem_In _ _)); vm_compute; reflexivity.
  - eexists _, _. split; [exact H1|]. split; [exact H2 | exact H3].
Defined.

(** ** The daily faucet *)

(** The user after the faucet of day [as_of]. *)
Definition faucet_credit (as_of : Z) (u : User.t) : User.t :=
  if as_of - User.last_daily_credit_date u <=? 0 then u
  else User.mk (User.id u) (User.display_name u) (User.email u) (User.google_sub u)
         (User.account_type u)
         (User.current_chips u + (as_of - User.last_daily_credit_date u) * DAILY_CHIPS)
         (User.created_at u) as_of.

(** The users the faucet credits, with their chips. *)
Definition faucet_due (as_of : Z) (us : list User.t) : Py.dict Z :=
  map (fun u => (User.id u, (as_of - User.last_daily_credit_date u) * DAILY_CHIPS))
    (List.filter (fun u => negb (as_of - User.last_daily_credit_date u <=? 0)) us).

(** The ledger rows the faucet writes. *)
Fixpoint faucet_ledger (now as_of : Z) (n : nat) (us : list User.t) : list Ledger.t :=
  match us with
  | [] => []
  | u :: r =>
      if as_of - User.last_daily_credit_date u <=? 0 then faucet_ledger now as_of n r
      else Ledger.mk (drawn_id "led" n) (User.id u) None "daily_faucet"
             ((as_of - User.last_daily_credit_date u) * DAILY_CHIPS)
             [("missed_days", JInt (as_of - User.last_daily_credit_date u))] now
           :: faucet_ledger now as_of (S n) r
  end.

Lemma dict_set_new {V} (d : Py.dict V) k v :
  Py.dict_get d k = None -> Py.dict_set d k v = d ++ [(k, v)].
Proof.
  induction d as [|[k' v'] r IH]; simpl; [reflexivity|].
  destruct (String.eqb k' k); [discriminate|]. intros H. rewrite (IH H). reflexivity.
Qed.

Lemma dict_get_app_other {V} (d : Py.dict V) k k' v :
  k' <> k -> Py.dict_get (d ++ [(k', v)]) k = Py.dict_get d k.
Proof.
  intros Hne. induction d as [|[k0 v0] r IH]; simpl.
  - apply String.eqb_neq in Hne. rewrite Hne. reflexivity.
  - destruct (String.eqb k0 k); [reflexivity | exact IH].
Qed.

(** An update by id touches the one row with that id. *)
Lemma update_one_row (f : User.t -> User.t) (A B : list User.t) u :
  ~ In (User.id u) (map User.id A) -> ~ In (User.id u) (map User.id B) ->
  map (fun v => if String.eqb (User.id v) (User.id u) then f v else v) (A ++ u :: B)
  = A ++ f u :: B.
Proof.
  intros HA HB. rewrite map_app. cbn [map]. rewrite String.eqb_refl.
  assert (Hkeep : forall l, ~ In (User.id u) (map User.id l) ->
            map (fun v => if String.eqb (User.id v) (User.id u) then f v else v) l = l).
  { induction l as [|v l IH]; simpl; intros H; [reflexivity|].
    destruct (String.eqb_spec (User.id v) (User.id u)) as [Heq|_]; [tauto|].
    rewrite IH; [reflexivity | tauto]. }
  rewrite (Hkeep A HA), (Hkeep B HB). reflexivity.
Qed.

(** The body of the loop of [apply_daily_faucet]. *)
Definition faucet_body (as_of : Z) (credited : Py.dict Z) (row : string * Z)
    : M (Py.dict Z) :=
  let user_id := fst row in
  let last_credit := snd row in
  let missed_days := as_of - last_credit in
  if missed_days <=? 0 then ret credited
  else
    let chips := missed_days * DAILY_CHIPS in
    let credited := Py.dict_set credited user_id chips in
    _execute (Storage.update_faucet user_id chips as_of) ;;
    ledger_id <- _id "led" ;;
    now <- _now_iso ;;
    _execute (Storage.insert_ledger
      (Ledger.mk ledger_id user_id None "daily_faucet" chips
         [("missed_days", JInt missed_days)] now)) ;;
    ret credited.

Lemma faucet_loop as_of d0 cm t : forall rest A L credited n,
  List.NoDup (map User.id (A ++ rest)) ->
  (forall u, In u rest -> Py.dict_get credited (User.id u) = None) ->
  for_fold (map (fun u => (User.id u, User.last_daily_credit_date u)) rest) credited
    (faucet_body as_of)
    (mkConn cm (set_chip_ledger L (set_users (A ++ rest) d0)) t n [])
  = (Ok (credited ++ faucet_due as_of rest),
     mkConn cm
       (set_chip_ledger
          (L ++ faucet_ledger (t / Date.MICROSECONDS_PER_SECOND) as_of n rest)
          (set_users (A ++ map (faucet_credit as_of) rest) d0))
       t (n + length (faucet_due as_of rest)) []).
Proof.
  induction rest as [|u rest IH]; intros A L credited n Hnd Hnew.
  - simpl. rewrite !app_nil_r, Nat.add_0_r. reflexivity.
  - cbn [map for_fold]. unfold faucet_body at 1. run_steps.
    unfold faucet_due. cbn [List.filter faucet_ledger]. unfold faucet_credit at 1.
    fold (faucet_due as_of rest).
    assert (Hsplit : A ++ u :: rest = (A ++ [u]) ++ rest) by (rewrite <- app_assoc; reflexivity).
    destruct (as_of - User.last_daily_credit_date u <=? 0) eqn:Hmissed; cbn [negb].
    + rewrite Hsplit.
      rewrite (IH (A ++ [u]) L credited n).
      * rewrite <- app_assoc. reflexivity.
      * rewrite <- Hsplit. exact Hnd.
      * intros v Hv. apply Hnew. right. exact Hv.
    + assert (Hu : ~ In (User.id u) (map User.id A) /\ ~ In (User.id u) (map User.id rest)).
      { rewrite map_app in Hnd. cbn [map] in Hnd.
        apply NoDup_remove_2 in Hnd. split; intros H; apply Hnd, in_or_app; auto. }
      unfold Storage.update_faucet. run_steps.
      cbn [users set_users set_chip_ledger chip_ledger].
      rewrite (update_one_row
                 (fun v => User.mk (User.id v) (User.display_name v) (User.email v)
                             (User.google_sub v) (User.account_type v)
                             (User.current_chips v
                              + (as_of - User.last_daily_credit_date u) * DAILY_CHIPS)
                             (User.created_at v) as_of) A rest u (proj1 Hu) (proj2 Hu)).
      unfold Storage.insert_ledger, Storage.user_exists.
      cbn [Ledger.user_id users set_users set_chip_ledger chip_ledger].
      rewrite existsb_app. cbn [existsb User.id]. rewrite String.eqb_refl, orb_true_r.
      cbn [orb]. run_steps. cbn [users set_users set_chip_ledger chip_ledger].
      rewrite (dict_set_new credited _ _ (Hnew u (or_introl eq_refl))).
      change (set_chip_ledger ?X (set_users ?U (set_chip_ledger _ (set_users _ d0))))
        with (set_chip_ledger X (set_users U d0)).
      match goal with
      | |- context [set_users (A ++ ?u' :: rest)] =>
          replace (A ++ u' :: rest) with ((A ++ [u']) ++ rest)
            by (rewrite <- app_assoc; reflexivity);
          rewrite (IH (A ++ [u']) _ _ (S n))
      end.
      * rewrite <- !app_assoc. cbn [app length map].
        change ("led" +:+ "_" +:+ pretty n) with (drawn_id "led" n).
        replace (S n + length (faucet_due as_of rest))%nat
          with (n + S (length (faucet_due as_of rest)))%nat by lia.
        reflexivity.
      * rewrite <- app_assoc. cbn [app]. rewrite map_app in Hnd |- *. exact Hnd.
      * intros v Hv. rewrite dict_get_app_other; [apply Hnew; right; exact Hv|].
        intros Heq. apply (proj2 Hu). rewrite Heq. apply in_map, Hv.
Qed.

(** The day [apply_daily_faucet] credits up to. *)
Definition faucet_day_of (as_of_date : option string) (clock : Z) : result Z :=
  match as_of_date with
  | Some v => if Py.truthy v then Date.fromisoformat v
              else Ok (clock / Date.MICROSECONDS_PER_SECOND / Date.SECONDS_PER_DAY)
  | None => Ok (clock / Date.MICROSECONDS_PER_SECOND / Date.SECONDS_PER_DAY)
  end.

Lemma date_or_today_eq as_of_date c :
  Storage.date_or_today as_of_date c = (faucet_day_of as_of_date (clock c), c).
Proof.
  unfold Storage.date_or_today, faucet_day_of, Storage._parse_date, today, lift.
  destruct as_of_date as [v|]; [destruct (Py.truthy v)|]; reflexivity.
Qed.

Lemma faucet_credit_twice as_of us :
  map (faucet_credit as_of) (map (faucet_credit as_of) us) = map (faucet_credit as_of) us
  /\ faucet_due as_of (map (faucet_credit as_of) us) = []
  /\ forall now n, faucet_ledger now as_of n (map (faucet_credit as_of) us) = [].
Proof.
  assert (Hdone : forall u,
            (as_of - User.last_daily_credit_date (faucet_credit as_of u) <=? 0) = true).
  { intros u. unfold faucet_credit.
    destruct (as_of - User.last_daily_credit_date u <=? 0) eqn:H; [exact H|].
    simpl. apply Z.leb_le. lia. }
  split; [|split].
  - rewrite map_map. apply map_ext. intros u. unfold faucet_credit at 1.
    rewrite Hdone. reflexivity.
  - unfold faucet_due. rewrite filter_none; [reflexivity|].
    intros v Hv. apply in_map_iff in Hv as (u & <- & _). rewrite Hdone. reflexivity.
  - intros now n. induction us as [|u us IH]; simpl; [reflexivity|].
    rewrite Hdone. exact IH.
Qed.

Lemma faucet_credit_id as_of us :
  map User.id (map (faucet_credit as_of) us) = map User.id us.
Proof.
  rewrite map_map. apply map_ext. intros u. unfold faucet_credit.
  destruct (_ <=? 0); reflexivity.
Qed.

(** X7. The daily faucet credits every user 10 chips for each day since
    the user's last credit, moves the last-credit date to the day of the
    run, writes one ledger row per credited user and returns the credited
    amounts; run again for the same day it credits nobody and changes
    nothing. *)
Theorem apply_daily_faucet_credits_missed_days c as_of_date as_of :
  ready c ->
  List.NoDup (map User.id (users (db c))) ->
  faucet_day_of as_of_date (clock c) = Ok as_of ->
  let d1 := set_chip_ledger
              (chip_ledger (db c)
               ++ faucet_ledger (clock c / Date.MICROSECONDS_PER_SECOND) as_of (next_id c)
                    (users (db c)))
              (set_users (map (faucet_credit as_of) (users (db c))) (db c)) in
  let c1 := mkConn d1 d1 (clock c)
              (next_id c + length (faucet_due as_of (users (db c)))) [] in
  Storage.apply_daily_faucet as_of_date c = (Ok (faucet_due as_of (users (db c))), c1)
  /\ Storage.apply_daily_faucet as_of_date c1 = (Ok [], c1).
Proof.
  intros Hready Hnd Hday. ready_conn c Hready. cbn [db clock next_id] in *. cbv zeta.
  assert (Hrun : forall U L n0,
            List.NoDup (map User.id U) ->
            Storage.apply_daily_faucet as_of_date
              (mkConn (set_chip_ledger L (set_users U d)) (set_chip_ledger L (set_users U d))
                 t n0 [])
            = (Ok (faucet_due as_of U),
               mkConn
                 (set_chip_ledger (L ++ faucet_ledger (t / Date.MICROSECONDS_PER_SECOND)
                                          as_of n0 U)
                    (set_users (map (faucet_credit as_of) U) d))
                 (set_chip_ledger (L ++ faucet_ledger (t / Date.MICROSECONDS_PER_SECOND)
                                          as_of n0 U)
                    (set_users (map (faucet_credit as_of) U) d))
                 t (n0 + length (faucet_due as_of U)) [])).
  { intros U L n0 HU. unfold Storage.apply_daily_faucet.
    unfold bind at 1. rewrite date_or_today_eq. cbn [clock]. rewrite Hday.
    unfold bind at 1. unfold query, _execute. cbn [fault_plan db tail committed clock next_id].
    cbn [users set_users set_chip_ledger].
    unfold with_conn.
    change (for_fold ?rows ?s _ ?c0) with (for_fold rows s (faucet_body as_of) c0).
    pose proof (faucet_loop as_of d (set_chip_ledger L (set_users U d)) t U [] L [] n0 HU
                  (fun _ _ => eq_refl)) as Hloop.
    match goal with
    | |- context [for_fold ?rows ?s (faucet_body as_of) ?c0] =>
        rewrite (Hloop : for_fold rows s (faucet_body as_of) c0 = _)
    end.
    reflexivity. }
  split.
  - destruct d as [U L cy ca pk cr ce cu mp jr].
    exact (Hrun U L n Hnd).
  - pose proof (Hrun (map (faucet_credit as_of) (users d))
                  (chip_ledger d
                   ++ faucet_ledger (t / Date.MICROSECONDS_PER_SECOND) as_of n (users d))
                  (n + length (faucet_due as_of (users d)))%nat) as H2.
    destruct (faucet_credit_twice as_of (users d)) as (Hmap & Hdue & Hledger).
    rewrite Hmap, Hdue, Hledger, app_nil_r, Nat.add_0_r in H2.
    apply H2. rewrite faucet_credit_id. exact Hnd.
Qed.

Lemma apply_daily_faucet_credits_missed_days_witness :
  exists c1,
    Storage.apply_daily_faucet None faucet_day = (Ok [("usr_0", 30)], c1)
    /\ Storage.apply_daily_faucet None c1 = (Ok [], c1).
Proof.
  assert (Hday : faucet_day_of None (clock faucet_day) = Ok 20493)
    by (vm_compute; reflexivity).
  destruct (apply_daily_faucet_credits_missed_days faucet_day None 20493) as (H1 & H2).
  - split; vm_compute; reflexivity.
  - apply distinct_NoDup. vm_compute. reflexivity.
  - exact Hday.
  - eexists. split; [|exact H2].
    assert (Hdue : faucet_due 20493 (users (db faucet_day)) = [("usr_0", 30)])
      by (vm_compute; reflexivity).
    rewrite Hdue in H1. exact H1.
Defined.

(** ** Settlement without failures *)

(** The bodies of the loops of [save_cycle_results] and [settle_cycle]. *)
Definition result_body (cycle_id : string) (winner_set : list string) (candidate_id : string)
    : M unit :=
  _execute (Storage.insert_result
    (CycleResult.mk cycle_id candidate_id (if Py.mem candidate_id winner_set then 1 else 0))).

Definition credit_body (cycle_id : string) (t : Tally) (item : string * Z) : M unit :=
  let user_id := fst item in
  let reward := snd item in
  if reward <=? 0 then ret tt
  else Storage.credit_user_chips user_id reward "prediction_reward" (Some cycle_id)
         (Some [("correct_picks", JInt (Py.dict_get_default (user_hits t) user_id 0))]).

Lemma insert_results_run cycle_id winner_set d0 cm t n :
  Storage.cycle_exists d0 cycle_id = true ->
  forall rows acc,
    (forall x, In x rows -> Storage.candidate_exists d0 x = true) ->
    List.NoDup rows ->
    (forall q, In q acc -> CycleResult.cycle_id q = cycle_id ->
       ~ In (CycleResult.candidate_id q) rows) ->
    for_each rows (result_body cycle_id winner_set)
      (mkConn cm (set_cycle_results acc d0) t n [])
    = (Ok tt,
       mkConn cm
         (set_cycle_results
            (acc ++ map (fun candidate_id =>
                           CycleResult.mk cycle_id candidate_id
                             (if Py.mem candidate_id winner_set then 1 else 0)) rows) d0)
         t n []).
Proof.
  intros Hcycle rows. induction rows as [|x rows IH]; intros acc Hcand Hnd Hacc.
  - simpl. rewrite app_nil_r. reflexivity.
  - inversion Hnd as [|? ? Hx Hrows]. subst.
    cbn [for_each map]. unfold result_body at 1. run_steps.
    unfold Storage.insert_result.
    cbn [CycleResult.cycle_id CycleResult.candidate_id cycle_results set_cycle_results].
    change (Storage.cycle_exists (set_cycle_results acc d0) cycle_id)
      with (Storage.cycle_exists d0 cycle_id).
    change (Storage.candidate_exists (set_cycle_results acc d0) x)
      with (Storage.candidate_exists d0 x).
    rewrite Hcycle, (Hcand x (or_introl eq_refl)). cbn [negb orb].
    assert (Hfree : existsb
              (fun q => String.eqb (CycleResult.cycle_id q) cycle_id
                        && String.eqb (CycleResult.candidate_id q) x) acc = false).
    { apply existsb_false_iff. intros q Hq.
      destruct (String.eqb_spec (CycleResult.cycle_id q) cycle_id) as [Heq|_]; [|reflexivity].
      cbn [andb]. apply String.eqb_neq. intros Hx'. apply (Hacc q Hq Heq). left. auto. }
    rewrite Hfree. run_steps.
    change (set_cycle_results (acc ++ [?r]) (set_cycle_results acc d0))
      with (set_cycle_results (acc ++ [r]) d0).
    rewrite IH.
    + rewrite <- app_assoc. reflexivity.
    + intros y Hy. apply Hcand. right. exact Hy.
    + exact Hrows.
    + intros q Hq Hc. apply in_app_or in Hq as [Hq|[<-|[]]].
      * intros Hin. apply (Hacc q Hq Hc). right. exact Hin.
      * exact Hx.
Qed.

Lemma credit_user_chips_run d t n user_id chips_delta event_type cycle_id metadata :
  chips_delta <> 0 ->
  Storage.user_exists d user_id = true ->
  Storage.credit_user_chips user_id chips_delta event_type cycle_id metadata
    (mkConn d d t n [])
  = (Ok tt,
     let d1 := credit_applied
                 (Ledger.mk (drawn_id "led" n) user_id cycle_id event_type chips_delta
                    (match metadata with Some m => m | None => [] end)
                    (t / Date.MICROSECONDS_PER_SECOND)) d in
     mkConn d1 d1 t (S n) []).
Proof.
  intros Hdelta Huser. unfold Storage.credit_user_chips. run_steps.
  apply Z.eqb_neq in Hdelta. rewrite Hdelta. cbn [negb]. run_steps.
  unfold Storage.update_chips. run_steps.
  unfold Storage.insert_ledger. cbn [Ledger.user_id].
  rewrite user_exists_map; [|intros u; destruct (String.eqb _ _); reflexivity].
  rewrite Huser. reflexivity.
Qed.

Lemma credit_applied_user_exists l d user_id :
  Storage.user_exists (credit_applied l d) user_id = Storage.user_exists d user_id.
Proof.
  unfold credit_applied.
  change (Storage.user_exists (set_chip_ledger ?L ?x) user_id)
    with (Storage.user_exists x user_id).
  apply user_exists_map. intros u. destruct (String.eqb _ _); reflexivity.
Qed.

Lemma credit_rewards_run cycle_id tally t : forall items d n,
  (forall item, In item (rewards_due items) -> Storage.user_exists d (fst item) = true) ->
  for_each items (credit_body cycle_id tally) (mkConn d d t n [])
  = (Ok tt,
     let d1 := credit_rewards cycle_id tally (t / Date.MICROSECONDS_PER_SECOND) n
                 (rewards_due items) d in
     mkConn d1 d1 t (n + length (rewards_due items)) []).
Proof.
  induction items as [|[user_id reward] items IH]; intros d n Husers.
  - simpl. rewrite Nat.add_0_r. reflexivity.
  - cbn [for_each]. unfold credit_body at 1. cbv zeta. cbn [fst snd].
    unfold rewards_due in *. cbn [List.filter snd] in *.
    destruct (reward <=? 0) eqn:Hreward; cbn [negb] in *.
    + unfold bind, ret. apply IH. exact Husers.
    + unfold bind at 1.
      rewrite credit_user_chips_run;
        [|lia | apply (Husers (user_id, reward)); left; reflexivity].
      cbv zeta. rewrite IH.
      * cbv zeta. cbn [credit_rewards length]. unfold reward_row. cbn [fst snd].
        rewrite Nat.add_succ_comm. reflexivity.
      * intros item Hitem. rewrite credit_applied_user_exists.
        apply Husers. right. exact Hitem.
Qed.

Lemma bind_run {A B} (m : M A) (k : A -> M B) c a c' :
  m c = (Ok a, c') -> bind m k c = k a c'.
Proof. intros H. unfold bind. rewrite H. reflexivity. Qed.

Lemma candidates_of_exist d cycle_id x :
  In x (map CandidateLink.id (Storage.candidates_of d cycle_id)) ->
  Storage.candidate_exists d x = true.
Proof.
  intros Hx. apply in_map_iff in Hx as (cand & <- & Hc).
  apply filter_In in Hc as (Hc & _). unfold Storage.candidate_exists.
  apply existsb_exists. exists cand. split; [exact Hc | apply String.eqb_refl].
Qed.

(** Without failures the results transaction goes through. *)
Lemma save_cycle_results_run d t n cycle_id winner_candidate_ids :
  Storage.cycle_exists d cycle_id = true ->
  List.NoDup (map CandidateLink.id (candidate_links d)) ->
  Storage.save_cycle_results cycle_id winner_candidate_ids (mkConn d d t n [])
  = (Ok tt,
     let d1 := results_saved cycle_id winner_candidate_ids
                 (t / Date.MICROSECONDS_PER_SECOND) d in
     mkConn d1 d1 t n []).
Proof.
  intros Hcycle Hnd. unfold Storage.save_cycle_results. cbv zeta.
  rewrite (bind_run _ _ _ _ _ (execute_query_eq _ (mkConn d d t n []) eq_refl)).
  cbn [db]. unfold with_conn.
  rewrite (bind_run (_execute (Storage.delete_results cycle_id)) _ _ tt
             (mkConn d
                (set_cycle_results
                   (List.filter (fun r => negb (String.eqb (CycleResult.cycle_id r) cycle_id))
                      (cycle_results d)) d) t n [])); [|reflexivity].
  change (for_each ?xs _) with (for_each xs (result_body cycle_id (Py.set_of winner_candidate_ids))).
  assert (Hfree : forall q,
            In q (List.filter (fun r => negb (String.eqb (CycleResult.cycle_id r) cycle_id))
                    (cycle_results d)) ->
            CycleResult.cycle_id q = cycle_id ->
            ~ In (CycleResult.candidate_id q)
                (map CandidateLink.id (Storage.candidates_of d cycle_id))).
  { intros q Hq Hc. apply filter_In in Hq as (_ & Hq).
    rewrite Hc, String.eqb_refl in Hq. discriminate. }
  rewrite (bind_run _ _ _ _ _
             (insert_results_run cycle_id (Py.set_of winner_candidate_ids) d d t n Hcycle
                (map CandidateLink.id (Storage.candidates_of d cycle_id)) _
                (candidates_of_exist d cycle_id)
                (NoDup_map_filter _ _ _ Hnd) Hfree)).
  reflexivity.
Qed.

(** Without failures, on a cycle whose pick holders exist, [settle_cycle]
    returns: the results are saved and every positive reward is credited. *)
Lemma settle_cycle_run d t n cycle_id winner_urls canon :
  canonical_urls winner_urls = Ok canon ->
  Storage.cycle_exists d cycle_id = true ->
  List.NoDup (map CandidateLink.id (candidate_links d)) ->
  (forall item, In item (rewards_of d cycle_id canon) ->
     Storage.user_exists d (fst item) = true) ->
  settle_cycle cycle_id winner_urls (mkConn d d t n [])
  = (Ok (Settlement.mk cycle_id (winners_of d cycle_id canon)
           (Z.of_nat (length (winners_of d cycle_id canon)))
           (leaderboard (tally_of d cycle_id canon))),
     let d1 := settled_db d t n cycle_id canon (length (rewards_of d cycle_id canon)) in
     mkConn d1 d1 t (n + length (rewards_of d cycle_id canon)) []).
Proof.
  intros Hcanon Hcycle Hnd Husers. unfold settle_cycle.
  rewrite (bind_run _ _ _ _ _ (list_candidates_eq (mkConn d d t n []) cycle_id eq_refl)).
  unfold lift at 1. unfold bind at 1. rewrite Hcanon. cbv zeta. cbn [db].
  fold (winners_of d cycle_id canon).
  rewrite (bind_run _ _ _ _ _
             (save_cycle_results_run d t n cycle_id (winners_of d cycle_id canon) Hcycle Hnd)).
  cbv zeta.
  set (d1 := results_saved cycle_id (winners_of d cycle_id canon)
               (t / Date.MICROSECONDS_PER_SECOND) d).
  rewrite (bind_run _ _ _ _ _ (list_picks_eq (mkConn d1 d1 t n []) cycle_id eq_refl)).
  cbn [db]. change (picks d1) with (picks d). fold (tally_of d cycle_id canon).
  change (for_each ?xs _) with (for_each xs (credit_body cycle_id (tally_of d cycle_id canon))).
  assert (Husers1 : forall item,
            In item (rewards_due (user_rewards (tally_of d cycle_id canon))) ->
            Storage.user_exists d1 (fst item) = true).
  { intros item Hitem.
    change (Storage.user_exists d1 (fst item)) with (Storage.user_exists d (fst item)).
    apply Husers, Hitem. }
  rewrite (bind_run _ _ _ _ _
             (credit_rewards_run cycle_id (tally_of d cycle_id canon) t
                (user_rewards (tally_of d cycle_id canon)) d1 n Husers1)).
  cbv zeta. unfold ret, settled_db. fold (rewards_of d cycle_id canon).
  rewrite firstn_all. reflexivity.
Qed.

(** *** What a participant earns *)

(** The picks of [user_id] on winners. *)
Definition winning_picks (winner_set : list string) (user_id : string) (picks : list Pick.t)
    : list Pick.t :=
  List.filter (fun p => String.eqb (Pick.user_id p) user_id
                        && Py.mem (Pick.candidate_id p) winner_set) picks.

(** The rank rewards of these picks. *)
Definition reward_for (winner_set : list string) (user_id : string) (picks : list Pick.t)
    : Z :=
  Py.sum (map (fun p => table_get RANK_REWARDS (Pick.rank p) 0)
            (winning_picks winner_set user_id picks)).

Lemma dict_set_keys {V} (d : Py.dict V) k v x :
  In x (Py.dict_keys (Py.dict_set d k v)) <-> In x (Py.dict_keys d) \/ x = k.
Proof.
  unfold Py.dict_keys. induction d as [|[k0 v0] d IH]; simpl.
  - split; [intros [H|[]]; auto | intros [[]|H]; auto].
  - destruct (String.eqb_spec k0 k) as [->|Hne]; simpl.
    + split; [tauto | intros [H|H]; [exact H | left; auto]].
    + rewrite IH. tauto.
Qed.

Lemma tally_fold winner_set picks : forall t u,
  let t' := fold_left (tally_pick winner_set) picks t in
  Py.dict_get_default (user_rewards t') u 0
  = Py.dict_get_default (user_rewards t) u 0 + reward_for winner_set u picks
  /\ Py.dict_get_default (user_hits t') u 0
     = Py.dict_get_default (user_hits t) u 0
       + Z.of_nat (length (winning_picks winner_set u picks)).
Proof.
  induction picks as [|p picks IH]; intros t u; cbv zeta.
  - unfold reward_for. simpl. split; lia.
  - cbn [fold_left]. destruct (IH (tally_pick winner_set t p) u) as (H1 & H2).
    rewrite H1, H2. clear H1 H2 IH.
    unfold reward_for, winning_picks, tally_pick. cbn [List.filter].
    destruct (Py.mem (Pick.candidate_id p) winner_set); cbn [user_rewards user_hits].
    + rewrite !dict_get_default_add.
      destruct (String.eqb (Pick.user_id p) u); cbn [andb map length];
        unfold Py.sum; cbn [fold_right]; split; lia.
    + rewrite andb_false_r. split; reflexivity.
Qed.

Lemma tally_participants winner_set picks : forall t,
  let t' := fold_left (tally_pick winner_set) picks t in
  (forall x, In x (participant_ids t')
             <-> In x (participant_ids t) \/ In x (map Pick.user_id picks))
  /\ (List.NoDup (participant_ids t) -> List.NoDup (participant_ids t'))
  /\ (forall x, In x (Py.dict_keys (user_rewards t'))
                -> In x (Py.dict_keys (user_rewards t)) \/ In x (map Pick.user_id picks)).
Proof.
  induction picks as [|p picks IH]; intros t; cbv zeta.
  - simpl. repeat split; tauto.
  - cbn [fold_left map]. destruct (IH (tally_pick winner_set t p)) as (H1 & H2 & H3).
    assert (Hp : forall x, In x (participant_ids (tally_pick winner_set t p))
                           <-> In x (participant_ids t) \/ x = Pick.user_id p).
    { intros x.
      assert (Hparts : participant_ids (tally_pick winner_set t p)
                       = if negb (Py.mem (Pick.user_id p) (participant_ids t))
                         then participant_ids t ++ [Pick.user_id p]
                         else participant_ids t).
      { unfold tally_pick. destruct (Py.mem (Pick.candidate_id p) winner_set); reflexivity. }
      rewrite Hparts.
      destruct (Py.mem (Pick.user_id p) (participant_ids t)) eqn:Hm; cbn [negb].
      - apply mem_In in Hm. split; [tauto|]. intros [H | ->]; assumption.
      - rewrite in_app_iff. simpl. split; intros [H|H]; auto.
        destruct H as [H|[]]; auto. }
    split; [|split].
    + intros x. rewrite H1, Hp. simpl. split.
      * intros [[H|H]|H]; auto.
      * intros [H|[H|H]]; auto.
    + intros Hnd. apply H2.
      assert (Hparts : participant_ids (tally_pick winner_set t p)
                       = if negb (Py.mem (Pick.user_id p) (participant_ids t))
                         then participant_ids t ++ [Pick.user_id p]
                         else participant_ids t).
      { unfold tally_pick. destruct (Py.mem (Pick.candidate_id p) winner_set); reflexivity. }
      rewrite Hparts.
      destruct (Py.mem (Pick.user_id p) (participant_ids t)) eqn:Hm; cbn [negb];
        [exact Hnd|].
      apply List.NoDup_app; [exact Hnd | |].
      * constructor; [intros [] | constructor].
      * intros x Hx [<- | []]. apply mem_In in Hx. congruence.
    + intros x Hx. destruct (H3 x Hx) as [Hk|Hk]; [|right; right; exact Hk].
      unfold tally_pick in Hk.
      destruct (Py.mem (Pick.candidate_id p) winner_set); cbn [user_rewards] in Hk;
        [|left; exact Hk].
      unfold Py.dict_add in Hk. apply dict_set_keys in Hk as [Hk | ->]; [left; exact Hk|].
      right. left. reflexivity.
Qed.

Lemma mem_set_of x xs : Py.mem x (Py.set_of xs) = Py.mem x xs.
Proof.
  apply Bool.eq_true_iff_eq. rewrite !mem_In.
  induction xs as [|a xs IH]; simpl; [tauto|].
  rewrite filter_In, IH. destruct (String.eqb_spec a x) as [->|Hne]; simpl.
  - tauto.
  - split; [tauto|]. intros [H|H]; [contradiction | auto].
Qed.

Lemma tally_pick_ext w w' t p :
  (forall x, Py.mem x w = Py.mem x w') -> tally_pick w t p = tally_pick w' t p.
Proof. intros H. unfold tally_pick. rewrite H. reflexivity. Qed.

Lemma tally_picks_ext w w' picks :
  (forall x, Py.mem x w = Py.mem x w') -> tally_picks w picks = tally_picks w' picks.
Proof.
  intros H. unfold tally_picks. generalize (mkTally [] [] []).
  induction picks as [|p picks IH]; intros t; simpl; [reflexivity|].
  rewrite (tally_pick_ext w w' t p H). apply IH.
Qed.

Lemma rank_reward_nonneg rank : 0 <= table_get RANK_REWARDS rank 0.
Proof.
  unfold RANK_REWARDS. cbn [table_get].
  repeat match goal with |- context [if ?b then _ else _] => destruct b; [lia|] end. lia.
Qed.

Lemma reward_for_nonneg w u picks : 0 <= reward_for w u picks.
Proof.
  unfold reward_for. induction (winning_picks w u picks) as [|p l IH]; [reflexivity|].
  cbn [map]. unfold Py.sum in *. cbn [fold_right]. pose proof (rank_reward_nonneg (Pick.rank p)). lia.
Qed.

Lemma winning_picks_perm w u l l' :
  Permutation l l' -> Permutation (winning_picks w u l) (winning_picks w u l').
Proof.
  unfold winning_picks. induction 1 as [|x l l' Hp IH|x y l|l l' l'' H1 IH1 H2 IH2]; simpl.
  - constructor.
  - destruct (_ && _); [constructor|]; exact IH.
  - destruct (String.eqb (Pick.user_id x) u && _), (String.eqb (Pick.user_id y) u && _);
      try reflexivity. constructor.
  - etransitivity; eassumption.
Qed.

Lemma sum_perm l l' : Permutation l l' -> Py.sum l = Py.sum l'.
Proof.
  unfold Py.sum. induction 1; simpl; lia.
Qed.

Lemma reward_for_perm w u l l' :
  Permutation l l' -> reward_for w u l = reward_for w u l'.
Proof.
  intros H. unfold reward_for. apply sum_perm, Permutation_map, winning_picks_perm, H.
Qed.

(** [user_rewards] has one entry per key. *)
Lemma dict_set_keys_NoDup {V} (d : Py.dict V) k v :
  List.NoDup (Py.dict_keys d) -> List.NoDup (Py.dict_keys (Py.dict_set d k v)).
Proof.
  unfold Py.dict_keys. induction d as [|[k0 v0] d IH]; simpl; intros Hnd.
  - constructor; [intros [] | constructor].
  - inversion Hnd as [|? ? Hnotin Hnd']; subst.
    destruct (String.eqb_spec k0 k) as [->|Hne]; simpl.
    + constructor; assumption.
    + constructor; [|apply IH, Hnd'].
      intros Hin. apply (dict_set_keys d k v k0) in Hin as [Hin|Heq]; [|congruence].
      apply Hnotin, Hin.
Qed.

Lemma tally_rewards_NoDup w picks : forall t,
  List.NoDup (Py.dict_keys (user_rewards t)) ->
  List.NoDup (Py.dict_keys (user_rewards (fold_left (tally_pick w) picks t))).
Proof.
  induction picks as [|p picks IH]; intros t Hnd; simpl; [exact Hnd|].
  apply IH. unfold tally_pick. destruct (Py.mem _ w); cbn [user_rewards]; [|exact Hnd].
  apply dict_set_keys_NoDup, Hnd.
Qed.

(** The chips credited to [user_id] by the credits of [items]. *)
Definition credited_to (items : list (string * Z)) (user_id : string) : Z :=
  Py.sum (map snd (List.filter (fun item => String.eqb (fst item) user_id) items)).

Lemma credited_to_absent (d : Py.dict Z) k :
  ~ In k (Py.dict_keys d) -> credited_to (rewards_due d) k = 0.
Proof.
  unfold credited_to, rewards_due, Py.dict_keys.
  induction d as [|[k0 v0] d IH]; simpl; intros Hk; [reflexivity|].
  destruct (v0 <=? 0); simpl.
  - apply IH. tauto.
  - destruct (String.eqb_spec k0 k) as [->|Hne]; [tauto|]. apply IH. tauto.
Qed.

Lemma credited_to_rewards (d : Py.dict Z) k :
  List.NoDup (Py.dict_keys d) ->
  credited_to (rewards_due d) k = Z.max 0 (Py.dict_get_default d k 0).
Proof.
  unfold Py.dict_get_default.
  induction d as [|[k0 v0] d IH]; intros Hnd; [reflexivity|].
  inversion Hnd as [|? ? Hnotin Hnd']; subst.
  cbn [Py.dict_get]. destruct (String.eqb_spec k0 k) as [->|Hne].
  - pose proof (credited_to_absent d k Hnotin) as H0.
    unfold credited_to, rewards_due in *. cbn [List.filter snd].
    destruct (Z.leb_spec v0 0); cbn [negb List.filter fst map].
    + rewrite H0. lia.
    + rewrite String.eqb_refl. cbn [map snd]. unfold Py.sum in *. cbn [fold_right].
      rewrite H0. lia.
  - rewrite <- (IH Hnd'). unfold credited_to, rewards_due. cbn [List.filter snd].
    destruct (v0 <=? 0); cbn [negb List.filter fst]; [reflexivity|].
    destruct (String.eqb_spec k0 k); [contradiction|]. reflexivity.
Qed.

(** A user row with [delta] more chips. *)
Definition paid (delta : Z) (u : User.t) : User.t :=
  User.mk (User.id u) (User.display_name u) (User.email u) (User.google_sub u)
    (User.account_type u) (User.current_chips u + delta) (User.created_at u)
    (User.last_daily_credit_date u).

Lemma credit_rewards_users cycle_id t now items : forall n d,
  users (credit_rewards cycle_id t now n items d)
  = map (fun u => paid (credited_to items (User.id u)) u) (users d).
Proof.
  induction items as [|item items IH]; intros n d; cbn [credit_rewards].
  - unfold credited_to. simpl. rewrite <- (map_id (users d)) at 1.
    apply map_ext. intros [? ? ? ? ? ? ? ?]. unfold paid. simpl. f_equal. lia.
  - rewrite IH. unfold credit_applied. cbn [users set_chip_ledger set_users reward_row Ledger.user_id Ledger.chips_delta].
    rewrite map_map. apply map_ext. intros u.
    unfold credited_to. cbn [List.filter].
    rewrite (String.eqb_sym (fst item)).
    destruct (String.eqb (User.id u) (fst item)) eqn:Heq; unfold paid; cbn;
      rewrite ?Heq; unfold Py.sum; cbn [map fold_right]; f_equal; lia.
Qed.

(** The picks of a cycle, as stored. *)
Definition cycle_picks (d : DB) (cycle_id : string) : list Pick.t :=
  List.filter (fun p => String.eqb (Pick.cycle_id p) cycle_id) (picks d).

Lemma tally_of_totals d cycle_id canon u :
  Py.dict_get_default (user_rewards (tally_of d cycle_id canon)) u 0
  = reward_for (winners_of d cycle_id canon) u (cycle_picks d cycle_id)
  /\ Py.dict_get_default (user_hits (tally_of d cycle_id canon)) u 0
     = Z.of_nat (length (winning_picks (winners_of d cycle_id canon) u
                           (cycle_picks d cycle_id))).
Proof.
  unfold tally_of.
  rewrite (tally_picks_ext _ (winners_of d cycle_id canon) _ (fun x => mem_set_of x _)).
  unfold tally_picks.
  destruct (tally_fold (winners_of d cycle_id canon)
              (Py.sort Storage.by_picked_rank (cycle_picks d cycle_id))
              (mkTally [] [] []) u) as (H1 & H2).
  fold (cycle_picks d cycle_id). rewrite H1, H2.
  pose proof (sort_perm Storage.by_picked_rank (cycle_picks d cycle_id)) as Hperm.
  rewrite (reward_for_perm _ u _ _ Hperm).
  rewrite (Permutation_length (winning_picks_perm _ u _ _ Hperm)).
  split; reflexivity.
Qed.

Lemma tally_of_participants d cycle_id canon :
  List.NoDup (participant_ids (tally_of d cycle_id canon))
  /\ (forall u, In u (participant_ids (tally_of d cycle_id canon))
                <-> In u (map Pick.user_id (cycle_picks d cycle_id)))
  /\ (forall u, In u (Py.dict_keys (user_rewards (tally_of d cycle_id canon)))
                -> In u (map Pick.user_id (cycle_picks d cycle_id))).
Proof.
  unfold tally_of, tally_picks. fold (cycle_picks d cycle_id).
  destruct (tally_participants (Py.set_of (winners_of d cycle_id canon))
              (Py.sort Storage.by_picked_rank (cycle_picks d cycle_id))
              (mkTally [] [] [])) as (H1 & H2 & H3).
  pose proof (sort_perm Storage.by_picked_rank (cycle_picks d cycle_id)) as Hperm.
  assert (Hin : forall u,
            In u (map Pick.user_id (Py.sort Storage.by_picked_rank (cycle_picks d cycle_id)))
            <-> In u (map Pick.user_id (cycle_picks d cycle_id))).
  { intros u. split; apply Permutation_in, Permutation_map;
      [exact Hperm | symmetry; exact Hperm]. }
  split; [|split].
  - apply H2. constructor.
  - intros u. rewrite H1. cbn [participant_ids]. rewrite Hin. simpl. tauto.
  - intros u Hu. apply H3 in Hu as [[]|Hu]. apply Hin, Hu.
Qed.

Lemma settled_users d t n cycle_id canon :
  users (settled_db d t n cycle_id canon (length (rewards_of d cycle_id canon)))
  = map (fun u => paid (reward_for (winners_of d cycle_id canon) (User.id u)
                          (cycle_picks d cycle_id)) u)
      (users d).
Proof.
  unfold settled_db. rewrite firstn_all, credit_rewards_users.
  change (users (results_saved _ _ _ d)) with (users d).
  apply map_ext. intros u. f_equal. unfold rewards_of.
  rewrite credited_to_rewards.
  - rewrite (proj1 (tally_of_totals d cycle_id canon (User.id u))).
    pose proof (reward_for_nonneg (winners_of d cycle_id canon) (User.id u)
                  (cycle_picks d cycle_id)). lia.
  - unfold tally_of, tally_picks. apply tally_rewards_NoDup. constructor.
Qed.

Lemma credit_rewards_frame cycle_id t now items : forall n d,
  picks (credit_rewards cycle_id t now n items d) = picks d
  /\ candidate_links (credit_rewards cycle_id t now n items d) = candidate_links d.
Proof.
  induction items as [|item items IH]; intros n d; cbn [credit_rewards]; [auto|].
  destruct (IH (S n) (credit_applied (reward_row cycle_id t now n item) d)) as (H1 & H2).
  rewrite H1, H2. auto.
Qed.

Lemma settled_db_frame d t n cycle_id canon k :
  picks (settled_db d t n cycle_id canon k) = picks d
  /\ candidate_links (settled_db d t n cycle_id canon k) = candidate_links d.
Proof.
  unfold settled_db.
  exact (credit_rewards_frame cycle_id _ _ _ n
           (results_saved cycle_id (winners_of d cycle_id canon)
              (t / Date.MICROSECONDS_PER_SECOND) d)).
Qed.

Lemma pick_holders_exist d cycle_id canon :
  (forall p, In p (picks d) -> Storage.user_exists d (Pick.user_id p) = true) ->
  forall item, In item (rewards_of d cycle_id canon) ->
    Storage.user_exists d (fst item) = true.
Proof.
  intros Hfk item Hitem. unfold rewards_of, rewards_due in Hitem.
  apply filter_In in Hitem as (Hitem & _).
  assert (Hkey : In (fst item) (Py.dict_keys (user_rewards (tally_of d cycle_id canon))))
    by (apply in_map, Hitem).
  apply (proj2 (proj2 (tally_of_participants d cycle_id canon))) in Hkey.
  apply in_map_iff in Hkey as (p & <- & Hp).
  apply filter_In in Hp as (Hp & _). apply Hfk, Hp.
Qed.

Lemma existsb_map_id {X} (f : X -> X) (key : X -> string) k l :
  (forall x, key (f x) = key x) ->
  existsb (fun x => String.eqb (key x) k) (map f l)
  = existsb (fun x => String.eqb (key x) k) l.
Proof.
  intros H. induction l as [|x l IH]; simpl; [reflexivity|]. rewrite H, IH. reflexivity.
Qed.

Lemma reward_rows_length cycle_id t now items : forall n,
  length (reward_rows cycle_id t now n items) = length items.
Proof.
  induction items as [|item items IH]; intros n; [reflexivity|].
  cbn [reward_rows length]. rewrite IH. reflexivity.
Qed.

Lemma reward_rows_from cycle_id t now items : forall n l,
  In l (reward_rows cycle_id t now n items) ->
  exists item, In item items
    /\ Ledger.user_id l = fst item /\ Ledger.chips_delta l = snd item
    /\ Ledger.event_type l = "prediction_reward" /\ Ledger.cycle_id l = Some cycle_id.
Proof.
  induction items as [|item items IH]; intros n l Hl; [destruct Hl|].
  destruct Hl as [<-|Hl].
  - exists item. repeat split; auto. left; reflexivity.
  - destruct (IH _ _ Hl) as (i & Hi & H). exists i. split; [right; exact Hi | exact H].
Qed.

Lemma reward_rows_users cycle_id t now items : forall n,
  map Ledger.user_id (reward_rows cycle_id t now n items) = map fst items.
Proof.
  induction items as [|item items IH]; intros n; [reflexivity|].
  cbn [reward_rows map]. rewrite IH. reflexivity.
Qed.

Lemma dict_item_value {V} (d : Py.dict V) item :
  List.NoDup (Py.dict_keys d) -> In item d -> Py.dict_get d (fst item) = Some (snd item).
Proof.
  unfold Py.dict_keys.
  induction d as [|[k v] d IH]; intros Hk Hitem; [destruct Hitem|].
  inversion Hk as [|? ? Hnotin Hk']; subst. cbn [Py.dict_get].
  destruct Hitem as [<-|Hitem]; cbn [fst snd].
  - rewrite String.eqb_refl. reflexivity.
  - destruct (String.eqb_spec k (fst item)) as [->|Hne].
    + exfalso. apply Hnotin. apply in_map, Hitem.
    + apply IH; assumption.
Qed.

Lemma dict_get_item {V} (d : Py.dict V) k v :
  Py.dict_get d k = Some v -> In (k, v) d.
Proof.
  induction d as [|[k0 v0] d IH]; cbn [Py.dict_get]; [discriminate|].
  destruct (String.eqb_spec k0 k) as [->|Hne].
  - intros [= ->]. left; reflexivity.
  - intros H. right. apply IH, H.
Qed.

Lemma tally_of_keys d cycle_id canon :
  List.NoDup (Py.dict_keys (user_rewards (tally_of d cycle_id canon))).
Proof. unfold tally_of, tally_picks. apply tally_rewards_NoDup. constructor. Qed.

(** The rewards that are credited are those of the users who earned
    something, one each. *)
Lemma rewards_of_spec d cycle_id canon :
  List.NoDup (map fst (rewards_of d cycle_id canon))
  /\ (forall item, In item (rewards_of d cycle_id canon) ->
        snd item = reward_for (winners_of d cycle_id canon) (fst item)
                     (cycle_picks d cycle_id)
        /\ 0 < snd item)
  /\ (forall u, 0 < reward_for (winners_of d cycle_id canon) u (cycle_picks d cycle_id) ->
        In u (map fst (rewards_of d cycle_id canon))).
Proof.
  pose proof (tally_of_keys d cycle_id canon) as Hk.
  unfold rewards_of, rewards_due. split; [|split].
  - revert Hk. unfold Py.dict_keys.
    induction (user_rewards (tally_of d cycle_id canon)) as [|item items IH];
      intros Hk; [constructor|].
    inversion Hk as [|? ? Hnotin Hk']; subst. cbn [List.filter].
    destruct (negb (snd item <=? 0)); [|apply IH, Hk'].
    cbn [map]. constructor; [|apply IH, Hk'].
    intros Hin. apply Hnotin. apply in_map_iff in Hin as (i & <- & Hi).
    apply filter_In in Hi as (Hi & _). apply in_map, Hi.
  - intros item Hitem. apply filter_In in Hitem as (Hitem & Hpos).
    split; [|lia].
    rewrite <- (proj1 (tally_of_totals d cycle_id canon (fst item))).
    unfold Py.dict_get_default. rewrite (dict_item_value _ item Hk Hitem). reflexivity.
  - intros u Hu.
    rewrite <- (proj1 (tally_of_totals d cycle_id canon u)) in Hu.
    unfold Py.dict_get_default in Hu.
    destruct (Py.dict_get (user_rewards (tally_of d cycle_id canon)) u) as [v|] eqn:Hget;
      [|lia].
    apply dict_get_item in Hget.
    apply in_map_iff. exists (u, v). split; [reflexivity|].
    apply filter_In. split; [exact Hget|]. simpl. lia.
Qed.

(** What a settlement without failures returns and leaves. *)
Lemma settle_cycle_outcome d t n cycle_id winner_urls canon :
  canonical_urls winner_urls = Ok canon ->
  Storage.cycle_exists d cycle_id = true ->
  List.NoDup (map CandidateLink.id (candidate_links d)) ->
  (forall p, In p (picks d) -> Storage.user_exists d (Pick.user_id p) = true) ->
  exists d1 n1,
    settle_cycle cycle_id winner_urls (mkConn d d t n [])
    = (Ok (Settlement.mk cycle_id (winners_of d cycle_id canon)
             (Z.of_nat (length (winners_of d cycle_id canon)))
             (leaderboard (tally_of d cycle_id canon))),
       mkConn d1 d1 t n1 [])
    /\ users d1
       = map (fun u => paid (reward_for (winners_of d cycle_id canon) (User.id u)
                               (cycle_picks d cycle_id)) u)
           (users d)
    /\ picks d1 = picks d
    /\ candidate_links d1 = candidate_links d
    /\ cycles d1
       = map (fun c =>
                if String.eqb (Cycle.id c) cycle_id
                then Cycle.mk (Cycle.id c) (Cycle.cycle_date c) SETTLED (Cycle.opened_at c)
                       (Some (t / Date.MICROSECONDS_PER_SECOND))
                else c) (cycles d)
    /\ chip_ledger d1
       = chip_ledger d
         ++ reward_rows cycle_id (tally_of d cycle_id canon)
              (t / Date.MICROSECONDS_PER_SECOND) n (rewards_of d cycle_id canon).
Proof.
  intros Hcanon Hcycle Hnd Hfk.
  pose proof (settle_cycle_run d t n cycle_id winner_urls canon Hcanon Hcycle Hnd
                (pick_holders_exist d cycle_id canon Hfk)) as Hrun.
  cbv zeta in Hrun.
  exists (settled_db d t n cycle_id canon (length (rewards_of d cycle_id canon))),
         (n + length (rewards_of d cycle_id canon))%nat.
  split; [exact Hrun|].
  split; [apply settled_users|].
  destruct (settled_db_frame d t n cycle_id canon (length (rewards_of d cycle_id canon)))
    as (Hp & Hl).
  split; [exact Hp|]. split; [exact Hl|].
  destruct (settled_db_tables d t n cycle_id canon (length (rewards_of d cycle_id canon)))
    as (Hcy & _ & Hled).
  cbv zeta in Hcy, Hled. split; [exact Hcy|].
  rewrite Hled, firstn_all. reflexivity.
Qed.

(** ** The leaderboard of a settlement *)

(** The row of [ranking_entries] that an entry of the leaderboard shows. *)
Definition entry_row (e : SettlementEntry.t) : RankingRow :=
  mkRow (SettlementEntry.user_id e) (SettlementEntry.correct_count e)
    (SettlementEntry.reward_chips e).

(** The leaderboard of a tally holds the tally's rows, each once, in
    descending order of their pairs, and ranks each by the first position
    of its pair. *)
Lemma leaderboard_spec (t : Tally) :
  let board := leaderboard t in
  Permutation (map entry_row board) (ranking_entries t)
  /\ descending entry_key board
  /\ (forall i e, board !! i = Some e ->
        SettlementEntry.rank e
        = Z.of_nat (first_position entry_key (entry_key e) board) + 1).
Proof.
  cbv zeta. unfold leaderboard. rewrite rank_rows_eq.
  set (sorted := Py.sort by_score_desc (ranking_entries t)).
  set (f := fun row => entry_of row
              (Z.of_nat (first_position score_key (score_key row) sorted) + 1)).
  assert (Hkey : forall row, entry_key (f row) = score_key row) by reflexivity.
  assert (Hpos : forall k, first_position entry_key k (map f sorted)
                           = first_position score_key k sorted).
  { intros k. rewrite first_position_map. apply first_position_ext. exact Hkey. }
  split; [|split].
  - rewrite map_map.
    rewrite (map_ext (fun row => entry_row (f row)) (fun row => row)), map_id.
    + apply sort_perm.
    + intros [u n r]. reflexivity.
  - unfold descending.
    apply (StronglySorted_fmap f
             (fun a b => key_le (score_key b) (score_key a) = true));
      [intros x y Hxy; exact Hxy|].
    exact (sort_by_score_descending (ranking_entries t)).
  - intros i e He.
    apply list_elem_of_lookup_2, list_elem_of_In, in_map_iff in He as (row & <- & _).
    rewrite Hpos, Hkey. reflexivity.
Qed.

(** C5. The settlement leaderboard is a standard competition ranking.  For
    every tally of rewards and hits the leaderboard holds each
    participant's row once and no other row, in descending order of the
    pair (reward_chips, correct_count); an entry's rank is the 1-based
    position at which its pair first occurs, so entries with the same pair
    share a rank and the ranks after a tie are not renumbered: the pairs
    (20,1), (20,1), (10,1) get the ranks 1, 1, 3.  The ranking that
    [settle_cycle] returns is ordered and ranked in this way whenever it
    returns; and a settlement that meets no failure returns one with
    exactly one entry for each user who has a pick in the cycle, showing
    the sum of the rank rewards of the user's picks on winners and the
    number of these picks. *)
Theorem leaderboard_competition_ranking :
  (forall t : Tally,
     let board := leaderboard t in
     Permutation (map entry_row board) (ranking_entries t)
     /\ descending entry_key board
     /\ (forall i e, board !! i = Some e ->
           SettlementEntry.rank e
           = Z.of_nat (first_position entry_key (entry_key e) board) + 1)
     /\ (forall e e', In e board -> In e' board -> entry_key e = entry_key e' ->
           SettlementEntry.rank e = SettlementEntry.rank e'))
  /\ (forall u1 u2 u3,
        map SettlementEntry.rank
          (rank_rows [mkRow u1 1 20; mkRow u2 1 20; mkRow u3 1 10]) = [1; 1; 3])
  /\ (forall c cycle_id winner_urls r c',
        settle_cycle cycle_id winner_urls c = (Ok r, c') ->
        let board := Settlement.ranking r in
        descending entry_key board
        /\ (forall i e, board !! i = Some e ->
              SettlementEntry.rank e
              = Z.of_nat (first_position entry_key (entry_key e) board) + 1))
  /\ (forall c cycle_id winner_urls canon,
        ready c ->
        canonical_urls winner_urls = Ok canon ->
        Storage.cycle_exists (db c) cycle_id = true ->
        List.NoDup (map CandidateLink.id (candidate_links (db c))) ->
        (forall p, In p (picks (db c)) ->
           Storage.user_exists (db c) (Pick.user_id p) = true) ->
        exists r c1,
          settle_cycle cycle_id winner_urls c = (Ok r, c1)
          /\ let board := Settlement.ranking r in
             List.NoDup (map SettlementEntry.user_id board)
             /\ (forall u, In u (map SettlementEntry.user_id board)
                           <-> In u (map Pick.user_id (cycle_picks (db c) cycle_id)))
             /\ (forall e, In e board ->
                   entry_key e
                   = (reward_for (winners_of (db c) cycle_id canon)
                        (SettlementEntry.user_id e) (cycle_picks (db c) cycle_id),
                      Z.of_nat (length (winning_picks (winners_of (db c) cycle_id canon)
                                          (SettlementEntry.user_id e)
                                          (cycle_picks (db c) cycle_id)))))
             /\ descending entry_key board
             /\ (forall i e, board !! i = Some e ->
                   SettlementEntry.rank e
                   = Z.of_nat (first_position entry_key (entry_key e) board) + 1)).
Proof.
  split; [|split; [|split]].
  - intros t. cbv zeta. destruct (leaderboard_spec t) as (Hperm & Hdesc & Hrank).
    cbv zeta in Hperm, Hdesc, Hrank.
    split; [exact Hperm|]. split; [exact Hdesc|]. split; [exact Hrank|].
    intros e e' He He' Heq.
    apply list_elem_of_In, list_elem_of_lookup_1 in He as (i & He).
    apply list_elem_of_In, list_elem_of_lookup_1 in He' as (i' & He').
    rewrite (Hrank i e He), (Hrank i' e' He'), Heq. reflexivity.
  - intros u1 u2 u3. reflexivity.
  - intros c cycle_id winner_urls r c' Hrun. cbv zeta.
    destruct (settle_cycle_ranking c cycle_id winner_urls r c' Hrun) as (t & ->).
    destruct (leaderboard_spec t) as (_ & Hdesc & Hrank). split; assumption.
  - intros c cycle_id winner_urls canon Hready Hcanon Hcycle Hnd Hfk.
    ready_conn c Hready. cbn [db] in *.
    destruct (settle_cycle_outcome d t n cycle_id winner_urls canon Hcanon Hcycle Hnd Hfk)
      as (d1 & n1 & Hrun & _).
    eexists _, _. split; [exact Hrun|]. cbn [Settlement.ranking]. cbv zeta.
    destruct (leaderboard_spec (tally_of d cycle_id canon)) as (Hperm & Hdesc & Hrank).
    cbv zeta in Hperm, Hdesc, Hrank.
    set (board := leaderboard (tally_of d cycle_id canon)) in *.
    destruct (tally_of_participants d cycle_id canon) as (Hpn & Hpi & _).
    assert (Hids : Permutation (map SettlementEntry.user_id board)
                     (participant_ids (tally_of d cycle_id canon))).
    { change (map SettlementEntry.user_id board)
        with (map (fun e => row_user_id (entry_row e)) board).
      rewrite <- (map_map entry_row row_user_id), Hperm.
      unfold ranking_entries. rewrite map_map. cbn [row_user_id].
      rewrite map_id. reflexivity. }
    split; [|split; [|split; [|split]]].
    + apply (Permutation_NoDup (Permutation_sym Hids)), Hpn.
    + intros u. rewrite <- Hpi. split; apply Permutation_in;
        [exact Hids | symmetry; exact Hids].
    + intros e He.
      assert (Hrow : In (entry_row e) (ranking_entries (tally_of d cycle_id canon))).
      { apply (Permutation_in _ Hperm), in_map, He. }
      unfold ranking_entries in Hrow. apply in_map_iff in Hrow as (u & Hu & _).
      destruct (tally_of_totals d cycle_id canon u) as (H1 & H2).
      unfold entry_row in Hu. injection Hu as Hu1 Hu2 Hu3.
      unfold entry_key. rewrite <- Hu1, <- Hu2, <- Hu3, H1, H2. reflexivity.
    + exact Hdesc.
    + exact Hrank.
Qed.

Lemma leaderboard_competition_ranking_witness :
  exists r c1,
    settle_cycle "cyc_6" ["https://example.com/a?utm_source=x"] ranking_day = (Ok r, c1)
    /\ map (fun e => (SettlementEntry.user_id e, SettlementEntry.reward_chips e,
                      SettlementEntry.correct_count e, SettlementEntry.rank e))
         (Settlement.ranking r)
       = [("usr_0", 20, 1, 1); ("usr_2", 20, 1, 1); ("usr_4", 10, 1, 3)].
Proof.
  destruct (proj2 (proj2 (proj2 leaderboard_competition_ranking)) ranking_day "cyc_6"
              ["https://example.com/a?utm_source=x"] ["https://example.com/a"])
    as (r & c1 & Hrun & _).
  - split; vm_compute; reflexivity.
  - vm_compute. reflexivity.
  - vm_compute. reflexivity.
  - apply distinct_NoDup. vm_compute. reflexivity.
  - assert (H : forallb (fun p => Storage.user_exists (db ranking_day) (Pick.user_id p))
                  (picks (db ranking_day)) = true) by (vm_compute; reflexivity).
    intros p Hp. exact (proj1 (forallb_forall _ _) H p Hp).
  - exists r, c1. split; [exact Hrun|].
    assert (Hv : exists r0 c0,
              settle_cycle "cyc_6" ["https://example.com/a?utm_source=x"] ranking_day
              = (Ok r0, c0)
              /\ map (fun e => (SettlementEntry.user_id e, SettlementEntry.reward_chips e,
                                SettlementEntry.correct_count e, SettlementEntry.rank e))
                   (Settlement.ranking r0)
                 = [("usr_0", 20, 1, 1); ("usr_2", 20, 1, 1); ("usr_4", 10, 1, 3)])
      by (vm_compute; eexists _, _; split; reflexivity).
    destruct Hv as (r0 & c0 & Hrun0 & Hv). rewrite Hrun in Hrun0.
    injection Hrun0 as <- _. exact Hv.
Defined.

(** X8. A settlement that meets no failure returns the winners among the
    cycle's candidates, in the order in which Python iterates the set of
    the winners' canonical URLs, hence up to a permutation; it marks the
    cycle SETTLED and adds to each user's balance the sum of the rank
    rewards of the user's picks on winners.  It appends one
    "prediction_reward" ledger row for each user whose sum is positive,
    with that sum as its delta, and none for anyone else. *)
Theorem settle_cycle_pays_winning_picks c cycle_id winner_urls canon :
  ready c ->
  canonical_urls winner_urls = Ok canon ->
  Storage.cycle_exists (db c) cycle_id = true ->
  List.NoDup (map CandidateLink.id (candidate_links (db c))) ->
  (forall p, In p (picks (db c)) -> Storage.user_exists (db c) (Pick.user_id p) = true) ->
  exists r c1,
    settle_cycle cycle_id winner_urls c = (Ok r, c1)
    /\ ready c1
    /\ Permutation (Settlement.winner_candidate_ids r) (winners_of (db c) cycle_id canon)
    /\ users (db c1)
       = map (fun u => paid (reward_for (winners_of (db c) cycle_id canon) (User.id u)
                               (cycle_picks (db c) cycle_id)) u)
           (users (db c))
    /\ (forall cy, In cy (cycles (db c1)) -> Cycle.id cy = cycle_id ->
          Cycle.status cy = SETTLED)
    /\ exists rows,
         chip_ledger (db c1) = chip_ledger (db c) ++ rows
         /\ List.NoDup (map Ledger.user_id rows)
         /\ (forall l, In l rows ->
               Ledger.event_type l = "prediction_reward"
               /\ Ledger.cycle_id l = Some cycle_id
               /\ 0 < Ledger.chips_delta l
               /\ Ledger.chips_delta l
                  = reward_for (winners_of (db c) cycle_id canon) (Ledger.user_id l)
                      (cycle_picks (db c) cycle_id))
         /\ (forall u,
               0 < reward_for (winners_of (db c) cycle_id canon) u
                     (cycle_picks (db c) cycle_id) ->
               In u (map Ledger.user_id rows)).
Proof.
  intros Hready Hcanon Hcycle Hnd Hfk. ready_conn c Hready. cbn [db] in *.
  destruct (settle_cycle_outcome d t n cycle_id winner_urls canon Hcanon Hcycle Hnd Hfk)
    as (d1 & n1 & Hrun & Hu & _ & _ & Hcy & Hled).
  eexists _, _. split; [exact Hrun|]. cbn [db Settlement.winner_candidate_ids].
  split; [apply ready_mk|]. split; [reflexivity|]. split; [exact Hu|]. split.
  - intros cy Hin Hid. rewrite Hcy in Hin. apply in_map_iff in Hin as (cy0 & Heq & _).
    destruct (String.eqb_spec (Cycle.id cy0) cycle_id) as [_|Hne].
    + subst cy. reflexivity.
    + subst cy. contradiction.
  - destruct (rewards_of_spec d cycle_id canon) as (Hnd' & Hval & Hall).
    eexists. split; [exact Hled|]. rewrite reward_rows_users.
    split; [exact Hnd'|]. split; [|exact Hall].
    intros l Hl. apply reward_rows_from in Hl as (item & Hitem & Hu' & Hd & He & Hc).
    destruct (Hval item Hitem) as (Hv & Hpos).
    rewrite He, Hc, Hd, Hu'. auto.
Qed.

Lemma market_day_ready : ready market_day.
Proof. split; vm_compute; reflexivity. Qed.

Lemma market_day_pick_holders p :
  In p (picks (db market_day)) ->
  Storage.user_exists (db market_day) (Pick.user_id p) = true.
Proof.
  assert (H : forallb (fun p => Storage.user_exists (db market_day) (Pick.user_id p))
                (picks (db market_day)) = true) by (vm_compute; reflexivity).
  intros Hp. exact (proj1 (forallb_forall _ _) H p Hp).
Qed.

Lemma settle_cycle_pays_winning_picks_witness :
  exists r c1,
    settle_cycle "cyc_4"
      ["https://example.com/c"; "https://www.example.com/a/?utm_source=x"] market_day
    = (Ok r, c1)
    /\ Permutation (Settlement.winner_candidate_ids r) ["lnk_5"; "lnk_7"]
    /\ map User.current_chips (users (db c1)) = [120; 138]
    /\ map User.current_chips (users (db market_day)) = [100; 100].
Proof.
  destruct (settle_cycle_pays_winning_picks market_day "cyc_4"
              ["https://example.com/c"; "https://www.example.com/a/?utm_source=x"]
              ["https://example.com/c"; "https://example.com/a"])
    as (r & c1 & Hrun & _ & Hw & Hu & _).
  - exact market_day_ready.
  - vm_compute. reflexivity.
  - vm_compute. reflexivity.
  - apply distinct_NoDup. vm_compute. reflexivity.
  - exact market_day_pick_holders.
  - exists r, c1. split; [exact Hrun|]. split.
    + assert (E : winners_of (db market_day) "cyc_4"
                    ["https://example.com/c"; "https://example.com/a"]
                  = ["lnk_7"; "lnk_5"]) by (vm_compute; reflexivity).
      rewrite E in Hw. rewrite Hw. apply perm_swap.
    + split; [rewrite Hu; vm_compute; reflexivity | vm_compute; reflexivity].
Defined.

(** X9. The ranking a settlement returns has exactly one entry for each
    user who has a pick in the cycle; the entry's [reward_chips] is the sum
    of the rank rewards of the user's picks on winners and its
    [correct_count] is the number of these picks. *)
Theorem settle_cycle_leaderboard_entries c cycle_id winner_urls canon :
  ready c ->
  canonical_urls winner_urls = Ok canon ->
  Storage.cycle_exists (db c) cycle_id = true ->
  List.NoDup (map CandidateLink.id (candidate_links (db c))) ->
  (forall p, In p (picks (db c)) -> Storage.user_exists (db c) (Pick.user_id p) = true) ->
  exists r c1,
    settle_cycle cycle_id winner_urls c = (Ok r, c1)
    /\ List.NoDup (map SettlementEntry.user_id (Settlement.ranking r))
    /\ (forall u, In u (map SettlementEntry.user_id (Settlement.ranking r))
                  <-> In u (map Pick.user_id (cycle_picks (db c) cycle_id)))
    /\ (forall e, In e (Settlement.ranking r) ->
          SettlementEntry.reward_chips e
          = reward_for (winners_of (db c) cycle_id canon) (SettlementEntry.user_id e)
              (cycle_picks (db c) cycle_id)
          /\ SettlementEntry.correct_count e
             = Z.of_nat (length (winning_picks (winners_of (db c) cycle_id canon)
                                   (SettlementEntry.user_id e)
                                   (cycle_picks (db c) cycle_id)))).
Proof.
  intros Hready Hcanon Hcycle Hnd Hfk. ready_conn c Hready. cbn [db] in *.
  destruct (settle_cycle_outcome d t n cycle_id winner_urls canon Hcanon Hcycle Hnd Hfk)
    as (d1 & n1 & Hrun & _).
  eexists _, _. split; [exact Hrun|]. cbn [Settlement.ranking].
  unfold leaderboard. rewrite rank_rows_eq.
  set (rows := ranking_entries (tally_of d cycle_id canon)).
  set (sorted := Py.sort by_score_desc rows).
  destruct (tally_of_participants d cycle_id canon) as (Hpn & Hpi & _).
  assert (Hids : Permutation
                   (map SettlementEntry.user_id
                      (map (fun row => entry_of row
                              (Z.of_nat (first_position score_key (score_key row) sorted) + 1))
                         sorted))
                   (participant_ids (tally_of d cycle_id canon))).
  { rewrite map_map. cbn [entry_of SettlementEntry.user_id].
    change (fun x : RankingRow => row_user_id x) with row_user_id.
    transitivity (map row_user_id rows).
    - apply Permutation_map, sort_perm.
    - unfold rows, ranking_entries. rewrite map_map. cbn [row_user_id].
      rewrite map_id. reflexivity. }
  split; [|split].
  - apply (Permutation_NoDup (Permutation_sym Hids)), Hpn.
  - intros u. rewrite <- Hpi. split; apply Permutation_in;
      [exact Hids | symmetry; exact Hids].
  - intros e He. apply in_map_iff in He as (row & <- & Hrow).
    apply (Permutation_in _ (sort_perm by_score_desc rows)) in Hrow.
    unfold rows, ranking_entries in Hrow. apply in_map_iff in Hrow as (u & <- & _).
    cbn [entry_of SettlementEntry.reward_chips SettlementEntry.correct_count
         SettlementEntry.user_id row_user_id row_correct_count row_reward_chips].
    destruct (tally_of_totals d cycle_id canon u) as (H1 & H2). split; assumption.
Qed.

Lemma settle_cycle_leaderboard_entries_witness :
  exists r c1,
    settle_cycle "cyc_4" ["https://example.com/b"] market_day = (Ok r, c1)
    /\ (forall e, In e (Settlement.ranking r) ->
          SettlementEntry.reward_chips e
          = reward_for ["lnk_6"] (SettlementEntry.user_id e)
              (cycle_picks (db market_day) "cyc_4")).
Proof.
  destruct (settle_cycle_leaderboard_entries market_day "cyc_4"
              ["https://example.com/b"] ["https://example.com/b"])
    as (r & c1 & Hrun & _ & _ & He).
  - exact market_day_ready.
  - vm_compute. reflexivity.
  - vm_compute. reflexivity.
  - apply distinct_NoDup. vm_compute. reflexivity.
  - exact market_day_pick_holders.
  - exists r, c1. split; [exact Hrun|]. intros e Hin.
    destruct (He e Hin) as (H1 & _). rewrite H1. f_equal.
Defined.

Lemma paid_twice a b u : paid b (paid a u) = paid (a + b) u.
Proof. unfold paid. simpl. f_equal. lia. Qed.

(** X10. [settle_cycle] does not look at the cycle's status: settling a
    settled cycle again with the same winners succeeds, returns the same
    winners and ranking, and credits every reward a second time, with a
    second ledger row. *)
Theorem settle_cycle_again_pays_again c cycle_id winner_urls canon :
  ready c ->
  canonical_urls winner_urls = Ok canon ->
  Storage.cycle_exists (db c) cycle_id = true ->
  List.NoDup (map CandidateLink.id (candidate_links (db c))) ->
  (forall p, In p (picks (db c)) -> Storage.user_exists (db c) (Pick.user_id p) = true) ->
  exists r1 c1,
    settle_cycle cycle_id winner_urls c = (Ok r1, c1)
    /\ forall dt, exists r2 c2,
         settle_cycle cycle_id winner_urls (advance_clock dt c1) = (Ok r2, c2)
         /\ Settlement.winner_candidate_ids r2 = Settlement.winner_candidate_ids r1
         /\ Settlement.ranking r2 = Settlement.ranking r1
         /\ users (db c2)
            = map (fun u =>
                     paid (2 * reward_for (winners_of (db c) cycle_id canon) (User.id u)
                                 (cycle_picks (db c) cycle_id)) u)
                (users (db c))
         /\ length (chip_ledger (db c2))
            = (length (chip_ledger (db c))
               + 2 * length (rewards_of (db c) cycle_id canon))%nat.
Proof.
  intros Hready Hcanon Hcycle Hnd Hfk. ready_conn c Hready. cbn [db] in *.
  destruct (settle_cycle_outcome d t n cycle_id winner_urls canon Hcanon Hcycle Hnd Hfk)
    as (d1 & n1 & Hrun & Hu & Hp & Hl & Hcy & Hled).
  eexists _, _. split; [exact Hrun|]. intros dt.
  unfold advance_clock. cbn [committed db clock next_id fault_plan].
  assert (Hwin : winners_of d1 cycle_id canon = winners_of d cycle_id canon).
  { unfold winners_of, Storage.candidates_of. rewrite Hl. reflexivity. }
  assert (Hpicks : cycle_picks d1 cycle_id = cycle_picks d cycle_id).
  { unfold cycle_picks. rewrite Hp. reflexivity. }
  assert (Htally : tally_of d1 cycle_id canon = tally_of d cycle_id canon).
  { unfold tally_of. rewrite Hwin, Hp. reflexivity. }
  assert (Hrew : rewards_of d1 cycle_id canon = rewards_of d cycle_id canon).
  { unfold rewards_of. rewrite Htally. reflexivity. }
  assert (Hex : forall x, Storage.user_exists d1 x = Storage.user_exists d x).
  { intros x. unfold Storage.user_exists. rewrite Hu.
    apply (existsb_map_id _ User.id). reflexivity. }
  destruct (settle_cycle_outcome d1 (t + Z.max 0 dt) n1 cycle_id winner_urls canon)
    as (d2 & n2 & Hrun2 & Hu2 & _ & _ & _ & Hled2).
  - exact Hcanon.
  - unfold Storage.cycle_exists. rewrite Hcy.
    rewrite (existsb_map_id _ Cycle.id); [exact Hcycle|].
    intros cy. destruct (String.eqb (Cycle.id cy) cycle_id); reflexivity.
  - rewrite Hl. exact Hnd.
  - intros p Hin. rewrite Hex. apply Hfk. rewrite <- Hp. exact Hin.
  - eexists _, _. split; [exact Hrun2|].
    cbn [Settlement.winner_candidate_ids Settlement.ranking db].
    rewrite Hwin, Htally. split; [reflexivity|]. split; [reflexivity|]. split.
    + rewrite Hu2, Hu, map_map, Hpicks, Hwin. apply map_ext. intros u.
      rewrite paid_twice. f_equal.
      change (User.id (paid _ u)) with (User.id u). lia.
    + rewrite Hled2, Hled, !length_app, !reward_rows_length, Hrew. lia.
Qed.

Lemma settle_cycle_again_pays_again_witness :
  exists r1 c1 r2 c2,
    settle_cycle "cyc_4" ["https://example.com/a"] market_day = (Ok r1, c1)
    /\ settle_cycle "cyc_4" ["https://example.com/a"] (advance_clock 60000000 c1)
       = (Ok r2, c2)
    /\ map User.current_chips (users (db c1)) = [120; 120]
    /\ map User.current_chips (users (db c2)) = [140; 140].
Proof.
  destruct (settle_cycle_again_pays_again market_day "cyc_4"
              ["https://example.com/a"] ["https://example.com/a"])
    as (r1 & c1 & Hrun & Hagain).
  - exact market_day_ready.
  - vm_compute. reflexivity.
  - vm_compute. reflexivity.
  - apply distinct_NoDup. vm_compute. reflexivity.
  - exact market_day_pick_holders.
  - destruct (Hagain 60000000) as (r2 & c2 & Hrun2 & _ & _ & Hu & _).
    exists r1, c1, r2, c2. split; [exact Hrun|]. split; [exact Hrun2|].
    split; [|rewrite Hu; vm_compute; reflexivity].
    assert (Hc1 : snd (settle_cycle "cyc_4" ["https://example.com/a"] market_day) = c1)
      by (rewrite Hrun; reflexivity).
    rewrite <- Hc1. vm_compute. reflexivity.
Defined.

(** ** Cycles *)

(** X11. [create_cycle] appends an OPEN cycle with a new identifier, the
    given date (today's without one) and no closing time, and touches no
    other cycle; [get_cycle] reads the new cycle back, and raises KeyError
    for an identifier that no cycle has. *)
Theorem create_cycle_opens c cycle_date day :
  ready c ->
  ids_fresh "cyc" (map Cycle.id (cycles (db c))) (next_id c) ->
  faucet_day_of cycle_date (clock c) = Ok day ->
  let cy := Cycle.mk (drawn_id "cyc" (next_id c)) day OPEN
              (clock c / Date.MICROSECONDS_PER_SECOND) None in
  let d1 := set_cycles (cycles (db c) ++ [cy]) (db c) in
  let c1 := mkConn d1 d1 (clock c) (S (next_id c)) [] in
  Storage.create_cycle cycle_date c = (Ok cy, c1)
  /\ Storage.get_cycle (Cycle.id cy) c1 = (Ok cy, c1)
  /\ forall cycle_id,
       ~ In cycle_id (map Cycle.id (cycles (db c1))) ->
       Storage.get_cycle cycle_id c1 = (Raise (KeyError "Cycle not found"), c1).
Proof.
  intros Hready Hfresh Hday. ready_conn c Hready. cbn [db next_id clock] in *. cbv zeta.
  assert (Hfind : List.find (fun y => String.eqb (Cycle.id y) (drawn_id "cyc" n))
                    (cycles d ++ [Cycle.mk (drawn_id "cyc" n) day OPEN
                                    (t / Date.MICROSECONDS_PER_SECOND) None])
                  = Some (Cycle.mk (drawn_id "cyc" n) day OPEN
                            (t / Date.MICROSECONDS_PER_SECOND) None))
    by (apply (find_id_fresh Cycle.id); [exact Hfresh | reflexivity]).
  split; [|split].
  - unfold Storage.create_cycle. run_steps. rewrite date_or_today_eq. cbn [clock].
    rewrite Hday. run_steps. unfold Storage.insert_cycle, Storage.get_cycle. run_steps.
    cbn [cycles set_cycles].
    change ("cyc" +:+ "_" +:+ pretty n) with (drawn_id "cyc" n).
    rewrite Hfind. reflexivity.
  - rewrite get_cycle_eq by reflexivity. cbn [db cycles set_cycles Cycle.id].
    rewrite Hfind. reflexivity.
  - intros cycle_id Hnot. rewrite get_cycle_eq by reflexivity.
    cbn [db cycles set_cycles] in *.
    replace (List.find _ _) with (@None Cycle.t); [reflexivity|].
    symmetry. apply find_none_iff. intros y Hy. apply String.eqb_neq. intros Heq.
    apply Hnot. rewrite <- Heq. apply in_map, Hy.
Qed.

Lemma create_cycle_opens_witness :
  exists cy c1,
    Storage.create_cycle (Some "2026-02-07") market_day = (Ok cy, c1)
    /\ Storage.get_cycle (Cycle.id cy) c1 = (Ok cy, c1)
    /\ map Cycle.status (cycles (db c1)) = [OPEN; OPEN].
Proof.
  destruct (create_cycle_opens market_day (Some "2026-02-07") 20491) as (H1 & H2 & _).
  - split; vm_compute; reflexivity.
  - intros m Hm Hin.
    assert (Hids : map Cycle.id (cycles (db market_day)) = [drawn_id "cyc" 4])
      by (vm_compute; reflexivity).
    rewrite Hids in Hin. destruct Hin as [Heq|[]].
    apply drawn_id_inj in Heq. subst m.
    assert (Hn : next_id market_day = 12%nat) by (vm_compute; reflexivity).
    rewrite Hn in Hm. lia.
  - vm_compute. reflexivity.
  - eexists _, _. split; [exact H1|]. split; [exact H2|]. vm_compute. reflexivity.
Defined.

(** X12. [get_open_cycle] changes nothing and answers None exactly when no
    cycle is OPEN; otherwise it answers an OPEN cycle that was opened no
    earlier than any other OPEN cycle. *)
Theorem get_open_cycle_latest c :
  ready c ->
  exists answer,
    Storage.get_open_cycle c = (Ok answer, c)
    /\ match answer with
       | None => forall cy, In cy (cycles (db c)) -> Cycle.status cy <> OPEN
       | Some cy =>
           In cy (cycles (db c)) /\ Cycle.status cy = OPEN
           /\ forall cy', In cy' (cycles (db c)) -> Cycle.status cy' = OPEN ->
                Cycle.opened_at cy' <= Cycle.opened_at cy
       end.
Proof.
  intros Hready. pose proof (proj2 Hready) as Hnf.
  unfold Storage.get_open_cycle. rewrite execute_query_eq by exact Hnf.
  eexists. split; [reflexivity|].
  set (opened := List.filter (fun cy => CycleStatus_eqb (Cycle.status cy) OPEN)
                   (cycles (db c))).
  assert (Hopen : forall cy, In cy opened <-> In cy (cycles (db c)) /\ Cycle.status cy = OPEN).
  { intros cy. unfold opened. rewrite filter_In.
    destruct (Cycle.status cy); simpl; split; intros (H1 & H2);
      (split; [exact H1|]); try reflexivity; discriminate. }
  pose proof (sort_perm Storage.by_opened_desc opened) as Hperm.
  pose proof (sort_sorted Storage.by_opened_desc
                (fun a b => Cycle.opened_at b <= Cycle.opened_at a)) as Hsorted.
  specialize (Hsorted
    (fun a b c0 H1 H2 => Z.le_trans _ _ _ H2 H1)
    (fun a b H => proj1 (Z.leb_le _ _) H)
    (fun a b H => Z.lt_le_incl _ _ (proj1 (Z.leb_gt _ _) H)) opened).
  destruct (Py.sort Storage.by_opened_desc opened) as [|cy rest] eqn:Hs; cbn [head].
  - intros cy Hin Hst. apply Permutation_nil in Hperm.
    assert (Hcy : In cy opened) by (apply Hopen; auto).
    rewrite Hperm in Hcy. destruct Hcy.
  - assert (Hcy : In cy opened) by (apply (Permutation_in _ Hperm); left; reflexivity).
    apply Hopen in Hcy as (Hin & Hst). split; [exact Hin|]. split; [exact Hst|].
    intros cy' Hin' Hst'.
    assert (Hcy' : In cy' (cy :: rest)).
    { apply (Permutation_in _ (Permutation_sym Hperm)). apply Hopen. auto. }
    destruct Hcy' as [<-|Hrest]; [lia|].
    apply StronglySorted_inv in Hsorted as (_ & Hall).
    rewrite Forall_forall in Hall. apply Hall, list_elem_of_In, Hrest.
Qed.

Lemma get_open_cycle_latest_witness :
  exists cy,
    Storage.get_open_cycle market_day = (Ok (Some cy), market_day)
    /\ Cycle.status cy = OPEN.
Proof.
  destruct (get_open_cycle_latest market_day) as (answer & Hrun & Hanswer).
  - split; vm_compute; reflexivity.
  - destruct answer as [cy|].
    + exists cy. split; [exact Hrun | apply Hanswer].
    + exfalso.
      assert (Hin : exists cy, In cy (cycles (db market_day)) /\ Cycle.status cy = OPEN)
        by (vm_compute; eexists; split; [left; reflexivity | reflexivity]).
      destruct Hin as (cy & Hin & Hst). exact (Hanswer cy Hin Hst).
Defined.

(** ** Reading a settlement back *)

Lemma match_winners_candidates candidates urls x :
  In x (match_winners candidates urls) ->
  In x (map CandidateLink.id candidates).
Proof.
  unfold match_winners.
  assert (Hdict : forall d : Py.dict CandidateLink.t,
            (forall k v, Py.dict_get d k = Some v -> In v candidates) ->
            forall cs, (forall v, In v cs -> In v candidates) ->
            forall k v,
              Py.dict_get
                (fold_left (fun by_url candidate =>
                              Py.dict_set by_url (CandidateLink.canonical_url candidate)
                                candidate) cs d) k = Some v ->
              In v candidates).
  { intros d Hd cs. revert d Hd. induction cs as [|cand cs IH]; intros d Hd Hcs k v.
    - apply Hd.
    - cbn [fold_left]. apply IH.
      + intros k' v'. rewrite dict_get_set.
        destruct (String.eqb _ k'); [|apply Hd].
        intros [= <-]. apply Hcs. left; reflexivity.
      + intros v' Hv'. apply Hcs. right; exact Hv'. }
  intros Hx. apply in_flat_map in Hx as (url & _ & Hx).
  destruct (Py.dict_get _ url) as [cand|] eqn:Hget; [|destruct Hx].
  destruct Hx as [<-|[]]. apply in_map.
  apply (Hdict [] (fun k v H => ltac:(discriminate H)) candidates (fun v H => H) url cand Hget).
Qed.

Lemma winners_of_candidates d cycle_id canon x :
  In x (winners_of d cycle_id canon) ->
  In x (map CandidateLink.id (Storage.candidates_of d cycle_id)).
Proof.
  intros Hx. apply match_winners_candidates in Hx.
  apply in_map_iff in Hx as (cand & <- & Hc). apply in_map.
  apply (Permutation_in _ (sort_perm Storage.by_created _) Hc).
Qed.

Lemma winner_rows_read cycle_id winners ids :
  map CycleResult.candidate_id
    (List.filter (fun r => String.eqb (CycleResult.cycle_id r) cycle_id
                           && (CycleResult.is_winner r =? 1))
       (map (fun candidate_id =>
               CycleResult.mk cycle_id candidate_id
                 (if Py.mem candidate_id (Py.set_of winners) then 1 else 0)) ids))
  = List.filter (fun x => Py.mem x winners) ids.
Proof.
  induction ids as [|x ids IH]; [reflexivity|].
  cbn [map List.filter CycleResult.cycle_id CycleResult.is_winner].
  rewrite String.eqb_refl, mem_set_of. cbn [andb].
  destruct (Py.mem x winners).
  - change (1 =? 1) with true. cbn iota. cbn [map CycleResult.candidate_id].
    rewrite IH. reflexivity.
  - change (0 =? 1) with false. cbn iota. exact IH.
Qed.

(** X13. After a settlement that meets no failure, [list_winner_candidate_ids]
    returns, without repetition, exactly the winners the settlement
    returned, and [get_cycle] shows the cycle SETTLED and closed at the
    time of the settlement. *)
Theorem settle_cycle_results_read_back c cycle_id winner_urls canon :
  ready c ->
  canonical_urls winner_urls = Ok canon ->
  Storage.cycle_exists (db c) cycle_id = true ->
  List.NoDup (map CandidateLink.id (candidate_links (db c))) ->
  (forall p, In p (picks (db c)) -> Storage.user_exists (db c) (Pick.user_id p) = true) ->
  exists r c1 ws cy,
    settle_cycle cycle_id winner_urls c = (Ok r, c1)
    /\ Storage.list_winner_candidate_ids cycle_id c1 = (Ok ws, c1)
    /\ List.NoDup ws
    /\ (forall x, In x ws <-> In x (Settlement.winner_candidate_ids r))
    /\ Storage.get_cycle cycle_id c1 = (Ok cy, c1)
    /\ Cycle.id cy = cycle_id
    /\ Cycle.status cy = SETTLED
    /\ Cycle.closed_at cy = Some (clock c / Date.MICROSECONDS_PER_SECOND).
Proof.
  intros Hready Hcanon Hcycle Hnd Hfk. ready_conn c Hready. cbn [db clock] in *.
  pose proof (settle_cycle_run d t n cycle_id winner_urls canon Hcanon Hcycle Hnd
                (pick_holders_exist d cycle_id canon Hfk)) as Hrun.
  cbv zeta in Hrun.
  destruct (settled_db_tables d t n cycle_id canon (length (rewards_of d cycle_id canon)))
    as (Hcy & Hres & _).
  cbv zeta in Hcy, Hres.
  set (d1 := settled_db d t n cycle_id canon (length (rewards_of d cycle_id canon))) in *.
  set (ids := map CandidateLink.id (Storage.candidates_of d cycle_id)).
  set (winners := winners_of d cycle_id canon) in *.
  assert (Hws : map CycleResult.candidate_id
                  (List.filter (fun r => String.eqb (CycleResult.cycle_id r) cycle_id
                                         && (CycleResult.is_winner r =? 1))
                     (cycle_results d1))
                = List.filter (fun x => Py.mem x winners) ids).
  { rewrite Hres. unfold results_saved. cbn [cycle_results set_cycles set_cycle_results].
    fold ids. rewrite List.filter_app, map_app.
    rewrite (filter_none _ (List.filter _ (cycle_results d))).
    - cbn [map app]. apply winner_rows_read.
    - intros r Hr. apply filter_In in Hr as (_ & Hr). apply negb_true_iff in Hr.
      rewrite Hr. reflexivity. }
  destruct (List.find (fun cy => String.eqb (Cycle.id cy) cycle_id) (cycles d))
    as [cy0|] eqn:Hfind.
  2:{ exfalso. unfold Storage.cycle_exists in Hcycle.
      apply existsb_exists in Hcycle as (cy & Hin & Heq).
      rewrite (proj1 (find_none_iff _ _) Hfind cy Hin) in Heq. discriminate. }
  assert (Hfind1 : List.find (fun cy => String.eqb (Cycle.id cy) cycle_id) (cycles d1)
                   = Some (Cycle.mk (Cycle.id cy0) (Cycle.cycle_date cy0) SETTLED
                             (Cycle.opened_at cy0)
                             (Some (t / Date.MICROSECONDS_PER_SECOND)))).
  { rewrite Hcy. unfold results_saved. cbn [cycles set_cycles].
    revert Hfind. induction (cycles d) as [|cy l IH]; [discriminate|].
    cbn [map List.find].
    destruct (String.eqb (Cycle.id cy) cycle_id) eqn:Heq.
    - intros [= ->]. cbn [Cycle.id]. rewrite Heq. reflexivity.
    - rewrite Heq. exact IH. }
  eexists _, _, _, _. split; [exact Hrun|].
  split.
  { unfold Storage.list_winner_candidate_ids. rewrite execute_query_eq by reflexivity.
    cbn [db]. rewrite Hws. reflexivity. }
  split.
  { apply List.NoDup_filter. unfold ids. apply NoDup_map_filter, Hnd. }
  split.
  { intros x. cbn [Settlement.winner_candidate_ids]. rewrite filter_In.
    split.
    - intros (_ & Hx). apply mem_In, Hx.
    - intros Hx. split; [exact (winners_of_candidates d cycle_id canon x Hx) | apply mem_In, Hx]. }
  split.
  { rewrite get_cycle_eq by reflexivity. cbn [db]. rewrite Hfind1. reflexivity. }
  cbn [Cycle.id Cycle.status Cycle.closed_at].
  split; [|split; reflexivity].
  apply find_some in Hfind as (_ & Heq). apply String.eqb_eq, Heq.
Qed.

Lemma settle_cycle_results_read_back_witness :
  exists r c1,
    settle_cycle "cyc_4" ["https://example.com/a"; "https://example.com/zzz"] market_day
    = (Ok r, c1)
    /\ Storage.list_winner_candidate_ids "cyc_4" c1 = (Ok ["lnk_5"], c1).
Proof.
  destruct (settle_cycle_results_read_back market_day "cyc_4"
              ["https://example.com/a"; "https://example.com/zzz"]
              ["https://example.com/a"; "https://example.com/zzz"])
    as (r & c1 & ws & cy & Hrun & Hlist & _).
  - exact market_day_ready.
  - vm_compute. reflexivity.
  - vm_compute. reflexivity.
  - apply distinct_NoDup. vm_compute. reflexivity.
  - exact market_day_pick_holders.
  - exists r, c1. split; [exact Hrun|]. rewrite Hlist. f_equal. f_equal.
    assert (Hc1 : snd (settle_cycle "cyc_4"
                         ["https://example.com/a"; "https://example.com/zzz"] market_day)
                  = c1) by (rewrite Hrun; reflexivity).
    assert (Hv : fst (Storage.list_winner_candidate_ids "cyc_4"
                        (snd (settle_cycle "cyc_4"
                                ["https://example.com/a"; "https://example.com/zzz"]
                                market_day))) = Ok ["lnk_5"])
      by (vm_compute; reflexivity).
    rewrite Hc1, Hlist in Hv. injection Hv as ->. reflexivity.
Defined.

(** ** Model predictions *)

(** The key of a prediction row. *)
Definition prediction_id (r : ModelPrediction.t) : string * string * string :=
  (ModelPrediction.cycle_id r, ModelPrediction.model_user_id r,
   ModelPrediction.candidate_id r).

Lemma prediction_key_id cycle_id model_user_id candidate_id r :
  Storage.prediction_key cycle_id model_user_id candidate_id r = true
  <-> prediction_id r = (cycle_id, model_user_id, candidate_id).
Proof.
  unfold Storage.prediction_key, prediction_id.
  rewrite !andb_true_iff, !String.eqb_eq. split.
  - intros ((-> & ->) & ->). reflexivity.
  - intros [= -> -> ->]. auto.
Qed.

Lemma store_prediction_ids r X :
  List.NoDup (map prediction_id X) ->
  List.NoDup (map prediction_id (store_prediction r X)).
Proof.
  intros Hnd. unfold store_prediction. cbv zeta.
  destruct (existsb _ X) eqn:Hex.
  - replace (map prediction_id (map _ X)) with (map prediction_id X); [exact Hnd|].
    rewrite map_map. apply map_ext_in. intros q _.
    destruct (Storage.prediction_key _ _ _ q) eqn:Hk; [|reflexivity].
    apply prediction_key_id in Hk. rewrite Hk. reflexivity.
  - rewrite map_app. apply List.NoDup_app; [exact Hnd | |].
    + constructor; [intros [] | constructor].
    + intros k Hk [<-|[]]. apply in_map_iff in Hk as (q & Hq & Hin).
      assert (Hfalse : Storage.prediction_key (ModelPrediction.cycle_id r)
                         (ModelPrediction.model_user_id r)
                         (ModelPrediction.candidate_id r) q = false).
      { apply not_true_iff_false. intros Hk'.
        assert (existsb (Storage.prediction_key (ModelPrediction.cycle_id r)
                           (ModelPrediction.model_user_id r)
                           (ModelPrediction.candidate_id r)) X = true)
          by (apply existsb_exists; exists q; auto).
        congruence. }
      apply not_true_iff_false in Hfalse. apply Hfalse, prediction_key_id, Hq.
Qed.

Lemma store_prediction_rows r X q :
  In q (store_prediction r X)
  <-> q = r \/ (In q X /\ prediction_id q <> prediction_id r).
Proof.
  unfold store_prediction. cbv zeta.
  set (same := Storage.prediction_key (ModelPrediction.cycle_id r)
                 (ModelPrediction.model_user_id r) (ModelPrediction.candidate_id r)).
  assert (Hsame : forall x, same x = true <-> prediction_id x = prediction_id r)
    by (intros x; apply prediction_key_id).
  destruct (existsb same X) eqn:Hex.
  - rewrite in_map_iff. split.
    + intros (x & Hx & Hin). destruct (same x) eqn:Hk.
      * left. auto.
      * right. subst q. split; [exact Hin|]. intros Heq. apply Hsame in Heq. congruence.
    + intros [->|(Hin & Hne)].
      * apply existsb_exists in Hex as (x & Hin & Hk). exists x. rewrite Hk. auto.
      * exists q. split; [|exact Hin].
        destruct (same q) eqn:Hk; [|reflexivity]. apply Hsame in Hk. contradiction.
  - rewrite in_app_iff. simpl. split.
    + intros [Hin|[<-|[]]]; [|left; reflexivity].
      right. split; [exact Hin|]. intros Heq. apply Hsame in Heq.
      assert (existsb same X = true) by (apply existsb_exists; exists q; auto).
      congruence.
    + intros [->|(Hin & _)]; auto.
Qed.

(** X14. [upsert_model_prediction] needs the cycle, the model's user and the
    candidate to exist: otherwise it raises the integrity error and writes
    nothing.  With them it keeps one row per (cycle, model user,
    candidate): the row of this key now carries the new probability and
    explanation, every other row is as before, and
    [list_model_predictions] for the cycle and the model returns these
    rows in descending order of probability. *)
Theorem upsert_model_prediction_round_trip c cycle_id model_user_id candidate_id
    probability explanation :
  ready c ->
  model_user_id <> "" ->
  let row := ModelPrediction.mk cycle_id model_user_id candidate_id probability explanation
               (clock c / Date.MICROSECONDS_PER_SECOND) in
  if Storage.cycle_exists (db c) cycle_id && Storage.user_exists (db c) model_user_id
     && Storage.candidate_exists (db c) candidate_id
  then
    exists c1 rows,
      Storage.upsert_model_prediction cycle_id model_user_id candidate_id probability
        explanation c = (Ok tt, c1)
      /\ ready c1
      /\ (List.NoDup (map prediction_id (model_predictions (db c))) ->
          List.NoDup (map prediction_id (model_predictions (db c1))))
      /\ (forall q, In q (model_predictions (db c1))
                    <-> q = row
                        \/ (In q (model_predictions (db c))
                            /\ prediction_id q <> prediction_id row))
      /\ Storage.list_model_predictions cycle_id (Some model_user_id) c1 = (Ok rows, c1)
      /\ (forall q, In q rows
                    <-> In q (model_predictions (db c1))
                        /\ ModelPrediction.cycle_id q = cycle_id
                        /\ ModelPrediction.model_user_id q = model_user_id)
      /\ StronglySorted
           (fun a b => (ModelPrediction.probability b <= ModelPrediction.probability a)%Q)
           rows
  else
    Storage.upsert_model_prediction cycle_id model_user_id candidate_id probability
      explanation c = (Raise IntegrityError, c).
Proof.
  intros Hready Huser. ready_conn c Hready. cbn [db clock]. cbv zeta.
  unfold Storage.upsert_model_prediction. run_steps. unfold Storage.upsert_prediction.
  cbn [ModelPrediction.cycle_id ModelPrediction.model_user_id ModelPrediction.candidate_id].
  destruct (Storage.cycle_exists d cycle_id); cbn [negb orb andb]; [|reflexivity].
  destruct (Storage.user_exists d model_user_id); cbn [negb orb andb]; [|reflexivity].
  destruct (Storage.candidate_exists d candidate_id); cbn [negb orb andb]; [|reflexivity].
  set (row := ModelPrediction.mk cycle_id model_user_id candidate_id probability explanation
                (t / Date.MICROSECONDS_PER_SECOND)).
  assert (Hstore :
    (if existsb (Storage.prediction_key cycle_id model_user_id candidate_id)
          (model_predictions d)
     then Ok (tt, set_model_predictions
                    (map (fun q => if Storage.prediction_key cycle_id model_user_id
                                        candidate_id q then row else q)
                       (model_predictions d)) d)
     else Ok (tt, set_model_predictions (model_predictions d ++ [row]) d))
    = Ok (tt, set_model_predictions (store_prediction row (model_predictions d)) d)).
  { unfold store_prediction. cbv zeta.
    cbn [row ModelPrediction.cycle_id ModelPrediction.model_user_id
         ModelPrediction.candidate_id].
    destruct (existsb _ _); reflexivity. }
  cbv zeta. rewrite Hstore. run_steps.
  eexists _, _. split; [reflexivity|]. cbn [db model_predictions set_model_predictions].
  split; [apply ready_mk|].
  split; [apply store_prediction_ids|].
  split; [apply store_prediction_rows|].
  unfold Storage.list_model_predictions.
  assert (Ht : Py.truthy_opt (Some model_user_id) = true)
    by (destruct model_user_id; [congruence | reflexivity]).
  rewrite Ht, execute_query_eq by reflexivity. cbn [db model_predictions set_model_predictions].
  split; [reflexivity|]. split.
  - intros q. split.
    + intros Hq. apply (Permutation_in _ (sort_perm _ _)) in Hq.
      apply filter_In in Hq as (Hin & Hq). apply andb_true_iff in Hq as (H1 & H2).
      apply String.eqb_eq in H1. unfold Storage.option_eqb in H2.
      apply String.eqb_eq in H2. auto.
    + intros (Hin & H1 & H2).
      apply (Permutation_in _ (Permutation_sym (sort_perm _ _))).
      apply filter_In. split; [exact Hin|]. rewrite H1, H2. unfold Storage.option_eqb.
      rewrite !String.eqb_refl. reflexivity.
  - apply (sort_sorted Storage.by_probability_desc
             (fun a b => (ModelPrediction.probability b <= ModelPrediction.probability a)%Q)).
    + intros a b c0 H1 H2. eapply Qle_trans; eassumption.
    + intros a b H. apply Qle_bool_iff, H.
    + intros a b H. unfold Storage.by_probability_desc in H.
      destruct (Qlt_le_dec (ModelPrediction.probability a) (ModelPrediction.probability b))
        as [Hlt|Hle].
      * apply Qlt_le_weak, Hlt.
      * apply Qle_bool_iff in Hle. congruence.
Qed.

Lemma upsert_model_prediction_round_trip_witness :
  exists c1 rows,
    Storage.upsert_model_prediction "cyc_4" "usr_0" "lnk_5" (1 # 2) "likely" market_day
    = (Ok tt, c1)
    /\ Storage.list_model_predictions "cyc_4" (Some "usr_0") c1 = (Ok rows, c1)
    /\ Storage.upsert_model_prediction "cyc_9" "usr_0" "lnk_5" (1 # 2) "likely" market_day
       = (Raise IntegrityError, market_day).
Proof.
  pose proof (upsert_model_prediction_round_trip market_day "cyc_4" "usr_0" "lnk_5" (1 # 2)
                "likely" market_day_ready ltac:(discriminate)) as H1.
  pose proof (upsert_model_prediction_round_trip market_day "cyc_9" "usr_0" "lnk_5" (1 # 2)
                "likely" market_day_ready ltac:(discriminate)) as H2.
  cbv zeta in H1, H2.
  assert (E1 : Storage.cycle_exists (db market_day) "cyc_4"
               && Storage.user_exists (db market_day) "usr_0"
               && Storage.candidate_exists (db market_day) "lnk_5" = true)
    by (vm_compute; reflexivity).
  assert (E2 : Storage.cycle_exists (db market_day) "cyc_9"
               && Storage.user_exists (db market_day) "usr_0"
               && Storage.candidate_exists (db market_day) "lnk_5" = false)
    by (vm_compute; reflexivity).
  rewrite E1 in H1. rewrite E2 in H2.
  destruct H1 as (c1 & rows & Hrun & _ & _ & _ & Hlist & _).
  exists c1, rows. split; [exact Hrun|]. split; [exact Hlist | exact H2].
Defined.

(** ** The distribution a model run works with *)

Lemma dict_get_none_keys {V} (d : Py.dict V) k :
  Py.dict_get d k = None <-> ~ In k (Py.dict_keys d).
Proof.
  unfold Py.dict_keys. induction d as [|[k0 v0] d IH]; simpl; [tauto|].
  destruct (String.eqb_spec k0 k) as [->|Hne].
  - split; [discriminate | intros H; exfalso; apply H; auto].
  - rewrite IH. split; [intros H [Heq|Hin]; [congruence | auto] | tauto].
Qed.

(** A loop that sets one key per row of [rows], all different, lists the
    rows in their order. *)
Lemma fold_dict_set_rows {X V} (key : X -> string) (value : X -> V) (rows : list X) :
  forall d : Py.dict V,
    List.NoDup (map key rows) ->
    (forall x, In x rows -> ~ In (key x) (Py.dict_keys d)) ->
    fold_left (fun d x => Py.dict_set d (key x) (value x)) rows d
    = d ++ map (fun x => (key x, value x)) rows.
Proof.
  induction rows as [|x rows IH]; intros d Hnd Hd; cbn [fold_left map].
  - rewrite app_nil_r. reflexivity.
  - inversion Hnd as [|? ? Hx Hrows]; subst.
    rewrite dict_set_new by (apply dict_get_none_keys, Hd; left; reflexivity).
    rewrite IH; [rewrite <- app_assoc; reflexivity | exact Hrows |].
    intros y Hy Hin. unfold Py.dict_keys in Hin. rewrite map_app, in_app_iff in Hin.
    destruct Hin as [Hin|[Heq|[]]].
    + apply (Hd y (or_intror Hy)), Hin.
    + apply Hx. cbn [fst] in Heq. rewrite Heq. apply in_map, Hy.
Qed.

(** The entries of [d] under other keys than [k]. *)
Definition dict_without {V} (d : Py.dict V) (k : string) : Py.dict V :=
  List.filter (fun kv => negb (String.eqb (fst kv) k)) d.

Lemma dict_without_get {V} (d : Py.dict V) k k' :
  k' <> k -> Py.dict_get (dict_without d k) k' = Py.dict_get d k'.
Proof.
  intros Hne. unfold dict_without.
  induction d as [|[k0 v0] d IH]; [reflexivity|]. cbn [List.filter fst Py.dict_get].
  destruct (String.eqb_spec k0 k) as [->|Hne0]; cbn [negb Py.dict_get].
  - destruct (String.eqb_spec k k'); [congruence | exact IH].
  - rewrite IH. reflexivity.
Qed.

Lemma dict_without_keys {V} (d : Py.dict V) k x :
  In x (Py.dict_keys (dict_without d k)) <-> In x (Py.dict_keys d) /\ x <> k.
Proof.
  unfold dict_without, Py.dict_keys. rewrite !in_map_iff. split.
  - intros (kv & <- & Hin). apply filter_In in Hin as (Hin & Hne).
    apply negb_true_iff, String.eqb_neq in Hne. split; [exists kv; auto | exact Hne].
  - intros ((kv & <- & Hin) & Hne). exists kv. split; [reflexivity|].
    apply filter_In. split; [exact Hin|]. apply negb_true_iff, String.eqb_neq, Hne.
Qed.

Lemma dict_without_NoDup {V} (d : Py.dict V) k :
  List.NoDup (Py.dict_keys d) -> List.NoDup (Py.dict_keys (dict_without d k)).
Proof. unfold Py.dict_keys, dict_without. apply NoDup_map_filter. Qed.

Definition nonneg_values (d : Py.dict Q) : Prop :=
  forall kv, In kv d -> (0 <= snd kv)%Q.

Lemma qsum_nonneg (d : Py.dict Q) :
  nonneg_values d -> (0 <= Py.qsum (Py.dict_values d))%Q.
Proof.
  unfold Py.dict_values. induction d as [|kv d IH]; intros H; [apply Qle_refl|].
  cbn [map]. rewrite qsum_cons.
  replace 0%Q with (0 + 0)%Q by reflexivity.
  apply Qplus_le_compat; [apply H; left; reflexivity|].
  apply IH. intros x Hx. apply H. right; exact Hx.
Qed.

Lemma dict_get_nonneg (d : Py.dict Q) k :
  nonneg_values d -> (0 <= Py.dict_get_default d k 0)%Q.
Proof.
  intros H. unfold Py.dict_get_default.
  destruct (Py.dict_get d k) as [v|] eqn:Hget; [|apply Qle_refl].
  apply dict_get_item in Hget. exact (H _ Hget).
Qed.

(** Taking a key out of a dict takes its value out of the sum. *)
Lemma qsum_without (d : Py.dict Q) k :
  nonneg_values d ->
  (Py.dict_get_default d k 0 + Py.qsum (Py.dict_values (dict_without d k))
   <= Py.qsum (Py.dict_values d))%Q
  /\ (List.NoDup (Py.dict_keys d) ->
      (Py.dict_get_default d k 0 + Py.qsum (Py.dict_values (dict_without d k))
       == Py.qsum (Py.dict_values d))%Q).
Proof.
  unfold Py.dict_get_default, Py.dict_values, Py.dict_keys, dict_without.
  induction d as [|[k0 v0] d IH]; intros Hpos.
  - cbn. split; [apply Qle_refl | reflexivity].
  - assert (Hpos' : nonneg_values d) by (intros x Hx; apply Hpos; right; exact Hx).
    assert (Hv0 : (0 <= v0)%Q) by (apply (Hpos (k0, v0)); left; reflexivity).
    destruct (IH Hpos') as (Hle & Heq).
    cbn [Py.dict_get List.filter fst map snd].
    destruct (String.eqb_spec k0 k) as [->|Hne]; cbn [negb map snd]; rewrite ?qsum_cons.
    + split.
      * apply Qplus_le_compat; [apply Qle_refl|].
        eapply Qle_trans; [|exact Hle].
        rewrite <- (Qplus_0_l (Py.qsum _)) at 1.
        apply Qplus_le_compat; [|apply Qle_refl].
        destruct (Py.dict_get d k) as [v|] eqn:Hget; [|apply Qle_refl].
        apply dict_get_item in Hget. exact (Hpos' _ Hget).
      * intros Hnd. inversion Hnd as [|? ? Hnotin Hnd']; subst.
        rewrite filter_all; [reflexivity|].
        intros [k1 v1] Hin. cbn [fst]. apply negb_true_iff, String.eqb_neq.
        intros ->. apply Hnotin. apply (in_map fst) in Hin. exact Hin.
    + split.
      * setoid_replace (match Py.dict_get d k with Some v => v | None => 0 end
                        + (v0 + Py.qsum (map snd (List.filter
                                 (fun kv => negb (String.eqb (fst kv) k)) d))))%Q
          with (v0 + (match Py.dict_get d k with Some v => v | None => 0 end
                      + Py.qsum (map snd (List.filter
                                 (fun kv => negb (String.eqb (fst kv) k)) d))))%Q
          using relation Qeq by ring.
        apply Qplus_le_compat; [apply Qle_refl | exact Hle].
      * intros Hnd. inversion Hnd as [|? ? Hnotin Hnd']; subst.
        rewrite <- (Heq Hnd'). ring.
Qed.

Lemma dict_without_nonneg (d : Py.dict Q) k :
  nonneg_values d -> nonneg_values (dict_without d k).
Proof. intros H kv Hin. apply filter_In in Hin as (Hin & _). exact (H kv Hin). Qed.

(** The values under distinct keys [ks] add up to at most the sum of all
    values, and to exactly that sum when [ks] has every key. *)
Lemma qsum_over_keys (ks : list string) : forall d : Py.dict Q,
  nonneg_values d ->
  List.NoDup ks ->
  (Py.qsum (map (fun k => Py.dict_get_default d k 0) ks) <= Py.qsum (Py.dict_values d))%Q
  /\ (List.NoDup (Py.dict_keys d) ->
      (forall k, In k (Py.dict_keys d) -> In k ks) ->
      (Py.qsum (map (fun k => Py.dict_get_default d k 0) ks)
       == Py.qsum (Py.dict_values d))%Q).
Proof.
  induction ks as [|k ks IH]; intros d Hpos Hnd.
  - cbn [map]. split; [apply (qsum_nonneg d Hpos)|].
    intros _ Hkeys. destruct d as [|[k v] d]; [reflexivity|].
    destruct (Hkeys k (or_introl eq_refl)).
  - inversion Hnd as [|? ? Hk Hks]; subst.
    destruct (IH (dict_without d k) (dict_without_nonneg d k Hpos) Hks) as (Hle & Heq).
    destruct (qsum_without d k Hpos) as (Hle1 & Heq1).
    assert (Hsame : map (fun k' => Py.dict_get_default (dict_without d k) k' 0%Q) ks
                    = map (fun k' => Py.dict_get_default d k' 0%Q) ks).
    { apply map_ext_in. intros k' Hk'. unfold Py.dict_get_default.
      rewrite dict_without_get; [reflexivity|]. intros ->. contradiction. }
    rewrite Hsame in Hle, Heq. cbn [map]. rewrite qsum_cons. split.
    + eapply Qle_trans; [|exact Hle1].
      apply Qplus_le_compat; [apply Qle_refl | exact Hle].
    + intros Hndd Hkeys. rewrite <- (Heq1 Hndd).
      rewrite Heq; [reflexivity | apply dict_without_NoDup, Hndd |].
      intros k' Hk'. apply dict_without_keys in Hk' as (Hin & Hne).
      destruct (Hkeys k' Hin) as [Heq'|Hin']; [congruence | exact Hin'].
Qed.

Lemma qmax_nonneg v : (0 <= ModelAgents.qmax 0 v)%Q.
Proof.
  unfold ModelAgents.qmax. destruct (Qle_bool 0 v) eqn:H; [|apply Qle_refl].
  apply Qle_bool_iff, H.
Qed.

(** The keys after [setdefault] for every candidate. *)
Lemma setdefault_keys (candidates : list CandidateLink.t) : forall probs : Py.dict Q,
  let filled := fold_left (fun d candidate =>
                             Py.dict_setdefault d (CandidateLink.id candidate) 0%Q)
                  candidates probs in
  (forall k, In k (Py.dict_keys filled)
             <-> In k (Py.dict_keys probs) \/ In k (map CandidateLink.id candidates))
  /\ (List.NoDup (Py.dict_keys probs) -> List.NoDup (Py.dict_keys filled)).
Proof.
  induction candidates as [|cand candidates IH]; intros probs; cbv zeta; cbn [fold_left map].
  - split; [intros k; simpl; tauto | auto].
  - destruct (IH (Py.dict_setdefault probs (CandidateLink.id cand) 0%Q)) as (Hk & Hnd).
    assert (Hset : forall k, In k (Py.dict_keys (Py.dict_setdefault probs
                                                   (CandidateLink.id cand) 0%Q))
                             <-> In k (Py.dict_keys probs) \/ k = CandidateLink.id cand).
    { intros k. unfold Py.dict_setdefault.
      destruct (Py.dict_get probs (CandidateLink.id cand)) as [v|] eqn:Hget.
      - split; [auto|]. intros [H | ->]; [exact H|].
        apply dict_get_item in Hget. apply (in_map fst) in Hget. exact Hget.
      - apply dict_set_keys. }
    split.
    + intros k. rewrite Hk, Hset. simpl. split.
      * intros [[H|H]|H]; auto.
      * intros [H|[H|H]]; auto.
    + intros Hp. apply Hnd. unfold Py.dict_setdefault.
      destruct (Py.dict_get probs (CandidateLink.id cand)); [exact Hp|].
      apply dict_set_keys_NoDup, Hp.
Qed.

Lemma qsum_const {X} (l : list X) (u : Q) :
  (Py.qsum (map (fun _ => u) l) == inject_Z (Z.of_nat (length l)) * u)%Q.
Proof.
  induction l as [|x l IH].
  - cbn. ring.
  - cbn [map length]. rewrite qsum_cons, IH, Nat2Z.inj_succ. unfold Z.succ.
    rewrite inject_Z_plus. ring.
Qed.

Lemma qsum_div {X} (f : X -> Q) (t : Q) (l : list X) :
  (Py.qsum (map (fun x => f x / t) l) == Py.qsum (map f l) / t)%Q.
Proof.
  induction l as [|x l IH].
  - cbn. unfold Qdiv. ring.
  - cbn [map]. rewrite !qsum_cons, IH. unfold Qdiv. ring.
Qed.

(** X15. [_normalize_probabilities] returns one probability for each
    candidate, in the candidates' order, whatever keys the strategy
    returned; no probability is negative and their sum is at most 1.  The
    sum is 1 when there is a candidate and the strategy returned scores
    for candidates only. *)
Theorem normalize_probabilities_distribution probs candidates :
  List.NoDup (map CandidateLink.id candidates) ->
  let result := ModelAgents._normalize_probabilities probs candidates in
  Py.dict_keys result = map CandidateLink.id candidates
  /\ (forall kv, In kv result -> (0 <= snd kv)%Q)
  /\ (Py.qsum (Py.dict_values result) <= 1)%Q
  /\ (candidates <> [] ->
      List.NoDup (Py.dict_keys probs) ->
      (forall k, In k (Py.dict_keys probs) -> In k (map CandidateLink.id candidates)) ->
      (Py.qsum (Py.dict_values result) == 1)%Q).
Proof.
  intros Hnd. unfold ModelAgents._normalize_probabilities. cbv zeta.
  set (filled := fold_left (fun d candidate =>
                              Py.dict_setdefault d (CandidateLink.id candidate) 0%Q)
                   candidates probs).
  set (safe := map (fun kv : string * Q => (fst kv, ModelAgents.qmax 0 (snd kv))) filled).
  set (total := Py.qsum (Py.dict_values safe)).
  destruct (setdefault_keys candidates probs) as (Hkeys & Hkeep). cbv zeta in Hkeys, Hkeep.
  fold filled in Hkeys, Hkeep.
  assert (Hsafe_keys : Py.dict_keys safe = Py.dict_keys filled).
  { unfold safe, Py.dict_keys. rewrite map_map. reflexivity. }
  assert (Hsafe_pos : nonneg_values safe).
  { intros kv Hin. apply in_map_iff in Hin as (kv0 & <- & _). apply qmax_nonneg. }
  assert (Hrows : forall value : CandidateLink.t -> Q,
            fold_left (fun d candidate =>
                         Py.dict_set d (CandidateLink.id candidate) (value candidate))
              candidates []
            = map (fun candidate => (CandidateLink.id candidate, value candidate))
                candidates).
  { intros value.
    rewrite (fold_dict_set_rows CandidateLink.id value candidates [] Hnd);
      [reflexivity | intros x _ []]. }
  destruct (Qle_bool total 0) eqn:Htotal.
  - set (uniform := match candidates with
                    | [] => 0%Q
                    | _ => (1 / inject_Z (Z.of_nat (length candidates)))%Q
                    end).
    rewrite (Hrows (fun _ => uniform)).
    assert (Hu : (0 <= uniform)%Q).
    { unfold uniform. destruct candidates as [|x xs]; [apply Qle_refl|].
      apply Qle_shift_div_l.
      - change 0%Q with (inject_Z 0). rewrite <- Zlt_Qlt. cbn [length]. lia.
      - rewrite Qmult_0_l. discriminate. }
    assert (Hsum : candidates <> [] ->
              (Py.qsum (Py.dict_values
                          (map (fun candidate => (CandidateLink.id candidate, uniform))
                             candidates)) == 1)%Q).
    { intros Hne. unfold Py.dict_values. rewrite map_map. cbn [snd].
      rewrite qsum_const. unfold uniform.
      destruct candidates as [|x xs]; [congruence|].
      field. change 0%Q with (inject_Z 0). rewrite inject_Z_injective.
      cbn [length]. lia. }
    split; [unfold Py.dict_keys; rewrite map_map; reflexivity|].
    split; [intros kv Hin; apply in_map_iff in Hin as (x & <- & _); exact Hu|].
    split; [|intros Hne _ _; exact (Hsum Hne)].
    destruct candidates as [|x xs]; [discriminate|].
    rewrite Hsum by discriminate. apply Qle_refl.
  - assert (Hpos : (0 < total)%Q).
    { apply Qnot_le_lt. intros Hle. apply Qle_bool_iff in Hle. congruence. }
    rewrite (Hrows (fun candidate =>
                      (Py.dict_get_default safe (CandidateLink.id candidate) 0 / total)%Q)).
    assert (Hsum : (Py.qsum (Py.dict_values
                      (map (fun candidate =>
                              (CandidateLink.id candidate,
                               (Py.dict_get_default safe (CandidateLink.id candidate) 0
                                / total)%Q)) candidates))
                    == Py.qsum (map (fun k => Py.dict_get_default safe k 0%Q)
                                  (map CandidateLink.id candidates)) / total)%Q).
    { unfold Py.dict_values. rewrite !map_map. cbn [snd].
      apply (qsum_div (fun candidate =>
                         Py.dict_get_default safe (CandidateLink.id candidate) 0%Q)). }
    destruct (qsum_over_keys (map CandidateLink.id candidates) safe Hsafe_pos Hnd)
      as (Hle & Heq).
    fold total in Hle, Heq.
    split; [unfold Py.dict_keys; rewrite map_map; reflexivity|].
    split.
    { intros kv Hin. apply in_map_iff in Hin as (x & <- & _). cbn [snd].
      apply Qle_shift_div_l; [exact Hpos|]. rewrite Qmult_0_l.
      apply dict_get_nonneg, Hsafe_pos. }
    split.
    { rewrite Hsum. apply Qle_shift_div_r; [exact Hpos|]. rewrite Qmult_1_l. exact Hle. }
    intros _ Hpn Hsub. rewrite Hsum, Heq.
    + field. intros H0. rewrite H0 in Hpos. apply (Qlt_irrefl _ Hpos).
    + rewrite Hsafe_keys. apply Hkeep, Hpn.
    + intros k Hk. rewrite Hsafe_keys in Hk. apply Hkeys in Hk as [Hk|Hk]; auto.
Qed.

Lemma normalize_probabilities_distribution_witness :
  Py.dict_keys (ModelAgents._normalize_probabilities
                  [("lnk_3", (3 # 1)%Q); ("elsewhere", (1 # 1)%Q)] [first_link; second_link])
  = ["lnk_3"; "lnk_4"]
  /\ (Py.qsum (Py.dict_values
                 (ModelAgents._normalize_probabilities
                    [("lnk_3", (3 # 1)%Q); ("elsewhere", (1 # 1)%Q)]
                    [first_link; second_link])) == 3 # 4)%Q
  /\ (Py.qsum (Py.dict_values
                 (ModelAgents._normalize_probabilities [("lnk_4", (3 # 1)%Q)]
                    [first_link; second_link])) == 1)%Q.
Proof.
  assert (Hnd : List.NoDup (map CandidateLink.id [first_link; second_link]))
    by (apply distinct_NoDup; vm_compute; reflexivity).
  destruct (normalize_probabilities_distribution
              [("lnk_3", (3 # 1)%Q); ("elsewhere", (1 # 1)%Q)] [first_link; second_link] Hnd)
    as (Hkeys & _).
  destruct (normalize_probabilities_distribution [("lnk_4", (3 # 1)%Q)]
              [first_link; second_link] Hnd) as (_ & _ & _ & Hone).
  split; [exact Hkeys|]. split; [vm_compute; reflexivity|].
  apply Hone.
  - discriminate.
  - apply distinct_NoDup. vm_compute. reflexivity.
  - intros k [<-|[]]. right. left. reflexivity.
Defined.

(** ** The default strategy *)

(** A visible ASCII character: a letter, a digit or a sign. *)
Definition visible (c : ascii) : bool :=
  ((32 <? nat_of_ascii c) && (nat_of_ascii c <? 127))%nat.

(** [s] has a visible ASCII character. *)
Definition has_visible (s : string) : bool :=
  existsb visible (list_ascii_of_string s).

(** The character starts with a visible ASCII character. *)
Definition visible_char (ch : string) : bool :=
  match ch with
  | String c _ => visible c
  | EmptyString => false
  end.

Lemma has_visible_append a b : has_visible (a +:+ b) = has_visible a || has_visible b.
Proof.
  unfold has_visible. induction a as [|ch a IH]; [reflexivity|].
  change (String ch a +:+ b) with (String ch (a +:+ b)).
  cbn [list_ascii_of_string existsb]. rewrite IH, orb_assoc. reflexivity.
Qed.

Lemma visible_not_continuation c : visible c = true -> Py.is_continuation c = false.
Proof.
  unfold visible, Py.is_continuation. cbv zeta.
  destruct (Nat.ltb_spec 32 (nat_of_ascii c)); [|discriminate].
  destruct (Nat.ltb_spec (nat_of_ascii c) 127); [|discriminate]. intros _.
  destruct (Nat.leb_spec 128 (nat_of_ascii c)); [lia | reflexivity].
Qed.

Lemma chars_visible s :
  has_visible s = true -> existsb visible_char (Py.chars s) = true.
Proof.
  unfold has_visible. induction s as [|c r IH]; [discriminate|].
  cbn [list_ascii_of_string existsb Py.chars]. intros H.
  apply orb_true_iff in H as [Hc|Hr].
  - destruct (Py.chars r) as [|[|d ch] rest]; [| |destruct (Py.is_continuation d)];
      cbn [existsb visible_char]; rewrite Hc; reflexivity.
  - specialize (IH Hr).
    destruct (Py.chars r) as [|[|d ch] rest]; [discriminate| |].
    + cbn [existsb visible_char] in *. rewrite IH. apply orb_true_r.
    + destruct (Py.is_continuation d) eqn:Hd.
      * cbn [existsb visible_char] in *.
        destruct (visible d) eqn:Hv.
        -- rewrite (visible_not_continuation d Hv) in Hd. discriminate.
        -- cbn [orb] in IH. rewrite IH. apply orb_true_r.
      * cbn [existsb] in *. rewrite IH. apply orb_true_r.
Qed.

(** No white space starts with a visible ASCII character. *)
Lemma visible_char_not_space ch : visible_char ch = true -> Py.isspace ch = false.
Proof.
  intros Hv. destruct (Py.isspace ch) eqn:Hs; [|reflexivity].
  unfold Py.isspace in Hs. apply existsb_exists in Hs as (n & Hn & Heq).
  apply String.eqb_eq in Heq. subst ch.
  assert (Hall : forallb (fun n => negb (visible_char (Py.utf8 n))) Py.whitespace = true)
    by (vm_compute; reflexivity).
  pose proof (proj1 (forallb_forall _ _) Hall n Hn) as Hnot. cbv beta in Hnot.
  rewrite Hv in Hnot. discriminate.
Qed.

Lemma drop_spaces_visible l :
  existsb visible_char l = true -> existsb visible_char (Py.drop_spaces l) = true.
Proof.
  induction l as [|ch l IH]; [discriminate|]. intros H. cbn [Py.drop_spaces].
  destruct (Py.isspace ch) eqn:Hs; [|exact H].
  apply IH. cbn [existsb] in H. apply orb_true_iff in H as [Hv|H]; [|exact H].
  rewrite (visible_char_not_space ch Hv) in Hs. discriminate.
Qed.

Lemma existsb_rev_true {X} (p : X -> bool) l :
  existsb p l = true -> existsb p (rev l) = true.
Proof.
  intros H. apply existsb_exists in H as (x & Hx & Hp).
  apply existsb_exists. exists x. split; [apply in_rev in Hx; exact Hx | exact Hp].
Qed.

Lemma concat_visible l :
  existsb visible_char l = true -> Py.truthy (String.concat "" l) = true.
Proof.
  induction l as [|ch l IH]; [discriminate|]. intros H.
  cbn [existsb] in H. cbn [String.concat].
  destruct l as [|ch' l].
  - cbn [existsb] in H. rewrite orb_false_r in H. destruct ch; [discriminate | reflexivity].
  - destruct ch as [|c ch]; [|reflexivity].
    cbn [visible_char orb] in H. apply IH, H.
Qed.

(** [s.strip()] is not empty when [s] has a visible ASCII character. *)
Lemma strip_visible s : has_visible s = true -> Py.truthy (Py.strip s) = true.
Proof.
  intros H. unfold Py.strip. apply concat_visible.
  apply existsb_rev_true, drop_spaces_visible, existsb_rev_true, drop_spaces_visible.
  apply chars_visible, H.
Qed.

Lemma qmax_floor a b : (0 < a)%Q -> (0 < ModelAgents.qmax a b)%Q.
Proof.
  intros Ha. unfold ModelAgents.qmax. destruct (Qle_bool a b) eqn:H; [|exact Ha].
  apply Qle_bool_iff in H. eapply Qlt_le_trans; eassumption.
Qed.

Lemma qsum_positive (l : list Q) :
  l <> [] -> (forall x, In x l -> (0 < x)%Q) -> (0 < Py.qsum l)%Q.
Proof.
  induction l as [|x l IH]; [congruence|]. intros _ Hpos. rewrite qsum_cons.
  destruct l as [|y l].
  - cbn. rewrite Qplus_0_r. apply Hpos. left; reflexivity.
  - replace 0%Q with (0 + 0)%Q by reflexivity. apply Qplus_lt_le_compat.
    + apply Hpos. left; reflexivity.
    + apply Qlt_le_weak, IH; [discriminate|]. intros z Hz. apply Hpos. right; exact Hz.
Qed.

(** X16. The default strategy gives every candidate a positive probability,
    and the probabilities add up to 1; asked about no candidate at all it
    divides by zero.  Its explanations are never blank. *)
Theorem default_strategy_predicts digest10 config :
  let strategy := ModelAgents.DefaultRankingStrategy digest10 in
  ModelAgents.predict_probabilities strategy config [] = Raise ZeroDivisionError
  /\ (forall candidates,
        candidates <> [] ->
        List.NoDup (map CandidateLink.id candidates) ->
        exists probs,
          ModelAgents.predict_probabilities strategy config candidates = Ok probs
          /\ Py.dict_keys probs = map CandidateLink.id candidates
          /\ (forall kv, In kv probs -> (0 < snd kv)%Q)
          /\ (Py.qsum (Py.dict_values probs) == 1)%Q)
  /\ (forall candidate probability selected,
        exists text,
          ModelAgents.explain_choice strategy config candidate probability selected = Ok text
          /\ Py.truthy (Py.strip text) = true).
Proof.
  cbv zeta. split; [reflexivity|]. split.
  - intros candidates Hne Hnd.
    cbn [ModelAgents.DefaultRankingStrategy ModelAgents.predict_probabilities]. cbv zeta.
    set (score := fun candidate : CandidateLink.t =>
           ModelAgents.qmax (1 # 10000)
             (((1 # 2)
               + inject_Z (digest10 (ModelAgentConfig.id config +:+ ":"
                                     +:+ CandidateLink.canonical_url candidate))
                 / inject_Z (16 ^ 10))
              * Py.dict_get_default ModelAgents.DOMAIN_BONUS (CandidateLink.domain candidate) 1)%Q).
    pose proof (fold_dict_set_rows CandidateLink.id score candidates [] Hnd
                  (fun x _ H => H)) as Hfold.
    unfold score in Hfold. cbv beta in Hfold. cbn [app] in Hfold. rewrite Hfold.
    clear Hfold score.
    match goal with
    | |- context [Py.dict_values (map ?f candidates)] => set (raw := map f candidates)
    end.
    assert (Hraw : forall kv, In kv raw -> (0 < snd kv)%Q).
    { intros kv Hin. apply in_map_iff in Hin as (x & <- & _). cbn [snd].
      apply qmax_floor. reflexivity. }
    assert (Htotal : (0 < Py.qsum (Py.dict_values raw))%Q).
    { apply qsum_positive.
      - unfold raw, Py.dict_values. destruct candidates; [congruence | discriminate].
      - intros x Hx. apply in_map_iff in Hx as (kv & <- & Hkv). apply Hraw, Hkv. }
    assert (Hbool : Qle_bool (Py.qsum (Py.dict_values raw)) 0 = false).
    { apply not_true_iff_false. intros H. apply Qle_bool_iff in H.
      apply (Qlt_irrefl 0). eapply Qlt_le_trans; eassumption. }
    rewrite Hbool. eexists. split; [reflexivity|]. split; [|split].
    + unfold Py.dict_keys, raw. rewrite !map_map. reflexivity.
    + intros kv Hin. apply in_map_iff in Hin as (kv0 & <- & Hkv0). cbn [snd].
      apply Qlt_shift_div_l; [exact Htotal|]. rewrite Qmult_0_l. apply Hraw, Hkv0.
    + unfold Py.dict_values at 1. rewrite map_map. cbn [snd].
      rewrite (qsum_div snd (Py.qsum (Py.dict_values raw)) raw).
      fold (Py.dict_values raw). field.
      intros H0. rewrite H0 in Htotal. apply (Qlt_irrefl _ Htotal).
  - intros candidate probability selected.
    cbn [ModelAgents.DefaultRankingStrategy ModelAgents.explain_choice].
    destruct selected; eexists; (split; [reflexivity|]); apply strip_visible;
      rewrite has_visible_append; apply orb_true_iff; right;
      rewrite has_visible_append; apply orb_true_iff; left; reflexivity.
Qed.

Lemma default_strategy_predicts_witness :
  exists probs,
    ModelAgents.predict_probabilities (ModelAgents.DefaultRankingStrategy (fun _ => 0))
      bad_model [first_link; second_link] = Ok probs
    /\ Py.dict_keys probs = ["lnk_3"; "lnk_4"]
    /\ (Py.qsum (Py.dict_values probs) == 1)%Q.
Proof.
  destruct (default_strategy_predicts (fun _ => 0) bad_model) as (_ & Hpredict & _).
  destruct (Hpredict [first_link; second_link]) as (probs & Hrun & Hkeys & _ & Hsum).
  - discriminate.
  - apply distinct_NoDup. vm_compute. reflexivity.
  - exists probs. split; [exact Hrun|]. split; [exact Hkeys | exact Hsum].
Defined.

(** ** Model runs as a job *)

(** Both databases hold the job markers [J] and the cycles [Cs], no failure
    is planned and the clock shows [t]. *)
Definition markers_and_cycles (J : list JobRun.t) (Cs : list Cycle.t) (t : Z) (c : Conn)
    : Prop :=
  (job_runs (committed c) = J /\ cycles (committed c) = Cs)
  /\ (job_runs (db c) = J /\ cycles (db c) = Cs)
  /\ fault_plan c = [] /\ clock c = t.

#[global] Instance markers_and_cycles_framed J Cs t :
  Framed (markers_and_cycles J Cs t) (fun _ d => job_runs d = J /\ cycles d = Cs)
    (fun plan => plan = []) (fun t' => t' = t).
Proof.
  split.
  - intros c. unfold markers_and_cycles. tauto.
  - auto.
  - intros plan ->. reflexivity.
Qed.

Ltac unfold_model_run :=
  unfold ModelAgents.run_cycle, ModelAgents.run_config, ModelAgents.explain_and_store,
    ModelAgents._load_strategy, MarketService.set_ranked_picks,
    Storage.create_user, Storage.get_user, Storage.get_user_by_email,
    Storage.get_or_create_ai_user, Storage.date_or_today, Storage._parse_date,
    Storage.list_candidates, Storage.list_user_picks, Storage.set_ranked_picks,
    Storage.upsert_model_prediction.

(** A model pass writes neither job markers nor cycles, whether it returns
    or raises. *)
Lemma run_cycle_markers J Cs t default_strategy plugins configs cycle_id :
  preserves (markers_and_cycles J Cs t)
    (ModelAgents.run_cycle default_strategy plugins configs cycle_id).
Proof. preserves_auto unfold_model_run. Qed.

(** The cycle [run_models] works on: the one asked for, or the OPEN cycle
    [get_open_cycle] finds. *)
Definition models_target (cycle_id : option string) (d : DB) : option Cycle.t :=
  if Py.truthy_opt cycle_id
  then List.find (fun cy => String.eqb (Cycle.id cy) (default "" cycle_id)) (cycles d)
  else head (Py.sort Storage.by_opened_desc
               (List.filter (fun cy => CycleStatus_eqb (Cycle.status cy) OPEN) (cycles d))).

Section ModelJob.
Variable default_strategy : ModelAgents.ModelStrategy.
Variable plugins : ModelAgents.Plugins.
Variable configs : list ModelAgentConfig.t.

Let run_models := JobService.run_models default_strategy plugins configs.

(** Up to the claim: the cycle is looked up in the working tables. *)
Lemma run_models_target cycle_id force c :
  fault_plan c = [] ->
  run_models cycle_id force c
  = match models_target cycle_id (db c) with
    | None =>
        (if Py.truthy_opt cycle_id then Raise (KeyError "Cycle not found")
         else Ok (JobService.Skipped "no_open_cycle" None), c)
    | Some cy =>
        let run_key := Cycle.id cy +:+ ":" +:+ Date.strftime_hour (clock c) in
        (skip <- JobService.already_ran force "model_run" run_key
                   (Some [("cycle_id", JStr (Cycle.id cy))]) ;;
         if (skip : bool) then ret (JobService.Skipped "already_ran" (Some run_key))
         else
           result <- ModelAgents.run_cycle default_strategy plugins configs (Cycle.id cy) ;;
           ret (JobService.Executed run_key result)) c
    end.
Proof.
  destruct c as [cm d t n plan]. cbn [fault_plan db clock]. intros ->.
  unfold run_models, JobService.run_models, models_target.
  destruct (Py.truthy_opt cycle_id).
  - unfold Storage.get_cycle. run_steps.
    destruct (List.find _ (cycles d)); reflexivity.
  - unfold Storage.get_open_cycle. run_steps.
    destruct (head _); reflexivity.
Qed.

(** X17. [run_models] without a cycle to work on does nothing: it reports
    "no_open_cycle" when no cycle is OPEN and raises KeyError for an
    unknown cycle id.  With a cycle, an un-forced run records the marker of
    the cycle and the hour before the model pass starts and keeps it
    whatever the pass does, also when it raises: until the hour changes,
    the next un-forced run is reported skipped, "already_ran". *)
Theorem run_models_once_per_hour cycle_id c :
  ready c ->
  match models_target cycle_id (db c) with
  | None =>
      forall force,
        run_models cycle_id force c
        = (if Py.truthy_opt cycle_id then Raise (KeyError "Cycle not found")
           else Ok (JobService.Skipped "no_open_cycle" None), c)
  | Some cy =>
      let run_key := Cycle.id cy +:+ ":" +:+ Date.strftime_hour (clock c) in
      let c1 := snd (run_models cycle_id false c) in
      Storage.has_job_run (db c1) "model_run" run_key = true
      /\ forall dt,
           Date.strftime_hour (clock c + Z.max 0 dt) = Date.strftime_hour (clock c) ->
           fst (run_models cycle_id false (advance_clock dt c1))
           = Ok (JobService.Skipped "already_ran" (Some run_key))
  end.
Proof.
  intros Hready. pose proof (proj2 Hready) as Hnf.
  destruct (models_target cycle_id (db c)) as [cy|] eqn:Htarget.
  2:{ intros force. rewrite run_models_target by exact Hnf. rewrite Htarget. reflexivity. }
  cbv zeta. set (run_key := Cycle.id cy +:+ ":" +:+ Date.strftime_hour (clock c)).
  (* the first run leaves the marker in both databases and the cycles as they are *)
  assert (Hfirst : exists J,
            markers_and_cycles J (cycles (db c)) (clock c)
              (snd (run_models cycle_id false c))
            /\ existsb (fun r => String.eqb (JobRun.job_name r) "model_run"
                                 && String.eqb (JobRun.run_key r) run_key) J = true).
  { rewrite run_models_target by exact Hnf. rewrite Htarget. cbv zeta. fold run_key.
    ready_conn c Hready. cbn [db clock] in *.
    unfold JobService.already_ran, Storage.claim_job_run. run_steps.
    unfold Storage.insert_job_run. cbn [JobRun.job_name JobRun.run_key].
    destruct (Storage.has_job_run d "model_run" run_key) eqn:Hhas; run_steps.
    - exists (job_runs d). split; [|exact Hhas]. repeat split.
    - set (row := JobRun.mk _ _ _ _ _ _).
      exists (job_runs d ++ [row]). split.
      + pose proof (run_cycle_markers (job_runs d ++ [row]) (cycles d) t
                      default_strategy plugins configs (Cycle.id cy)
                      (mkConn (set_job_runs (job_runs d ++ [row]) d)
                         (set_job_runs (job_runs d ++ [row]) d) t (S n) [])) as Hp.
        cbn [negb]. cbv beta iota. unfold bind.
        destruct (ModelAgents.run_cycle default_strategy plugins configs (Cycle.id cy) _)
          as [[result|e] c1]; cbn [snd]; apply Hp; repeat split.
      + rewrite existsb_app. cbn [existsb JobRun.job_name JobRun.run_key row].
        rewrite !String.eqb_refl. apply orb_true_r. }
  destruct Hfirst as (J & Hc1 & Hmarker).
  set (c1 := snd (run_models cycle_id false c)) in *.
  destruct Hc1 as ((Hcj & Hcc) & (Hdj & Hdc) & Hplan & Hclock).
  split.
  { unfold Storage.has_job_run. rewrite Hdj. exact Hmarker. }
  intros dt Hhour.
  rewrite run_models_target by exact Hplan.
  assert (Htarget1 : models_target cycle_id (db (advance_clock dt c1)) = Some cy).
  { unfold models_target in *. cbn [advance_clock db]. rewrite Hdc. exact Htarget. }
  rewrite Htarget1. cbv zeta. cbn [advance_clock clock]. rewrite Hclock, Hhour.
  fold run_key.
  destruct c1 as [cm1 d1 t1 n1 plan1]. cbn [committed db clock fault_plan] in *. subst plan1.
  unfold JobService.already_ran, Storage.claim_job_run, advance_clock. run_steps.
  unfold Storage.insert_job_run, Storage.has_job_run.
  cbn [JobRun.job_name JobRun.run_key]. rewrite Hdj, Hmarker. reflexivity.
Qed.

End ModelJob.

Lemma run_models_once_per_hour_witness :
  let run := JobService.run_models (ModelAgents.DefaultRankingStrategy (fun _ => 0))
               test_plugins [bad_model] None false in
  fst (run model_day)
  = Raise (ValueError
             "Model bad-model must provide explanation for selected candidate lnk_4")
  /\ fst (run (advance_clock 60000000 (snd (run model_day))))
     = Ok (JobService.Skipped "already_ran" (Some "cyc_2:2026020600")).
Proof.
  cbv zeta. split; [vm_compute; reflexivity|].
  pose proof (run_models_once_per_hour (ModelAgents.DefaultRankingStrategy (fun _ => 0))
                test_plugins [bad_model] None model_day) as H.
  assert (Hready : ready model_day) by (split; vm_compute; reflexivity).
  specialize (H Hready).
  assert (Htarget : exists cy, models_target None (db model_day) = Some cy
                               /\ Cycle.id cy = "cyc_2")
    by (vm_compute; eexists; split; reflexivity).
  destruct Htarget as (cy & Htarget & Hid). rewrite Htarget in H. cbv zeta in H.
  destruct H as (_ & H). rewrite (H 60000000); [|vm_compute; reflexivity].
  rewrite Hid. vm_compute. reflexivity.
Defined.

(** ** Google sign-in *)

Lemma find_by_id {X} (id : X -> string) (rows : list X) (x : X) :
  List.NoDup (map id rows) -> In x rows ->
  List.find (fun y => String.eqb (id y) (id x)) rows = Some x.
Proof.
  induction rows as [|y rows IH]; intros Hnd Hin; [destruct Hin|].
  inversion Hnd as [|? ? Hy Hrows]; subst. cbn [List.find].
  destruct Hin as [->|Hin]; [rewrite String.eqb_refl; reflexivity|].
  destruct (String.eqb_spec (id y) (id x)) as [Heq|_]; [|apply IH; assumption].
  exfalso. apply Hy. rewrite Heq. apply in_map, Hin.
Qed.

(** The account [u] once it is linked to [google_sub]. *)
Definition linked (google_sub display_name : string) (u : User.t) : User.t :=
  User.mk (User.id u) display_name (User.email u) (Some google_sub) (User.account_type u)
    (User.current_chips u) (User.created_at u) (User.last_daily_credit_date u).

Definition link_account (user_id google_sub display_name : string) (us : list User.t)
    : list User.t :=
  map (fun u => if String.eqb (User.id u) user_id then linked google_sub display_name u
                else u) us.

Lemma link_account_ids user_id google_sub display_name us :
  map User.id (link_account user_id google_sub display_name us) = map User.id us.
Proof.
  unfold link_account. rewrite map_map. apply map_ext. intros u.
  destruct (String.eqb (User.id u) user_id); reflexivity.
Qed.

Lemma link_account_in u google_sub display_name us :
  In u us -> In (linked google_sub display_name u)
               (link_account (User.id u) google_sub display_name us).
Proof.
  intros Hin. unfold link_account. apply in_map_iff. exists u.
  rewrite String.eqb_refl. auto.
Qed.

Lemma link_account_sub u google_sub display_name us :
  List.NoDup (map User.id us) -> In u us ->
  List.find (fun v => Storage.option_eqb (User.google_sub v) (Some google_sub)) us = None ->
  List.find (fun v => Storage.option_eqb (User.google_sub v) (Some google_sub))
    (link_account (User.id u) google_sub display_name us)
  = Some (linked google_sub display_name u).
Proof.
  unfold link_account.
  induction us as [|v us IH]; intros Hnd Hin Hnone; [destruct Hin|].
  inversion Hnd as [|? ? Hv Hus]; subst. cbn [List.find map] in *.
  destruct (Storage.option_eqb (User.google_sub v) (Some google_sub)) eqn:Hsub;
    [discriminate|].
  destruct Hin as [->|Hin].
  - rewrite String.eqb_refl. cbn [linked User.google_sub Storage.option_eqb].
    rewrite String.eqb_refl. reflexivity.
  - destruct (String.eqb_spec (User.id v) (User.id u)) as [Heq|_].
    + exfalso. apply Hv. rewrite Heq. apply in_map, Hin.
    + rewrite Hsub. apply IH; assumption.
Qed.

(** X18. [get_or_create_google_user] returns an account linked to
    [google_sub]: the account that already has it, unchanged; else the
    account with this email, which it links and renames, keeping its chips
    and writing no ledger row; else a new HUMAN account with the starting
    chips.  Called again with the same [google_sub], with whatever email
    and name, it returns the same account and changes nothing. *)
Theorem get_or_create_google_user_links c google_sub email display_name :
  ready c ->
  List.NoDup (map User.id (users (db c))) ->
  ids_fresh "usr" (map User.id (users (db c))) (next_id c) ->
  exists u c1,
    Storage.get_or_create_google_user google_sub email display_name c = (Ok u, c1)
    /\ ready c1
    /\ User.google_sub u = Some google_sub
    /\ match List.find (fun v => Storage.option_eqb (User.google_sub v) (Some google_sub))
               (users (db c)) with
       | Some known => u = known /\ c1 = c
       | None =>
           match List.find (fun v => String.eqb (User.email v) email) (users (db c)) with
           | Some account =>
               u = linked google_sub display_name account
               /\ users (db c1)
                  = link_account (User.id account) google_sub display_name (users (db c))
               /\ chip_ledger (db c1) = chip_ledger (db c)
           | None =>
               u = new_user c display_name email "HUMAN" (Some google_sub)
               /\ users (db c1) = users (db c) ++ [u]
               /\ chip_ledger (db c1) = chip_ledger (db c) ++ [signup_row c]
           end
       end
    /\ forall email' display_name' dt,
         Storage.get_or_create_google_user google_sub email' display_name'
           (advance_clock dt c1)
         = (Ok u, advance_clock dt c1).
Proof.
  intros Hready Hnd Hfresh. pose proof Hready as Hready'. ready_conn c Hready.
  cbn [db next_id clock] in *.
  assert (Hagain : forall (u : User.t) d1 t1 n1,
            List.find (fun v => Storage.option_eqb (User.google_sub v) (Some google_sub))
              (users d1) = Some u ->
            List.find (fun v => String.eqb (User.id v) (User.id u)) (users d1) = Some u ->
            forall email' display_name' dt,
              Storage.get_or_create_google_user google_sub email' display_name'
                (advance_clock dt (mkConn d1 d1 t1 n1 []))
              = (Ok u, advance_clock dt (mkConn d1 d1 t1 n1 []))).
  { intros u d1 t1 n1 Hsub Hid email' display_name' dt.
    unfold Storage.get_or_create_google_user, Storage.get_user, advance_clock. run_steps.
    rewrite Hsub. run_steps. rewrite Hid. reflexivity. }
  assert (Hmain : exists u d1 n1,
            Storage.get_or_create_google_user google_sub email display_name
              (mkConn d d t n [])
            = (Ok u, mkConn d1 d1 t n1 [])
            /\ User.google_sub u = Some google_sub
            /\ match List.find (fun v => Storage.option_eqb (User.google_sub v)
                                           (Some google_sub)) (users d) with
               | Some known => u = known /\ mkConn d1 d1 t n1 [] = mkConn d d t n []
               | None =>
                   match List.find (fun v => String.eqb (User.email v) email) (users d) with
                   | Some account =>
                       u = linked google_sub display_name account
                       /\ users d1
                          = link_account (User.id account) google_sub display_name (users d)
                       /\ chip_ledger d1 = chip_ledger d
                   | None =>
                       u = new_user (mkConn d d t n []) display_name email "HUMAN"
                             (Some google_sub)
                       /\ users d1 = users d ++ [u]
                       /\ chip_ledger d1
                          = chip_ledger d ++ [signup_row (mkConn d d t n [])]
                   end
               end
            /\ List.find (fun v => Storage.option_eqb (User.google_sub v) (Some google_sub))
                 (users d1) = Some u
            /\ List.find (fun v => String.eqb (User.id v) (User.id u)) (users d1) = Some u).
  { unfold Storage.get_or_create_google_user, Storage.get_user. run_steps.
    destruct (List.find (fun v => Storage.option_eqb (User.google_sub v) (Some google_sub))
                (users d)) as [known|] eqn:Hsub.
    - destruct (find_some _ _ Hsub) as (Hin & Hk).
      run_steps. rewrite (find_by_id User.id (users d) known Hnd Hin).
      eexists _, _, _. split; [reflexivity|]. split.
      { destruct (User.google_sub known) as [g|]; [|discriminate].
        apply String.eqb_eq in Hk. rewrite Hk. reflexivity. }
      split; [split; reflexivity|].
      split; [exact Hsub | apply find_by_id; assumption].
    - destruct (List.find (fun v => String.eqb (User.email v) email) (users d))
        as [account|] eqn:Hemail.
      + destruct (find_some _ _ Hemail) as (Hin & _).
        run_steps. unfold Storage.update_google.
        assert (Hother : existsb (fun v => negb (String.eqb (User.id v) (User.id account))
                                           && Storage.option_eqb (User.google_sub v)
                                                (Some google_sub)) (users d) = false).
        { apply existsb_false_iff. intros v Hv.
          rewrite (proj1 (find_none_iff _ _) Hsub v Hv). apply andb_false_r. }
        rewrite Hother, andb_false_r. run_steps. cbn [users set_users].
        change (map _ (users d))
          with (link_account (User.id account) google_sub display_name (users d)).
        assert (Hfind : List.find (fun v => String.eqb (User.id v) (User.id account))
                          (link_account (User.id account) google_sub display_name (users d))
                        = Some (linked google_sub display_name account)).
        { apply (find_by_id User.id _ (linked google_sub display_name account)).
          - rewrite link_account_ids. exact Hnd.
          - apply link_account_in, Hin. }
        rewrite Hfind.
        eexists _, _, _. split; [reflexivity|].
        split; [reflexivity|]. split; [repeat split|].
        cbn [users set_users].
        split; [apply link_account_sub; assumption | exact Hfind].
      + assert (Hnew := create_user_new (mkConn d d t n []) display_name email "HUMAN"
                          (Some google_sub) Hready' Hfresh).
        cbn [db next_id clock] in Hnew. cbv zeta in Hnew.
        rewrite Hnew.
        * eexists _, _, _. split; [reflexivity|].
          split; [reflexivity|]. cbn [users chip_ledger set_users set_chip_ledger].
          split; [repeat split|].
          split.
          -- apply find_app_last; [exact Hsub|].
             cbn [new_user User.google_sub Storage.option_eqb]. apply String.eqb_refl.
          -- apply (find_id_fresh User.id (users d) "usr" n); [exact Hfresh | reflexivity].
        * unfold email_taken. apply existsb_find_none, Hemail.
        * unfold google_sub_free. apply negb_true_iff, existsb_find_none, Hsub.
        * reflexivity. }
  destruct Hmain as (u & d1 & n1 & Hrun & Hg & Hcase & Hsub1 & Hid1).
  exists u, (mkConn d1 d1 t n1 []). split; [exact Hrun|]. split; [apply ready_mk|].
  split; [exact Hg|]. split; [exact Hcase|].
  apply Hagain; assumption.
Qed.

Lemma get_or_create_google_user_links_witness :
  exists u c1,
    Storage.get_or_create_google_user "g-1" "alice@example.com" "Alice G" faucet_day
    = (Ok u, c1)
    /\ User.id u = "usr_0" /\ User.display_name u = "Alice G"
    /\ Storage.get_or_create_google_user "g-1" "other@example.com" "Someone"
         (advance_clock 1000000 c1)
       = (Ok u, advance_clock 1000000 c1).
Proof.
  assert (H1 : ready faucet_day) by (split; vm_compute; reflexivity).
  assert (H2 : List.NoDup (map User.id (users (db faucet_day))))
    by (apply distinct_NoDup; vm_compute; reflexivity).
  assert (H3 : ids_fresh "usr" (map User.id (users (db faucet_day))) (next_id faucet_day)).
  { intros m Hm [Heq|[]]. change "usr_0" with (drawn_id "usr" 0) in Heq.
    apply drawn_id_inj in Heq. subst m. vm_compute in Hm. lia. }
  destruct (get_or_create_google_user_links faucet_day "g-1" "alice@example.com" "Alice G"
              H1 H2 H3) as (u & c1 & Hrun & _ & _ & Hcase & Hagain).
  exists u, c1. split; [exact Hrun|].
  assert (Hu : exists account,
            List.find (fun v => Storage.option_eqb (User.google_sub v) (Some "g-1"))
              (users (db faucet_day)) = None
            /\ List.find (fun v => String.eqb (User.email v) "alice@example.com")
                 (users (db faucet_day)) = Some account
            /\ User.id account = "usr_0")
    by (vm_compute; eexists; repeat split).
  destruct Hu as (account & Hs & He & Hid).
  rewrite Hs, He in Hcase. destruct Hcase as (-> & _).
  split; [exact Hid|]. split; [reflexivity|]. apply Hagain.
Defined.

(** ** The order of the market rows *)

Lemma all_pairs_sorted {X} (R : X -> X -> Prop) (l : list X) :
  (forall a b, In a l -> In b l -> R a b) -> StronglySorted R l.
Proof.
  induction l as [|x l IH]; intros H; constructor.
  - apply IH. intros a b Ha Hb. apply H; right; assumption.
  - apply Forall_forall. intros y Hy. apply list_elem_of_In in Hy.
    apply H; [left; reflexivity | right; exact Hy].
Qed.

(** X19. [compute_market_probabilities] changes nothing and lists its rows
    in descending order of probability.  For a cycle without picks every
    candidate has the score 0 and the probability 0, and the rows keep the
    order in which the candidates were submitted. *)
Theorem market_probabilities_order c cycle_id :
  no_faults c ->
  exists rows,
    compute_market_probabilities cycle_id c = (Ok rows, c)
    /\ StronglySorted
         (fun a b => (MarketRow.market_probability b <= MarketRow.market_probability a)%Q)
         rows
    /\ (cycle_picks (db c) cycle_id = [] ->
        rows = map (fun candidate =>
                      MarketRow.mk (CandidateLink.id candidate)
                        (CandidateLink.original_url candidate)
                        (CandidateLink.domain candidate) 0 0%Q)
                 (Py.sort Storage.by_created (Storage.candidates_of (db c) cycle_id))).
Proof.
  intros Hnf. unfold compute_market_probabilities.
  rewrite (bind_run _ _ _ _ _ (list_candidates_eq c cycle_id Hnf)).
  rewrite (bind_run _ _ _ _ _ (list_picks_eq c cycle_id Hnf)).
  fold (cycle_picks (db c) cycle_id).
  eexists. split; [reflexivity|]. split.
  - unfold market_probabilities. cbv zeta.
    apply (sort_sorted by_market_probability_desc
             (fun a b => (MarketRow.market_probability b
                          <= MarketRow.market_probability a)%Q)).
    + intros a b c0 H1 H2. eapply Qle_trans; eassumption.
    + intros a b H. apply Qle_bool_iff, H.
    + intros a b H. unfold by_market_probability_desc in H.
      destruct (Qlt_le_dec (MarketRow.market_probability a) (MarketRow.market_probability b))
        as [Hlt|Hle].
      * apply Qlt_le_weak, Hlt.
      * apply Qle_bool_iff in Hle. congruence.
  - intros ->. cbn [Py.sort]. unfold market_probabilities. cbv zeta.
    cbn [rank_weight_scores fold_left Py.dict_values map Py.sum fold_right Z.ltb Z.compare
         Py.dict_get_default Py.dict_get].
    apply sort_sorted_id, all_pairs_sorted.
    intros a b Ha Hb.
    apply in_map_iff in Ha as (x & <- & _). apply in_map_iff in Hb as (y & <- & _).
    reflexivity.
Qed.

Lemma market_probabilities_order_witness :
  exists rows,
    compute_market_probabilities "cyc_2" model_day = (Ok rows, model_day)
    /\ map MarketRow.candidate_id rows = ["lnk_3"; "lnk_4"]
    /\ map MarketRow.market_probability rows = [0%Q; 0%Q].
Proof.
  destruct (market_probabilities_order model_day "cyc_2") as (rows & Hrun & _ & Hnone).
  - vm_compute. reflexivity.
  - exists rows. split; [exact Hrun|].
    rewrite Hnone by (vm_compute; reflexivity).
    split; vm_compute; reflexivity.
Defined.

(** ** Submissions that are not stored *)



(** ** Leaderboards (storage.py) *)

(** A row of [list_leaderboard] and of [list_curation_leaderboard]:
    [chips] is [current_chips] in the first and [curation_chips] in the
    second. *)
Module LeaderboardRow.
Record t : Type := mk {
  id : string;
  display_name : string;
  account_type : string;
  chips : Z;
  rank : Z }.
End LeaderboardRow.

(** [LIMIT ?]: a negative limit is no limit. *)
Definition sql_limit {A} (limit : Z) (rows : list A) : list A :=
  if limit <? 0 then rows else take (Z.to_nat limit) rows.

(** [ORDER BY <chips> DESC, created_at ASC] on the users joined to their
    chips. *)
Definition by_chips_desc_created (a b : User.t * Z) : bool :=
  (snd b <? snd a)
  || ((snd a =? snd b) && (User.created_at (fst a) <=? User.created_at (fst b))).

(** The loop over [enumerate(rows, start=1)]. *)
Definition numbered_rows (rows : list (User.t * Z)) : list LeaderboardRow.t :=
  map (fun item =>
         let u := fst (snd item) in
         LeaderboardRow.mk (User.id u) (User.display_name u) (User.account_type u)
           (snd (snd item)) (fst item))
    (Storage.enumerate1 rows).

Definition with_current_chips (us : list User.t) : list (User.t * Z) :=
  map (fun u => (u, User.current_chips u)) us.

Definition list_leaderboard (limit : Z) (account_type : option string)
    : M (list LeaderboardRow.t) :=
  rows <- (if Py.truthy_opt account_type
           then query (fun d =>
                  sql_limit limit
                    (Py.sort by_chips_desc_created
                       (with_current_chips
                          (List.filter
                             (fun u => Storage.option_eqb (Some (User.account_type u))
                                         account_type)
                             (users d)))))
           else query (fun d =>
                  sql_limit limit
                    (Py.sort by_chips_desc_created (with_current_chips (users d))))) ;;
  ret (numbered_rows rows).

(** [COALESCE(SUM(r.reward_chips), 0)] over the rewards joined to a user. *)
Definition curation_chips (d : DB) (user_id : string) : Z :=
  Py.sum (map CurationReward.reward_chips
            (List.filter (fun r => String.eqb (CurationReward.user_id r) user_id)
               (curation_rewards d))).

(** The users' ids are a key, so the groups of the query are the users. *)
Definition with_curation_chips (d : DB) : list (User.t * Z) :=
  map (fun u => (u, curation_chips d (User.id u))) (users d).

Definition list_curation_leaderboard (limit : Z) : M (list LeaderboardRow.t) :=
  rows <- query (fun d =>
            sql_limit limit (Py.sort by_chips_desc_created (with_curation_chips d))) ;;
  ret (numbered_rows rows).

Lemma sql_limit_length {A} limit (rows : list A) :
  length (sql_limit limit rows)
  = if limit <? 0 then length rows else Nat.min (Z.to_nat limit) (length rows).
Proof. unfold sql_limit. destruct (limit <? 0); [reflexivity | apply length_take]. Qed.

Lemma sql_limit_sorted {A} (R : A -> A -> Prop) limit rows :
  StronglySorted R rows -> StronglySorted R (sql_limit limit rows).
Proof.
  intros H. unfold sql_limit. destruct (limit <? 0); [exact H|].
  rewrite <- (take_drop (Z.to_nat limit) rows) in H.
  exact (StronglySorted_app_1_l _ _ _ H).
Qed.

Lemma sql_limit_in {A} limit (rows : list A) x : In x (sql_limit limit rows) -> In x rows.
Proof.
  unfold sql_limit. destruct (limit <? 0); [auto|]. intros H.
  rewrite <- (take_drop (Z.to_nat limit) rows). apply in_or_app. left. exact H.
Qed.

Lemma by_chips_sorted rows :
  StronglySorted
    (fun a b : User.t * Z =>
       snd b < snd a
       \/ (snd a = snd b /\ User.created_at (fst a) <= User.created_at (fst b)))
    (Py.sort by_chips_desc_created rows).
Proof.
  apply sort_sorted.
  - intros a b c0 H1 H2. lia.
  - intros a b H. unfold by_chips_desc_created in H. lia.
  - intros a b H. unfold by_chips_desc_created in H. lia.
Qed.

Lemma combine_fst_snd {A B} (xs : list A) : forall ys : list B,
  length xs = length ys ->
  map fst (combine xs ys) = xs /\ map snd (combine xs ys) = ys.
Proof.
  induction xs as [|x xs IH]; intros [|y ys] Hlen; try discriminate; [split; reflexivity|].
  injection Hlen as Hlen. destruct (IH ys Hlen) as (H1 & H2).
  cbn [combine map fst snd]. rewrite H1, H2. split; reflexivity.
Qed.

Lemma enumerate1_ranks {A} (xs : list A) :
  map fst (Storage.enumerate1 xs) = map (fun i => Z.of_nat i + 1) (seq 0 (length xs))
  /\ map snd (Storage.enumerate1 xs) = xs.
Proof.
  unfold Storage.enumerate1. apply combine_fst_snd.
  rewrite length_map, length_seq. reflexivity.
Qed.

(** What the numbering leaves of the rows it numbers. *)
Lemma numbered_rows_spec rows :
  map LeaderboardRow.rank (numbered_rows rows)
  = map (fun i => Z.of_nat i + 1) (seq 0 (length rows))
  /\ map (fun r => (LeaderboardRow.id r, LeaderboardRow.display_name r,
                    LeaderboardRow.account_type r, LeaderboardRow.chips r))
       (numbered_rows rows)
     = map (fun item => (User.id (fst item), User.display_name (fst item),
                         User.account_type (fst item), snd item)) rows.
Proof.
  destruct (enumerate1_ranks rows) as (H1 & H2).
  unfold numbered_rows. rewrite !map_map.
  cbn [LeaderboardRow.rank LeaderboardRow.id LeaderboardRow.chips
       LeaderboardRow.account_type LeaderboardRow.display_name].
  split; [exact H1|].
  rewrite <- (map_map snd (fun item : User.t * Z =>
                (User.id (fst item), User.display_name (fst item),
                 User.account_type (fst item), snd item))), H2.
  reflexivity.
Qed.

Lemma sorted_by_image {X} (f : X -> Z) (l : list X) :
  StronglySorted (fun a b => b <= a) (map f l) ->
  StronglySorted (fun a b => f b <= f a) l.
Proof.
  induction l as [|x l IH]; intros H; [constructor|].
  cbn [map] in H. apply StronglySorted_inv in H as (Hs & Hall).
  constructor; [apply IH, Hs|].
  apply Forall_forall. intros y Hy. rewrite Forall_forall in Hall.
  apply Hall. apply list_elem_of_In. apply in_map. apply list_elem_of_In, Hy.
Qed.

(** The rows of a board over the joined rows [joined]: numbered 1, 2, ...
    in descending order of the chips, each the row of a joined user. *)
Lemma board_rows limit (joined : list (User.t * Z)) :
  let rows := numbered_rows (sql_limit limit (Py.sort by_chips_desc_created joined)) in
  map LeaderboardRow.rank rows = map (fun i => Z.of_nat i + 1) (seq 0 (length rows))
  /\ StronglySorted (fun a b => LeaderboardRow.chips b <= LeaderboardRow.chips a) rows
  /\ length rows
     = (if limit <? 0 then length joined else Nat.min (Z.to_nat limit) (length joined))
  /\ (forall r, In r rows ->
        exists item, In item joined
          /\ LeaderboardRow.id r = User.id (fst item)
          /\ LeaderboardRow.display_name r = User.display_name (fst item)
          /\ LeaderboardRow.account_type r = User.account_type (fst item)
          /\ LeaderboardRow.chips r = snd item)
  /\ (limit < 0 \/ Z.of_nat (length joined) <= limit ->
      forall item, In item joined ->
        exists r, In r rows /\ LeaderboardRow.id r = User.id (fst item)
                  /\ LeaderboardRow.chips r = snd item).
Proof.
  cbv zeta.
  set (sorted := Py.sort by_chips_desc_created joined).
  set (cut := sql_limit limit sorted).
  destruct (numbered_rows_spec cut) as (Hrank & Hrows).
  assert (Hlen : length (numbered_rows cut) = length cut).
  { unfold numbered_rows, Storage.enumerate1.
    rewrite length_map, length_combine, length_map, length_seq. lia. }
  assert (Hchips : map LeaderboardRow.chips (numbered_rows cut) = map snd cut).
  { apply (f_equal (map (fun x : string * string * string * Z => snd x))) in Hrows.
    rewrite !map_map in Hrows. exact Hrows. }
  assert (Hsorted : StronglySorted
                      (fun a b : User.t * Z =>
                         snd b < snd a
                         \/ (snd a = snd b
                             /\ User.created_at (fst a) <= User.created_at (fst b)))
                      cut)
    by (apply sql_limit_sorted, by_chips_sorted).
  assert (Hperm : Permutation sorted joined) by apply sort_perm.
  split; [rewrite Hlen; exact Hrank|]. split; [|split; [|split]].
  - apply sorted_by_image. rewrite Hchips.
    refine (StronglySorted_fmap snd _ _ cut _ Hsorted).
    intros x y H. cbv beta in H. lia.
  - rewrite Hlen. unfold cut. rewrite sql_limit_length.
    rewrite (Permutation_length Hperm). reflexivity.
  - intros r Hr.
    apply (in_map (fun r => (LeaderboardRow.id r, LeaderboardRow.display_name r,
                             LeaderboardRow.account_type r, LeaderboardRow.chips r)))
      in Hr.
    rewrite Hrows in Hr. apply in_map_iff in Hr as (item & Heq & Hitem).
    injection Heq as H1 H2 H3 H4. exists item.
    split; [apply (Permutation_in _ Hperm), (sql_limit_in limit), Hitem|]. auto.
  - intros Hall item Hitem.
    assert (Hcut : cut = sorted).
    { unfold cut, sql_limit. destruct (Z.ltb_spec limit 0) as [_|Hpos]; [reflexivity|].
      destruct Hall as [Hneg|Hle]; [lia|].
      apply take_ge. rewrite (Permutation_length Hperm). lia. }
    assert (Hin : In (User.id (fst item), User.display_name (fst item),
                      User.account_type (fst item), snd item)
                    (map (fun r => (LeaderboardRow.id r, LeaderboardRow.display_name r,
                                    LeaderboardRow.account_type r, LeaderboardRow.chips r))
                       (numbered_rows cut))).
    { rewrite Hrows, Hcut.
      apply (in_map (fun item : User.t * Z =>
                       (User.id (fst item), User.display_name (fst item),
                        User.account_type (fst item), snd item))).
      apply (Permutation_in _ (Permutation_sym Hperm)), Hitem. }
    apply in_map_iff in Hin as (r & Heq & Hr). injection Heq as H1 H2 H3 H4.
    exists r. auto.
Qed.

(** The users [list_leaderboard] ranks. *)
Definition ranked_accounts (account_type : option string) (d : DB) : list User.t :=
  if Py.truthy_opt account_type
  then List.filter (fun u => Storage.option_eqb (Some (User.account_type u)) account_type)
         (users d)
  else users d.

(** X21. [list_leaderboard] changes nothing.  Its rows are users of the
    requested account type (all users without one), at most [limit] of
    them (all for a negative limit), in descending order of their chips,
    and they are numbered 1, 2, 3, ... by position: users with equal
    chips get different ranks. *)
Theorem list_leaderboard_ranks c limit account_type :
  ready c ->
  exists rows,
    list_leaderboard limit account_type c = (Ok rows, c)
    /\ map LeaderboardRow.rank rows = map (fun i => Z.of_nat i + 1) (seq 0 (length rows))
    /\ StronglySorted (fun a b => LeaderboardRow.chips b <= LeaderboardRow.chips a) rows
    /\ length rows
       = (if limit <? 0 then length (ranked_accounts account_type (db c))
          else Nat.min (Z.to_nat limit) (length (ranked_accounts account_type (db c))))
    /\ forall r, In r rows ->
         exists u, In u (users (db c))
           /\ LeaderboardRow.id r = User.id u
           /\ LeaderboardRow.chips r = User.current_chips u
           /\ LeaderboardRow.account_type r = User.account_type u
           /\ (Py.truthy_opt account_type = true ->
               account_type = Some (User.account_type u)).
Proof.
  intros Hready. pose proof (proj2 Hready) as Hnf.
  assert (Hrun : list_leaderboard limit account_type c
                 = (Ok (numbered_rows
                          (sql_limit limit
                             (Py.sort by_chips_desc_created
                                (with_current_chips
                                   (ranked_accounts account_type (db c)))))), c)).
  { unfold list_leaderboard, ranked_accounts.
    destruct (Py.truthy_opt account_type);
      rewrite (bind_run _ _ _ _ _ (execute_query_eq _ c Hnf)); reflexivity. }
  eexists. split; [exact Hrun|].
  destruct (board_rows limit (with_current_chips (ranked_accounts account_type (db c))))
    as (H1 & H2 & H3 & H4 & _).
  cbv zeta in H1, H2, H3, H4.
  split; [exact H1|]. split; [exact H2|]. split.
  { rewrite H3. unfold with_current_chips. rewrite length_map. reflexivity. }
  intros r Hr. destruct (H4 r Hr) as (item & Hitem & Hid & _ & Htype & Hchips).
  unfold with_current_chips in Hitem. apply in_map_iff in Hitem as (u & <- & Hu).
  cbn [fst snd] in *. exists u.
  unfold ranked_accounts in Hu.
  destruct (Py.truthy_opt account_type) eqn:Ht.
  - apply filter_In in Hu as (Hu & Hty). repeat split; try assumption.
    intros _. destruct account_type as [a|]; [|discriminate].
    cbn [Storage.option_eqb] in Hty. apply String.eqb_eq in Hty. rewrite Hty. reflexivity.
  - repeat split; try assumption. discriminate.
Qed.

(** X22. [list_curation_leaderboard] changes nothing.  Its rows are users
    with the sum of their curation rewards over all cycles, 0 for a user
    without rewards; they come in descending order of that sum and are
    numbered 1, 2, 3, ... by position.  Every user has a row when the
    limit is negative or reaches the number of users. *)
Theorem list_curation_leaderboard_sums c limit :
  ready c ->
  exists rows,
    list_curation_leaderboard limit c = (Ok rows, c)
    /\ map LeaderboardRow.rank rows = map (fun i => Z.of_nat i + 1) (seq 0 (length rows))
    /\ StronglySorted (fun a b => LeaderboardRow.chips b <= LeaderboardRow.chips a) rows
    /\ (forall r, In r rows ->
          (exists u, In u (users (db c)) /\ LeaderboardRow.id r = User.id u)
          /\ LeaderboardRow.chips r = curation_chips (db c) (LeaderboardRow.id r))
    /\ (limit < 0 \/ Z.of_nat (length (users (db c))) <= limit ->
        length rows = length (users (db c))
        /\ forall u, In u (users (db c)) ->
             exists r, In r rows /\ LeaderboardRow.id r = User.id u)
    /\ (curation_rewards (db c) = [] -> forall r, In r rows -> LeaderboardRow.chips r = 0).
Proof.
  intros Hready. pose proof (proj2 Hready) as Hnf.
  unfold list_curation_leaderboard.
  rewrite (bind_run _ _ _ _ _ (execute_query_eq _ c Hnf)).
  eexists. split; [reflexivity|].
  destruct (board_rows limit (with_curation_chips (db c))) as (H1 & H2 & H3 & H4 & H5).
  cbv zeta in H1, H2, H3, H4, H5.
  assert (Hlen : length (with_curation_chips (db c)) = length (users (db c)))
    by (unfold with_curation_chips; apply length_map).
  assert (Hrow : forall r,
            In r (numbered_rows (sql_limit limit
                                   (Py.sort by_chips_desc_created
                                      (with_curation_chips (db c))))) ->
            (exists u, In u (users (db c)) /\ LeaderboardRow.id r = User.id u)
            /\ LeaderboardRow.chips r = curation_chips (db c) (LeaderboardRow.id r)).
  { intros r Hr. destruct (H4 r Hr) as (item & Hitem & Hid & _ & _ & Hchips).
    unfold with_curation_chips in Hitem. apply in_map_iff in Hitem as (u & <- & Hu).
    cbn [fst snd] in *. split; [exists u; auto|]. rewrite Hchips, Hid. reflexivity. }
  split; [exact H1|]. split; [exact H2|]. split; [exact Hrow|]. split.
  - intros Hall. rewrite Hlen in H3, H5. split.
    + rewrite H3. destruct (Z.ltb_spec limit 0); [reflexivity|].
      destruct Hall as [Hneg|Hle]; lia.
    + intros u Hu.
      destruct (H5 Hall (u, curation_chips (db c) (User.id u))) as (r & Hr & Hid & _).
      * unfold with_curation_chips.
        apply (in_map (fun u => (u, curation_chips (db c) (User.id u)))), Hu.
      * exists r. auto.
  - intros Hnone r Hr. rewrite (proj2 (Hrow r Hr)). unfold curation_chips.
    rewrite Hnone. reflexivity.
Qed.

Lemma list_leaderboard_ranks_witness :
  exists rows,
    list_leaderboard 10 (Some "HUMAN") market_day = (Ok rows, market_day)
    /\ map (fun r => (LeaderboardRow.id r, LeaderboardRow.chips r, LeaderboardRow.rank r))
         rows
       = [("usr_0", 100, 1); ("usr_2", 100, 2)].
Proof.
  destruct (list_leaderboard_ranks market_day 10 (Some "HUMAN") market_day_ready)
    as (rows & Hrun & _).
  exists rows. split; [exact Hrun|].
  assert (Hv : fst (list_leaderboard 10 (Some "HUMAN") market_day)
               = Ok [LeaderboardRow.mk "usr_0" "Alice" "HUMAN" 100 1;
                     LeaderboardRow.mk "usr_2" "Bob" "HUMAN" 100 2])
    by (vm_compute; reflexivity).
  rewrite Hrun in Hv. injection Hv as ->. reflexivity.
Defined.

Lemma list_curation_leaderboard_sums_witness :
  exists rows,
    list_curation_leaderboard (-1) market_day = (Ok rows, market_day)
    /\ length rows = 2%nat
    /\ forall r, In r rows -> LeaderboardRow.chips r = 0.
Proof.
  destruct (list_curation_leaderboard_sums market_day (-1) market_day_ready)
    as (rows & Hrun & _ & _ & _ & Hall & Hnone).
  exists rows. split; [exact Hrun|]. split.
  - assert (Hneg : -1 < 0 \/ Z.of_nat (length (users (db market_day))) <= -1)
      by (left; lia).
    rewrite (proj1 (Hall Hneg)). vm_compute. reflexivity.
  - apply Hnone. vm_compute. reflexivity.
Defined.

(** ** Ranked picks under engine failures *)

(** The loop of [set_ranked_picks] inside its transaction: the rows written
    so far are the rows of the candidates handled so far. *)
Lemma insert_picks_spec d0 t cycle_id user_id now xs : forall s P n,
  hoare (in_txn d0 (set_picks P d0) t n)
    (for_each (combine (map (fun i => Z.of_nat i + 1) (seq s (length xs))) xs)
       (fun item =>
          pick_id <- _id "pk" ;;
          _execute (Storage.insert_pick
                      (Pick.mk pick_id cycle_id user_id (snd item) (fst item) now))))
    (fun _ =>
       in_txn d0
         (set_picks (P ++ ranked_rows cycle_id user_id now n (Z.of_nat s + 1) xs) d0)
         t (n + length xs))
    (fun _ c => committed c = d0).
Proof.
  induction xs as [|x xs IH]; intros s P n.
  - apply hoare_ret. intros c Hc. cbn [ranked_rows length]. rewrite app_nil_r, Nat.add_0_r.
    exact Hc.
  - cbn [length seq map combine for_each]. eapply hoare_bind.
    + eapply hoare_bind
        with (R := fun pick_id c =>
                     pick_id = drawn_id "pk" n /\ in_txn d0 (set_picks P d0) t (S n) c).
      { intros c (H1 & H2 & H3 & H4). simpl. rewrite H4. repeat split; assumption. }
      intros pick_id. apply hoare_pure. intros ->.
      apply hoare_execute_at with
        (Q := fun _ =>
           in_txn d0
             (set_picks (P ++ [Pick.mk (drawn_id "pk" n) cycle_id user_id x
                                 (Z.of_nat s + 1) now]) d0) t (S n)).
      * intros a d' c Hst Hc. unfold Storage.insert_pick in Hst.
        destruct (_ || _); [discriminate|]. injection Hst as _ <-. exact Hc.
      * intros e c (H & _). exact H.
    + intros u. eapply hoare_conseq; [apply (IH (S s)) | intros c Hc; exact Hc | | auto].
      cbv beta. intros _ c Hc. rewrite <- app_assoc in Hc. cbn [app ranked_rows].
      replace (Z.of_nat s + 1 + 1) with (Z.of_nat (S s) + 1) by lia.
      replace (n + S (length xs))%nat with (S n + length xs)%nat by lia.
      exact Hc.
Qed.

(** The tables once the picks of [user_id] in [cycle_id] are replaced by
    [ids]. *)
Definition picks_replaced (cycle_id user_id : string) (ids : list string) (t : Z) (n : nat)
    (d : DB) : DB :=
  set_picks
    (List.filter (fun p => negb (Storage.pick_of cycle_id user_id p)) (picks d)
     ++ ranked_rows cycle_id user_id (t / Date.MICROSECONDS_PER_SECOND) n 1 ids) d.

Lemma set_ranked_picks_spec d t n cycle_id user_id ids :
  hoare (at_state d t n) (Storage.set_ranked_picks cycle_id user_id ids)
    (fun rows c =>
       at_state (picks_replaced cycle_id user_id ids t n d) t (n + length ids) c
       /\ rows = Py.sort Storage.by_rank
                   (List.filter (Storage.pick_of cycle_id user_id)
                      (picks (picks_replaced cycle_id user_id ids t n d))))
    (fun _ c =>
       unchanged d c
       \/ at_state (picks_replaced cycle_id user_id ids t n d) t (n + length ids) c).
Proof.
  unfold Storage.set_ranked_picks.
  eapply hoare_bind with (R := fun _ => at_state d t n).
  { destruct (_ >? _); [apply hoare_raise | apply hoare_ret];
      intros c Hc; [left; split; apply Hc | exact Hc]. }
  intros _u.
  eapply hoare_bind with (R := fun _ => at_state d t n).
  { destruct (Storage.has_duplicates ids); [apply hoare_raise | apply hoare_ret];
      intros c Hc; [left; split; apply Hc | exact Hc]. }
  intros _v.
  eapply hoare_bind with (R := fun _ => at_state d t n).
  { destruct ids as [|x xs]; [apply hoare_ret; auto|].
    eapply hoare_bind with (R := fun _ => at_state d t n).
    - apply hoare_query_at; [intros c Hc; exact Hc|].
      intros e c Hc. left. split; apply Hc.
    - intros count. destruct (negb _); [apply hoare_raise | apply hoare_ret];
        intros c Hc; [left; split; apply Hc | exact Hc]. }
  intros _w.
  eapply hoare_bind
    with (R := fun _ => at_state (picks_replaced cycle_id user_id ids t n d) t
                          (n + length ids)).
  { eapply hoare_with_conn_at;
      [ | intros res c Hc; exact Hc | intros e c Hc; left; exact Hc].
    eapply hoare_bind.
    { apply hoare_execute_at with
        (Q := fun _ =>
           in_txn d
             (set_picks
                (List.filter (fun p => negb (Storage.pick_of cycle_id user_id p)) (picks d))
                d) t n).
      - intros res d' c Hst Hc. unfold Storage.delete_picks in Hst.
        injection Hst as _ <-. exact Hc.
      - intros e c (H & _). exact H. }
    intros _x.
    eapply hoare_bind
      with (R := fun now c =>
                   now = t / Date.MICROSECONDS_PER_SECOND
                   /\ in_txn d
                        (set_picks
                           (List.filter
                              (fun p => negb (Storage.pick_of cycle_id user_id p)) (picks d))
                           d) t n c).
    { intros c Hc. simpl. split; [|exact Hc]. destruct Hc as (_ & _ & -> & _). reflexivity. }
    intros now. apply hoare_pure. intros ->.
    eapply hoare_conseq;
      [apply (insert_picks_spec d t cycle_id user_id (t / Date.MICROSECONDS_PER_SECOND)
                ids 0)
      | intros c Hc; exact Hc | | auto].
    cbv beta. intros _ c Hc. exact Hc. }
  intros _. unfold Storage.list_user_picks.
  apply hoare_query_at.
  - intros c Hc. split; [exact Hc | reflexivity].
  - intros e c Hc. right. exact Hc.
Qed.

(** X23. [set_ranked_picks] never leaves a partial set of picks, whatever
    statement the storage engine fails at: after the call, successful or
    not, nothing is uncommitted and the tables are either exactly as
    before or have the user's picks of the cycle replaced by the full new
    ranking.  When it returns, the picks are replaced and the rows
    returned are the new ranking. *)
Theorem set_ranked_picks_all_or_nothing c cycle_id user_id ids :
  clean c ->
  let out := MarketService.set_ranked_picks cycle_id user_id ids c in
  let replaced := picks_replaced cycle_id user_id ids (clock c) (next_id c) (db c) in
  clean (snd out)
  /\ (db (snd out) = db c \/ db (snd out) = replaced)
  /\ forall rows,
       fst out = Ok rows ->
       db (snd out) = replaced
       /\ rows = ranked_rows cycle_id user_id (clock c / Date.MICROSECONDS_PER_SECOND)
                   (next_id c) 1 ids.
Proof.
  intros Hclean. cbv zeta.
  assert (Hpre : at_state (db c) (clock c) (next_id c) c)
    by (repeat split; exact Hclean).
  assert (Hread : Py.sort Storage.by_rank
                    (List.filter (Storage.pick_of cycle_id user_id)
                       (picks (picks_replaced cycle_id user_id ids (clock c) (next_id c)
                                 (db c))))
                  = ranked_rows cycle_id user_id (clock c / Date.MICROSECONDS_PER_SECOND)
                      (next_id c) 1 ids).
  { unfold picks_replaced. cbn [picks set_picks]. rewrite List.filter_app.
    rewrite (filter_none _ (List.filter _ _)), (filter_all _ (ranked_rows _ _ _ _ _ _)).
    - apply sort_sorted_id, ranked_rows_sorted.
    - intros q Hq. apply (ranked_rows_owned _ _ _ _ _ _ _ Hq).
    - intros q Hq. apply filter_In in Hq as (_ & Hq). apply negb_true_iff, Hq. }
  unfold MarketService.set_ranked_picks. cbv zeta.
  destruct (Z.of_nat (length ids) >? MAX_PICKS_PER_CYCLE).
  { cbn [raise fst snd]. split; [exact Hclean|]. split; [left; reflexivity | discriminate]. }
  pose proof (set_ranked_picks_spec (db c) (clock c) (next_id c) cycle_id user_id ids c Hpre)
    as Hspec.
  destruct (Storage.set_ranked_picks cycle_id user_id ids c) as [[rows|e] c1];
    cbn [fst snd].
  - destruct Hspec as ((H1 & H2 & _) & Hrows). unfold clean. rewrite H1, H2.
    split; [reflexivity|]. split; [right; reflexivity|].
    intros rows' [= <-]. split; [reflexivity|]. rewrite Hrows. exact Hread.
  - split; [|split; [|discriminate]].
    + destruct Hspec as [(H1 & H2)|(H1 & H2 & _)]; unfold clean; rewrite H1, H2; reflexivity.
    + destruct Hspec as [(H1 & H2)|(H1 & H2 & _)]; [left | right]; exact H2.
Qed.

Lemma set_ranked_picks_all_or_nothing_witness :
  let c := with_faults [false; false; false; true] market_day in
  let out := MarketService.set_ranked_picks "cyc_4" "usr_0" ["lnk_7"; "lnk_5"] c in
  fst out = Raise OperationalError
  /\ db (snd out) = db market_day
  /\ committed (snd out) = db (snd out).
Proof.
  cbv zeta.
  destruct (set_ranked_picks_all_or_nothing
              (with_faults [false; false; false; true] market_day) "cyc_4" "usr_0"
              ["lnk_7"; "lnk_5"]) as (Hclean & _ & _).
  - vm_compute. reflexivity.
  - split; [vm_compute; reflexivity|]. split; [vm_compute; reflexivity | exact Hclean].
Defined.

(** ** Credits *)

Lemma paid_zero u : paid 0 u = u.
Proof. destruct u. unfold paid. simpl. f_equal. lia. Qed.

(** X24. [credit_user_chips] for a user that does not exist raises the
    integrity error and writes nothing.  For an existing user it adds the
    delta, whatever its sign, to that user's balance only and appends one
    ledger row with this delta; a delta of 0 still writes its ledger
    row. *)
Theorem credit_user_chips_pairs_ledger c user_id chips_delta event_type cycle_id metadata :
  ready c ->
  if Storage.user_exists (db c) user_id
  then
    exists c1,
      Storage.credit_user_chips user_id chips_delta event_type cycle_id metadata c
      = (Ok tt, c1)
      /\ ready c1
      /\ users (db c1)
         = map (fun u => if String.eqb (User.id u) user_id then paid chips_delta u else u)
             (users (db c))
      /\ chip_ledger (db c1)
         = chip_ledger (db c)
           ++ [Ledger.mk (drawn_id "led" (next_id c)) user_id cycle_id event_type chips_delta
                 (match metadata with Some m => m | None => [] end)
                 (clock c / Date.MICROSECONDS_PER_SECOND)]
  else
    exists c1,
      Storage.credit_user_chips user_id chips_delta event_type cycle_id metadata c
      = (Raise IntegrityError, c1)
      /\ db c1 = db c /\ committed c1 = db c.
Proof.
  intros Hready. ready_conn c Hready. cbn [db clock next_id].
  unfold Storage.credit_user_chips. run_steps.
  destruct (Z.eqb_spec chips_delta 0) as [->|Hne]; cbn [negb]; run_steps.
  - unfold Storage.insert_ledger. cbn [Ledger.user_id].
    destruct (Storage.user_exists d user_id); run_steps.
    + eexists. split; [reflexivity|]. split; [apply ready_mk|].
      cbn [db users chip_ledger set_chip_ledger]. split; [|reflexivity].
      rewrite <- (map_id (users d)) at 1. apply map_ext. intros u.
      rewrite paid_zero. destruct (String.eqb _ _); reflexivity.
    + eexists. split; [reflexivity|]. split; reflexivity.
  - unfold Storage.update_chips. run_steps. unfold Storage.insert_ledger.
    cbn [Ledger.user_id].
    rewrite user_exists_map; [|intros u; destruct (String.eqb _ _); reflexivity].
    destruct (Storage.user_exists d user_id); run_steps.
    + eexists. split; [reflexivity|]. split; [apply ready_mk|].
      cbn [db users chip_ledger set_chip_ledger set_users]. split; reflexivity.
    + eexists. split; [reflexivity|]. split; reflexivity.
Qed.

Lemma credit_user_chips_pairs_ledger_witness :
  (exists c1,
     Storage.credit_user_chips "usr_0" (-130) "adjustment" None None market_day = (Ok tt, c1)
     /\ map User.current_chips (users (db c1)) = [-30; 100])
  /\ exists c1,
       Storage.credit_user_chips "usr_9" 5 "adjustment" None None market_day
       = (Raise IntegrityError, c1)
       /\ db c1 = db market_day.
Proof.
  pose proof (credit_user_chips_pairs_ledger market_day "usr_0" (-130) "adjustment" None None
                market_day_ready) as H1.
  pose proof (credit_user_chips_pairs_ledger market_day "usr_9" 5 "adjustment" None None
                market_day_ready) as H2.
  assert (E1 : Storage.user_exists (db market_day) "usr_0" = true)
    by (vm_compute; reflexivity).
  assert (E2 : Storage.user_exists (db market_day) "usr_9" = false)
    by (vm_compute; reflexivity).
  rewrite E1 in H1. rewrite E2 in H2.
  destruct H1 as (c1 & Hrun & _ & Hu & _). destruct H2 as (c2 & Hrun2 & Hdb & _).
  split.
  - exists c1. split; [exact Hrun|]. rewrite Hu. vm_compute. reflexivity.
  - exists c2. split; [exact Hrun2 | exact Hdb].
Defined.

(** ** Curation rewards that stop half-way *)

(** X25. The transaction of [apply_curation_rewards] is cut by the
    transaction inside [credit_user_chips]: once the first reward is
    credited, it is committed.  When the engine fails at the next
    statement, the call raises with the first reward and its credit
    stored, and the rewards of the cycle are never completed: every later
    call finds rewards recorded for the cycle and returns no rows. *)
Theorem apply_curation_rewards_stops_half_way d t n cycle_id first second rest :
  Storage.curation_reward_rows (Storage.click_counts d cycle_id) = first :: second :: rest ->
  List.filter (fun r => String.eqb (CurationReward.cycle_id r) cycle_id) (curation_rewards d)
  = [] ->
  Storage.cycle_exists d cycle_id = true ->
  Storage.user_exists d (Storage.RewardRow.user_id first) = true ->
  Storage.RewardRow.reward_chips first <> 0 ->
  let now := t / Date.MICROSECONDS_PER_SECOND in
  let reward := CurationReward.mk cycle_id (Storage.RewardRow.user_id first)
                  (Storage.RewardRow.rank first) (Storage.RewardRow.unique_clicks first)
                  (Storage.RewardRow.reward_chips first) now in
  let credit := Ledger.mk (drawn_id "led" n) (Storage.RewardRow.user_id first) (Some cycle_id)
                  "curation_reward" (Storage.RewardRow.reward_chips first)
                  [("rank", JInt (Storage.RewardRow.rank first));
                   ("unique_clicks", JInt (Storage.RewardRow.unique_clicks first))] now in
  let d1 := credit_applied credit (set_curation_rewards (curation_rewards d ++ [reward]) d) in
  Storage.apply_curation_rewards cycle_id
    (mkConn d d t n [false; false; false; false; false; true])
  = (Raise OperationalError, mkConn d1 d1 t (S n) [])
  /\ forall t' n',
       Storage.apply_curation_rewards cycle_id (mkConn d1 d1 t' n' [])
       = (Ok [], mkConn d1 d1 t' n' []).
Proof.
  intros Hrows Hnone Hcycle Huser Hchips. cbv zeta. split.
  - unfold Storage.apply_curation_rewards, Storage.has_curation_rewards,
      Storage.compute_curation_reward_rows. run_steps.
    rewrite Hnone. cbn [length Nat.eqb negb]. run_steps. rewrite Hrows.
    cbn [for_each]. run_steps.
    unfold Storage.insert_curation_reward.
    cbn [CurationReward.cycle_id CurationReward.user_id].
    rewrite Hcycle, Huser. cbn [negb orb].
    assert (Hfree : existsb
              (fun q => String.eqb (CurationReward.cycle_id q) cycle_id
                        && String.eqb (CurationReward.user_id q)
                             (Storage.RewardRow.user_id first))
              (curation_rewards d) = false).
    { apply existsb_false_iff. intros q Hq.
      destruct (String.eqb (CurationReward.cycle_id q) cycle_id) eqn:Hc; [|reflexivity].
      exfalso.
      assert (Hin : In q (List.filter
                            (fun r => String.eqb (CurationReward.cycle_id r) cycle_id)
                            (curation_rewards d))) by (apply filter_In; auto).
      rewrite Hnone in Hin. destruct Hin. }
    rewrite Hfree. run_steps.
    unfold Storage.credit_user_chips. run_steps.
    apply Z.eqb_neq in Hchips. rewrite Hchips. cbn [negb]. run_steps.
    unfold Storage.update_chips. run_steps. unfold Storage.insert_ledger.
    cbn [Ledger.user_id].
    rewrite user_exists_map; [|intros u; destruct (String.eqb _ _); reflexivity].
    change (Storage.user_exists (set_curation_rewards _ d) (Storage.RewardRow.user_id first))
      with (Storage.user_exists d (Storage.RewardRow.user_id first)).
    rewrite Huser. run_steps. reflexivity.
  - intros t' n'.
    unfold Storage.apply_curation_rewards, Storage.has_curation_rewards. run_steps.
    cbn [curation_rewards credit_applied set_chip_ledger set_users set_curation_rewards].
    rewrite List.filter_app. cbn [List.filter CurationReward.cycle_id].
    rewrite String.eqb_refl, length_app. cbn [length].
    rewrite Nat.add_1_r. reflexivity.
Qed.

Lemma apply_curation_rewards_stops_half_way_witness :
  let c := with_faults [false; false; false; false; false; true] click_day in
  exists c1,
    Storage.apply_curation_rewards "cyc_6" c = (Raise OperationalError, c1)
    /\ map CurationReward.user_id (curation_rewards (committed c1)) = ["usr_0"]
    /\ map User.current_chips (users (committed c1)) = [130; 100; 100]
    /\ Storage.apply_curation_rewards "cyc_6" (advance_clock 1000000 c1)
       = (Ok [], advance_clock 1000000 c1).
Proof.
  cbv zeta.
  destruct (apply_curation_rewards_stops_half_way (db click_day) (clock click_day)
              (next_id click_day) "cyc_6"
              (Storage.RewardRow.mk "usr_0" 1 5 30) (Storage.RewardRow.mk "usr_2" 1 5 30)
              [Storage.RewardRow.mk "usr_4" 3 3 10]) as (Hrun & Hagain).
  - vm_compute. reflexivity.
  - vm_compute. reflexivity.
  - vm_compute. reflexivity.
  - vm_compute. reflexivity.
  - discriminate.
  - cbv zeta in Hrun, Hagain.
    assert (Hc : with_faults [false; false; false; false; false; true] click_day
                 = mkConn (db click_day) (db click_day) (clock click_day)
                     (next_id click_day) [false; false; false; false; false; true])
      by (vm_compute; reflexivity).
    rewrite Hc, Hrun. eexists. split; [reflexivity|].
    cbn [committed]. split; [vm_compute; reflexivity|]. split; [vm_compute; reflexivity|].
    unfold advance_clock. cbn [committed db clock next_id fault_plan]. apply Hagain.
Defined.

(** ** Phone numbers (storage.py) *)

(** [_normalize_phone], for ASCII text: there [str.isdigit] holds of the
    characters 0 to 9 only. *)
Definition _normalize_phone (phone_number : string) : result string :=
  let digits :=
    string_of_list_ascii (List.filter Url.is_digit (list_ascii_of_string phone_number)) in
  if negb (Py.truthy digits) then Raise (ValueError "Invalid phone number")
  else
    let digits := if Nat.eqb (String.length digits) 10 then "1" +:+ digits else digits in
    Ok ("+" +:+ digits).

(** The text has ASCII characters only. *)
Definition isascii (s : string) : bool :=
  forallb (fun ch => (nat_of_ascii ch <? 128)%nat) (list_ascii_of_string s).

Lemma string_of_list_length l : String.length (string_of_list_ascii l) = length l.
Proof. induction l as [|ch l IH]; [reflexivity|]. cbn. rewrite IH. reflexivity. Qed.

Lemma string_of_list_truthy l : Py.truthy (string_of_list_ascii l) = negb (Nat.eqb (length l) 0).
Proof. destruct l; reflexivity. Qed.

(** X26. On ASCII text [_normalize_phone] keeps the digits only and raises
    ValueError when there is none; ten digits get the prefix 1.  The result
    is a plus sign followed by digits, never ten of them, and normalizing
    it again returns it unchanged: every spelling of a number has one
    normal form. *)
Theorem normalize_phone_canonical phone_number :
  isascii phone_number = true ->
  let digits := List.filter Url.is_digit (list_ascii_of_string phone_number) in
  match _normalize_phone phone_number with
  | Raise e => e = ValueError "Invalid phone number" /\ digits = []
  | Ok normalized =>
      digits <> []
      /\ normalized
         = "+" +:+ (if Nat.eqb (length digits) 10 then "1" else "")
           +:+ string_of_list_ascii digits
      /\ String.length normalized <> 11%nat
      /\ _normalize_phone normalized = Ok normalized
  end.
Proof.
  intros _. cbv zeta. unfold _normalize_phone at 1. cbv zeta.
  set (digits := List.filter Url.is_digit (list_ascii_of_string phone_number)).
  rewrite string_of_list_truthy, string_of_list_length.
  destruct (Nat.eqb_spec (length digits) 0) as [Hzero|Hsome]; cbn [negb].
  { split; [reflexivity|]. destruct digits; [reflexivity | discriminate]. }
  assert (Hall : forall x, In x digits -> Url.is_digit x = true).
  { intros x Hx. unfold digits in Hx. apply filter_In in Hx as (_ & Hx). exact Hx. }
  set (body := if Nat.eqb (length digits) 10 then "1" +:+ string_of_list_ascii digits
               else string_of_list_ascii digits).
  assert (Hbody : exists l, body = string_of_list_ascii l
                            /\ (forall x, In x l -> Url.is_digit x = true)
                            /\ l <> [] /\ length l <> 10%nat).
  { unfold body. destruct (Nat.eqb_spec (length digits) 10) as [H10|Hne].
    - exists ("1"%char :: digits). split; [reflexivity|]. split; [|split].
      + intros x [<-|Hx]; [reflexivity | apply Hall, Hx].
      + discriminate.
      + cbn [length]. lia.
    - exists digits. split; [reflexivity|]. split; [exact Hall|]. split; [|exact Hne].
      intros H0. rewrite H0 in Hsome. apply Hsome. reflexivity. }
  split; [intros H0; rewrite H0 in Hsome; apply Hsome; reflexivity|]. split.
  { unfold body. destruct (Nat.eqb (length digits) 10); reflexivity. }
  destruct Hbody as (l & -> & Hl & Hne & H10).
  split.
  { change ("+" +:+ string_of_list_ascii l) with (String "+" (string_of_list_ascii l)).
    cbn [String.length]. rewrite string_of_list_length. lia. }
  unfold _normalize_phone. cbv zeta.
  change ("+" +:+ string_of_list_ascii l) with (String "+" (string_of_list_ascii l)).
  cbn [list_ascii_of_string]. rewrite list_ascii_of_string_of_list_ascii.
  change (List.filter Url.is_digit ("+"%char :: l)) with (List.filter Url.is_digit l).
  rewrite (filter_all _ l Hl), string_of_list_truthy, string_of_list_length.
  destruct (Nat.eqb_spec (length l) 0) as [H0|_];
    [destruct l; [congruence | discriminate]|].
  cbn [negb].
  destruct (Nat.eqb_spec (length l) 10) as [Heq|_]; [contradiction | reflexivity].
Qed.

Lemma normalize_phone_canonical_witness :
  _normalize_phone "(415) 555-0100" = Ok "+14155550100"
  /\ _normalize_phone "+14155550100" = Ok "+14155550100"
  /\ _normalize_phone "n/a" = Raise (ValueError "Invalid phone number").
Proof.
  pose proof (normalize_phone_canonical "(415) 555-0100" eq_refl) as H1.
  pose proof (normalize_phone_canonical "n/a" eq_refl) as H2.
  cbv zeta in H1, H2.
  assert (E1 : _normalize_phone "(415) 555-0100" = Ok "+14155550100") by reflexivity.
  assert (E2 : _normalize_phone "n/a" = Raise (ValueError "Invalid phone number"))
    by reflexivity.
  rewrite E1 in H1. destruct H1 as (_ & _ & _ & Hagain).
  split; [exact E1|]. split; [exact Hagain | exact E2].
Defined.

(** ** The daily faucet under engine failures *)

(** What is committed stays as it is while a statement, a drawn identifier
    or a reading of the clock runs. *)
Definition committed_is (d0 : DB) (c : Conn) : Prop := committed c = d0.

Lemma committed_execute {A} d0 (stmt : DB -> result (A * DB)) :
  hoare (committed_is d0) (_execute stmt) (fun _ => committed_is d0)
    (fun _ => committed_is d0).
Proof.
  apply hoare_execute.
  - intros c plan Hc _. exact Hc.
  - intros c Hc _. destruct (stmt (db c)) as [[a d]|e]; exact Hc.
Qed.

Lemma faucet_loop_committed d0 as_of rows : forall credited,
  hoare (committed_is d0)
    (for_fold rows (credited : Py.dict Z) (fun credited row =>
       let user_id := fst row in
       let last_credit := snd row in
       let missed_days := as_of - last_credit in
       if missed_days <=? 0 then ret credited
       else
         let chips := missed_days * DAILY_CHIPS in
         let credited := Py.dict_set credited user_id chips in
         _execute (Storage.update_faucet user_id chips as_of) ;;
         ledger_id <- _id "led" ;;
         now <- _now_iso ;;
         _execute (Storage.insert_ledger
           (Ledger.mk ledger_id user_id None "daily_faucet" chips
              [("missed_days", JInt missed_days)] now)) ;;
         ret credited))
    (fun _ => committed_is d0) (fun _ => committed_is d0).
Proof.
  intros credited.
  apply (hoare_for_fold (fun _ => committed_is d0)).
  intros s row _. cbv zeta.
  destruct (as_of - snd row <=? 0); [apply hoare_ret; auto|].
  eapply hoare_bind; [apply committed_execute|]. intros u1.
  eapply hoare_bind with (R := fun _ => committed_is d0); [intros c Hc; exact Hc|].
  intros ledger_id.
  eapply hoare_bind with (R := fun _ => committed_is d0); [intros c Hc; exact Hc|].
  intros now.
  eapply hoare_bind; [apply committed_execute|]. intros u2.
  apply hoare_ret. auto.
Qed.

(** X27. The daily faucet is one transaction: whatever statement the
    storage engine fails at, a run that raises has credited nobody (the
    tables are as before, nothing is uncommitted), and after a run that
    returns everything it wrote is committed. *)
Theorem apply_daily_faucet_all_or_nothing c as_of_date :
  clean c ->
  let out := Storage.apply_daily_faucet as_of_date c in
  clean (snd out)
  /\ forall e, fst out = Raise e -> db (snd out) = db c.
Proof.
  intros Hclean. cbv zeta.
  assert (Hspec : hoare (unchanged (db c)) (Storage.apply_daily_faucet as_of_date)
                    (fun _ c1 => clean c1) (fun _ => unchanged (db c))).
  { unfold Storage.apply_daily_faucet.
    eapply hoare_bind with (R := fun _ => unchanged (db c)).
    { unfold Storage.date_or_today, Storage._parse_date.
      destruct as_of_date as [v|]; [destruct (Py.truthy v)|].
      - apply hoare_lift. intros c0 Hc0. destruct (Date.fromisoformat v); exact Hc0.
      - intros c0 Hc0. exact Hc0.
      - intros c0 Hc0. exact Hc0. }
    intros as_of.
    eapply hoare_bind with (R := fun _ => unchanged (db c)).
    { apply hoare_execute.
      - intros c0 plan Hc0 _. exact Hc0.
      - intros c0 Hc0 _. exact Hc0. }
    intros rows. apply hoare_with_conn.
    eapply hoare_conseq; [apply (faucet_loop_committed (db c) as_of rows [])| | |]; cbv beta.
    - intros c0 (H1 & _). exact H1.
    - intros a c0 _. reflexivity.
    - intros e c0 H. split; exact H. }
  specialize (Hspec c (conj Hclean eq_refl)).
  destruct (Storage.apply_daily_faucet as_of_date c) as [[credited|e] c1]; cbn [fst snd].
  - split; [exact Hspec | discriminate].
  - destruct Hspec as (H1 & H2). split; [unfold clean; rewrite H1, H2; reflexivity|].
    intros _ _. exact H2.
Qed.

Lemma apply_daily_faucet_all_or_nothing_witness :
  let out := Storage.apply_daily_faucet None (with_faults [false; false; true] faucet_day) in
  fst out = Raise OperationalError
  /\ db (snd out) = db faucet_day
  /\ committed (snd out) = db (snd out).
Proof.
  cbv zeta.
  destruct (apply_daily_faucet_all_or_nothing (with_faults [false; false; true] faucet_day)
              None) as (Hclean & Hraise).
  - vm_compute. reflexivity.
  - assert (Hout : fst (Storage.apply_daily_faucet None
                          (with_faults [false; false; true] faucet_day))
                   = Raise OperationalError) by (vm_compute; reflexivity).
    split; [exact Hout|]. split; [exact (Hraise _ Hout) | exact Hclean].
Defined.

(** ** The winners of a settlement *)

Lemma dict_get_rows {X V} (key : X -> string) (value : X -> V) (rows : list X) k v :
  List.NoDup (map key rows) ->
  (Py.dict_get (map (fun x => (key x, value x)) rows) k = Some v
   <-> exists x, In x rows /\ key x = k /\ value x = v).
Proof.
  induction rows as [|y rows IH]; intros Hnd; cbn [map Py.dict_get].
  - split; [discriminate | intros (x & [] & _)].
  - inversion Hnd as [|? ? Hy Hrows]; subst.
    destruct (String.eqb_spec (key y) k) as [Heq|Hne].
    + split.
      * intros [= <-]. exists y. split; [left; reflexivity|]. split; [exact Heq | reflexivity].
      * intros (x & [<-|Hx] & Hk & Hv); [rewrite Hv; reflexivity|].
        exfalso. apply Hy. rewrite Heq, <- Hk. apply in_map, Hx.
    + rewrite (IH Hrows). split.
      * intros (x & Hx & H). exists x. split; [right; exact Hx | exact H].
      * intros (x & [<-|Hx] & Hk & Hv); [contradiction|]. exists x. auto.
Qed.

Lemma set_of_NoDup xs : List.NoDup (Py.set_of xs).
Proof.
  induction xs as [|x xs IH]; cbn [Py.set_of]; constructor.
  - intros Hin. apply filter_In in Hin as (_ & Hne).
    rewrite String.eqb_refl in Hne. discriminate.
  - apply List.NoDup_filter, IH.
Qed.

(** With one candidate per canonical URL, the winners are the candidates
    whose canonical URL is a winner's. *)
Lemma match_winners_spec candidates urls :
  List.NoDup (map CandidateLink.canonical_url candidates) ->
  List.NoDup (map CandidateLink.id candidates) ->
  (forall x, In x (match_winners candidates urls)
             <-> exists candidate, In candidate candidates
                   /\ CandidateLink.id candidate = x
                   /\ In (CandidateLink.canonical_url candidate) urls)
  /\ (List.NoDup urls -> List.NoDup (match_winners candidates urls)).
Proof.
  intros Hurls Hids. unfold match_winners.
  rewrite (fold_dict_set_rows CandidateLink.canonical_url (fun c => c) candidates [] Hurls)
    by (intros x _ []).
  cbn [app].
  set (by_url := map (fun x => (CandidateLink.canonical_url x, x)) candidates).
  assert (Hget : forall k v, Py.dict_get by_url k = Some v
                             <-> In v candidates /\ CandidateLink.canonical_url v = k).
  { intros k v. unfold by_url.
    rewrite (dict_get_rows CandidateLink.canonical_url (fun c => c) candidates k v Hurls).
    split.
    - intros (x & Hx & Hk & <-). split; assumption.
    - intros (Hv & Hk). exists v. split; [exact Hv|]. split; [exact Hk | reflexivity]. }
  assert (Hmem : forall x us,
            In x (flat_map (fun canonical =>
                              match Py.dict_get by_url canonical with
                              | Some candidate => [CandidateLink.id candidate]
                              | None => []
                              end) us)
            <-> exists candidate, In candidate candidates
                  /\ CandidateLink.id candidate = x
                  /\ In (CandidateLink.canonical_url candidate) us).
  { intros x us. rewrite in_flat_map. split.
    - intros (url & Hurl & Hx).
      destruct (Py.dict_get by_url url) as [cand|] eqn:Hg; [|destruct Hx].
      destruct Hx as [<-|[]]. apply Hget in Hg as (Hc & <-). exists cand. auto.
    - intros (cand & Hc & <- & Hu). exists (CandidateLink.canonical_url cand).
      split; [exact Hu|].
      rewrite (proj2 (Hget _ cand) (conj Hc eq_refl)). left. reflexivity. }
  split; [intros x; apply Hmem|].
  induction urls as [|url urls IH]; intros Hnd; [constructor|].
  inversion Hnd as [|? ? Hu Hus]; subst. cbn [flat_map].
  destruct (Py.dict_get by_url url) as [cand|] eqn:Hg; [|apply IH, Hus].
  cbn [app]. constructor; [|apply IH, Hus].
  intros Hin. apply Hmem in Hin as (cand' & Hc' & Hid & Hin').
  apply Hget in Hg as (Hc & Hk).
  assert (cand' = cand).
  { pose proof (find_by_id CandidateLink.id candidates cand Hids Hc) as H1.
    pose proof (find_by_id CandidateLink.id candidates cand' Hids Hc') as H2.
    rewrite Hid in H2. rewrite H1 in H2. injection H2 as <-. reflexivity. }
  subst cand'. rewrite Hk in Hin'. contradiction.
Qed.

(** X28. With winner URLs in ASCII text: one that [canonicalize_url]
    refuses makes [settle_cycle] raise that error before anything is
    written.  Otherwise, in a cycle with one
    candidate per canonical URL, a settlement that meets no failure returns
    as winners, each once, exactly the candidates of the cycle whose
    canonical URL is the canonical form of a winner URL; winner URLs that
    match no candidate are ignored, and [winner_count] counts the winners
    returned. *)
Theorem settle_cycle_winners c cycle_id winner_urls :
  ready c ->
  forallb Py.isascii winner_urls = true ->
  match canonical_urls winner_urls with
  | Raise e => settle_cycle cycle_id winner_urls c = (Raise e, c)
  | Ok canon =>
      Storage.cycle_exists (db c) cycle_id = true ->
      List.NoDup (map CandidateLink.id (candidate_links (db c))) ->
      List.NoDup (map CandidateLink.canonical_url (Storage.candidates_of (db c) cycle_id)) ->
      (forall p, In p (picks (db c)) ->
         Storage.user_exists (db c) (Pick.user_id p) = true) ->
      exists r c1,
        settle_cycle cycle_id winner_urls c = (Ok r, c1)
        /\ List.NoDup (Settlement.winner_candidate_ids r)
        /\ Settlement.winner_count r
           = Z.of_nat (length (Settlement.winner_candidate_ids r))
        /\ forall x,
             In x (Settlement.winner_candidate_ids r)
             <-> exists candidate,
                   In candidate (Storage.candidates_of (db c) cycle_id)
                   /\ CandidateLink.id candidate = x
                   /\ In (CandidateLink.canonical_url candidate) canon
  end.
Proof.
  intros Hready _. pose proof (proj2 Hready) as Hnf.
  destruct (canonical_urls winner_urls) as [canon|e] eqn:Hcanon.
  2:{ unfold settle_cycle.
      rewrite (bind_run _ _ _ _ _ (list_candidates_eq c cycle_id Hnf)).
      unfold lift, bind. rewrite Hcanon. reflexivity. }
  intros Hcycle Hnd Hurls Hfk. ready_conn c Hready. cbn [db] in *.
  destruct (settle_cycle_outcome d t n cycle_id winner_urls canon Hcanon Hcycle Hnd Hfk)
    as (d1 & n1 & Hrun & _).
  eexists _, _. split; [exact Hrun|].
  cbn [Settlement.winner_candidate_ids Settlement.winner_count].
  pose proof (sort_perm Storage.by_created (Storage.candidates_of d cycle_id)) as Hperm.
  destruct (match_winners_spec
              (Py.sort Storage.by_created (Storage.candidates_of d cycle_id))
              (Py.set_of canon)) as (Hmem & Hnodup).
  - apply (Permutation_NoDup (Permutation_map _ (Permutation_sym Hperm))), Hurls.
  - apply (Permutation_NoDup (Permutation_map _ (Permutation_sym Hperm))).
    apply NoDup_map_filter, Hnd.
  - split; [apply Hnodup, set_of_NoDup|]. split; [reflexivity|].
    intros x. unfold winners_of. rewrite Hmem. split.
    + intros (cand & Hc & Hid & Hu). exists cand.
      split; [apply (Permutation_in _ Hperm), Hc|]. split; [exact Hid|].
      apply set_of_subset, Hu.
    + intros (cand & Hc & Hid & Hu). exists cand.
      split; [apply (Permutation_in _ (Permutation_sym Hperm)), Hc|]. split; [exact Hid|].
      apply mem_In. rewrite mem_set_of. apply mem_In, Hu.
Qed.

Lemma settle_cycle_winners_witness :
  (exists r c1,
     settle_cycle "cyc_4"
       ["https://www.example.com/b/?utm_source=mr"; "https://example.com/not-submitted"]
       market_day = (Ok r, c1)
     /\ Settlement.winner_candidate_ids r = ["lnk_6"]
     /\ Settlement.winner_count r = 1)
  /\ settle_cycle "cyc_4" ["https://example.com/a"; "http://[zz]/a"] market_day
     = (Raise (ValueError "'zz' does not appear to be an IPv4 or IPv6 address"), market_day).
Proof.
  pose proof (settle_cycle_winners market_day "cyc_4"
                ["https://www.example.com/b/?utm_source=mr";
                 "https://example.com/not-submitted"] market_day_ready eq_refl) as H1.
  pose proof (settle_cycle_winners market_day "cyc_4"
                ["https://example.com/a"; "http://[zz]/a"] market_day_ready eq_refl) as H2.
  assert (E1 : canonical_urls ["https://www.example.com/b/?utm_source=mr";
                               "https://example.com/not-submitted"]
               = Ok ["https://example.com/b"; "https://example.com/not-submitted"])
    by (vm_compute; reflexivity).
  assert (E2 : canonical_urls ["https://example.com/a"; "http://[zz]/a"]
               = Raise (ValueError "'zz' does not appear to be an IPv4 or IPv6 address"))
    by (vm_compute; reflexivity).
  rewrite E1 in H1. rewrite E2 in H2. split; [|exact H2].
  destruct H1 as (r & c1 & Hrun & _ & _ & _).
  - vm_compute. reflexivity.
  - apply distinct_NoDup. vm_compute. reflexivity.
  - apply distinct_NoDup. vm_compute. reflexivity.
  - exact market_day_pick_holders.
  - exists r, c1. split; [exact Hrun|].
    assert (Hv : exists r0 c0,
              settle_cycle "cyc_4"
                ["https://www.example.com/b/?utm_source=mr";
                 "https://example.com/not-submitted"] market_day = (Ok r0, c0)
              /\ Settlement.winner_candidate_ids r0 = ["lnk_6"]
              /\ Settlement.winner_count r0 = 1)
      by (vm_compute; eexists _, _; repeat split).
    destruct Hv as (r0 & c0 & Hrun0 & Hw & Hn). rewrite Hrun in Hrun0.
    injection Hrun0 as <- _. split; assumption.
Defined.
